(** * STM32F411 DSP crossover: a shallow embedding of the audio path

    The development follows the C sources file by file: one module per
    translation unit ([Biquad] for Filter/Src/biquad.c, [FilterDesign] for
    Filter/Src/filter_design.c, [Crossover], [PEQ], [Compressor], [Limiter],
    [Delay] for the files of DSP/Src, [AudioRouting] and [AudioDriver] for
    Audio/Src).  File-scope [static] variables become an explicit state
    record that every function takes and returns.

    Numbers.  A C [float] is modelled by an exact rational ([Q]): sums,
    products and comparisons are those of the rationals, so rounding and
    the non-finite values (infinities, NaN) of IEEE-754 are outside the
    model, and a division by zero yields 0 as it does in [Q].  Fixed-width
    integers are modelled in [Z] or [nat]; where the source relies on
    wrap-around or on a signed/unsigned conversion it is written out.
    The libm functions and the constants of headers that are not part of
    the sources are parameters, gathered in the record [LibM]. *)

From Stdlib Require Import QArith Qabs Qminmax Qround Qpower ZArith Lia Lqa.
From stdpp Require Import base list.

Open Scope Q_scope.

(** ** C numeric operators on rationals *)

Definition float := Q.

(** Reading an array element: [a !!! i], which needs a default value. *)
#[global] Instance float_inhabited : Inhabited Q := populate 0.

(** [x < y] on floats, as a boolean. *)
Definition Qltb (x y : Q) : bool := negb (Qle_bool y x).

(** [(int32_t) x]: conversion of a float to an integer truncates towards
    zero. *)
Definition Qtrunc (x : Q) : Z := Z.quot (Qnum x) (QDen x).

(** libm and friends.  [sinf], [cosf], ... are the single-precision
    functions of <math.h>; they are left abstract. *)
Record LibM := mkLibM {
  sinf : Q -> Q;
  cosf : Q -> Q;
  powf : Q -> Q -> Q;
  sqrtf : Q -> Q;
  expf : Q -> Q;
  logf : Q -> Q;
  log10f : Q -> Q;
  sinhf : Q -> Q
}.

Definition fabsf (x : Q) : Q := Qabs x.
Definition fmaxf (x y : Q) : Q := Qmax x y.

(** Status codes of the STM32 HAL, used by the delay and the equaliser. *)
Inductive HAL_StatusTypeDef := HAL_OK | HAL_ERROR | HAL_BUSY | HAL_TIMEOUT.

(** audio_config.h *)
Definition AUDIO_SAMPLE_RATE : Z := 48000.
Definition AUDIO_INPUT_CHANNELS : nat := 2.
Definition AUDIO_OUTPUT_CHANNELS : nat := 4.

(** The sample loop [for (i = 0; i < n; i++) data[i] = f(data[i])] of the
    block entry points, where [f] also updates the module state.  The loop
    walks the first [n] samples; a block shorter than [n] is outside the
    contract of the C functions, and the walk stops at its end. *)
Fixpoint for_samples {S : Type} (f : S -> float -> float * S) (n : nat)
  (st : S) (data : list float) : list float * S :=
  match n, data with
  | S n', x :: rest =>
      let '(y, st') := f st x in
      let '(ys, st'') := for_samples f n' st' rest in
      (y :: ys, st'')
  | _, _ => (data, st)
  end.

(** ** Filter/Src/biquad.c *)
Module Biquad.

(** [BiquadState_t] of biquad.h: coefficients and history in one struct. *)
Record BiquadState_t := mkBiquadState {
  b0 : float; b1 : float; b2 : float;
  a1 : float; a2 : float;
  x1 : float; x2 : float;
  y1 : float; y2 : float
}.

Definition Biquad_Reset (state : BiquadState_t) : BiquadState_t :=
  {| b0 := b0 state; b1 := b1 state; b2 := b2 state;
     a1 := a1 state; a2 := a2 state;
     x1 := 0; x2 := 0; y1 := 0; y2 := 0 |}.

Definition Biquad_DirectFormII (state : BiquadState_t) (input : float)
  : float * BiquadState_t :=
  let w0 := input - a1 state * y1 state - a2 state * y2 state in
  let output := b0 state * w0 + b1 state * y1 state + b2 state * y2 state in
  (output,
   {| b0 := b0 state; b1 := b1 state; b2 := b2 state;
      a1 := a1 state; a2 := a2 state;
      x1 := x1 state; x2 := x2 state;
      y1 := w0; y2 := y1 state |}).

Definition Biquad_ProcessSample (state : BiquadState_t) (input : float)
  : float * BiquadState_t :=
  Biquad_DirectFormII state input.

(** [Biquad_ProcessBlock]: the loop over [input[0 .. blockSize)], the
    block being the list itself. *)
Fixpoint Biquad_ProcessBlock (state : BiquadState_t) (input : list float)
  : list float * BiquadState_t :=
  match input with
  | [] => ([], state)
  | x :: rest =>
      let '(y, state') := Biquad_ProcessSample state x in
      let '(ys, state'') := Biquad_ProcessBlock state' rest in
      (y :: ys, state'')
  end.

(** [Biquad_ProcessChain]: one sample through [chain[0 .. numStages)]. *)
Fixpoint Biquad_ProcessChain (chain : list BiquadState_t) (input : float)
  : float * list BiquadState_t :=
  match chain with
  | [] => (input, [])
  | st :: rest =>
      let '(y, st') := Biquad_ProcessSample st input in
      let '(out, rest') := Biquad_ProcessChain rest y in
      (out, st' :: rest')
  end.

(** The section of the specification, in its own words: the intermediate
    value, the output, and the history shift. *)
Definition spec_w (a1 a2 y1 y2 input : float) : float :=
  input - a1 * y1 - a2 * y2.
Definition spec_output (b0 b1 b2 w y1 y2 : float) : float :=
  b0 * w + b1 * y1 + b2 * y2.

End Biquad.

(** ** Filter/Src/filter_design.c *)
Module FilterDesign.

(** The filter types that [FilterDesign_Create] switches on, with
    [FILTER_TYPE_NONE] standing for every value that reaches [default]. *)
Inductive FilterType_t :=
| FILTER_TYPE_NONE
| FILTER_TYPE_LOWPASS
| FILTER_TYPE_HIGHPASS
| FILTER_TYPE_BANDPASS
| FILTER_TYPE_BANDSTOP
| FILTER_TYPE_LOW_SHELF
| FILTER_TYPE_HIGH_SHELF
| FILTER_TYPE_PEAKING_EQ
| FILTER_TYPE_ALL_PASS.

(** [FILTER_RESPONSE_MAX] stands for every value that reaches [default]. *)
Inductive FilterResponse_t :=
| FILTER_RESPONSE_BUTTERWORTH
| FILTER_RESPONSE_LINKWITZ_RILEY
| FILTER_RESPONSE_BESSEL
| FILTER_RESPONSE_MAX.

Inductive FilterDesignStatus :=
| FILTER_DESIGN_SUCCESS
| FILTER_DESIGN_ERROR_PARAMS
| FILTER_DESIGN_ERROR_TYPE
| FILTER_DESIGN_ERROR_ORDER
| FILTER_DESIGN_ERROR_RESPONSE.

(** [FilterCoefficients_t], as the file uses it: [b[0..2]], [a[0..2]], and
    the design parameters [w0] and [Q] kept next to them. *)
Record FilterCoefficients_t := mkFilterCoefficients {
  b_0 : float; b_1 : float; b_2 : float;
  a_0 : float; a_1 : float; a_2 : float;
  w0 : float;
  Qf : float
}.

Definition M_PI : Q := 3.14159265358979323846.

(** [memset(coeffs, 0, sizeof *coeffs); coeffs->a[0] = 1.0f] *)
Definition neutral_coeffs : FilterCoefficients_t :=
  {| b_0 := 0; b_1 := 0; b_2 := 0; a_0 := 1; a_1 := 0; a_2 := 0;
     w0 := 0; Qf := 0 |}.

Definition set_b (c : FilterCoefficients_t) (x0 x1 x2 : float) :=
  {| b_0 := x0; b_1 := x1; b_2 := x2;
     a_0 := a_0 c; a_1 := a_1 c; a_2 := a_2 c; w0 := w0 c; Qf := Qf c |}.
Definition set_a (c : FilterCoefficients_t) (x0 x1 x2 : float) :=
  {| b_0 := b_0 c; b_1 := b_1 c; b_2 := b_2 c;
     a_0 := x0; a_1 := x1; a_2 := x2; w0 := w0 c; Qf := Qf c |}.
Definition set_params (c : FilterCoefficients_t) (f q : float) :=
  {| b_0 := b_0 c; b_1 := b_1 c; b_2 := b_2 c;
     a_0 := a_0 c; a_1 := a_1 c; a_2 := a_2 c; w0 := f; Qf := q |}.

Section WithLibM.
Variable M : LibM.

Definition DesignSecondOrderLowPass (coeffs : FilterCoefficients_t)
  (freq Q : float) : FilterCoefficients_t :=
  let coeffs := set_params coeffs freq Q in
  let w := 2 * M_PI * freq in
  let alpha := w / (2 * Q) in
  set_a (set_b coeffs (w * w) 0 0) (w * w) alpha 1.

Definition DesignSecondOrderHighPass (coeffs : FilterCoefficients_t)
  (freq Q : float) : FilterCoefficients_t :=
  let coeffs := set_params coeffs freq Q in
  let w := 2 * M_PI * freq in
  let alpha := w / (2 * Q) in
  set_a (set_b coeffs 1 0 0) (w * w) alpha 1.

Definition DesignSecondOrderBandPass (coeffs : FilterCoefficients_t)
  (freq bandwidth : float) : FilterCoefficients_t :=
  let coeffs := set_params coeffs freq (1 / bandwidth) in
  let w := 2 * M_PI * freq in
  let alpha :=
    sinf M w * sinhf M (logf M 2 / 2 * bandwidth * w / sinf M w) in
  let a0 := 1 + alpha in
  set_a (set_b coeffs alpha 0 (- alpha)) a0 (-2 * cosf M w) (1 - alpha).

Definition DesignSecondOrderBandStop (coeffs : FilterCoefficients_t)
  (freq bandwidth : float) : FilterCoefficients_t :=
  let coeffs := set_params coeffs freq (1 / bandwidth) in
  let w := 2 * M_PI * freq in
  let alpha :=
    sinf M w * sinhf M (logf M 2 / 2 * bandwidth * w / sinf M w) in
  let a0 := 1 + alpha in
  set_a (set_b coeffs 1 (-2 * cosf M w) 1) a0 (-2 * cosf M w) (1 - alpha).

(** [ComputeShelfParameters]: the triple ([*A], [*beta], [*omega]). *)
Definition ComputeShelfParameters (gainDb freq Q : float)
  : float * float * float :=
  let A := powf M 10 (gainDb / 40) in
  let omega := 2 * M_PI * freq in
  let beta := sqrtf M ((A * A + 1) / Q - (A - 1) * (A - 1)) in
  (A, beta, omega).

Definition DesignLowShelf (coeffs : FilterCoefficients_t)
  (freq Q gainDb : float) : FilterCoefficients_t :=
  let coeffs := set_params coeffs freq Q in
  let '(A, beta, omega) := ComputeShelfParameters gainDb freq Q in
  let cosw := cosf M omega in
  let sinw := sinf M omega in
  let a0 := (A + 1) + (A - 1) * cosw + beta * sinw in
  let a1 := -2 * ((A - 1) + (A + 1) * cosw) in
  let a2 := (A + 1) + (A - 1) * cosw - beta * sinw in
  let b0 := A * ((A + 1) - (A - 1) * cosw + beta * sinw) in
  let b1 := 2 * A * ((A - 1) - (A + 1) * cosw) in
  let b2 := A * ((A + 1) - (A - 1) * cosw - beta * sinw) in
  set_a (set_b coeffs b0 b1 b2) a0 a1 a2.

Definition DesignHighShelf (coeffs : FilterCoefficients_t)
  (freq Q gainDb : float) : FilterCoefficients_t :=
  let coeffs := set_params coeffs freq Q in
  let '(A, beta, omega) := ComputeShelfParameters gainDb freq Q in
  let cosw := cosf M omega in
  let sinw := sinf M omega in
  let a0 := (A + 1) - (A - 1) * cosw + beta * sinw in
  let a1 := 2 * ((A - 1) - (A + 1) * cosw) in
  let a2 := (A + 1) - (A - 1) * cosw - beta * sinw in
  let b0 := A * ((A + 1) + (A - 1) * cosw + beta * sinw) in
  let b1 := -2 * A * ((A - 1) + (A + 1) * cosw) in
  let b2 := A * ((A + 1) + (A - 1) * cosw - beta * sinw) in
  set_a (set_b coeffs b0 b1 b2) a0 a1 a2.

Definition DesignPeakingEQ (coeffs : FilterCoefficients_t)
  (freq Q gainDb : float) : FilterCoefficients_t :=
  let coeffs := set_params coeffs freq Q in
  let A := powf M 10 (gainDb / 40) in
  let w := 2 * M_PI * freq in
  let alpha := sinf M w / (2 * Q) in
  let a0 := 1 + alpha / A in
  set_a (set_b coeffs (1 + alpha * A) (-2 * cosf M w) (1 - alpha * A))
        a0 (-2 * cosf M w) (1 - alpha / A).

(** [BilinearTransform]: the angle, cosine and [alpha] it computes first
    are never used; what remains is the division by [a[0]]. *)
Definition BilinearTransform (coeffs : FilterCoefficients_t)
  (sampleFreq : float) : FilterCoefficients_t :=
  let a0_inv := 1 / a_0 coeffs in
  set_a (set_b coeffs (b_0 coeffs * a0_inv) (b_1 coeffs * a0_inv)
               (b_2 coeffs * a0_inv))
        1 (a_1 coeffs * a0_inv) (a_2 coeffs * a0_inv).

Definition NormalizeCoefficients (coeffs : FilterCoefficients_t)
  : FilterCoefficients_t :=
  if Qltb (fabsf (a_0 coeffs - 1)) 0.000001 then coeffs
  else
    let a0 := a_0 coeffs in
    set_a (set_b coeffs (b_0 coeffs / a0) (b_1 coeffs / a0) (b_2 coeffs / a0))
          1 (a_1 coeffs / a0) (a_2 coeffs / a0).

(** [FilterDesign_Create].  The struct behind [coeffs] is passed in and
    the struct left behind is returned with the status; a call that fails
    the parameter check leaves it as it was. *)
Definition FilterDesign_Create (coeffs : FilterCoefficients_t)
  (filterType : FilterType_t) (freq Q gainDb sampleFreq : float)
  : FilterDesignStatus * FilterCoefficients_t :=
  if Qle_bool freq 0 || Qle_bool sampleFreq 0 then
    (FILTER_DESIGN_ERROR_PARAMS, coeffs)
  else
    let freq :=
      if Qle_bool (sampleFreq / 2) freq then sampleFreq / 2 - 1 else freq in
    let coeffs := neutral_coeffs in
    let designed :=
      match filterType with
      | FILTER_TYPE_LOWPASS => Some (DesignSecondOrderLowPass coeffs freq Q)
      | FILTER_TYPE_HIGHPASS => Some (DesignSecondOrderHighPass coeffs freq Q)
      | FILTER_TYPE_BANDPASS =>
          Some (DesignSecondOrderBandPass coeffs freq (1 / Q))
      | FILTER_TYPE_BANDSTOP =>
          Some (DesignSecondOrderBandStop coeffs freq (1 / Q))
      | FILTER_TYPE_LOW_SHELF => Some (DesignLowShelf coeffs freq Q gainDb)
      | FILTER_TYPE_HIGH_SHELF => Some (DesignHighShelf coeffs freq Q gainDb)
      | FILTER_TYPE_PEAKING_EQ => Some (DesignPeakingEQ coeffs freq Q gainDb)
      | FILTER_TYPE_ALL_PASS =>
          let b1 := -2 * cosf M (2 * M_PI * freq / sampleFreq) in
          Some (set_a (set_b coeffs 1 b1 1) 1 b1 1)
      | FILTER_TYPE_NONE => None
      end in
    match designed with
    | None => (FILTER_DESIGN_ERROR_TYPE, coeffs)
    | Some coeffs =>
        (FILTER_DESIGN_SUCCESS,
         NormalizeCoefficients (BilinearTransform coeffs sampleFreq))
    end.

(** The frequency that the specification announces for the coefficient
    computation: the argument "clamped to [20, min(20000, sampleRate/2 -
    1)]".  It is here for comparison with what [FilterDesign_Create]
    uses. *)
Definition spec_clamped_frequency (freq sampleFreq : float) : float :=
  Qmax 20 (Qmin freq (Qmin 20000 (sampleFreq / 2 - 1))).

(** [ComputeQForButterworthOrder]; [order] and [section] are [uint8_t]. *)
Definition ComputeQForButterworthOrder (order section : Z) : float :=
  if (order mod 2 =? 1)%Z && (section =? 0)%Z then 0.5
  else
    let actualSection :=
      if (order mod 2 =? 1)%Z then ((section - 1) mod 256)%Z else section in
    match order with
    | 2%Z => 0.7071
    | 3%Z => 1
    | 4%Z => if (actualSection =? 0)%Z then 0.54
             else if (actualSection =? 1)%Z then 1.31 else 0
    | 5%Z => if (actualSection =? 0)%Z then 0.62
             else if (actualSection =? 1)%Z then 1.62 else 0
    | 6%Z => if (actualSection =? 0)%Z then 0.52
             else if (actualSection =? 1)%Z then 0.71
             else if (actualSection =? 2)%Z then 1.93 else 0
    | 7%Z => if (actualSection =? 0)%Z then 0.55
             else if (actualSection =? 1)%Z then 0.80
             else if (actualSection =? 2)%Z then 2.25 else 0
    | 8%Z => if (actualSection =? 0)%Z then 0.51
             else if (actualSection =? 1)%Z then 0.60
             else if (actualSection =? 2)%Z then 0.90
             else if (actualSection =? 3)%Z then 2.56 else 0
    | _ => 0.7071
    end.

(** A filter bank is the array behind [filterBank].  A store outside of it
    is undefined behaviour in C; the model reports it as [None]. *)
Definition FilterBank := list FilterCoefficients_t.

(** The loops [for (i = 0; i < n; i++) { Q = ...; status =
    FilterDesign_Create(&filterBank[base + i], ...); if (status !=
    SUCCESS) return status; }], started at [i] with [n] rounds to go. *)
Fixpoint design_sections (n : nat) (i : nat) (base : nat) (qOrder : Z)
  (filterType : FilterType_t) (freq sampleFreq : float) (bank : FilterBank)
  : option (FilterDesignStatus * FilterBank) :=
  match n with
  | O => Some (FILTER_DESIGN_SUCCESS, bank)
  | S n' =>
      match bank !! (base + i)%nat with
      | None => None
      | Some slot =>
          let Q := ComputeQForButterworthOrder qOrder (Z.of_nat i) in
          let '(status, slot') :=
            FilterDesign_Create slot filterType freq Q 0 sampleFreq in
          let bank' := <[(base + i)%nat := slot']> bank in
          match status with
          | FILTER_DESIGN_SUCCESS =>
              design_sections n' (S i) base qOrder filterType freq
                              sampleFreq bank'
          | _ => Some (status, bank')
          end
      end
  end.

(** [Bessel_CreateFilter] is declared in bessel.h and defined in no source
    file; it is a parameter of the cascade. *)
Variable Bessel_CreateFilter :
  FilterBank -> Z -> FilterType_t -> float -> Z -> float ->
  option (FilterDesignStatus * FilterBank).

(** [FilterDesign_CreateCascade]; [numFilters] and [order] are [uint8_t],
    so [order + 1] stored back into [order] wraps at 256. *)
Definition FilterDesign_CreateCascade (filterBank : FilterBank)
  (numFilters : Z) (filterType : FilterType_t) (freq : float)
  (filterResponse : FilterResponse_t) (order : Z) (sampleFreq : float)
  : option (FilterDesignStatus * FilterBank) :=
  if (numFilters <? 1)%Z || Qle_bool freq 0 || Qle_bool sampleFreq 0 then
    Some (FILTER_DESIGN_ERROR_PARAMS, filterBank)
  else
    let requiredFilters := ((order + 1) / 2)%Z in
    if (numFilters <? requiredFilters)%Z then
      Some (FILTER_DESIGN_ERROR_ORDER, filterBank)
    else
      match filterResponse with
      | FILTER_RESPONSE_LINKWITZ_RILEY =>
          let order :=
            if negb (order mod 2 =? 0)%Z then ((order + 1) mod 256)%Z
            else order in
          let butterworthOrder := (order / 2)%Z in
          let butterworthSections := ((butterworthOrder + 1) / 2)%Z in
          let n := Z.to_nat butterworthSections in
          match design_sections n 0 0 butterworthOrder filterType freq
                                sampleFreq filterBank with
          | Some (FILTER_DESIGN_SUCCESS, bank1) =>
              design_sections n 0 n butterworthOrder filterType freq
                              sampleFreq bank1
          | other => other
          end
      | FILTER_RESPONSE_BUTTERWORTH =>
          design_sections (Z.to_nat requiredFilters) 0 0 order filterType
                          freq sampleFreq filterBank
      | FILTER_RESPONSE_BESSEL =>
          if (8 <? order)%Z then Some (FILTER_DESIGN_ERROR_ORDER, filterBank)
          else Bessel_CreateFilter filterBank numFilters filterType freq
                                   order sampleFreq
      | FILTER_RESPONSE_MAX =>
          Some (FILTER_DESIGN_ERROR_RESPONSE, filterBank)
      end.

End WithLibM.

End FilterDesign.

(** ** DSP/Src/crossover_filter.c *)
Module Crossover.

Definition MAX_FILTER_STAGES : Z := 8.
Definition MAX_FILTER_ORDER : Z := 12.
Definition CROSSOVER_MIN_FREQ : Q := 20.
Definition CROSSOVER_MAX_FREQ : Q := 20000.

(** The enumerations of crossover.h as the file uses them.  The last
    constructor of each stands for the values above the last named one,
    which the setters reject and the [switch] statements send to
    [default]. *)
Inductive CrossoverFilterType_TypeDef :=
| CROSSOVER_TYPE_BUTTERWORTH
| CROSSOVER_TYPE_LINKWITZ_RILEY
| CROSSOVER_TYPE_BESSEL
| CROSSOVER_TYPE_OTHER.

Inductive CrossoverFilterMode_TypeDef :=
| CROSSOVER_MODE_LOWPASS
| CROSSOVER_MODE_HIGHPASS
| CROSSOVER_MODE_BANDPASS
| CROSSOVER_MODE_FULLRANGE
| CROSSOVER_MODE_OTHER.

Inductive CrossoverFrequencyType_TypeDef :=
| CROSSOVER_FREQ_LOW
| CROSSOVER_FREQ_HIGH.

Record CrossoverConfig_TypeDef := mkCrossoverConfig {
  type : CrossoverFilterType_TypeDef;
  filterMode : CrossoverFilterMode_TypeDef;
  lowFrequency : float;
  highFrequency : float;
  order : Z
}.

(** The biquad stage and the per-stage designers come from headers whose
    definitions are not part of the sources; the file only needs them
    through this interface.  A designer reads nothing but its arguments and
    overwrites [*coeffs]. *)
Class BiquadOps := {
  BiquadFilter_TypeDef : Type;
  BiquadCoeff_TypeDef : Type;
  Biquad_Init : BiquadFilter_TypeDef -> BiquadCoeff_TypeDef ->
                BiquadFilter_TypeDef;
  Biquad_Reset : BiquadFilter_TypeDef -> BiquadFilter_TypeDef;
  Biquad_Process : BiquadFilter_TypeDef -> float ->
                   float * BiquadFilter_TypeDef;
  Butterworth_LowPass : Z -> Z -> float -> float -> BiquadCoeff_TypeDef;
  Butterworth_HighPass : Z -> Z -> float -> float -> BiquadCoeff_TypeDef;
  LinkwitzRiley_LowPass : Z -> Z -> float -> float -> BiquadCoeff_TypeDef;
  LinkwitzRiley_HighPass : Z -> Z -> float -> float -> BiquadCoeff_TypeDef;
  Bessel_LowPass : Z -> Z -> float -> float -> BiquadCoeff_TypeDef;
  Bessel_HighPass : Z -> Z -> float -> float -> BiquadCoeff_TypeDef;
  (** the local [coeffs] before any designer has written it *)
  uninitialised_coeffs : BiquadCoeff_TypeDef;
  blank_stage : BiquadFilter_TypeDef;
  Audio_GetSampleRate : float
}.

Section WithBiquadOps.
Context {ops : BiquadOps}.

Record FilterChain_TypeDef := mkFilterChain {
  stages : list BiquadFilter_TypeDef;
  numStages : Z;
  gain : float
}.

#[global] Instance stage_inhabited : Inhabited BiquadFilter_TypeDef :=
  populate blank_stage.
#[global] Instance chain_inhabited : Inhabited FilterChain_TypeDef :=
  populate (mkFilterChain [] 0 0).
#[global] Instance config_inhabited : Inhabited CrossoverConfig_TypeDef :=
  populate (mkCrossoverConfig CROSSOVER_TYPE_BUTTERWORTH
                              CROSSOVER_MODE_FULLRANGE 0 0 0).

(** The file-scope arrays, one entry per output channel. *)
Record State := mkState {
  crossoverConfig : list CrossoverConfig_TypeDef;
  highpassFilters : list FilterChain_TypeDef;
  lowpassFilters : list FilterChain_TypeDef;
  bandpassHighFilters : list FilterChain_TypeDef;
  bandpassLowFilters : list FilterChain_TypeDef
}.

Definition set_config (st : State) (ch : nat)
  (f : CrossoverConfig_TypeDef -> CrossoverConfig_TypeDef) : State :=
  {| crossoverConfig := alter f ch (crossoverConfig st);
     highpassFilters := highpassFilters st;
     lowpassFilters := lowpassFilters st;
     bandpassHighFilters := bandpassHighFilters st;
     bandpassLowFilters := bandpassLowFilters st |}.

Definition on_chains (st : State)
  (f : list FilterChain_TypeDef -> list FilterChain_TypeDef)
  (g : list FilterChain_TypeDef -> list FilterChain_TypeDef)
  (h : list FilterChain_TypeDef -> list FilterChain_TypeDef)
  (k : list FilterChain_TypeDef -> list FilterChain_TypeDef) : State :=
  {| crossoverConfig := crossoverConfig st;
     highpassFilters := f (highpassFilters st);
     lowpassFilters := g (lowpassFilters st);
     bandpassHighFilters := h (bandpassHighFilters st);
     bandpassLowFilters := k (bandpassLowFilters st) |}.

Definition with_numStages (n : Z) (c : FilterChain_TypeDef) :=
  {| stages := stages c; numStages := n; gain := gain c |}.
Definition with_gain (g : float) (c : FilterChain_TypeDef) :=
  {| stages := stages c; numStages := numStages c; gain := g |}.
Definition with_stages (f : list BiquadFilter_TypeDef ->
                            list BiquadFilter_TypeDef)
  (c : FilterChain_TypeDef) :=
  {| stages := f (stages c); numStages := numStages c; gain := gain c |}.

Definition GetNumStagesForOrder (order : Z) : Z :=
  let numStages := (order / 2)%Z in
  let numStages :=
    if negb (order mod 2 =? 0)%Z then (numStages + 1)%Z else numStages in
  if (MAX_FILTER_STAGES <? numStages)%Z then MAX_FILTER_STAGES
  else numStages.

Definition ClearFilterHistory (filter : FilterChain_TypeDef)
  : FilterChain_TypeDef :=
  with_stages
    (fun s => foldl (fun s i => alter Biquad_Reset i s) s
                    (seq 0 (Z.to_nat (numStages filter))))
    filter.

Definition Crossover_ResetFilterState (st : State) (outputChannel : nat)
  : State :=
  if decide (AUDIO_OUTPUT_CHANNELS <= outputChannel)%nat then st
  else
    on_chains st (alter ClearFilterHistory outputChannel)
                 (alter ClearFilterHistory outputChannel)
                 (alter ClearFilterHistory outputChannel)
                 (alter ClearFilterHistory outputChannel).

(** [ProcessFilterChain]: the sample and the chain with its new history. *)
Definition ProcessFilterChain (filter : FilterChain_TypeDef) (input : float)
  : float * FilterChain_TypeDef :=
  if (numStages filter =? 0)%Z then (input, filter)
  else
    let '(output, s) :=
      foldl (fun '(x, s) i =>
               let '(y, stage') := Biquad_Process (s !!! i) x in
               (y, <[i := stage']> s))
            (input, stages filter)
            (seq 0 (Z.to_nat (numStages filter))) in
    (output * gain filter,
     {| stages := s; numStages := numStages filter; gain := gain filter |}).

Definition ComputeGainCompensation (filterType : CrossoverFilterType_TypeDef)
  (order : Z) : float :=
  match filterType with
  | CROSSOVER_TYPE_BUTTERWORTH => 1
  | CROSSOVER_TYPE_LINKWITZ_RILEY =>
      if (order =? 2)%Z then 0.9
      else if (order =? 4)%Z then 0.95
      else 1
  | CROSSOVER_TYPE_BESSEL => if (4 <=? order)%Z then 1.05 else 1
  | CROSSOVER_TYPE_OTHER => 1
  end.

(** One of the stage loops of [CalculateFilterCoefficients]: the designer
    chosen by [filterType] writes [coeffs], and [Biquad_Init] loads them
    into the stage.  When no [case] matches, [coeffs] keeps what it held. *)
Definition design_stages
  (but lr bes : Z -> Z -> float -> float -> BiquadCoeff_TypeDef)
  (filterType : CrossoverFilterType_TypeDef) (numStages : Z)
  (freq sampleRate : float)
  (acc : BiquadCoeff_TypeDef * list BiquadFilter_TypeDef)
  : BiquadCoeff_TypeDef * list BiquadFilter_TypeDef :=
  foldl (fun '(coeffs, s) i =>
           let stage := Z.of_nat i in
           let coeffs :=
             match filterType with
             | CROSSOVER_TYPE_BUTTERWORTH =>
                 but stage numStages freq sampleRate
             | CROSSOVER_TYPE_LINKWITZ_RILEY =>
                 lr stage numStages freq sampleRate
             | CROSSOVER_TYPE_BESSEL => bes stage numStages freq sampleRate
             | CROSSOVER_TYPE_OTHER => coeffs
             end in
           (coeffs, alter (fun f => Biquad_Init f coeffs) i s))
        acc (seq 0 (Z.to_nat numStages)).

Definition CalculateFilterCoefficients (st : State) (outputChannel : nat)
  : State :=
  let sampleRate := Audio_GetSampleRate in
  let cfg := crossoverConfig st !!! outputChannel in
  let order := order cfg in
  let lowFreq := lowFrequency cfg in
  let highFreq := highFrequency cfg in
  let filterType := type cfg in
  let numStages := GetNumStagesForOrder order in
  let coeffs := uninitialised_coeffs in
  let st :=
    on_chains st (alter (with_numStages 0) outputChannel)
                 (alter (with_numStages 0) outputChannel)
                 (alter (with_numStages 0) outputChannel)
                 (alter (with_numStages 0) outputChannel) in
  let gainCompensation := ComputeGainCompensation filterType order in
  let lowpass coeffs freq chain :=
    design_stages Butterworth_LowPass LinkwitzRiley_LowPass Bessel_LowPass
                  filterType numStages freq sampleRate (coeffs, stages chain) in
  let highpass coeffs freq chain :=
    design_stages Butterworth_HighPass LinkwitzRiley_HighPass Bessel_HighPass
                  filterType numStages freq sampleRate (coeffs, stages chain) in
  let st :=
    match filterMode cfg with
    | CROSSOVER_MODE_LOWPASS =>
        on_chains st id
          (alter (fun c =>
                    let c := with_gain gainCompensation
                               (with_numStages numStages c) in
                    with_stages (fun _ => snd (lowpass coeffs lowFreq c)) c)
                 outputChannel)
          id id
    | CROSSOVER_MODE_HIGHPASS =>
        on_chains st
          (alter (fun c =>
                    let c := with_gain gainCompensation
                               (with_numStages numStages c) in
                    with_stages (fun _ => snd (highpass coeffs highFreq c)) c)
                 outputChannel)
          id id id
    | CROSSOVER_MODE_BANDPASS =>
        let hp := bandpassHighFilters st !!! outputChannel in
        let hp := with_gain gainCompensation (with_numStages numStages hp) in
        let '(coeffs, hpStages) := highpass coeffs lowFreq hp in
        on_chains st id id
          (alter (fun _ => with_stages (fun _ => hpStages) hp) outputChannel)
          (alter (fun c =>
                    let c := with_gain 1 (with_numStages numStages c) in
                    with_stages (fun _ => snd (lowpass coeffs highFreq c)) c)
                 outputChannel)
    | CROSSOVER_MODE_FULLRANGE | CROSSOVER_MODE_OTHER => st
    end in
  Crossover_ResetFilterState st outputChannel.

(** The setters return the [uint8_t] status of the source: 0 for success,
    1 for failure. *)
Definition Crossover_SetFilterMode (st : State) (outputChannel : nat)
  (mode : CrossoverFilterMode_TypeDef) : Z * State :=
  if decide (AUDIO_OUTPUT_CHANNELS <= outputChannel)%nat then (1%Z, st)
  else
    match mode with
    | CROSSOVER_MODE_OTHER => (1%Z, st)
    | _ =>
        let st := set_config st outputChannel
                    (fun c => mkCrossoverConfig (type c) mode (lowFrequency c)
                                                (highFrequency c) (order c)) in
        (0%Z, CalculateFilterCoefficients st outputChannel)
    end.

Definition Crossover_SetFilterType (st : State) (outputChannel : nat)
  (ty : CrossoverFilterType_TypeDef) : Z * State :=
  if decide (AUDIO_OUTPUT_CHANNELS <= outputChannel)%nat then (1%Z, st)
  else
    match ty with
    | CROSSOVER_TYPE_OTHER => (1%Z, st)
    | _ =>
        let st := set_config st outputChannel
                    (fun c => mkCrossoverConfig ty (filterMode c)
                                (lowFrequency c) (highFrequency c) (order c)) in
        (0%Z, CalculateFilterCoefficients st outputChannel)
    end.

Definition is_bandpass (m : CrossoverFilterMode_TypeDef) : bool :=
  match m with CROSSOVER_MODE_BANDPASS => true | _ => false end.

Definition Crossover_SetFrequency (st : State) (outputChannel : nat)
  (frequencyType : CrossoverFrequencyType_TypeDef) (frequency : float)
  : Z * State :=
  if decide (AUDIO_OUTPUT_CHANNELS <= outputChannel)%nat then (1%Z, st)
  else if Qltb frequency CROSSOVER_MIN_FREQ
          || Qltb CROSSOVER_MAX_FREQ frequency then (1%Z, st)
  else
    let st :=
      match frequencyType with
      | CROSSOVER_FREQ_LOW =>
          set_config st outputChannel
            (fun c =>
               let low := frequency in
               let low :=
                 if is_bandpass (filterMode c)
                    && Qle_bool (highFrequency c) low
                 then highFrequency c - 10 else low in
               mkCrossoverConfig (type c) (filterMode c) low
                                 (highFrequency c) (order c))
      | CROSSOVER_FREQ_HIGH =>
          set_config st outputChannel
            (fun c =>
               let high := frequency in
               let high :=
                 if is_bandpass (filterMode c)
                    && Qle_bool high (lowFrequency c)
                 then lowFrequency c + 10 else high in
               mkCrossoverConfig (type c) (filterMode c) (lowFrequency c)
                                 high (order c))
      end in
    (0%Z, CalculateFilterCoefficients st outputChannel).

Definition is_linkwitz_riley (t : CrossoverFilterType_TypeDef) : bool :=
  match t with CROSSOVER_TYPE_LINKWITZ_RILEY => true | _ => false end.

(** [Crossover_SetOrder]; [order] is a [uint8_t], and
    [(order + 1) & ~1] is computed in [int] and stored back. *)
Definition Crossover_SetOrder (st : State) (outputChannel : nat) (order : Z)
  : Z * State :=
  if decide (AUDIO_OUTPUT_CHANNELS <= outputChannel)%nat then (1%Z, st)
  else if (order <? 1)%Z || (MAX_FILTER_ORDER <? order)%Z then (1%Z, st)
  else
    let order :=
      if is_linkwitz_riley (type (crossoverConfig st !!! outputChannel))
         && negb (order mod 2 =? 0)%Z
      then (Z.land (order + 1) (Z.lnot 1) mod 256)%Z
      else order in
    let st := set_config st outputChannel
                (fun c => mkCrossoverConfig (type c) (filterMode c)
                            (lowFrequency c) (highFrequency c) order) in
    (0%Z, CalculateFilterCoefficients st outputChannel).

(** [Crossover_GetConfig] into a non-null [config]: status and copy. *)
Definition Crossover_GetConfig (st : State) (outputChannel : nat)
  : Z * option CrossoverConfig_TypeDef :=
  if decide (AUDIO_OUTPUT_CHANNELS <= outputChannel)%nat then (1%Z, None)
  else (0%Z, Some (crossoverConfig st !!! outputChannel)).

Definition Crossover_ProcessSample (st : State) (outputChannel : nat)
  (input : float) : float * State :=
  if decide (AUDIO_OUTPUT_CHANNELS <= outputChannel)%nat then (input, st)
  else
    match filterMode (crossoverConfig st !!! outputChannel) with
    | CROSSOVER_MODE_LOWPASS =>
        let '(output, c) :=
          ProcessFilterChain (lowpassFilters st !!! outputChannel) input in
        (output, on_chains st id (<[outputChannel := c]>) id id)
    | CROSSOVER_MODE_HIGHPASS =>
        let '(output, c) :=
          ProcessFilterChain (highpassFilters st !!! outputChannel) input in
        (output, on_chains st (<[outputChannel := c]>) id id id)
    | CROSSOVER_MODE_BANDPASS =>
        let '(output, ch) :=
          ProcessFilterChain (bandpassHighFilters st !!! outputChannel)
                             input in
        let '(output, cl) :=
          ProcessFilterChain (bandpassLowFilters st !!! outputChannel)
                             output in
        (output,
         on_chains st id id (<[outputChannel := ch]>)
                   (<[outputChannel := cl]>))
    | CROSSOVER_MODE_FULLRANGE | CROSSOVER_MODE_OTHER => (input, st)
    end.

(** A block is a sample-by-sample run of [Crossover_ProcessSample]. *)
Fixpoint Crossover_ProcessSamples (st : State) (outputChannel : nat)
  (input : list float) : list float * State :=
  match input with
  | [] => ([], st)
  | x :: rest =>
      let '(y, st') := Crossover_ProcessSample st outputChannel x in
      let '(ys, st'') := Crossover_ProcessSamples st' outputChannel rest in
      (y :: ys, st'')
  end.

End WithBiquadOps.

End Crossover.

(** ** DSP/Src/peq_filter.c *)
Module PEQ.

Definition PEQ_MAX_BANDS_PER_CHANNEL : nat := 5.
Definition PEQ_MAX_Q_FACTOR : Q := 20.
Definition M_PI : Q := 3.14159265358979323846.

(** [PEQ_TYPE_OTHER] stands for the values that reach [default]. *)
Inductive PEQType :=
| PEQ_TYPE_BELL
| PEQ_TYPE_LOW_SHELF
| PEQ_TYPE_HIGH_SHELF
| PEQ_TYPE_LOW_PASS
| PEQ_TYPE_HIGH_PASS
| PEQ_TYPE_OTHER.

Record PEQBand_TypeDef := mkPEQBand {
  type : PEQType;
  frequency : float;
  gain : float;
  q : float;
  enabled : bool
}.

Record BiquadCoeffs_TypeDef := mkBiquadCoeffs {
  b0 : float; b1 : float; b2 : float;
  a0 : float; a1 : float; a2 : float
}.

(** Modelled from the spec: [BiquadState_TypeDef] and the three functions on
    it that peq_filter.c calls ([Biquad_SetCoefficients],
    [Biquad_ResetState], [Biquad_Process]) are declared and defined in no
    file of the sources.  The struct holds what the data model lists for a
    band: one coefficient set and the history {x1, x2, y1, y2}. *)
Record BiquadState_TypeDef := mkBiquadState {
  coeffs : BiquadCoeffs_TypeDef;
  x1 : float; x2 : float; y1 : float; y2 : float
}.

(** Modelled from the spec: [Biquad_ResetState] zeroes all four history
    values. *)
Definition Biquad_ResetState (s : BiquadState_TypeDef) : BiquadState_TypeDef :=
  {| coeffs := coeffs s; x1 := 0; x2 := 0; y1 := 0; y2 := 0 |}.

(** Modelled from the spec: [Biquad_SetCoefficients] installs the new
    coefficient set, and the history is cleared with it, "all zero whenever
    coefficients change". *)
Definition Biquad_SetCoefficients (s : BiquadState_TypeDef)
  (c : BiquadCoeffs_TypeDef) : BiquadState_TypeDef :=
  {| coeffs := c; x1 := 0; x2 := 0; y1 := 0; y2 := 0 |}.

(** Modelled from the spec: [Biquad_Process] is the second-order section
    [w = input - a1*y1 - a2*y2; output = b0*w + b1*y1 + b2*y2; y2 = y1;
    y1 = w]. *)
Definition Biquad_Process (s : BiquadState_TypeDef) (input : float)
  : float * BiquadState_TypeDef :=
  let c := coeffs s in
  let w := input - a1 c * y1 s - a2 c * y2 s in
  let output := b0 c * w + b1 c * y1 s + b2 c * y2 s in
  (output, {| coeffs := c; x1 := x1 s; x2 := x2 s; y1 := w; y2 := y1 s |}).

#[global] Instance band_inhabited : Inhabited PEQBand_TypeDef :=
  populate (mkPEQBand PEQ_TYPE_BELL 0 0 0 false).
#[global] Instance biquad_inhabited : Inhabited BiquadState_TypeDef :=
  populate (mkBiquadState (mkBiquadCoeffs 0 0 0 0 0 0) 0 0 0 0).

(** [PEQBands] and [PEQBiquadStates], indexed [channel][band]. *)
Record State := mkState {
  PEQBands : list (list PEQBand_TypeDef);
  PEQBiquadStates : list (list BiquadState_TypeDef)
}.

(** The audio buffer as this file reads it. *)
Record AudioBuffer_TypeDef := mkAudioBuffer {
  outputChannels : list (list float);
  frameSize : nat
}.

Section WithLibM.
Variable M : LibM.

(** The normalisation by [a0] that ends each of the five designers. *)
Definition normalise (c : BiquadCoeffs_TypeDef) : BiquadCoeffs_TypeDef :=
  {| b0 := b0 c / a0 c; b1 := b1 c / a0 c; b2 := b2 c / a0 c;
     a0 := 1; a1 := a1 c / a0 c; a2 := a2 c / a0 c |}.

(** The three limits that open each of the five designers. *)
Definition limit_Q (Q : float) : float :=
  if Qltb PEQ_MAX_Q_FACTOR Q then PEQ_MAX_Q_FACTOR else Q.
Definition limit_freq (f fs : float) : float :=
  let f := if Qle_bool f 0 then 20 else f in
  if Qle_bool (fs / 2) f then fs / 2 - 1 else f.

Definition PEQ_CalculateBell (centerFreq gain Q fs : float)
  : BiquadCoeffs_TypeDef :=
  let Q := limit_Q Q in
  let centerFreq := limit_freq centerFreq fs in
  let A := powf M 10 (gain / 40) in
  let omega := 2 * M_PI * centerFreq / fs in
  let sn := sinf M omega in
  let cs := cosf M omega in
  let alpha := sn / (2 * Q) in
  normalise {| b0 := 1 + alpha * A; b1 := -2 * cs; b2 := 1 - alpha * A;
               a0 := 1 + alpha / A; a1 := -2 * cs; a2 := 1 - alpha / A |}.

Definition PEQ_CalculateLowShelf (cutoffFreq gain Q fs : float)
  : BiquadCoeffs_TypeDef :=
  let Q := limit_Q Q in
  let cutoffFreq := limit_freq cutoffFreq fs in
  let A := powf M 10 (gain / 40) in
  let omega := 2 * M_PI * cutoffFreq / fs in
  let sn := sinf M omega in
  let cs := cosf M omega in
  let alpha := sn / (2 * Q) in
  let beta := 2 * sqrtf M A * alpha in
  normalise {| b0 := A * ((A + 1) - (A - 1) * cs + beta);
               b1 := 2 * A * ((A - 1) - (A + 1) * cs);
               b2 := A * ((A + 1) - (A - 1) * cs - beta);
               a0 := (A + 1) + (A - 1) * cs + beta;
               a1 := -2 * ((A - 1) + (A + 1) * cs);
               a2 := (A + 1) + (A - 1) * cs - beta |}.

Definition PEQ_CalculateHighShelf (cutoffFreq gain Q fs : float)
  : BiquadCoeffs_TypeDef :=
  let Q := limit_Q Q in
  let cutoffFreq := limit_freq cutoffFreq fs in
  let A := powf M 10 (gain / 40) in
  let omega := 2 * M_PI * cutoffFreq / fs in
  let sn := sinf M omega in
  let cs := cosf M omega in
  let alpha := sn / (2 * Q) in
  let beta := 2 * sqrtf M A * alpha in
  normalise {| b0 := A * ((A + 1) + (A - 1) * cs + beta);
               b1 := -2 * A * ((A - 1) + (A + 1) * cs);
               b2 := A * ((A + 1) + (A - 1) * cs - beta);
               a0 := (A + 1) - (A - 1) * cs + beta;
               a1 := 2 * ((A - 1) - (A + 1) * cs);
               a2 := (A + 1) - (A - 1) * cs - beta |}.

Definition PEQ_CalculateLowPass (cutoffFreq Q fs : float)
  : BiquadCoeffs_TypeDef :=
  let Q := limit_Q Q in
  let cutoffFreq := limit_freq cutoffFreq fs in
  let omega := 2 * M_PI * cutoffFreq / fs in
  let sn := sinf M omega in
  let cs := cosf M omega in
  let alpha := sn / (2 * Q) in
  normalise {| b0 := (1 - cs) / 2; b1 := 1 - cs; b2 := (1 - cs) / 2;
               a0 := 1 + alpha; a1 := -2 * cs; a2 := 1 - alpha |}.

Definition PEQ_CalculateHighPass (cutoffFreq Q fs : float)
  : BiquadCoeffs_TypeDef :=
  let Q := limit_Q Q in
  let cutoffFreq := limit_freq cutoffFreq fs in
  let omega := 2 * M_PI * cutoffFreq / fs in
  let sn := sinf M omega in
  let cs := cosf M omega in
  let alpha := sn / (2 * Q) in
  normalise {| b0 := (1 + cs) / 2; b1 := - (1 + cs); b2 := (1 + cs) / 2;
               a0 := 1 + alpha; a1 := -2 * cs; a2 := 1 - alpha |}.

(** The coefficient set that [PEQ_UpdateFilterCoefficients] computes for a
    band.  In the [default] branch the local [coeffs.a0] is never written;
    [a0u] is the value it happens to hold. *)
Definition band_coefficients (a0u : float) (peqBand : PEQBand_TypeDef)
  : BiquadCoeffs_TypeDef :=
  let fs := inject_Z AUDIO_SAMPLE_RATE in
  match type peqBand with
  | PEQ_TYPE_BELL =>
      PEQ_CalculateBell (frequency peqBand) (gain peqBand) (q peqBand) fs
  | PEQ_TYPE_LOW_SHELF =>
      PEQ_CalculateLowShelf (frequency peqBand) (gain peqBand) (q peqBand) fs
  | PEQ_TYPE_HIGH_SHELF =>
      PEQ_CalculateHighShelf (frequency peqBand) (gain peqBand) (q peqBand) fs
  | PEQ_TYPE_LOW_PASS =>
      PEQ_CalculateLowPass (frequency peqBand) (q peqBand) fs
  | PEQ_TYPE_HIGH_PASS =>
      PEQ_CalculateHighPass (frequency peqBand) (q peqBand) fs
  | PEQ_TYPE_OTHER =>
      {| b0 := 1; b1 := 0; b2 := 0; a0 := a0u; a1 := 0; a2 := 0 |}
  end.

Variable a0_uninitialised : float.

Definition PEQ_UpdateFilterCoefficients (st : State) (channel band : nat)
  : State :=
  let peqBand := (PEQBands st !!! channel) !!! band in
  let coeffs := band_coefficients a0_uninitialised peqBand in
  {| PEQBands := PEQBands st;
     PEQBiquadStates :=
       alter (alter (fun s => Biquad_SetCoefficients s coeffs) band) channel
             (PEQBiquadStates st) |}.

(** The three "safety checks" of [PEQ_ConfigureBand], which write the
    limited values back into [*config]. *)
Definition limit_config (config : PEQBand_TypeDef) : PEQBand_TypeDef :=
  let f := frequency config in
  let f := if Qltb f 20 then 20 else if Qltb 20000 f then 20000 else f in
  let qv := q config in
  let qv := if Qltb qv 0.1 then 0.1 else if Qltb 10 qv then 10 else qv in
  let g := gain config in
  let g := if Qltb g (-12) then -12 else if Qltb 12 g then 12 else g in
  {| type := type config; frequency := f; gain := g; q := qv;
     enabled := enabled config |}.

(** [PEQ_ConfigureBand].  [config] is [None] for a null pointer; the
    result carries the status, the state and the struct behind [config]. *)
Definition PEQ_ConfigureBand (st : State) (channel band : nat)
  (config : option PEQBand_TypeDef)
  : HAL_StatusTypeDef * State * option PEQBand_TypeDef :=
  match config with
  | None => (HAL_ERROR, st, config)
  | Some cfg =>
      if decide (AUDIO_OUTPUT_CHANNELS <= channel
                 \/ PEQ_MAX_BANDS_PER_CHANNEL <= band)%nat
      then (HAL_ERROR, st, config)
      else
        let cfg := limit_config cfg in
        let st :=
          {| PEQBands :=
               alter (alter (fun _ =>
                               {| type := type cfg;
                                  frequency := frequency cfg;
                                  gain := gain cfg; q := q cfg;
                                  enabled := enabled cfg |}) band)
                     channel (PEQBands st);
             PEQBiquadStates := PEQBiquadStates st |} in
        (HAL_OK, PEQ_UpdateFilterCoefficients st channel band, Some cfg)
  end.

Definition PEQ_GetBandConfig (st : State) (channel band : nat)
  (config : option PEQBand_TypeDef)
  : HAL_StatusTypeDef * option PEQBand_TypeDef :=
  match config with
  | None => (HAL_ERROR, config)
  | Some _ =>
      if decide (AUDIO_OUTPUT_CHANNELS <= channel
                 \/ PEQ_MAX_BANDS_PER_CHANNEL <= band)%nat
      then (HAL_ERROR, config)
      else (HAL_OK, Some ((PEQBands st !!! channel) !!! band))
  end.

Definition PEQ_SetBandEnabled (st : State) (channel band : nat) (en : Z)
  : HAL_StatusTypeDef * State :=
  if decide (AUDIO_OUTPUT_CHANNELS <= channel
             \/ PEQ_MAX_BANDS_PER_CHANNEL <= band)%nat
  then (HAL_ERROR, st)
  else
    (HAL_OK,
     {| PEQBands :=
          alter (alter (fun b =>
                          {| type := type b; frequency := frequency b;
                             gain := gain b; q := q b;
                             enabled := negb (en =? 0)%Z |}) band)
                channel (PEQBands st);
        PEQBiquadStates := PEQBiquadStates st |}).

(** The band loop of [PEQ_ProcessChannel] for one sample: the bands of the
    channel and their biquads are walked in index order, and a disabled
    band is skipped. *)
Definition process_bands (bands : list PEQBand_TypeDef)
  (biquads : list BiquadState_TypeDef) (sample : float)
  : float * list BiquadState_TypeDef :=
  foldl (fun '(x, bq) band =>
           if negb (enabled (bands !!! band)) then (x, bq)
           else
             let '(y, s) := Biquad_Process (bq !!! band) x in
             (y, <[band := s]> bq))
        (sample, biquads) (seq 0 PEQ_MAX_BANDS_PER_CHANNEL).

Definition PEQ_ProcessChannel (st : State) (channel : nat)
  (audioBuffer : option AudioBuffer_TypeDef)
  : State * option AudioBuffer_TypeDef :=
  match audioBuffer with
  | None => (st, audioBuffer)
  | Some buf =>
      if decide (AUDIO_OUTPUT_CHANNELS <= channel)%nat then (st, audioBuffer)
      else
        let bands := PEQBands st !!! channel in
        let '(samples, biquads) :=
          for_samples (fun bq x =>
                         let '(y, bq') := process_bands bands bq x in (y, bq'))
                      (frameSize buf) (PEQBiquadStates st !!! channel)
                      (outputChannels buf !!! channel) in
        ({| PEQBands := PEQBands st;
            PEQBiquadStates := <[channel := biquads]> (PEQBiquadStates st) |},
         Some {| outputChannels :=
                   <[channel := samples]> (outputChannels buf);
                 frameSize := frameSize buf |})
  end.

End WithLibM.

End PEQ.

(** ** DSP/Src/compressor_proc.c *)
Module Compressor.

Definition COMP_DB_MIN : Q := -120.
Definition COMP_ENVELOPE_INIT : Q := -120.
Definition COMP_GAIN_SMOOTHING_COEF : Q := 0.9995.
Definition COMP_RMS_WINDOW_SIZE : nat := 32.
Definition COMP_MIN_GAIN_DB : Q := -60.
Definition COMP_MAX_GAIN_DB : Q := 0.

(** The private macros [MAX], [MIN] and [CLAMP] of the file. *)
Definition MAX (a b : Q) : Q := if Qltb b a then a else b.
Definition MIN (a b : Q) : Q := if Qltb a b then a else b.
Definition CLAMP (x lo hi : Q) : Q := MIN (MAX x lo) hi.

Record CompressorParameters_TypeDef := mkParams {
  enabled : bool;
  threshold_db : float;
  ratio : float;
  attackTime_ms : float;
  releaseTime_ms : float;
  makeupGain_db : float;
  kneeWidth_db : float;
  useSoftKnee : bool;
  useRMS : bool
}.

Record CompressorStatistics_TypeDef := mkStats {
  gainReduction_db : float;
  inputLevel_db : float;
  outputLevel_db : float
}.

(** One channel of the file-scope state: [compressorState[channel]] with
    [rmsBuffer[channel]] and [rmsBufferIndex[channel]]. *)
Record CompressorState_TypeDef := mkChannel {
  params : CompressorParameters_TypeDef;
  envelope_db : float;
  currentGain : float;
  prevGainDb : float;
  rmsValue : float;
  attackCoeff : float;
  releaseCoeff : float;
  stats : CompressorStatistics_TypeDef;
  rmsBuffer : list float;
  rmsBufferIndex : nat
}.

Definition State := list CompressorState_TypeDef.

(** The audio buffer as this file reads it. *)
Record AudioBuffer_TypeDef := mkAudioBuffer {
  data : list (list float);
  size : nat
}.

#[global] Instance channel_inhabited : Inhabited CompressorState_TypeDef :=
  populate (mkChannel (mkParams false 0 0 0 0 0 0 false false)
                      0 0 0 0 0 0 (mkStats 0 0 0) [] 0).

Section WithLibM.
Variable M : LibM.

Definition DB_TO_LINEAR (x : float) : float :=
  if Qle_bool x COMP_DB_MIN then 0 else powf M 10 (x / 20).
Definition LINEAR_TO_DB (x : float) : float :=
  if Qle_bool x 0 then COMP_DB_MIN else 20 * log10f M x.

Definition Compressor_CalculateRMS (c : CompressorState_TypeDef)
  (sample : float) : float * CompressorState_TypeDef :=
  let buf := <[rmsBufferIndex c := sample * sample]> (rmsBuffer c) in
  let idx := ((rmsBufferIndex c + 1) mod COMP_RMS_WINDOW_SIZE)%nat in
  let sum := foldl Qplus 0 buf in
  let rms := sqrtf M (sum / inject_Z (Z.of_nat COMP_RMS_WINDOW_SIZE)) in
  (rms,
   {| params := params c; envelope_db := envelope_db c;
      currentGain := currentGain c; prevGainDb := prevGainDb c;
      rmsValue := rms; attackCoeff := attackCoeff c;
      releaseCoeff := releaseCoeff c; stats := stats c;
      rmsBuffer := buf; rmsBufferIndex := idx |}).

Definition Compressor_CalculateEnvelope (c : CompressorState_TypeDef)
  (level_db : float) : float * CompressorState_TypeDef :=
  let e := envelope_db c in
  let e :=
    if Qltb e level_db
    then attackCoeff c * e + (1 - attackCoeff c) * level_db
    else releaseCoeff c * e + (1 - releaseCoeff c) * level_db in
  (e,
   {| params := params c; envelope_db := e;
      currentGain := currentGain c; prevGainDb := prevGainDb c;
      rmsValue := rmsValue c; attackCoeff := attackCoeff c;
      releaseCoeff := releaseCoeff c; stats := stats c;
      rmsBuffer := rmsBuffer c; rmsBufferIndex := rmsBufferIndex c |}).

Definition Compressor_ApplySoftKnee (p : CompressorParameters_TypeDef)
  (input_db : float) : float :=
  let threshold := threshold_db p in
  let knee_width := kneeWidth_db p in
  let knee_lower := threshold - knee_width / 2 in
  let knee_upper := threshold + knee_width / 2 in
  if Qltb input_db knee_lower then 0
  else if Qltb knee_upper input_db then
    let excess_db := input_db - threshold in
    - (excess_db - excess_db / ratio p)
  else
    let knee_position := (input_db - knee_lower) / knee_width in
    let transition_ratio := 1 + (ratio p - 1) * knee_position in
    let excess_db := input_db - knee_lower in
    - (excess_db - excess_db / transition_ratio).

Definition Compressor_CalculateGain (c : CompressorState_TypeDef)
  (env_db : float) : float :=
  let p := params c in
  let gain_db :=
    if useSoftKnee p then Compressor_ApplySoftKnee p env_db
    else if Qltb (threshold_db p) env_db then
      let excess_db := env_db - threshold_db p in
      - (excess_db - excess_db / ratio p)
    else 0 in
  CLAMP gain_db COMP_MIN_GAIN_DB COMP_MAX_GAIN_DB.

(** The body of the sample loop of [Compressor_Process]. *)
Definition process_sample (c : CompressorState_TypeDef) (sample : float)
  : float * CompressorState_TypeDef :=
  let p := params c in
  let '(level, c) :=
    if useRMS p then Compressor_CalculateRMS c sample
    else (fabsf sample, c) in
  let level_db := if Qltb 0 level then LINEAR_TO_DB level else COMP_DB_MIN in
  let '(env_db, c) := Compressor_CalculateEnvelope c level_db in
  let gain_db := Compressor_CalculateGain c env_db in
  let gain_db := gain_db + makeupGain_db p in
  let prev := prevGainDb c * COMP_GAIN_SMOOTHING_COEF
              + gain_db * (1 - COMP_GAIN_SMOOTHING_COEF) in
  let gain := DB_TO_LINEAR prev in
  (sample * gain,
   {| params := params c; envelope_db := envelope_db c;
      currentGain := gain; prevGainDb := prev;
      rmsValue := rmsValue c; attackCoeff := attackCoeff c;
      releaseCoeff := releaseCoeff c; stats := stats c;
      rmsBuffer := rmsBuffer c; rmsBufferIndex := rmsBufferIndex c |}).

(** The metering block that closes [Compressor_Process]. *)
Definition store_statistics (c : CompressorState_TypeDef)
  : CompressorState_TypeDef :=
  let gr := - prevGainDb c + makeupGain_db (params c) in
  let inl := LINEAR_TO_DB (rmsValue c) in
  {| params := params c; envelope_db := envelope_db c;
     currentGain := currentGain c; prevGainDb := prevGainDb c;
     rmsValue := rmsValue c; attackCoeff := attackCoeff c;
     releaseCoeff := releaseCoeff c;
     stats := {| gainReduction_db := gr; inputLevel_db := inl;
                 outputLevel_db := inl - gr |};
     rmsBuffer := rmsBuffer c; rmsBufferIndex := rmsBufferIndex c |}.

(** [Compressor_Process]; [audioBuffer] is [None] for a null pointer. *)
Definition Compressor_Process (st : State) (channel : nat)
  (audioBuffer : option AudioBuffer_TypeDef)
  : State * option AudioBuffer_TypeDef :=
  match audioBuffer with
  | None => (st, audioBuffer)
  | Some buf =>
      if decide (AUDIO_OUTPUT_CHANNELS <= channel)%nat then (st, audioBuffer)
      else if negb (enabled (params (st !!! channel))) then (st, audioBuffer)
      else
        let '(samples, c) :=
          for_samples process_sample (size buf) (st !!! channel)
                      (data buf !!! channel) in
        (<[channel := store_statistics c]> st,
         Some {| data := <[channel := samples]> (data buf);
                 size := size buf |})
  end.

(** [Compressor_SetEnabled]; [en] is the [uint8_t] argument. *)
Definition Compressor_SetEnabled (st : State) (channel : nat) (en : bool)
  : State :=
  if decide (AUDIO_OUTPUT_CHANNELS <= channel)%nat then st
  else
    alter (fun c =>
             let p := params c in
             let p := {| enabled := en; threshold_db := threshold_db p;
                         ratio := ratio p; attackTime_ms := attackTime_ms p;
                         releaseTime_ms := releaseTime_ms p;
                         makeupGain_db := makeupGain_db p;
                         kneeWidth_db := kneeWidth_db p;
                         useSoftKnee := useSoftKnee p; useRMS := useRMS p |} in
             {| params := p;
                envelope_db := if en then envelope_db c else COMP_ENVELOPE_INIT;
                currentGain := if en then currentGain c else 1;
                prevGainDb := if en then prevGainDb c else 0;
                rmsValue := rmsValue c; attackCoeff := attackCoeff c;
                releaseCoeff := releaseCoeff c; stats := stats c;
                rmsBuffer := rmsBuffer c;
                rmsBufferIndex := rmsBufferIndex c |})
          channel st.

End WithLibM.

End Compressor.

(** ** DSP/Src/limiter_proc.c *)
Module Limiter.

Inductive LimiterStatus_TypeDef := LIMITER_OK | LIMITER_ERROR.

(** in dB; only used through [DB_TO_LINEAR] *)
Definition MIN_GAIN_DB : Q := -24.
Definition ENVELOPE_SMOOTHING : Q := 0.9.
Definition DEFAULT_HOLD_SAMPLES : nat := 50.

(** [Limiter_TypeDef], the configuration that [Limiter_GetConfig] hands
    out, with the fields that the file reads. *)
Record Limiter_TypeDef := mkConfig {
  threshold : float;
  knee : float;
  cfgAttackTime : float;
  cfgReleaseTime : float;
  lookaheadTime : Z;
  enableISP : bool;
  enableLookahead : bool;
  adaptiveRelease : bool
}.

Record LimiterState_Internal := mkInternal {
  currentGain : float;
  peakLevel : float;
  releaseTime : float;
  attackTime : float;
  holdCounter : nat;
  targetGain : float;
  envelope : float;
  lookaheadBuffer : list float;
  lookaheadIndex : Z;
  prevSample : float
}.

(** The file-scope state, with the configuration table that
    [Limiter_GetConfig] indexes. *)
Record State := mkState {
  limiterState : list LimiterState_Internal;
  limiterInitialized : bool;
  limiterConfig : list Limiter_TypeDef
}.

#[global] Instance internal_inhabited : Inhabited LimiterState_Internal :=
  populate (mkInternal 0 0 0 0 0 0 0 [] 0 0).
#[global] Instance config_inhabited : Inhabited Limiter_TypeDef :=
  populate (mkConfig 0 0 0 0 0 false false false).

Section WithLibM.
Variable M : LibM.
(** [LIMITER_MAX_LOOKAHEAD] and [DB_TO_LINEAR] come from headers that are
    not part of the sources. *)
Variable LIMITER_MAX_LOOKAHEAD : Z.
Variable DB_TO_LINEAR : float -> float.

Definition Limiter_ApplyInterSampleProtection (config : Limiter_TypeDef)
  (s : LimiterState_Internal) (inputSample : float) : float :=
  if negb (enableISP config) then inputSample
  else
    let prev := prevSample s in
    let predictedPeak :=
      if (Qltb 0 inputSample && Qltb 0 prev)
         || (Qltb inputSample 0 && Qltb prev 0)
      then
        if Qltb (fabsf prev) (fabsf inputSample) then inputSample * 1.05
        else prev * 1.05
      else
        let t := fabsf prev / (fabsf prev + fabsf inputSample) in
        let maxPossibleValue :=
          fabsf prev * (1 - t) + fabsf inputSample * t in
        maxPossibleValue * 1.15 in
    if Qltb (fabsf inputSample) (fabsf predictedPeak) then
      if Qle_bool 0 inputSample then predictedPeak else - predictedPeak
    else inputSample.

(** [Limiter_ProcessLookahead].  The output index is computed in [int]
    with C's remainder and stored in a [uint16_t]. *)
Definition Limiter_ProcessLookahead (config : Limiter_TypeDef)
  (s : LimiterState_Internal) (inputSample : float)
  : float * LimiterState_Internal :=
  if negb (enableLookahead config) || (lookaheadTime config <=? 0)%Z
  then (inputSample, s)
  else
    let buf :=
      <[Z.to_nat (lookaheadIndex s) := inputSample]> (lookaheadBuffer s) in
    let outputIndex :=
      (Z.rem (lookaheadIndex s + LIMITER_MAX_LOOKAHEAD - lookaheadTime config)
             LIMITER_MAX_LOOKAHEAD mod 65536)%Z in
    let outputSample := buf !!! Z.to_nat outputIndex in
    let idx :=
      (Z.rem (lookaheadIndex s + 1) LIMITER_MAX_LOOKAHEAD mod 65536)%Z in
    (outputSample,
     {| currentGain := currentGain s; peakLevel := peakLevel s;
        releaseTime := releaseTime s; attackTime := attackTime s;
        holdCounter := holdCounter s; targetGain := targetGain s;
        envelope := envelope s; lookaheadBuffer := buf;
        lookaheadIndex := idx; prevSample := prevSample s |}).

Definition Limiter_CalculateGainReduction (config : Limiter_TypeDef)
  (s : LimiterState_Internal) (inputLevel : float)
  : float * LimiterState_Internal :=
  if Qltb (threshold config) inputLevel then
    let gainReduction := threshold config / inputLevel in
    let gainReduction :=
      if Qltb 0 (knee config) then
        let kneeStart := threshold config - knee config / 2 in
        let kneeEnd := threshold config + knee config / 2 in
        if Qltb inputLevel kneeEnd then
          let kneeRatio := (inputLevel - kneeStart) / knee config in
          1 - kneeRatio * (1 - gainReduction)
        else gainReduction
      else gainReduction in
    let gainReductionDB := 20 * log10f M gainReduction in
    let gainReduction :=
      if Qltb gainReductionDB MIN_GAIN_DB then DB_TO_LINEAR MIN_GAIN_DB
      else gainReduction in
    (gainReduction,
     {| currentGain := currentGain s; peakLevel := peakLevel s;
        releaseTime := releaseTime s; attackTime := attackTime s;
        holdCounter := DEFAULT_HOLD_SAMPLES; targetGain := gainReduction;
        envelope := envelope s; lookaheadBuffer := lookaheadBuffer s;
        lookaheadIndex := lookaheadIndex s; prevSample := prevSample s |})
  else
    (1,
     {| currentGain := currentGain s; peakLevel := peakLevel s;
        releaseTime := releaseTime s; attackTime := attackTime s;
        holdCounter := Nat.pred (holdCounter s); targetGain := 1;
        envelope := envelope s; lookaheadBuffer := lookaheadBuffer s;
        lookaheadIndex := lookaheadIndex s; prevSample := prevSample s |}).

Definition with_currentGain (g : float) (s : LimiterState_Internal) :=
  {| currentGain := g; peakLevel := peakLevel s;
     releaseTime := releaseTime s; attackTime := attackTime s;
     holdCounter := holdCounter s; targetGain := targetGain s;
     envelope := envelope s; lookaheadBuffer := lookaheadBuffer s;
     lookaheadIndex := lookaheadIndex s; prevSample := prevSample s |}.

Definition Limiter_UpdateReleaseEnvelope (config : Limiter_TypeDef)
  (s : LimiterState_Internal) (gainReduction : float)
  : LimiterState_Internal :=
  if (0 <? holdCounter s)%nat then with_currentGain (targetGain s) s
  else if Qltb gainReduction (currentGain s) then
    let attackCoeff := 1 / attackTime s in
    with_currentGain
      (currentGain s * (1 - attackCoeff) + gainReduction * attackCoeff) s
  else if Qltb (currentGain s) gainReduction then
    let releaseCoeff := 1 / releaseTime s in
    let g := currentGain s * (1 - releaseCoeff)
             + gainReduction * releaseCoeff in
    let g :=
      if adaptiveRelease config then
        let adaptiveScale := 1 + 5 * (1 - g) in
        g * (1 - releaseCoeff / adaptiveScale)
        + gainReduction * releaseCoeff / adaptiveScale
      else g in
    with_currentGain g s
  else s.

Definition Limiter_ProcessSample (config : Limiter_TypeDef)
  (s : LimiterState_Internal) (inputSample : float)
  : float * LimiterState_Internal :=
  let processedSample :=
    Limiter_ApplyInterSampleProtection config s inputSample in
  let '(processedSample, s) :=
    Limiter_ProcessLookahead config s processedSample in
  let sampleAbs := fabsf processedSample in
  let peak :=
    fmaxf sampleAbs (ENVELOPE_SMOOTHING * peakLevel s
                     + (1 - ENVELOPE_SMOOTHING) * sampleAbs) in
  let s :=
    {| currentGain := currentGain s; peakLevel := peak;
       releaseTime := releaseTime s; attackTime := attackTime s;
       holdCounter := holdCounter s; targetGain := targetGain s;
       envelope := envelope s; lookaheadBuffer := lookaheadBuffer s;
       lookaheadIndex := lookaheadIndex s; prevSample := prevSample s |} in
  let '(gainReduction, s) :=
    Limiter_CalculateGainReduction config s (peakLevel s) in
  let outputSample := processedSample * currentGain s in
  let s := Limiter_UpdateReleaseEnvelope config s gainReduction in
  let outputSample := if Qltb 1 outputSample then 1 else outputSample in
  let outputSample := if Qltb outputSample (-1) then -1 else outputSample in
  (outputSample,
   {| currentGain := currentGain s; peakLevel := peakLevel s;
      releaseTime := releaseTime s; attackTime := attackTime s;
      holdCounter := holdCounter s; targetGain := targetGain s;
      envelope := envelope s; lookaheadBuffer := lookaheadBuffer s;
      lookaheadIndex := lookaheadIndex s; prevSample := inputSample |}).

(** [Limiter_ProcessBlock]; [pData] is [None] for a null pointer. *)
Definition Limiter_ProcessBlock (st : State) (channel : nat)
  (pData : option (list float)) (blockSize : nat)
  : LimiterStatus_TypeDef * State * option (list float) :=
  match pData with
  | None => (LIMITER_ERROR, st, pData)
  | Some data =>
      if negb (limiterInitialized st)
         || bool_decide (AUDIO_OUTPUT_CHANNELS <= channel)%nat
      then (LIMITER_ERROR, st, pData)
      else
        let config := limiterConfig st !!! channel in
        let '(out, s) :=
          for_samples (Limiter_ProcessSample config) blockSize
                      (limiterState st !!! channel) data in
        (LIMITER_OK,
         {| limiterState := <[channel := s]> (limiterState st);
            limiterInitialized := limiterInitialized st;
            limiterConfig := limiterConfig st |},
         Some out)
  end.

Definition Limiter_CalculateTimingParameters (config : Limiter_TypeDef)
  (s : LimiterState_Internal) : LimiterState_Internal :=
  let sampleRate := inject_Z AUDIO_SAMPLE_RATE in
  let a := cfgAttackTime config / 1000 * sampleRate in
  let a := if Qltb a 1 then 1 else a in
  let r := cfgReleaseTime config / 1000 * sampleRate in
  let r := if Qltb r 1 then 1 else r in
  {| currentGain := currentGain s; peakLevel := peakLevel s;
     releaseTime := r; attackTime := a;
     holdCounter := holdCounter s; targetGain := targetGain s;
     envelope := envelope s; lookaheadBuffer := lookaheadBuffer s;
     lookaheadIndex := lookaheadIndex s; prevSample := prevSample s |}.

(** [Limiter_Init]; its [config] argument is not read. *)
Definition Limiter_Init (st : State) (channel : nat)
  : LimiterStatus_TypeDef * State :=
  if decide (AUDIO_OUTPUT_CHANNELS <= channel)%nat then (LIMITER_ERROR, st)
  else
    let s := limiterState st !!! channel in
    let s :=
      {| currentGain := 1; peakLevel := 0;
         releaseTime := releaseTime s; attackTime := attackTime s;
         holdCounter := 0; targetGain := 1; envelope := 0;
         lookaheadBuffer :=
           replicate (Z.to_nat LIMITER_MAX_LOOKAHEAD) (0 : float);
         lookaheadIndex := 0; prevSample := 0 |} in
    let s :=
      Limiter_CalculateTimingParameters (limiterConfig st !!! channel) s in
    (LIMITER_OK,
     {| limiterState := <[channel := s]> (limiterState st);
        limiterInitialized := true;
        limiterConfig := limiterConfig st |}).

End WithLibM.

End Limiter.

(** ** DSP/Src/delay_init.c and DSP/Src/delay_proc.c *)
Module Delay.

Definition MINIMUM_BUFFER_PADDING : Z := 16.

Inductive DelayUnit_TypeDef :=
| DELAY_UNIT_MS
| DELAY_UNIT_SAMPLES
| DELAY_UNIT_CM
| DELAY_UNIT_INCH.

Inductive DelayInterpolation_TypeDef :=
| DELAY_INTERPOLATION_LINEAR
| DELAY_INTERPOLATION_CUBIC.

(** [DelayInstance_TypeDef] with the fields that the two files use.
    [buffer] is [None] for a null pointer. *)
Record DelayInstance_TypeDef := mkInstance {
  isActive : bool;
  bufferSize : Z;
  writeIndex : Z;
  sampleRate : Z;
  maxDelayMs : Z;
  currentDelayMs : float;
  currentDelayDistance : float;
  delayUnit : DelayUnit_TypeDef;
  phaseInvert : bool;
  enabled : bool;
  filterCoeff : float;
  prevSample : float;
  buffer : option (list float);
  delaySamples : float
}.

(** The argument of [Delay_Init]. *)
Record DelayConfig_TypeDef := mkDelayConfig {
  cfgSampleRate : Z;
  cfgMaxDelayMs : Z
}.

(** The argument of [Delay_ConfigChannel] and the result of
    [Delay_GetSettings]. *)
Record DelayChannelConfig_TypeDef := mkChannelConfig {
  cfgEnabled : bool;
  cfgDelayUnit : DelayUnit_TypeDef;
  cfgPhaseInvert : bool;
  delayValue : float
}.

(** The file-scope variables of the two files. *)
Record State := mkState {
  delayInstances : list DelayInstance_TypeDef;
  isDelaySystemInitialized : bool;
  tempCompensationFactor : float;
  interpolationMode : DelayInterpolation_TypeDef
}.

#[global] Instance instance_inhabited : Inhabited DelayInstance_TypeDef :=
  populate (mkInstance false 0 0 0 0 0 0 DELAY_UNIT_MS false false 0 0
                       None 0).

(** Conversion of a value to [int32_t], and an [int32_t] read as
    [uint32_t]. *)
Definition to_int32 (z : Z) : Z := ((z + 2 ^ 31) mod 2 ^ 32 - 2 ^ 31)%Z.
Definition to_uint32 (z : Z) : Z := (z mod 2 ^ 32)%Z.

(** [ModuloBufferSize(int32_t index, uint32_t bufferSize)]: both the sum
    and the remainder are computed in [uint32_t]. *)
Definition ModuloBufferSize (index bufferSize : Z) : Z :=
  let index :=
    if (index <? 0)%Z then to_int32 (to_uint32 (index + bufferSize))
    else index in
  (to_uint32 index mod bufferSize)%Z.

Definition InterpolateLinear (buffer : list float) (bufferSize readIndex : Z)
  (fraction : float) : float :=
  let sample1 := buffer !!! Z.to_nat readIndex in
  let sample2 :=
    buffer !!! Z.to_nat (ModuloBufferSize (to_int32 (to_uint32 (readIndex + 1)))
                                          bufferSize) in
  sample1 + fraction * (sample2 - sample1).

Definition InterpolateCubic (buffer : list float) (bufferSize readIndex : Z)
  (fraction : float) : float :=
  let at_ (k : Z) :=
    buffer !!! Z.to_nat (ModuloBufferSize (to_int32 (to_uint32 (readIndex + k)))
                                          bufferSize) in
  let y0 := at_ (-1)%Z in
  let y1 := buffer !!! Z.to_nat readIndex in
  let y2 := at_ 1%Z in
  let y3 := at_ 2%Z in
  let a0 := y3 - y2 - y0 + y1 in
  let a1 := y0 - y1 - a0 in
  let a2 := y2 - y0 in
  let a3 := y1 in
  let frac2 := fraction * fraction in
  a0 * fraction * frac2 + a1 * frac2 + a2 * fraction + a3.

(** [while (readPos < 0) readPos += (float)bufferSize;] with a bound on the
    number of rounds; [None] when the bound is reached. *)
Fixpoint wrap_read_position (fuel : nat) (readPos size : float)
  : option float :=
  if Qltb readPos 0 then
    match fuel with
    | O => None
    | S fuel' => wrap_read_position fuel' (readPos + size) size
    end
  else Some readPos.

Definition with_buffer (b : option (list float)) (i : DelayInstance_TypeDef) :=
  {| isActive := isActive i; bufferSize := bufferSize i;
     writeIndex := writeIndex i; sampleRate := sampleRate i;
     maxDelayMs := maxDelayMs i; currentDelayMs := currentDelayMs i;
     currentDelayDistance := currentDelayDistance i;
     delayUnit := delayUnit i; phaseInvert := phaseInvert i;
     enabled := enabled i; filterCoeff := filterCoeff i;
     prevSample := prevSample i; buffer := b;
     delaySamples := delaySamples i |}.

Definition with_cursor (w : Z) (p : float) (i : DelayInstance_TypeDef) :=
  {| isActive := isActive i; bufferSize := bufferSize i;
     writeIndex := w; sampleRate := sampleRate i;
     maxDelayMs := maxDelayMs i; currentDelayMs := currentDelayMs i;
     currentDelayDistance := currentDelayDistance i;
     delayUnit := delayUnit i; phaseInvert := phaseInvert i;
     enabled := enabled i; filterCoeff := filterCoeff i;
     prevSample := p; buffer := buffer i;
     delaySamples := delaySamples i |}.

(** [ProcessSampleWithDelay].  [None] is returned when the instance has no
    buffer or when the wrap-around loop has not ended within [fuel]
    rounds. *)
Definition ProcessSampleWithDelay (mode : DelayInterpolation_TypeDef)
  (fuel : nat) (instance : DelayInstance_TypeDef) (input : float)
  : option (float * DelayInstance_TypeDef) :=
  match buffer instance with
  | None => None
  | Some buf =>
      let buf := <[Z.to_nat (writeIndex instance) := input]> buf in
      let readPos := inject_Z (writeIndex instance) - delaySamples instance in
      match wrap_read_position fuel readPos
                               (inject_Z (bufferSize instance)) with
      | None => None
      | Some readPos =>
          let readIndex := Qtrunc readPos in
          let fraction := readPos - inject_Z readIndex in
          let readIndex := ModuloBufferSize readIndex (bufferSize instance) in
          let output :=
            match mode with
            | DELAY_INTERPOLATION_LINEAR =>
                InterpolateLinear buf (bufferSize instance) readIndex fraction
            | DELAY_INTERPOLATION_CUBIC =>
                InterpolateCubic buf (bufferSize instance) readIndex fraction
            end in
          let output := if phaseInvert instance then - output else output in
          let output := output * (1 - filterCoeff instance)
                        + prevSample instance * filterCoeff instance in
          let w :=
            ModuloBufferSize (to_int32 (to_uint32 (writeIndex instance + 1)))
                             (bufferSize instance) in
          Some (output, with_cursor w output (with_buffer (Some buf) instance))
      end
  end.

(** The sample loop of [Delay_Process] over the first [n] samples. *)
Fixpoint delay_samples (mode : DelayInterpolation_TypeDef) (fuel : nat)
  (n : nat) (instance : DelayInstance_TypeDef) (data : list float)
  : option (list float * DelayInstance_TypeDef) :=
  match n, data with
  | S n', x :: rest =>
      match ProcessSampleWithDelay mode fuel instance x with
      | None => None
      | Some (y, instance') =>
          match delay_samples mode fuel n' instance' rest with
          | None => None
          | Some (ys, instance'') => Some (y :: ys, instance'')
          end
      end
  | _, _ => Some (data, instance)
  end.

Section WithConstants.
(** [MAX_DELAY_CHANNELS] and [SPEED_OF_SOUND_M_PER_SEC] come from a header
    that is not part of the sources. *)
Variable MAX_DELAY_CHANNELS : nat.
Variable SPEED_OF_SOUND_M_PER_SEC : float.
(** [malloc]: the block for a number of floats, or [None] when the
    allocation fails. *)
Variable malloc : nat -> option (list float).

Definition set_instance (st : State) (channel : nat)
  (f : DelayInstance_TypeDef -> DelayInstance_TypeDef) : State :=
  {| delayInstances := alter f channel (delayInstances st);
     isDelaySystemInitialized := isDelaySystemInitialized st;
     tempCompensationFactor := tempCompensationFactor st;
     interpolationMode := interpolationMode st |}.

(** [Delay_Process]; [pData] is [None] for a null pointer, [size] is the
    sample count, and [fuel] bounds the wrap-around loop of every sample.
    The outer [option] is [None] when a sample does not come back. *)
Definition Delay_Process (fuel : nat) (st : State) (channel : nat)
  (pData : option (list float)) (size : nat)
  : option (HAL_StatusTypeDef * State * option (list float)) :=
  match pData with
  | None => Some (HAL_ERROR, st, pData)
  | Some data =>
      if bool_decide (MAX_DELAY_CHANNELS <= channel)%nat
         || bool_decide (size = 0%nat)
      then Some (HAL_ERROR, st, pData)
      else
        let instance := delayInstances st !!! channel in
        if negb (isActive instance) || negb (enabled instance)
        then Some (HAL_OK, st, pData)
        else
          match delay_samples (interpolationMode st) fuel size instance data
          with
          | None => None
          | Some (out, instance') =>
              Some (HAL_OK, set_instance st channel (fun _ => instance'),
                    Some out)
          end
  end.

Definition CalculateBufferSizeBytes (maxDelayMs sampleRate : Z) : Z :=
  let maxDelaySamples := (to_uint32 (maxDelayMs * sampleRate) / 1000)%Z in
  to_uint32 (maxDelaySamples + MINIMUM_BUFFER_PADDING).

(** [ApplyDelaySettings] *)
Definition ApplyDelaySettings (st : State) (channel : nat) : State :=
  if bool_decide (MAX_DELAY_CHANNELS <= channel)%nat
     || negb (isDelaySystemInitialized st)
  then st
  else
    set_instance st channel
      (fun i =>
         let compensatedDelayMs :=
           currentDelayMs i / tempCompensationFactor st in
         let delaySamplesFloat :=
           compensatedDelayMs * inject_Z (sampleRate i) / 1000 in
         {| isActive := isActive i; bufferSize := bufferSize i;
            writeIndex := writeIndex i; sampleRate := sampleRate i;
            maxDelayMs := maxDelayMs i; currentDelayMs := currentDelayMs i;
            currentDelayDistance := currentDelayDistance i;
            delayUnit := delayUnit i; phaseInvert := phaseInvert i;
            enabled := enabled i; filterCoeff := filterCoeff i;
            prevSample := prevSample i; buffer := buffer i;
            delaySamples := delaySamplesFloat |}).

Definition ConvertDistanceToTime (distance : float) (unit : DelayUnit_TypeDef)
  : float :=
  match unit with
  | DELAY_UNIT_CM => distance / 100 / SPEED_OF_SOUND_M_PER_SEC * 1000
  | DELAY_UNIT_INCH => distance * 0.0254 / SPEED_OF_SOUND_M_PER_SEC * 1000
  | _ => distance
  end.

(** [Delay_DeInit] *)
Definition Delay_DeInit (st : State) : State :=
  if negb (isDelaySystemInitialized st) then st
  else
    {| delayInstances := with_buffer None <$> delayInstances st;
       isDelaySystemInitialized := false;
       tempCompensationFactor := tempCompensationFactor st;
       interpolationMode := interpolationMode st |}.

(** The body of the channel loop of [Delay_Init] for instance [i]: the
    field initialisation, [AllocateDelayBuffer] and the [memset]. [None]
    when the allocation fails. *)
Definition init_instance (config : DelayConfig_TypeDef)
  (i : DelayInstance_TypeDef) : option DelayInstance_TypeDef :=
  let size := CalculateBufferSizeBytes (cfgMaxDelayMs config)
                                       (cfgSampleRate config) in
  match malloc (Z.to_nat size) with
  | None => None
  | Some _ =>
      Some {| isActive := false; bufferSize := size; writeIndex := 0;
              sampleRate := cfgSampleRate config;
              maxDelayMs := cfgMaxDelayMs config;
              currentDelayMs := 0; currentDelayDistance := 0;
              delayUnit := DELAY_UNIT_MS; phaseInvert := false;
              enabled := false; filterCoeff := 0.7; prevSample := 0;
              buffer := Some (replicate (Z.to_nat size) (0 : float));
              delaySamples := delaySamples i |}
  end.

(** The fields written before a failed allocation. *)
Definition init_fields (config : DelayConfig_TypeDef)
  (i : DelayInstance_TypeDef) : DelayInstance_TypeDef :=
  {| isActive := false; bufferSize := 0; writeIndex := 0;
     sampleRate := cfgSampleRate config; maxDelayMs := cfgMaxDelayMs config;
     currentDelayMs := 0; currentDelayDistance := 0;
     delayUnit := DELAY_UNIT_MS; phaseInvert := false;
     enabled := false; filterCoeff := 0.7; prevSample := 0;
     buffer := None; delaySamples := delaySamples i |}.

Fixpoint init_loop (config : DelayConfig_TypeDef) (n : nat) (ch : nat)
  (st : State) : HAL_StatusTypeDef * State :=
  match n with
  | O =>
      (HAL_OK,
       {| delayInstances := delayInstances st;
          isDelaySystemInitialized := true;
          tempCompensationFactor := 1;
          interpolationMode := interpolationMode st |})
  | S n' =>
      match init_instance config (delayInstances st !!! ch) with
      | None =>
          (HAL_ERROR,
           Delay_DeInit (set_instance st ch (init_fields config)))
      | Some i => init_loop config n' (S ch) (set_instance st ch (fun _ => i))
      end
  end.

(** [Delay_Init]; [config] is [None] for a null pointer. *)
Definition Delay_Init (st : State) (config : option DelayConfig_TypeDef)
  : HAL_StatusTypeDef * State :=
  match config with
  | None => (HAL_ERROR, st)
  | Some config => init_loop config MAX_DELAY_CHANNELS 0 st
  end.

Definition is_distance (u : DelayUnit_TypeDef) : bool :=
  match u with DELAY_UNIT_CM | DELAY_UNIT_INCH => true | _ => false end.

(** [Delay_ConfigChannel] *)
Definition Delay_ConfigChannel (st : State) (channel : nat)
  (config : option DelayChannelConfig_TypeDef) : HAL_StatusTypeDef * State :=
  if bool_decide (MAX_DELAY_CHANNELS <= channel)%nat then (HAL_ERROR, st)
  else if negb (isDelaySystemInitialized st) then (HAL_ERROR, st)
  else
    match config with
    | None => (HAL_ERROR, st)
    | Some config =>
        let update (active : bool) (i : DelayInstance_TypeDef) :=
          let ms :=
            if is_distance (cfgDelayUnit config)
            then ConvertDistanceToTime (delayValue config)
                                       (cfgDelayUnit config)
            else delayValue config in
          let dist :=
            if is_distance (cfgDelayUnit config) then delayValue config
            else ms * SPEED_OF_SOUND_M_PER_SEC / 1000 * 100 in
          {| isActive := active; bufferSize := bufferSize i;
             writeIndex := writeIndex i; sampleRate := sampleRate i;
             maxDelayMs := maxDelayMs i; currentDelayMs := ms;
             currentDelayDistance := dist;
             delayUnit := cfgDelayUnit config;
             phaseInvert := cfgPhaseInvert config;
             enabled := cfgEnabled config; filterCoeff := filterCoeff i;
             prevSample := prevSample i; buffer := buffer i;
             delaySamples := delaySamples i |} in
        let st :=
          set_instance st channel (fun i => update (isActive i) i) in
        let st := ApplyDelaySettings st channel in
        (HAL_OK,
         set_instance st channel
           (fun i =>
              {| isActive := true; bufferSize := bufferSize i;
                 writeIndex := writeIndex i; sampleRate := sampleRate i;
                 maxDelayMs := maxDelayMs i;
                 currentDelayMs := currentDelayMs i;
                 currentDelayDistance := currentDelayDistance i;
                 delayUnit := delayUnit i; phaseInvert := phaseInvert i;
                 enabled := enabled i; filterCoeff := filterCoeff i;
                 prevSample := prevSample i; buffer := buffer i;
                 delaySamples := delaySamples i |}))
    end.

(** [Delay_SetTime] *)
Definition Delay_SetTime (st : State) (channel : nat) (delayMs : float)
  : HAL_StatusTypeDef * State :=
  if bool_decide (MAX_DELAY_CHANNELS <= channel)%nat
     || negb (isActive (delayInstances st !!! channel))
  then (HAL_ERROR, st)
  else if Qltb delayMs 0
          || Qltb (inject_Z (maxDelayMs (delayInstances st !!! channel)))
                  delayMs
  then (HAL_ERROR, st)
  else
    let st :=
      set_instance st channel
        (fun i =>
           {| isActive := isActive i; bufferSize := bufferSize i;
              writeIndex := writeIndex i; sampleRate := sampleRate i;
              maxDelayMs := maxDelayMs i; currentDelayMs := delayMs;
              currentDelayDistance :=
                delayMs * SPEED_OF_SOUND_M_PER_SEC / 1000 * 100;
              delayUnit := DELAY_UNIT_MS; phaseInvert := phaseInvert i;
              enabled := enabled i; filterCoeff := filterCoeff i;
              prevSample := prevSample i; buffer := buffer i;
              delaySamples := delaySamples i |}) in
    (HAL_OK, ApplyDelaySettings st channel).

(** [Delay_GetSettings] into a non-null [config]. *)
Definition Delay_GetSettings (st : State) (channel : nat)
  : HAL_StatusTypeDef * option DelayChannelConfig_TypeDef :=
  if bool_decide (MAX_DELAY_CHANNELS <= channel)%nat
     || negb (isActive (delayInstances st !!! channel))
  then (HAL_ERROR, None)
  else
    let i := delayInstances st !!! channel in
    (HAL_OK,
     Some {| cfgEnabled := enabled i; cfgDelayUnit := delayUnit i;
             cfgPhaseInvert := phaseInvert i;
             delayValue :=
               match delayUnit i with
               | DELAY_UNIT_MS => currentDelayMs i
               | _ => currentDelayDistance i
               end |}).

(** [Delay_FlushBuffer] *)
Definition Delay_FlushBuffer (st : State) (channel : nat)
  : HAL_StatusTypeDef * State :=
  if bool_decide (MAX_DELAY_CHANNELS <= channel)%nat
     || negb (isActive (delayInstances st !!! channel))
  then (HAL_ERROR, st)
  else
    (HAL_OK,
     set_instance st channel
       (fun i =>
          with_cursor 0 0
            (with_buffer
               (match buffer i with
                | None => None
                | Some _ =>
                    Some (replicate (Z.to_nat (bufferSize i)) (0 : float))
                end) i))).

End WithConstants.

(** *** Reference signals for the delay line

    These are not code of the source; the statements about
    [ProcessSampleWithDelay] are phrased with them. *)

(** The impulse of [n] samples: 1.0 followed by zeros. *)
Definition impulse (n : nat) : list float :=
  match n with
  | O => []
  | S m => 1 :: replicate m 0
  end.

(** The input at time [j], zero before the first sample. *)
Definition past (data : list float) (j : Z) : float :=
  if (j <? 0)%Z then 0 else data !!! Z.to_nat j.

(** [prevSample] after [t] samples when the interpolated value at time
    [k] is the input of [N] samples earlier: the one-pole recurrence of the
    last lines of [ProcessSampleWithDelay]. *)
Fixpoint smoothed (c : float) (N : Z) (data : list float) (t : nat) : float :=
  match t with
  | O => 0
  | S t' => past data (Z.of_nat t' - N) * (1 - c) + smoothed c N data t' * c
  end.

(** What holds of an instance after [t] samples of [data] went through a
    line of [size] cells set to a delay of [N] samples, when the first
    sample was written at cell [w0] of a zeroed buffer: the last [size]
    inputs are in their cells. *)
Record delay_invariant (size N w0 : Z) (c : float) (data : list float)
  (t : nat) (instance : DelayInstance_TypeDef) : Prop := mkInvariant {
  inv_buffer :
    exists buf,
      buffer instance = Some buf
      /\ length buf = Z.to_nat size
      /\ forall d : Z, (1 <= d <= size)%Z ->
           buf !!! Z.to_nat ((w0 + Z.of_nat t - d) mod size)
           = past data (Z.of_nat t - d);
  inv_size : bufferSize instance = size;
  inv_write : writeIndex instance = ((w0 + Z.of_nat t) mod size)%Z;
  inv_phase : phaseInvert instance = false;
  inv_delay : delaySamples instance == inject_Z N;
  inv_coeff : filterCoeff instance = c;
  inv_prev : prevSample instance == smoothed c N data t
}.

End Delay.

(** ** Audio/Src/audio_routing.c *)
Module AudioRouting.

Inductive AudioSource_TypeDef :=
| AUDIO_SOURCE_NONE
| AUDIO_SOURCE_IN1
| AUDIO_SOURCE_IN2
| AUDIO_SOURCE_IN1_IN2_MIX
| AUDIO_SOURCE_IN1_ONLY_LEFT
| AUDIO_SOURCE_IN1_ONLY_RIGHT
| AUDIO_SOURCE_IN2_ONLY_LEFT
| AUDIO_SOURCE_IN2_ONLY_RIGHT
| AUDIO_SOURCE_MAX.

Record AudioRouting_TypeDef := mkRouting {
  source : list AudioSource_TypeDef;
  mixLevel : list float;
  inputGain : list float;
  outputMute : list bool;
  stereoLink : list bool;
  monoSumInputs : bool
}.

(** The audio buffer as this file reads it. *)
Record AudioBuffer_TypeDef := mkAudioBuffer {
  samples : list (list float);
  bufferSize : nat
}.

#[global] Instance source_inhabited : Inhabited AudioSource_TypeDef :=
  populate AUDIO_SOURCE_NONE.

(** [for (i = 0; i < n; i++) row[i] = f(i);] *)
Definition fill_row (n : nat) (f : nat -> float) (row : list float)
  : list float :=
  foldl (fun row i => <[i := f i]> row) row (seq 0 n).

Definition write_channel (outputBuffer : AudioBuffer_TypeDef)
  (outputChannel : nat) (f : nat -> float) : AudioBuffer_TypeDef :=
  {| samples := alter (fill_row (bufferSize outputBuffer) f) outputChannel
                      (samples outputBuffer);
     bufferSize := bufferSize outputBuffer |}.

(** [ProcessChannelRouting]: the output buffer after the call. *)
Definition ProcessChannelRouting (audioRoutingConfig : AudioRouting_TypeDef)
  (outputChannel : nat) (inputBuffer outputBuffer : AudioBuffer_TypeDef)
  : AudioBuffer_TypeDef :=
  let in1 (i : nat) : float := (samples inputBuffer !!! 0%nat) !!! i in
  let in2 (i : nat) : float := (samples inputBuffer !!! 1%nat) !!! i in
  if (outputMute audioRoutingConfig !!! outputChannel : bool) then
    write_channel outputBuffer outputChannel (fun _ => 0)
  else
    match source audioRoutingConfig !!! outputChannel with
    | AUDIO_SOURCE_NONE => write_channel outputBuffer outputChannel (fun _ => 0)
    | AUDIO_SOURCE_IN1 => write_channel outputBuffer outputChannel in1
    | AUDIO_SOURCE_IN2 => write_channel outputBuffer outputChannel in2
    | AUDIO_SOURCE_IN1_IN2_MIX =>
        let level := mixLevel audioRoutingConfig !!! outputChannel in
        let in1Weight := level in
        let in2Weight := 1 - level in
        write_channel outputBuffer outputChannel
                      (fun i => in1 i * in1Weight + in2 i * in2Weight)
    | AUDIO_SOURCE_IN1_ONLY_LEFT => write_channel outputBuffer outputChannel in1
    | AUDIO_SOURCE_IN1_ONLY_RIGHT =>
        write_channel outputBuffer outputChannel in1
    | AUDIO_SOURCE_IN2_ONLY_LEFT => write_channel outputBuffer outputChannel in2
    | AUDIO_SOURCE_IN2_ONLY_RIGHT =>
        write_channel outputBuffer outputChannel in2
    | AUDIO_SOURCE_MAX => write_channel outputBuffer outputChannel (fun _ => 0)
    end.

Definition ApplyInputGain (audioRoutingConfig : AudioRouting_TypeDef)
  (buffer : AudioBuffer_TypeDef) : AudioBuffer_TypeDef :=
  foldl (fun buf ch =>
           let gain := inputGain audioRoutingConfig !!! ch in
           {| samples :=
                alter (fun row =>
                         foldl (fun row i => alter (fun x => x * gain) i row)
                               row (seq 0 (bufferSize buf)))
                      ch (samples buf);
              bufferSize := bufferSize buf |})
        buffer (seq 0 AUDIO_INPUT_CHANNELS).

Definition mono_sum (buffer : AudioBuffer_TypeDef) : AudioBuffer_TypeDef :=
  foldl (fun buf i =>
           let monoSum :=
             foldl (fun acc ch => acc + (samples buf !!! ch) !!! i) 0
                   (seq 0 AUDIO_INPUT_CHANNELS) in
           let monoSum :=
             monoSum / inject_Z (Z.of_nat AUDIO_INPUT_CHANNELS) in
           foldl (fun buf ch =>
                    {| samples := alter (<[i := monoSum]>) ch (samples buf);
                       bufferSize := bufferSize buf |})
                 buf (seq 0 AUDIO_INPUT_CHANNELS))
        buffer (seq 0 (bufferSize buffer)).

(** [AudioRouting_Process]: the input and the output buffer after it. *)
Definition AudioRouting_Process (audioRoutingConfig : AudioRouting_TypeDef)
  (inputBuffer outputBuffer : AudioBuffer_TypeDef)
  : AudioBuffer_TypeDef * AudioBuffer_TypeDef :=
  let inputBuffer := ApplyInputGain audioRoutingConfig inputBuffer in
  let inputBuffer :=
    if monoSumInputs audioRoutingConfig then mono_sum inputBuffer
    else inputBuffer in
  (inputBuffer,
   foldl (fun out ch =>
            ProcessChannelRouting audioRoutingConfig ch inputBuffer out)
         outputBuffer (seq 0 AUDIO_OUTPUT_CHANNELS)).

(** [AudioRouting_SetMute]; [state] is the [uint8_t] argument. *)
Definition AudioRouting_SetMute (cfg : AudioRouting_TypeDef)
  (outputChannel : nat) (state : Z) : AudioRouting_TypeDef :=
  if decide (AUDIO_OUTPUT_CHANNELS <= outputChannel)%nat then cfg
  else
    let m := negb (state =? 0)%Z in
    let mute := <[outputChannel := m]> (outputMute cfg) in
    let pairIndex := (outputChannel / 2)%nat in
    let mute :=
      if (stereoLink cfg !!! pairIndex : bool) then
        let pairedChannel :=
          if (outputChannel mod 2 =? 0)%nat then (outputChannel + 1)%nat
          else (outputChannel - 1)%nat in
        <[pairedChannel := m]> mute
      else mute in
    {| source := source cfg; mixLevel := mixLevel cfg;
       inputGain := inputGain cfg; outputMute := mute;
       stereoLink := stereoLink cfg; monoSumInputs := monoSumInputs cfg |}.

End AudioRouting.

(** ** Audio/Src/audio_driver.c *)
Module AudioDriver.

(** audio_driver.h *)
Definition AUDIO_BUFFER_SIZE : nat := 128.
Definition AUDIO_FRAME_SIZE : nat := AUDIO_BUFFER_SIZE / 2.
Definition AUDIO_MAX_VALUE : Q := 8388607.
Definition DMA_OUTPUT_BUFFER_SIZE : nat :=
  AUDIO_BUFFER_SIZE * AUDIO_OUTPUT_CHANNELS.

Inductive BufferState_TypeDef := BUFFER_HALF | BUFFER_FULL.
Inductive AudioState_TypeDef :=
| AUDIO_STATE_IDLE
| AUDIO_STATE_RUNNING
| AUDIO_STATE_ERROR.

(** [audioStatus] and the output side of the file-scope variables. *)
Record State := mkState {
  state : AudioState_TypeDef;
  inputGain : list float;
  outputGain : list float;
  inputMute : list bool;
  outputMute : list bool;
  outputDmaBuffer : list Z;
  outputBufferState : BufferState_TypeDef
}.

Record AudioBuffer_TypeDef := mkAudioBuffer {
  channels : list (list float)
}.

(** Modelled from the spec: [CLAMP] comes to this file from math_utils.h,
    which is not part of the sources.  It is the hard limit of a value to
    a closed range, the final safety net that keeps every output sample
    in [-1, 1]; the expansion is that of the macro of the same name in
    compressor_proc.c. *)
Definition CLAMP (x lo hi : Q) : Q :=
  Compressor.MIN (Compressor.MAX x lo) hi.

(** [FLOAT_TO_INT24] *)
Definition FLOAT_TO_INT24 (x : float) : Z := Qtrunc (x * AUDIO_MAX_VALUE).

(** The float that the loop body of [Audio_PrepareOutputSamples] converts
    for channel [ch] and frame position [i]: gain or mute, then the hard
    limit. *)
Definition output_sample (st : State) (buffer : AudioBuffer_TypeDef)
  (i ch : nat) : float :=
  let sample_float := (channels buffer !!! ch) !!! i in
  let sample_float :=
    if (outputMute st !!! ch : bool) then 0
    else sample_float * (outputGain st !!! ch) in
  CLAMP sample_float (-1) 1.

(** The channel loop of [Audio_PrepareOutputSamples] at frame position
    [i], on the DMA buffer and the running [sample_idx]. *)
Definition prepare_position (st : State) (offset : nat)
  (buffer : AudioBuffer_TypeDef) (acc : list Z * nat) (i : nat)
  : list Z * nat :=
  foldl (fun '(dma, sample_idx) ch =>
           let sample_int := FLOAT_TO_INT24 (output_sample st buffer i ch) in
           (<[(offset + sample_idx)%nat := sample_int]> dma, S sample_idx))
        acc (seq 0 AUDIO_OUTPUT_CHANNELS).

(** [Audio_PrepareOutputSamples]: the DMA buffer after the call. *)
Definition Audio_PrepareOutputSamples (st : State) (offset : nat)
  (buffer : AudioBuffer_TypeDef) : list Z :=
  fst (foldl (prepare_position st offset buffer)
             (outputDmaBuffer st, 0%nat) (seq 0 AUDIO_FRAME_SIZE)).

(** [Audio_SendOutputSamples] *)
Definition Audio_SendOutputSamples (st : State) (buffer : AudioBuffer_TypeDef)
  : HAL_StatusTypeDef * State :=
  match state st with
  | AUDIO_STATE_RUNNING =>
      let offset :=
        match outputBufferState st with
        | BUFFER_HALF => 0%nat
        | BUFFER_FULL => (DMA_OUTPUT_BUFFER_SIZE / 2)%nat
        end in
      (HAL_OK,
       {| state := state st; inputGain := inputGain st;
          outputGain := outputGain st; inputMute := inputMute st;
          outputMute := outputMute st;
          outputDmaBuffer := Audio_PrepareOutputSamples st offset buffer;
          outputBufferState := outputBufferState st |})
  | _ => (HAL_ERROR, st)
  end.

(** [Audio_MuteOutput]; [mute] is the [uint8_t] argument [state]. *)
Definition Audio_MuteOutput (st : State) (channel : nat) (mute : Z)
  : HAL_StatusTypeDef * State :=
  if decide (AUDIO_OUTPUT_CHANNELS <= channel)%nat then (HAL_ERROR, st)
  else
    (HAL_OK,
     {| state := state st; inputGain := inputGain st;
        outputGain := outputGain st; inputMute := inputMute st;
        outputMute := <[channel := negb (mute =? 0)%Z]> (outputMute st);
        outputDmaBuffer := outputDmaBuffer st;
        outputBufferState := outputBufferState st |}).

(** [Audio_SetOutputGain] *)
Definition Audio_SetOutputGain (st : State) (channel : nat) (gain : float)
  : HAL_StatusTypeDef * State :=
  if decide (AUDIO_OUTPUT_CHANNELS <= channel)%nat then (HAL_ERROR, st)
  else
    (HAL_OK,
     {| state := state st; inputGain := inputGain st;
        outputGain := <[channel := gain]> (outputGain st);
        inputMute := inputMute st; outputMute := outputMute st;
        outputDmaBuffer := outputDmaBuffer st;
        outputBufferState := outputBufferState st |}).

End AudioDriver.

(** ** Filter/Src/biquad.c: coefficient calculation and filter chains *)
Module BiquadSetup.

(** [BiquadType_t] of biquad.h; [BIQUAD_TYPE_OTHER] stands for the values
    that reach [default]. *)
Inductive BiquadType_t :=
| BIQUAD_TYPE_LPF
| BIQUAD_TYPE_HPF
| BIQUAD_TYPE_BPF
| BIQUAD_TYPE_NOTCH
| BIQUAD_TYPE_PEAK
| BIQUAD_TYPE_LOWSHELF
| BIQUAD_TYPE_HIGHSHELF
| BIQUAD_TYPE_OTHER.

(** [BiquadConfig_t]; the field [Q] is [cfgQ] here. *)
Record BiquadConfig_t := mkBiquadConfig {
  type : BiquadType_t;
  frequency : float;
  cfgQ : float;
  gainDB : float;
  sampleRate : float
}.

Definition PI : Q := 3.14159265358979323846.

#[global] Instance biquad_state_inhabited : Inhabited Biquad.BiquadState_t :=
  populate (Biquad.mkBiquadState 0 0 0 0 0 0 0 0 0).

Section WithLibM.
Variable M : LibM.

(** The five coefficients that the [switch] of
    [Biquad_CalculateCoefficients] stores, before the division by [a0]. *)
Definition raw_coefficients (config : BiquadConfig_t)
  (cosOmega alpha : float) : float * float * float * float * float :=
  match type config with
  | BIQUAD_TYPE_LPF =>
      ((1 - cosOmega) / 2, 1 - cosOmega, (1 - cosOmega) / 2,
       -2 * cosOmega, 1 - alpha)
  | BIQUAD_TYPE_HPF =>
      ((1 + cosOmega) / 2, - (1 + cosOmega), (1 + cosOmega) / 2,
       -2 * cosOmega, 1 - alpha)
  | BIQUAD_TYPE_BPF => (alpha, 0, - alpha, -2 * cosOmega, 1 - alpha)
  | BIQUAD_TYPE_NOTCH => (1, -2 * cosOmega, 1, -2 * cosOmega, 1 - alpha)
  | BIQUAD_TYPE_PEAK =>
      let A := powf M 10 (gainDB config / 40) in
      (1 + alpha * A, -2 * cosOmega, 1 - alpha * A,
       -2 * cosOmega, 1 - alpha / A)
  | BIQUAD_TYPE_LOWSHELF =>
      let A := powf M 10 (gainDB config / 40) in
      let sqrtA := sqrtf M A in
      let beta := 2 * sqrtA * alpha in
      (A * ((A + 1) - (A - 1) * cosOmega + beta),
       2 * A * ((A - 1) - (A + 1) * cosOmega),
       A * ((A + 1) - (A - 1) * cosOmega - beta),
       -2 * ((A - 1) + (A + 1) * cosOmega),
       (A + 1) + (A - 1) * cosOmega - beta)
  | BIQUAD_TYPE_HIGHSHELF =>
      let A := powf M 10 (gainDB config / 40) in
      let sqrtA := sqrtf M A in
      let beta := 2 * sqrtA * alpha in
      (A * ((A + 1) + (A - 1) * cosOmega + beta),
       -2 * A * ((A - 1) + (A + 1) * cosOmega),
       A * ((A + 1) + (A - 1) * cosOmega - beta),
       2 * ((A - 1) - (A + 1) * cosOmega),
       (A + 1) - (A - 1) * cosOmega - beta)
  | BIQUAD_TYPE_OTHER => (1, 0, 0, 0, 0)
  end.

(** [Biquad_CalculateCoefficients]: the state with its new coefficients;
    the history is not touched. *)
Definition Biquad_CalculateCoefficients (state : Biquad.BiquadState_t)
  (config : BiquadConfig_t) : Biquad.BiquadState_t :=
  if Qle_bool (sampleRate config) 0 then state
  else
    let omega := 2 * PI * frequency config / sampleRate config in
    let sinOmega := sinf M omega in
    let cosOmega := cosf M omega in
    let alpha := sinOmega / (2 * cfgQ config) in
    let '(b0, b1, b2, a1, a2) := raw_coefficients config cosOmega alpha in
    let a0 := 1 + alpha in
    {| Biquad.b0 := b0 / a0; Biquad.b1 := b1 / a0; Biquad.b2 := b2 / a0;
       Biquad.a1 := a1 / a0; Biquad.a2 := a2 / a0;
       Biquad.x1 := Biquad.x1 state; Biquad.x2 := Biquad.x2 state;
       Biquad.y1 := Biquad.y1 state; Biquad.y2 := Biquad.y2 state |}.

(** [Biquad_Init] *)
Definition Biquad_Init (state : Biquad.BiquadState_t)
  (config : BiquadConfig_t) : Biquad.BiquadState_t :=
  Biquad_CalculateCoefficients (Biquad.Biquad_Reset state) config.

(** The configuration that [Biquad_CreateFilterChain] hands to every
    stage: the base configuration, with the Q of the "simplified"
    Butterworth adjustment when there is more than one stage.  [order] is
    a [uint8_t] and [order * 2.0f] is computed in [float]. *)
Definition stage_config (config : BiquadConfig_t) (order : Z)
  : BiquadConfig_t :=
  let numStages := ((order + 1) / 2)%Z in
  if (1 <? numStages)%Z then
    {| type := type config; frequency := frequency config;
       cfgQ := 1 / (2 * sinf M (PI / (inject_Z order * 2)));
       gainDB := gainDB config; sampleRate := sampleRate config |}
  else config.

(** [Biquad_CreateFilterChain]: the number of stages and the chain.  A
    store behind the end of [chain] is undefined behaviour in C; the model
    reports it as [None]. *)
Definition Biquad_CreateFilterChain (chain : list Biquad.BiquadState_t)
  (config : BiquadConfig_t) (order : Z)
  : option (Z * list Biquad.BiquadState_t) :=
  let numStages := ((order + 1) / 2)%Z in
  let stageConfig := stage_config config order in
  match
    foldl (fun acc i =>
             match acc with
             | None => None
             | Some ch =>
                 match ch !! i with
                 | None => None
                 | Some s => Some (<[i := Biquad_Init s stageConfig]> ch)
                 end
             end)
          (Some chain) (seq 0 (Z.to_nat numStages))
  with
  | None => None
  | Some chain' => Some (numStages, chain')
  end.

End WithLibM.

End BiquadSetup.

(** ** Filter/Src/filter_design.c: crossover pairs and the sample routine *)
Module FilterDesignPairs.

(** [GetDefaultQ]; [order] is a [uint8_t]. *)
Definition GetDefaultQ (filterResponse : FilterDesign.FilterResponse_t)
  (order : Z) : float :=
  match filterResponse with
  | FilterDesign.FILTER_RESPONSE_BUTTERWORTH => 0.7071
  | FilterDesign.FILTER_RESPONSE_LINKWITZ_RILEY =>
      if (order =? 2)%Z then 0.5
      else if (order =? 4)%Z then 0.7071
      else if (order =? 8)%Z then 0.871
      else 0.7071
  | FilterDesign.FILTER_RESPONSE_BESSEL => 0.5
  | FilterDesign.FILTER_RESPONSE_MAX => 0.7071
  end.

(** [FilterDesign_CreateCrossover]; a filter pointer is [None] when it is
    null.  The result carries the status and the two structs. *)
Definition FilterDesign_CreateCrossover (M : LibM)
  (lpFilter hpFilter : option FilterDesign.FilterCoefficients_t)
  (freq : float) (filterResponse : FilterDesign.FilterResponse_t)
  (order : Z) (sampleFreq : float)
  : FilterDesign.FilterDesignStatus
    * option FilterDesign.FilterCoefficients_t
    * option FilterDesign.FilterCoefficients_t :=
  match lpFilter, hpFilter with
  | Some lp, Some hp =>
      if Qle_bool freq 0 || Qle_bool sampleFreq 0 then
        (FilterDesign.FILTER_DESIGN_ERROR_PARAMS, lpFilter, hpFilter)
      else
        let '(status, lp') :=
          FilterDesign.FilterDesign_Create M lp
            FilterDesign.FILTER_TYPE_LOWPASS freq
            (GetDefaultQ filterResponse order) 0 sampleFreq in
        match status with
        | FilterDesign.FILTER_DESIGN_SUCCESS =>
            let '(status, hp') :=
              FilterDesign.FilterDesign_Create M hp
                FilterDesign.FILTER_TYPE_HIGHPASS freq
                (GetDefaultQ filterResponse order) 0 sampleFreq in
            (status, Some lp', Some hp')
        | _ => (status, Some lp', hpFilter)
        end
  | _, _ => (FilterDesign.FILTER_DESIGN_ERROR_PARAMS, lpFilter, hpFilter)
  end.

(** [FilterState_t] as the file uses it: [x[0]], [x[1]], [y[0]], [y[1]]. *)
Record FilterState_t := mkFilterState {
  x_0 : float; x_1 : float; y_0 : float; y_1 : float
}.

(** [FilterDesign_ResetState] *)
Definition FilterDesign_ResetState (state : FilterState_t) : FilterState_t :=
  {| x_0 := 0; x_1 := 0; y_0 := 0; y_1 := 0 |}.

(** [FilterDesign_ProcessSample]: the difference equation
    [y[n] = b0*x[n] + b1*x[n-1] + b2*x[n-2] - a1*y[n-1] - a2*y[n-2]]. *)
Definition FilterDesign_ProcessSample (state : FilterState_t)
  (coeffs : FilterDesign.FilterCoefficients_t) (input : float)
  : float * FilterState_t :=
  let output :=
    FilterDesign.b_0 coeffs * input + FilterDesign.b_1 coeffs * x_0 state
    + FilterDesign.b_2 coeffs * x_1 state
    - FilterDesign.a_1 coeffs * y_0 state
    - FilterDesign.a_2 coeffs * y_1 state in
  (output,
   {| x_0 := input; x_1 := x_0 state; y_0 := output; y_1 := y_0 state |}).

End FilterDesignPairs.

(** ** Filter/Src/filter_design.c: the sample routine on a stream *)
Module FilterDesignStream.

(** [FilterDesign_ProcessSample] called on the samples of a stream in
    turn, with the state it left behind the last time; the file has no
    block form of the routine. *)
Fixpoint FilterDesign_ProcessSamples
  (coeffs : FilterDesign.FilterCoefficients_t)
  (state : FilterDesignPairs.FilterState_t) (input : list float)
  : list float * FilterDesignPairs.FilterState_t :=
  match input with
  | [] => ([], state)
  | x :: rest =>
      let '(y, state') :=
        FilterDesignPairs.FilterDesign_ProcessSample state coeffs x in
      let '(ys, state'') := FilterDesign_ProcessSamples coeffs state' rest in
      (y :: ys, state'')
  end.

(** A [BiquadState_t] that carries the coefficients of a
    [FilterCoefficients_t] ([a[0]] has no counterpart) and the history of
    [state]. *)
Definition biquad_of (coeffs : FilterDesign.FilterCoefficients_t)
  (state : Biquad.BiquadState_t) : Biquad.BiquadState_t :=
  {| Biquad.b0 := FilterDesign.b_0 coeffs;
     Biquad.b1 := FilterDesign.b_1 coeffs;
     Biquad.b2 := FilterDesign.b_2 coeffs;
     Biquad.a1 := FilterDesign.a_1 coeffs;
     Biquad.a2 := FilterDesign.a_2 coeffs;
     Biquad.x1 := Biquad.x1 state; Biquad.x2 := Biquad.x2 state;
     Biquad.y1 := Biquad.y1 state; Biquad.y2 := Biquad.y2 state |}.

End FilterDesignStream.

(** ** DSP/Src/compressor_proc.c: initialisation, parameters, metering *)
Module CompressorSetup.

Import Compressor.

Section WithLibM.
Variable M : LibM.

(** The coefficient [e^(-1/(sampleRate * time))] of
    [Compressor_UpdateParameters], zero for a time of at most 0.1 ms. *)
Definition time_coefficient (time_ms : float) : float :=
  if Qle_bool time_ms 0.1 then 0
  else expf M (-1 / (inject_Z AUDIO_SAMPLE_RATE * time_ms / 1000)).

Definition Compressor_UpdateParameters (st : State) (channel : nat) : State :=
  if decide (AUDIO_OUTPUT_CHANNELS <= channel)%nat then st
  else
    alter (fun c =>
             {| params := params c; envelope_db := envelope_db c;
                currentGain := currentGain c; prevGainDb := prevGainDb c;
                rmsValue := rmsValue c;
                attackCoeff := time_coefficient (attackTime_ms (params c));
                releaseCoeff := time_coefficient (releaseTime_ms (params c));
                stats := stats c;
                rmsBuffer := rmsBuffer c;
                rmsBufferIndex := rmsBufferIndex c |})
          channel st.

(** [Compressor_SetParameters]; [p] is [None] for a null pointer. *)
Definition Compressor_SetParameters (st : State) (channel : nat)
  (p : option CompressorParameters_TypeDef) : State :=
  match p with
  | None => st
  | Some p =>
      if decide (AUDIO_OUTPUT_CHANNELS <= channel)%nat then st
      else
        let st :=
          alter (fun c =>
                   {| params := p; envelope_db := envelope_db c;
                      currentGain := currentGain c;
                      prevGainDb := prevGainDb c;
                      rmsValue := rmsValue c; attackCoeff := attackCoeff c;
                      releaseCoeff := releaseCoeff c; stats := stats c;
                      rmsBuffer := rmsBuffer c;
                      rmsBufferIndex := rmsBufferIndex c |})
                channel st in
        Compressor_UpdateParameters st channel
  end.

(** [Compressor_GetParameters]: the struct behind [p] after the call. *)
Definition Compressor_GetParameters (st : State) (channel : nat)
  (p : option CompressorParameters_TypeDef)
  : option CompressorParameters_TypeDef :=
  match p with
  | None => None
  | Some _ =>
      if decide (AUDIO_OUTPUT_CHANNELS <= channel)%nat then p
      else Some (params (st !!! channel))
  end.

(** [Compressor_GetStatistics]: the struct behind [s] after the call. *)
Definition Compressor_GetStatistics (st : State) (channel : nat)
  (s : option CompressorStatistics_TypeDef)
  : option CompressorStatistics_TypeDef :=
  match s with
  | None => None
  | Some _ =>
      if decide (AUDIO_OUTPUT_CHANNELS <= channel)%nat then s
      else Some (stats (st !!! channel))
  end.

(** The parameters that [Compressor_Init] writes into every channel. *)
Definition default_parameters : CompressorParameters_TypeDef :=
  {| enabled := false; threshold_db := -20; ratio := 4;
     attackTime_ms := 20; releaseTime_ms := 200; makeupGain_db := 0;
     kneeWidth_db := 6; useSoftKnee := true; useRMS := true |}.

(** [Compressor_Init]: the loop over the output channels. *)
Definition Compressor_Init (st : State) : State :=
  foldl (fun st channel =>
           let st :=
             alter (fun c =>
                      {| params := default_parameters;
                         envelope_db := COMP_ENVELOPE_INIT;
                         currentGain := 1; prevGainDb := 0; rmsValue := 0;
                         attackCoeff := attackCoeff c;
                         releaseCoeff := releaseCoeff c; stats := stats c;
                         rmsBuffer := replicate COMP_RMS_WINDOW_SIZE 0;
                         rmsBufferIndex := 0 |})
                   channel st in
           Compressor_UpdateParameters st channel)
        st (seq 0 AUDIO_OUTPUT_CHANNELS).

(** The body shared by [Compressor_Reset] and [Compressor_ResetChannel]. *)
Definition reset_channel (c : CompressorState_TypeDef)
  : CompressorState_TypeDef :=
  {| params := params c; envelope_db := COMP_ENVELOPE_INIT;
     currentGain := 1; prevGainDb := 0; rmsValue := 0;
     attackCoeff := attackCoeff c; releaseCoeff := releaseCoeff c;
     stats := {| gainReduction_db := 0; inputLevel_db := 0;
                 outputLevel_db := 0 |};
     rmsBuffer := replicate COMP_RMS_WINDOW_SIZE 0;
     rmsBufferIndex := 0 |}.

Definition Compressor_Reset (st : State) : State :=
  foldl (fun st channel => alter reset_channel channel st)
        st (seq 0 AUDIO_OUTPUT_CHANNELS).

Definition Compressor_ResetChannel (st : State) (channel : nat) : State :=
  if decide (AUDIO_OUTPUT_CHANNELS <= channel)%nat then st
  else alter reset_channel channel st.

Definition Compressor_GetCompressionFactor (st : State) (channel : nat)
  : float :=
  if decide (AUDIO_OUTPUT_CHANNELS <= channel)%nat then 0
  else if negb (enabled (params (st !!! channel))) then 0
  else
    let reduction_db := gainReduction_db (stats (st !!! channel)) in
    let factor := reduction_db / 20 in
    CLAMP factor 0 1.

End WithLibM.

End CompressorSetup.

(** ** DSP/Inc/limiter.h: the switches in front of the limiter *)
Module DSPLimiter.

(** Modelled from the spec: limiter.h declares [DSP_Limiter_Process],
    [DSP_Limiter_Enable] ("Enable or disable limiter") and
    [DSP_Limiter_Bypass] ("Bypass limiter (pass through)"), main.c calls
    the first once for every output channel, and no file of the sources
    defines any of them.  Their two flags are those of
    [LimiterState_TypeDef] in limiter_types.h, "Bypass flag (1 =
    bypassed)" and "Enabled flag (1 = enabled)"; the other fields of that
    struct are read by no definition here and are left out. *)
Record LimiterState_TypeDef := mkFlags {
  bypass : bool;
  enabled : bool
}.

(** [AudioBuffer_TypeDef] of audio_config.h. *)
Record AudioBuffer_TypeDef := mkAudioBuffer {
  samples : list (list float);
  position : Z;
  bufferHalf : Z
}.

(** The flags of the output channels, next to the file-scope state of
    limiter_proc.c. *)
Record State := mkState {
  limiterFlags : list LimiterState_TypeDef;
  limiter : Limiter.State
}.

#[global] Instance flags_inhabited : Inhabited LimiterState_TypeDef :=
  populate (mkFlags false true).

(** Modelled from the spec: [DSP_Limiter_Bypass] stores the bypass flag of
    one output channel and refuses a channel that does not exist. *)
Definition DSP_Limiter_Bypass (st : State) (outputChannel : nat)
  (bypassFlag : bool) : HAL_StatusTypeDef * State :=
  if decide (AUDIO_OUTPUT_CHANNELS <= outputChannel)%nat then (HAL_ERROR, st)
  else
    (HAL_OK,
     {| limiterFlags :=
          alter (fun f => {| bypass := bypassFlag; enabled := enabled f |})
                outputChannel (limiterFlags st);
        limiter := limiter st |}).

(** Modelled from the spec: [DSP_Limiter_Enable] stores the enable flag of
    one output channel and refuses a channel that does not exist. *)
Definition DSP_Limiter_Enable (st : State) (outputChannel : nat)
  (enableFlag : bool) : HAL_StatusTypeDef * State :=
  if decide (AUDIO_OUTPUT_CHANNELS <= outputChannel)%nat then (HAL_ERROR, st)
  else
    (HAL_OK,
     {| limiterFlags :=
          alter (fun f => {| bypass := bypass f; enabled := enableFlag |})
                outputChannel (limiterFlags st);
        limiter := limiter st |}).

Section WithLibM.
Variable M : LibM.
Variable LIMITER_MAX_LOOKAHEAD : Z.
Variable DB_TO_LINEAR : float -> float.

(** Modelled from the spec: [DSP_Limiter_Process] on one output channel of
    the buffer.  A channel that is bypassed or not enabled is handed back
    as it came and the limiter is not run, which is what the identity
    bypass of the spec asks of every module; otherwise the channel's row
    goes through [Limiter_ProcessBlock] of limiter_proc.c, the only
    processing entry point of the limiter in the sources. *)
Definition DSP_Limiter_Process (st : State) (outputChannel : nat)
  (pAudioBuffer : AudioBuffer_TypeDef) : State * AudioBuffer_TypeDef :=
  let f := limiterFlags st !!! outputChannel in
  if bypass f || negb (enabled f) then (st, pAudioBuffer)
  else
    let row := samples pAudioBuffer !!! outputChannel in
    let '(_, lim, out) :=
      Limiter.Limiter_ProcessBlock M LIMITER_MAX_LOOKAHEAD DB_TO_LINEAR
        (limiter st) outputChannel (Some row) (length row) in
    ({| limiterFlags := limiterFlags st; limiter := lim |},
     match out with
     | Some row' =>
         {| samples := <[outputChannel := row']> (samples pAudioBuffer);
            position := position pAudioBuffer;
            bufferHalf := bufferHalf pAudioBuffer |}
     | None => pAudioBuffer
     end).

End WithLibM.

End DSPLimiter.


(** ** Sample data

    Concrete configurations and states on which the statements below are
    run.  [libm_sample] stands in for libm where a closed term needs one;
    no fact shown on it depends on the values it returns. *)

Definition libm_sample : LibM :=
  mkLibM (fun x => x) (fun _ => 1) (fun _ _ => 1) (fun x => x)
         (fun _ => 1) (fun _ => 0) (fun _ => 0) (fun x => x).

(** A limiter with threshold 0.5 (-6 dB), hard knee, no inter-sample
    protection and no lookahead, before and after [Limiter_Init]. *)
Definition limiter_config_sample : Limiter.Limiter_TypeDef :=
  Limiter.mkConfig 0.5 0 0.1 50 0 false false false.
Definition limiter_blank : Limiter.State :=
  Limiter.mkState (replicate 4 inhabitant) false
                  (replicate 4 limiter_config_sample).
Definition limiter_ready (L : Z) : Limiter.State :=
  (Limiter.Limiter_Init L limiter_blank 0).2.

(** A delay system for 4 channels at 48 kHz with 20 ms of buffer, channel
    0 configured for 1 ms (48 samples) and enabled. *)
Definition malloc_sample (n : nat) : option (list float) :=
  Some (replicate n (0 : float)).
Definition delay_blank : Delay.State :=
  Delay.mkState (replicate 4 inhabitant) false 1
                Delay.DELAY_INTERPOLATION_LINEAR.
Definition delay_initialised : Delay.State :=
  (Delay.Delay_Init 4 malloc_sample delay_blank
                    (Some (Delay.mkDelayConfig 48000 20))).2.
Definition delay_ready : Delay.State :=
  (Delay.Delay_ConfigChannel 4 343 delay_initialised 0
     (Some (Delay.mkChannelConfig true Delay.DELAY_UNIT_MS false 1))).2.

(** An equaliser with every band at its default (bell, 1 kHz, 0 dB,
    disabled) and cleared biquads. *)
Definition peq_sample : PEQ.State :=
  PEQ.mkState
    (replicate 4 (replicate 5 (PEQ.mkPEQBand PEQ.PEQ_TYPE_BELL 1000 0 1.414
                                             false)))
    (replicate 4 (replicate 5 inhabitant)).

(** An output stage that is running, at unity gain, with channel 1 muted
    and an empty DMA buffer of 512 words; a routing matrix with channel 1
    muted; and frames of 64 samples. *)
Definition driver_sample : AudioDriver.State :=
  AudioDriver.mkState AudioDriver.AUDIO_STATE_RUNNING
    [1; 1] [1; 1; 1; 1] [false; false] [false; true; false; false]
    (replicate 512 0%Z) AudioDriver.BUFFER_HALF.
Definition driver_frame : AudioDriver.AudioBuffer_TypeDef :=
  AudioDriver.mkAudioBuffer (replicate 4 (replicate 128 (3 # 2))).
Definition routing_sample : AudioRouting.AudioRouting_TypeDef :=
  AudioRouting.mkRouting
    [AudioRouting.AUDIO_SOURCE_IN1; AudioRouting.AUDIO_SOURCE_IN2;
     AudioRouting.AUDIO_SOURCE_IN1; AudioRouting.AUDIO_SOURCE_IN2]
    [0.5; 0.5; 0.5; 0.5] [1; 1] [false; true; false; false]
    [false; false] false.
Definition routing_input : AudioRouting.AudioBuffer_TypeDef :=
  AudioRouting.mkAudioBuffer (replicate 2 (replicate 64 (1 # 2))) 64.
Definition routing_output : AudioRouting.AudioBuffer_TypeDef :=
  AudioRouting.mkAudioBuffer (replicate 4 (replicate 64 (1 # 3))) 64.

(** A band request with every value out of range: 5 Hz, +20 dB, Q 50. *)
Definition peq_band_sample : PEQ.PEQBand_TypeDef :=
  PEQ.mkPEQBand PEQ.PEQ_TYPE_BELL 5 20 50 true.

(** A crossover whose stages are the biquads of biquad.c, loaded with
    pass-through coefficients by every designer; four channels, Linkwitz-
    Riley low-pass at 80 Hz, order 4. *)
Definition biquad_ops_sample : Crossover.BiquadOps :=
  {| Crossover.BiquadFilter_TypeDef := Biquad.BiquadState_t;
     Crossover.BiquadCoeff_TypeDef := Biquad.BiquadState_t;
     Crossover.Biquad_Init := fun _ c => Biquad.Biquad_Reset c;
     Crossover.Biquad_Reset := Biquad.Biquad_Reset;
     Crossover.Biquad_Process := Biquad.Biquad_ProcessSample;
     Crossover.Butterworth_LowPass :=
       fun _ _ _ _ => Biquad.mkBiquadState 1 0 0 0 0 0 0 0 0;
     Crossover.Butterworth_HighPass :=
       fun _ _ _ _ => Biquad.mkBiquadState 1 0 0 0 0 0 0 0 0;
     Crossover.LinkwitzRiley_LowPass :=
       fun _ _ _ _ => Biquad.mkBiquadState 1 0 0 0 0 0 0 0 0;
     Crossover.LinkwitzRiley_HighPass :=
       fun _ _ _ _ => Biquad.mkBiquadState 1 0 0 0 0 0 0 0 0;
     Crossover.Bessel_LowPass :=
       fun _ _ _ _ => Biquad.mkBiquadState 1 0 0 0 0 0 0 0 0;
     Crossover.Bessel_HighPass :=
       fun _ _ _ _ => Biquad.mkBiquadState 1 0 0 0 0 0 0 0 0;
     Crossover.uninitialised_coeffs :=
       Biquad.mkBiquadState 0 0 0 0 0 0 0 0 0;
     Crossover.blank_stage := Biquad.mkBiquadState 0 0 0 0 0 0 0 0 0;
     Crossover.Audio_GetSampleRate := 48000 |}.

Definition crossover_chain_sample
  : @Crossover.FilterChain_TypeDef biquad_ops_sample :=
  Crossover.mkFilterChain
    (replicate 8 (@Crossover.blank_stage biquad_ops_sample)) 0 1.
Definition crossover_sample : @Crossover.State biquad_ops_sample :=
  Crossover.mkState
    (replicate 4 (Crossover.mkCrossoverConfig
                    Crossover.CROSSOVER_TYPE_LINKWITZ_RILEY
                    Crossover.CROSSOVER_MODE_LOWPASS 80 2500 4))
    (replicate 4 crossover_chain_sample) (replicate 4 crossover_chain_sample)
    (replicate 4 crossover_chain_sample) (replicate 4 crossover_chain_sample).

(** A crossover whose channels are all in full-range mode, a compressor
    whose channels are all disabled, and an equaliser frame of two
    samples per channel. *)
Definition crossover_fullrange_sample : @Crossover.State biquad_ops_sample :=
  Crossover.mkState
    (replicate 4 (Crossover.mkCrossoverConfig
                    Crossover.CROSSOVER_TYPE_LINKWITZ_RILEY
                    Crossover.CROSSOVER_MODE_FULLRANGE 80 2500 4))
    (replicate 4 crossover_chain_sample) (replicate 4 crossover_chain_sample)
    (replicate 4 crossover_chain_sample) (replicate 4 crossover_chain_sample).
Definition compressor_sample : Compressor.State := replicate 4 inhabitant.
Definition peq_frame_sample : PEQ.AudioBuffer_TypeDef :=
  PEQ.mkAudioBuffer (replicate 4 [0.5; -0.25]) 2.

(** A filter bank of four sections, and a Bessel designer that declines. *)
Definition filter_bank_sample : FilterDesign.FilterBank :=
  replicate 4 FilterDesign.neutral_coeffs.
Definition bessel_sample (bank : FilterDesign.FilterBank) (numFilters : Z)
  (ty : FilterDesign.FilterType_t) (freq : float) (order : Z)
  (sampleFreq : float)
  : option (FilterDesign.FilterDesignStatus * FilterDesign.FilterBank) :=
  None.

(** A low-pass configuration at 1 kHz and 48 kHz, the same with a sample
    rate of zero, a biquad with some history, and a chain of four of them. *)
Definition biquad_config_sample : BiquadSetup.BiquadConfig_t :=
  BiquadSetup.mkBiquadConfig BiquadSetup.BIQUAD_TYPE_LPF 1000 0.7071 0 48000.
Definition biquad_config_bad : BiquadSetup.BiquadConfig_t :=
  BiquadSetup.mkBiquadConfig BiquadSetup.BIQUAD_TYPE_LPF 1000 0.7071 0 0.
Definition biquad_state_sample : Biquad.BiquadState_t :=
  Biquad.mkBiquadState 1 0.5 0.25 (-0.5) 0.125 0.5 0.5 0.25 (-0.25).
Definition biquad_chain_sample : list Biquad.BiquadState_t :=
  replicate 4 biquad_state_sample.

(** The same crossover with every channel in band-pass mode, 80 Hz to
    2.5 kHz. *)
Definition crossover_bandpass_sample : @Crossover.State biquad_ops_sample :=
  Crossover.mkState
    (replicate 4 (Crossover.mkCrossoverConfig
                    Crossover.CROSSOVER_TYPE_LINKWITZ_RILEY
                    Crossover.CROSSOVER_MODE_BANDPASS 80 2500 4))
    (replicate 4 crossover_chain_sample) (replicate 4 crossover_chain_sample)
    (replicate 4 crossover_chain_sample) (replicate 4 crossover_chain_sample).

(** A compressor after [Compressor_Init] with channel 0 enabled, and a
    frame of two samples per channel for it. *)
Definition compressor_ready : Compressor.State :=
  Compressor.Compressor_SetEnabled
    (CompressorSetup.Compressor_Init libm_sample compressor_sample) 0 true.
Definition compressor_frame_sample : Compressor.AudioBuffer_TypeDef :=
  Compressor.mkAudioBuffer (replicate 4 [0.5; -0.25]) 2.
Definition compressor_params_sample : Compressor.CompressorParameters_TypeDef :=
  Compressor.mkParams true (-12) 8 0.05 100 3 0 false false.

(** A block of three samples for the delay line. *)
Definition delay_block_sample : list float := [0.5; -0.25; 1].

(** The delay system after that block went through channel 0. *)
Definition delay_used : Delay.State :=
  match Delay.Delay_Process 4 1 delay_ready 0 (Some delay_block_sample) 3 with
  | Some (_, st, _) => st
  | None => delay_ready
  end.

(** The limiter of [limiter_ready] behind its switches, every channel
    enabled and none bypassed, and a buffer whose channel 0 holds a sample
    above full scale. *)
Definition dsp_limiter_sample : DSPLimiter.State :=
  DSPLimiter.mkState (replicate 4 (DSPLimiter.mkFlags false true))
                     (limiter_ready 0).
Definition dsp_limiter_frame : DSPLimiter.AudioBuffer_TypeDef :=
  DSPLimiter.mkAudioBuffer [[2; 0.25]; [0; 0]; [0; 0]; [0; 0]] 0 0.

(** The same limiter after [DSP_Limiter_Bypass] has bypassed channel 0. *)
Definition dsp_limiter_bypassed : DSPLimiter.State :=
  (DSPLimiter.DSP_Limiter_Bypass dsp_limiter_sample 0 true).2.

(** A bank of a single section. *)
Definition filter_bank_single : FilterDesign.FilterBank :=
  replicate 1 FilterDesign.neutral_coeffs.


(** * Properties *)

(** ** Comparisons and the hard limit *)

Lemma Qltb_true (x y : Q) : Qltb x y = true <-> x < y.
Proof.
  unfold Qltb. rewrite negb_true_iff. split.
  - intros H. apply Qnot_le_lt. intros Hle.
    apply Qle_bool_iff in Hle. congruence.
  - intros H. destruct (Qle_bool y x) eqn:E; [|reflexivity].
    apply Qle_bool_iff in E. exfalso. exact (Qlt_not_le _ _ H E).
Qed.

Lemma Qltb_false (x y : Q) : Qltb x y = false <-> y <= x.
Proof.
  unfold Qltb. rewrite negb_false_iff. apply Qle_bool_iff.
Qed.

Lemma Qle_bool_false (x y : Q) : Qle_bool x y = false <-> y < x.
Proof.
  split.
  - intros H. apply Qnot_le_lt. intros Hle.
    apply Qle_bool_iff in Hle. congruence.
  - intros H. destruct (Qle_bool x y) eqn:E; [|reflexivity].
    apply Qle_bool_iff in E. exfalso. exact (Qlt_not_le _ _ H E).
Qed.

(** Case analysis on a float comparison, with the order fact in context. *)
Ltac case_Qltb x y :=
  let E := fresh "E" in
  destruct (Qltb x y) eqn:E;
  [apply Qltb_true in E | apply Qltb_false in E].

Lemma hard_clip_bounds (x : Q) :
  let y := if Qltb 1 x then 1 else x in
  let z := if Qltb y (-1) then -1 else y in
  -1 <= z <= 1.
Proof.
  cbv zeta. case_Qltb 1 x.
  - case_Qltb 1 (-1); lra.
  - case_Qltb x (-1); lra.
Qed.

Lemma CLAMP_bounds (x lo hi : Q) :
  lo <= hi -> lo <= AudioDriver.CLAMP x lo hi <= hi.
Proof.
  intros H. unfold AudioDriver.CLAMP, Compressor.MIN, Compressor.MAX.
  case_Qltb lo x.
  - case_Qltb x hi; lra.
  - case_Qltb lo hi; lra.
Qed.

Lemma for_samples_zero {S : Type} (f : S -> float -> float * S) (st : S)
  (data : list float) :
  for_samples f 0 st data = (data, st).
Proof. destruct data; reflexivity. Qed.

Lemma for_samples_length {S : Type} (f : S -> float -> float * S) (n : nat)
  (st : S) (data : list float) :
  length (for_samples f n st data).1 = length data.
Proof.
  revert st data. induction n as [|n IH]; intros st data.
  - rewrite for_samples_zero. reflexivity.
  - destruct data as [|x rest]; [reflexivity|]. simpl.
    destruct (f st x) as [y st'].
    specialize (IH st' rest).
    destruct (for_samples f n st' rest) as [ys st'']. simpl in *.
    now rewrite IH.
Qed.

(** Every sample that the loop has walked satisfies what the step
    guarantees of its result. *)
Lemma for_samples_Forall {S : Type} (f : S -> float -> float * S)
  (P : float -> Prop) (n : nat) (st : S) (data : list float) :
  (forall s x, P (f s x).1) ->
  Forall P (take n (for_samples f n st data).1).
Proof.
  intros Hf. revert st data. induction n as [|n IH]; intros st data.
  - rewrite take_0. constructor.
  - destruct data as [|x rest]; [simpl; constructor|]. simpl.
    pose proof (Hf st x) as Hx.
    destruct (f st x) as [y st'].
    specialize (IH st' rest).
    destruct (for_samples f n st' rest) as [ys st'']. simpl in *.
    constructor; assumption.
Qed.

(** ** Biquad *)

(** C2.  One call of the per-sample process of the biquad computes
    [w = input - a1*y1 - a2*y2] and [output = b0*w + b1*y1 + b2*y2], then
    shifts the history ([y2 = y1; y1 = w]); the coefficients and the two
    other history values are left as they were. *)
Theorem Biquad_ProcessSample_direct_form_II
  (state : Biquad.BiquadState_t) (input : float) :
  let w := Biquad.spec_w (Biquad.a1 state) (Biquad.a2 state)
                         (Biquad.y1 state) (Biquad.y2 state) input in
  let output := (Biquad.Biquad_ProcessSample state input).1 in
  let state' := (Biquad.Biquad_ProcessSample state input).2 in
  output = Biquad.spec_output (Biquad.b0 state) (Biquad.b1 state)
                              (Biquad.b2 state) w
                              (Biquad.y1 state) (Biquad.y2 state)
  /\ Biquad.y2 state' = Biquad.y1 state
  /\ Biquad.y1 state' = w
  /\ Biquad.x1 state' = Biquad.x1 state
  /\ Biquad.x2 state' = Biquad.x2 state
  /\ Biquad.b0 state' = Biquad.b0 state
  /\ Biquad.b1 state' = Biquad.b1 state
  /\ Biquad.b2 state' = Biquad.b2 state
  /\ Biquad.a1 state' = Biquad.a1 state
  /\ Biquad.a2 state' = Biquad.a2 state.
Proof.
  cbv zeta. unfold Biquad.Biquad_ProcessSample, Biquad.Biquad_DirectFormII,
    Biquad.spec_w, Biquad.spec_output. simpl.
  repeat split; reflexivity.
Qed.

(** ** Limiter and output stage: range of the samples *)

Lemma Limiter_ProcessSample_bounds (M : LibM) (L : Z) (D : float -> float)
  (cfg : Limiter.Limiter_TypeDef) (s : Limiter.LimiterState_Internal)
  (x : float) :
  -1 <= (Limiter.Limiter_ProcessSample M L D cfg s x).1 <= 1.
Proof.
  unfold Limiter.Limiter_ProcessSample.
  destruct (Limiter.Limiter_ProcessLookahead L cfg s _) as [p s1].
  destruct (Limiter.Limiter_CalculateGainReduction M D cfg _ _) as [g s2].
  simpl. apply hard_clip_bounds.
Qed.

Lemma Qtrunc_bounds (x : Q) (a : Z) :
  (0 <= a)%Z -> - inject_Z a <= x <= inject_Z a ->
  (- a <= Qtrunc x <= a)%Z.
Proof.
  intros Ha [Hlo Hhi]. unfold Qtrunc.
  destruct x as [n d]. unfold Qle in Hlo, Hhi. simpl in *.
  assert (Hd : (0 < Z.pos d)%Z) by lia.
  destruct (Z.le_gt_cases 0 n) as [Hn|Hn].
  - rewrite Z.quot_div_nonneg by lia. split.
    + pose proof (Z.div_pos n (Z.pos d)). lia.
    + apply Z.div_le_upper_bound; lia.
  - assert (Hq : (n ÷ Z.pos d = - ((- n) ÷ Z.pos d))%Z).
    { rewrite Z.quot_opp_l by lia. lia. }
    rewrite Hq. rewrite Z.quot_div_nonneg by lia. split.
    + assert ((- n) / Z.pos d <= a)%Z; [|lia].
      apply Z.div_le_upper_bound; lia.
    + pose proof (Z.div_pos (- n) (Z.pos d)). lia.
Qed.

Lemma output_sample_bounds (st : AudioDriver.State)
  (buffer : AudioDriver.AudioBuffer_TypeDef) (i ch : nat) :
  -1 <= AudioDriver.output_sample st buffer i ch <= 1.
Proof.
  unfold AudioDriver.output_sample. apply CLAMP_bounds. lra.
Qed.

Lemma FLOAT_TO_INT24_bounds (x : float) :
  -1 <= x <= 1 ->
  (-8388607 <= AudioDriver.FLOAT_TO_INT24 x <= 8388607)%Z.
Proof.
  intros H. unfold AudioDriver.FLOAT_TO_INT24, AudioDriver.AUDIO_MAX_VALUE.
  apply (Qtrunc_bounds _ 8388607); [lia|].
  change (inject_Z 8388607) with 8388607. lra.
Qed.

(** The channel loop writes the four words of frame position [i] and
    nothing else. *)
Lemma prepare_position_spec (st : AudioDriver.State) (offset : nat)
  (buffer : AudioDriver.AudioBuffer_TypeDef) (dma : list Z) (idx i : nat) :
  let r := AudioDriver.prepare_position st offset buffer (dma, idx) i in
  r.2 = (idx + 4)%nat
  /\ length r.1 = length dma
  /\ (forall ch, (ch < 4)%nat -> (offset + idx + ch < length dma)%nat ->
        r.1 !! (offset + idx + ch)%nat =
        Some (AudioDriver.FLOAT_TO_INT24
                (AudioDriver.output_sample st buffer i ch)))
  /\ (forall k, (k < offset + idx \/ offset + idx + 4 <= k)%nat ->
        r.1 !! k = dma !! k).
Proof.
  cbv zeta. unfold AudioDriver.prepare_position. simpl.
  split; [lia|]. split; [now rewrite !length_insert|]. split.
  - intros ch Hch Hlen.
    destruct ch as [|[|[|[|ch]]]]; try lia.
    + rewrite !list_lookup_insert_ne by lia.
      rewrite Nat.add_0_r. apply list_lookup_insert_eq. lia.
    + rewrite !list_lookup_insert_ne by lia.
      replace (offset + idx + 1)%nat with (offset + S idx)%nat by lia.
      apply list_lookup_insert_eq. rewrite !length_insert. lia.
    + rewrite !list_lookup_insert_ne by lia.
      replace (offset + idx + 2)%nat with (offset + S (S idx))%nat by lia.
      apply list_lookup_insert_eq. rewrite !length_insert. lia.
    + replace (offset + idx + 3)%nat with (offset + S (S (S idx)))%nat by lia.
      apply list_lookup_insert_eq. rewrite !length_insert. lia.
  - intros k Hk. rewrite !list_lookup_insert_ne by lia. reflexivity.
Qed.

(** After [n] frame positions the words of the positions below [n] hold the
    converted samples. *)
Lemma prepare_frames_spec (st : AudioDriver.State) (offset : nat)
  (buffer : AudioDriver.AudioBuffer_TypeDef) (n : nat) :
  let r := foldl (AudioDriver.prepare_position st offset buffer)
                 (AudioDriver.outputDmaBuffer st, 0%nat) (seq 0 n) in
  r.2 = (4 * n)%nat
  /\ length r.1 = length (AudioDriver.outputDmaBuffer st)
  /\ (forall i ch, (i < n)%nat -> (ch < 4)%nat ->
        (offset + (4 * i + ch) < length (AudioDriver.outputDmaBuffer st))%nat ->
        r.1 !! (offset + (4 * i + ch))%nat =
        Some (AudioDriver.FLOAT_TO_INT24
                (AudioDriver.output_sample st buffer i ch))).
Proof.
  induction n as [|n IH]; cbv zeta.
  - simpl. split; [reflexivity|]. split; [reflexivity|]. intros; lia.
  - rewrite seq_S, foldl_app. cbn [foldl Nat.add].
    cbv zeta in IH. destruct IH as (Hidx & Hlen & Hval).
    destruct (foldl _ _ (seq 0 n)) as [dma idx]. cbn [fst snd] in *.
    subst idx.
    pose proof (prepare_position_spec st offset buffer dma (4 * n) n) as H.
    cbv zeta in H. destruct H as (Hidx' & Hlen' & Hnew & Hold).
    split; [lia|]. split; [congruence|].
    intros i ch Hi Hch Hb.
    destruct (decide (i = n)) as [->|Hne].
    + rewrite <- Hnew by lia. f_equal. lia.
    + rewrite Hold by lia. apply Hval; lia.
Qed.

(** The word stored for channel [ch] at frame position [i]. *)
Lemma Audio_PrepareOutputSamples_word (st : AudioDriver.State)
  (buffer : AudioDriver.AudioBuffer_TypeDef) (offset i ch : nat) :
  (i < AudioDriver.AUDIO_FRAME_SIZE)%nat ->
  (ch < AUDIO_OUTPUT_CHANNELS)%nat ->
  (offset + (4 * i + ch) < length (AudioDriver.outputDmaBuffer st))%nat ->
  AudioDriver.Audio_PrepareOutputSamples st offset buffer
    !! (offset + (4 * i + ch))%nat
  = Some (AudioDriver.FLOAT_TO_INT24
            (AudioDriver.output_sample st buffer i ch)).
Proof.
  intros Hi Hch Hroom. unfold AudioDriver.Audio_PrepareOutputSamples.
  pose proof (prepare_frames_spec st offset buffer
                AudioDriver.AUDIO_FRAME_SIZE) as H.
  cbv zeta in H. destruct H as (_ & _ & H). apply H; assumption.
Qed.

(** C1.  Every sample that the limiter produces lies in [-1, 1], whatever
    its configuration, state and input, for a single sample and for every
    sample of a processed block; and every sample of the output stage,
    after output gain and mute, is limited to [-1, 1] before it is
    converted, so that the word stored for channel [ch] at frame position
    [i] is the conversion of a value of [-1, 1] and lies within the 24-bit
    range. *)
Theorem output_samples_lie_in_unit_range
  (M : LibM) (L : Z) (D : float -> float)
  (cfg : Limiter.Limiter_TypeDef) (s : Limiter.LimiterState_Internal)
  (x : float) (data : list float) (blockSize : nat)
  (st : AudioDriver.State) (buffer : AudioDriver.AudioBuffer_TypeDef)
  (offset i ch : nat)
  (Hi : (i < AudioDriver.AUDIO_FRAME_SIZE)%nat)
  (Hch : (ch < AUDIO_OUTPUT_CHANNELS)%nat)
  (Hroom : (offset + (4 * i + ch)
            < length (AudioDriver.outputDmaBuffer st))%nat) :
  (-1 <= (Limiter.Limiter_ProcessSample M L D cfg s x).1 <= 1)
  /\ Forall (fun y => -1 <= y <= 1)
            (take blockSize
               (for_samples (Limiter.Limiter_ProcessSample M L D cfg)
                            blockSize s data).1)
  /\ (-1 <= AudioDriver.output_sample st buffer i ch <= 1)
  /\ AudioDriver.Audio_PrepareOutputSamples st offset buffer
       !! (offset + (4 * i + ch))%nat
     = Some (AudioDriver.FLOAT_TO_INT24
               (AudioDriver.output_sample st buffer i ch))
  /\ (-8388607 <= AudioDriver.FLOAT_TO_INT24
                    (AudioDriver.output_sample st buffer i ch)
      <= 8388607)%Z.
Proof.
  split; [apply Limiter_ProcessSample_bounds|].
  split; [apply for_samples_Forall; intros; apply Limiter_ProcessSample_bounds|].
  split; [apply output_sample_bounds|].
  split; [apply Audio_PrepareOutputSamples_word; assumption|].
  apply FLOAT_TO_INT24_bounds, output_sample_bounds.
Qed.

(** ** Mute *)

Lemma fill_row_spec (n : nat) (f : nat -> float) (row : list float) :
  length (AudioRouting.fill_row n f row) = length row
  /\ (forall i, (i < n)%nat -> (i < length row)%nat ->
        AudioRouting.fill_row n f row !! i = Some (f i))
  /\ (forall i, (n <= i)%nat -> AudioRouting.fill_row n f row !! i = row !! i).
Proof.
  unfold AudioRouting.fill_row. induction n as [|n IH].
  - simpl. split; [reflexivity|]. split; [intros; lia|reflexivity].
  - rewrite seq_S, foldl_app. cbn [foldl Nat.add].
    destruct IH as (Hlen & Hin & Hout).
    split; [now rewrite length_insert|]. split.
    + intros i Hi Hrow. destruct (decide (i = n)) as [->|Hne].
      * apply list_lookup_insert_eq. lia.
      * rewrite list_lookup_insert_ne by lia. apply Hin; lia.
    + intros i Hi. rewrite list_lookup_insert_ne by lia. apply Hout. lia.
Qed.

Lemma ProcessChannelRouting_frame (cfg : AudioRouting.AudioRouting_TypeDef)
  (c : nat) (inB outB : AudioRouting.AudioBuffer_TypeDef) :
  AudioRouting.bufferSize (AudioRouting.ProcessChannelRouting cfg c inB outB)
  = AudioRouting.bufferSize outB
  /\ forall c', c <> c' ->
       AudioRouting.samples (AudioRouting.ProcessChannelRouting cfg c inB outB)
         !! c'
       = AudioRouting.samples outB !! c'.
Proof.
  unfold AudioRouting.ProcessChannelRouting.
  destruct (AudioRouting.outputMute cfg !!! c : bool);
    [|destruct (AudioRouting.source cfg !!! c)];
    (split; [reflexivity|]; intros c' Hne; simpl;
     now rewrite list_lookup_alter_ne).
Qed.

Lemma ProcessChannelRouting_muted (cfg : AudioRouting.AudioRouting_TypeDef)
  (c : nat) (inB outB : AudioRouting.AudioBuffer_TypeDef)
  (row : list float) (i : nat) :
  AudioRouting.outputMute cfg !!! c = true ->
  AudioRouting.samples outB !! c = Some row ->
  (i < AudioRouting.bufferSize outB)%nat -> (i < length row)%nat ->
  exists row',
    AudioRouting.samples (AudioRouting.ProcessChannelRouting cfg c inB outB)
      !! c = Some row'
    /\ row' !! i = Some 0.
Proof.
  intros Hm Hrow Hi Hlen. unfold AudioRouting.ProcessChannelRouting.
  rewrite Hm. simpl. rewrite list_lookup_alter_eq, Hrow. simpl.
  eexists. split; [reflexivity|].
  apply fill_row_spec; assumption.
Qed.

Lemma FLOAT_TO_INT24_zero : AudioDriver.FLOAT_TO_INT24 0 = 0%Z.
Proof. reflexivity. Qed.

Lemma output_sample_muted (st : AudioDriver.State)
  (buffer : AudioDriver.AudioBuffer_TypeDef) (i ch : nat) :
  AudioDriver.outputMute st !!! ch = true ->
  AudioDriver.output_sample st buffer i ch = 0.
Proof.
  intros Hm. unfold AudioDriver.output_sample. rewrite Hm. reflexivity.
Qed.

(** C9.  When an output channel is muted, every sample of that channel in
    the produced frame is exactly 0: the routing matrix leaves zeros in the
    muted channel of its output frame for every input frame, and the output
    stage stores the word 0 for the muted channel whatever the buffer that
    the upstream modules have left. *)
Theorem muted_channel_is_silent
  (cfg : AudioRouting.AudioRouting_TypeDef)
  (inB outB : AudioRouting.AudioBuffer_TypeDef) (row : list float)
  (st : AudioDriver.State) (buffer : AudioDriver.AudioBuffer_TypeDef)
  (offset ch i j : nat)
  (Hch : (ch < AUDIO_OUTPUT_CHANNELS)%nat)
  (Hmute : AudioRouting.outputMute cfg !!! ch = true)
  (Hrow : AudioRouting.samples outB !! ch = Some row)
  (Hi : (i < AudioRouting.bufferSize outB)%nat)
  (Hlen : (i < length row)%nat)
  (Hmute' : AudioDriver.outputMute st !!! ch = true)
  (Hj : (j < AudioDriver.AUDIO_FRAME_SIZE)%nat)
  (Hroom : (offset + (4 * j + ch)
            < length (AudioDriver.outputDmaBuffer st))%nat) :
  (AudioRouting.samples (AudioRouting.AudioRouting_Process cfg inB outB).2
     !!! ch) !! i = Some 0
  /\ AudioDriver.output_sample st buffer j ch = 0
  /\ AudioDriver.Audio_PrepareOutputSamples st offset buffer
       !! (offset + (4 * j + ch))%nat = Some 0%Z.
Proof.
  split; [|split].
  - unfold AudioRouting.AudioRouting_Process. cbn [snd].
    set (inB' := if AudioRouting.monoSumInputs cfg then _ else _).
    change (seq 0 AUDIO_OUTPUT_CHANNELS) with [0; 1; 2; 3]%nat.
    cbn [foldl].
    set (o0 := AudioRouting.ProcessChannelRouting cfg 0 inB' outB).
    set (o1 := AudioRouting.ProcessChannelRouting cfg 1 inB' o0).
    set (o2 := AudioRouting.ProcessChannelRouting cfg 2 inB' o1).
    set (o3 := AudioRouting.ProcessChannelRouting cfg 3 inB' o2).
    pose proof (ProcessChannelRouting_frame cfg 0 inB' outB) as [S0 F0].
    pose proof (ProcessChannelRouting_frame cfg 1 inB' o0) as [S1 F1].
    pose proof (ProcessChannelRouting_frame cfg 2 inB' o1) as [S2 F2].
    pose proof (ProcessChannelRouting_frame cfg 3 inB' o2) as [S3 F3].
    fold o0 in S0, F0. fold o1 in S1, F1. fold o2 in S2, F2.
    fold o3 in S3, F3.
    assert (Hgoal : exists row', AudioRouting.samples o3 !! ch = Some row'
                                 /\ row' !! i = Some 0).
    { unfold AUDIO_OUTPUT_CHANNELS in Hch.
      destruct ch as [|[|[|[|ch]]]]; try lia.
      - destruct (ProcessChannelRouting_muted cfg 0 inB' outB row i)
          as (r & Hr & Hz); try assumption.
        exists r. split; [|exact Hz].
        rewrite F3, F2, F1 by lia. exact Hr.
      - destruct (ProcessChannelRouting_muted cfg 1 inB' o0 row i)
          as (r & Hr & Hz); try assumption; try lia.
        { rewrite F0 by lia. exact Hrow. }
        exists r. split; [|exact Hz]. rewrite F3, F2 by lia. exact Hr.
      - destruct (ProcessChannelRouting_muted cfg 2 inB' o1 row i)
          as (r & Hr & Hz); try assumption; try lia.
        { rewrite F1, F0 by lia. exact Hrow. }
        exists r. split; [|exact Hz]. rewrite F3 by lia. exact Hr.
      - destruct (ProcessChannelRouting_muted cfg 3 inB' o2 row i)
          as (r & Hr & Hz); try assumption; try lia.
        { rewrite F2, F1, F0 by lia. exact Hrow. }
        exists r. split; [exact Hr|exact Hz]. }
    destruct Hgoal as (r & Hr & Hz).
    rewrite (list_lookup_total_correct _ _ _ Hr). exact Hz.
  - apply output_sample_muted. exact Hmute'.
  - pose proof (Audio_PrepareOutputSamples_word st buffer offset j ch
                  Hj Hch Hroom) as H.
    rewrite H, output_sample_muted by exact Hmute'. reflexivity.
Qed.

(** ** Bypass *)

Lemma Crossover_fullrange_is_identity `{ops : Crossover.BiquadOps}
  (st : Crossover.State) (ch : nat) (input : list float) :
  Crossover.filterMode (Crossover.crossoverConfig st !!! ch)
  = Crossover.CROSSOVER_MODE_FULLRANGE ->
  Crossover.Crossover_ProcessSamples st ch input = (input, st).
Proof.
  intros Hmode. induction input as [|x rest IH]; [reflexivity|].
  simpl. unfold Crossover.Crossover_ProcessSample.
  destruct (decide _); rewrite ?Hmode, IH; reflexivity.
Qed.

Lemma Compressor_disabled_is_identity (M : LibM) (st : Compressor.State)
  (ch : nat) (audioBuffer : option Compressor.AudioBuffer_TypeDef) :
  Compressor.enabled (Compressor.params (st !!! ch)) = false ->
  Compressor.Compressor_Process M st ch audioBuffer = (st, audioBuffer).
Proof.
  intros Hoff. unfold Compressor.Compressor_Process.
  destruct audioBuffer as [buf|]; [|reflexivity].
  destruct (decide _); [reflexivity|]. now rewrite Hoff.
Qed.

Lemma Delay_disabled_is_identity (MAXCH fuel : nat) (st : Delay.State)
  (ch : nat) (data : list float) (size : nat) :
  (ch < MAXCH)%nat -> size <> 0%nat ->
  Delay.isActive (Delay.delayInstances st !!! ch) = false
  \/ Delay.enabled (Delay.delayInstances st !!! ch) = false ->
  Delay.Delay_Process MAXCH fuel st ch (Some data) size
  = Some (HAL_OK, st, Some data).
Proof.
  intros Hch Hsize Hoff. unfold Delay.Delay_Process.
  rewrite bool_decide_eq_false_2 by lia.
  rewrite bool_decide_eq_false_2 by assumption. simpl.
  destruct Hoff as [-> | ->]; [reflexivity|].
  now rewrite orb_true_r.
Qed.

Lemma process_bands_all_disabled (bands : list PEQ.PEQBand_TypeDef)
  (bq : list PEQ.BiquadState_TypeDef) (x : float) :
  (forall band, (band < PEQ.PEQ_MAX_BANDS_PER_CHANNEL)%nat ->
     PEQ.enabled (bands !!! band) = false) ->
  PEQ.process_bands bands bq x = (x, bq).
Proof.
  intros Hoff. unfold PEQ.process_bands.
  assert (Hall : Forall (fun band => PEQ.enabled (bands !!! band) = false)
                        (seq 0 PEQ.PEQ_MAX_BANDS_PER_CHANNEL)).
  { apply Forall_forall. intros band Hin. apply Hoff.
    apply list_elem_of_In, in_seq in Hin. lia. }
  induction Hall as [|band l Hband _ IH]; [reflexivity|].
  cbn [foldl]. rewrite Hband. exact IH.
Qed.

Lemma for_samples_identity {S : Type} (f : S -> float -> float * S)
  (n : nat) (st : S) (data : list float) :
  (forall x, f st x = (x, st)) -> for_samples f n st data = (data, st).
Proof.
  intros Hid. revert data. induction n as [|n IH]; intros data.
  - apply for_samples_zero.
  - destruct data as [|x rest]; [reflexivity|]. simpl.
    rewrite Hid, IH. reflexivity.
Qed.

Lemma PEQ_all_bands_disabled_is_identity (st : PEQ.State) (ch : nat)
  (buf : PEQ.AudioBuffer_TypeDef) :
  (ch < length (PEQ.PEQBiquadStates st))%nat ->
  (ch < length (PEQ.outputChannels buf))%nat ->
  (forall band, (band < PEQ.PEQ_MAX_BANDS_PER_CHANNEL)%nat ->
     PEQ.enabled ((PEQ.PEQBands st !!! ch) !!! band) = false) ->
  PEQ.PEQ_ProcessChannel st ch (Some buf) = (st, Some buf).
Proof.
  intros Hst Hbuf Hoff. unfold PEQ.PEQ_ProcessChannel.
  destruct (decide _); [reflexivity|].
  rewrite for_samples_identity.
  - rewrite !list_insert_id by (apply list_lookup_lookup_total_lt; assumption).
    destruct st, buf. reflexivity.
  - intros x. now rewrite process_bands_all_disabled.
Qed.

(** What the limiter returns for a sample never exceeds 1; so a block is
    returned as it came only if it held nothing above 1. *)
Lemma Limiter_ProcessBlock_output (M : LibM) (L : Z) (D : float -> float)
  (st : Limiter.State) (ch : nat) (x : float) :
  Limiter.limiterInitialized st = true -> (ch < AUDIO_OUTPUT_CHANNELS)%nat ->
  exists st' y,
    Limiter.Limiter_ProcessBlock M L D st ch (Some [x]) 1
    = (Limiter.LIMITER_OK, st', Some [y])
    /\ -1 <= y <= 1.
Proof.
  intros Hinit Hch. unfold Limiter.Limiter_ProcessBlock.
  rewrite Hinit, bool_decide_eq_false_2 by lia. simpl.
  pose proof (Limiter_ProcessSample_bounds M L D
                (Limiter.limiterConfig st !!! ch)
                (Limiter.limiterState st !!! ch) x) as Hb.
  destruct (Limiter.Limiter_ProcessSample M L D _ _ x) as [y s].
  eexists _, y. split; [reflexivity|exact Hb].
Qed.

(** A freshly initialised limiter returns 1.0 for the sample 2.0, whatever
    libm, the lookahead size, and the dB conversion are. *)
Lemma Limiter_ProcessBlock_clips_fresh
  (M : LibM) (L : Z) (D : float -> float) :
  (Limiter.Limiter_ProcessBlock M L D (limiter_ready L) 0 (Some [2]) 1).2
  = Some [1].
Proof. reflexivity. Qed.

(** The limiter behind its switches: a bypassed or disabled channel is not
    processed. *)
Lemma DSP_Limiter_off_is_identity (M : LibM) (L : Z) (D : float -> float)
  (st : DSPLimiter.State) (ch : nat) (buf : DSPLimiter.AudioBuffer_TypeDef) :
  DSPLimiter.bypass (DSPLimiter.limiterFlags st !!! ch) = true
  \/ DSPLimiter.enabled (DSPLimiter.limiterFlags st !!! ch) = false ->
  DSPLimiter.DSP_Limiter_Process M L D st ch buf = (st, buf).
Proof.
  intros Hoff. unfold DSPLimiter.DSP_Limiter_Process. cbv zeta.
  destruct Hoff as [-> | ->]; [reflexivity|].
  now rewrite orb_true_r.
Qed.

(** The two setters put a channel into that state. *)
Lemma DSP_Limiter_Bypass_sets_flag (st : DSPLimiter.State) (ch : nat)
  (flag : bool) :
  (ch < AUDIO_OUTPUT_CHANNELS)%nat ->
  (ch < length (DSPLimiter.limiterFlags st))%nat ->
  (DSPLimiter.DSP_Limiter_Bypass st ch flag).1 = HAL_OK
  /\ DSPLimiter.bypass
       (DSPLimiter.limiterFlags (DSPLimiter.DSP_Limiter_Bypass st ch flag).2
          !!! ch) = flag.
Proof.
  intros Hch Hlen. unfold DSPLimiter.DSP_Limiter_Bypass.
  destruct (decide _) as [Hge|_]; [lia|]. cbn [fst snd].
  split; [reflexivity|]. cbn [DSPLimiter.limiterFlags].
  rewrite list_lookup_total_alter_eq by exact Hlen. reflexivity.
Qed.

Lemma DSP_Limiter_Enable_sets_flag (st : DSPLimiter.State) (ch : nat)
  (flag : bool) :
  (ch < AUDIO_OUTPUT_CHANNELS)%nat ->
  (ch < length (DSPLimiter.limiterFlags st))%nat ->
  (DSPLimiter.DSP_Limiter_Enable st ch flag).1 = HAL_OK
  /\ DSPLimiter.enabled
       (DSPLimiter.limiterFlags (DSPLimiter.DSP_Limiter_Enable st ch flag).2
          !!! ch) = flag.
Proof.
  intros Hch Hlen. unfold DSPLimiter.DSP_Limiter_Enable.
  destruct (decide _) as [Hge|_]; [lia|]. cbn [fst snd].
  split; [reflexivity|]. cbn [DSPLimiter.limiterFlags].
  rewrite list_lookup_total_alter_eq by exact Hlen. reflexivity.
Qed.

(** With both switches in their working position the sample data is
    limited: 2.0 comes back as 1.0, and the sample after it is turned
    down with the gain that the first one left behind. *)
Lemma DSP_Limiter_Process_runs_the_limiter :
  exists y : float,
    DSPLimiter.samples
      (DSPLimiter.DSP_Limiter_Process libm_sample 0 (fun v => v)
         dsp_limiter_sample 0 dsp_limiter_frame).2 !! 0%nat
    = Some [1; y]
    /\ y == 0.0625.
Proof. eexists. split; [vm_compute; reflexivity|reflexivity]. Qed.

(** C3, module by module.  The crossover in full-range mode, the disabled
    compressor, the inactive or disabled delay channel, the equaliser
    with every band of the channel disabled and the limiter with its
    channel bypassed or not enabled return their input as it came, for
    every input, and keep their state.  The switches of the limiter are
    those of limiter.h, whose functions are modelled in [DSPLimiter]; the
    other four modules are the code of their files. *)
Theorem disabled_module_returns_its_input
  `{ops : Crossover.BiquadOps} (cst : Crossover.State) (cch : nat)
  (input : list float)
  (M : LibM) (cmp : Compressor.State) (mch : nat)
  (abuf : option Compressor.AudioBuffer_TypeDef)
  (MAXCH fuel : nat) (dst : Delay.State) (dch : nat) (data : list float)
  (size : nat)
  (pst : PEQ.State) (pch : nat) (pbuf : PEQ.AudioBuffer_TypeDef)
  (L : Z) (D : float -> float) (lst : DSPLimiter.State) (lch : nat)
  (lbuf : DSPLimiter.AudioBuffer_TypeDef)
  (Hmode : Crossover.filterMode (Crossover.crossoverConfig cst !!! cch)
           = Crossover.CROSSOVER_MODE_FULLRANGE)
  (Hcmp : Compressor.enabled (Compressor.params (cmp !!! mch)) = false)
  (Hdch : (dch < MAXCH)%nat) (Hsize : size <> 0%nat)
  (Hoff : Delay.isActive (Delay.delayInstances dst !!! dch) = false
          \/ Delay.enabled (Delay.delayInstances dst !!! dch) = false)
  (Hpst : (pch < length (PEQ.PEQBiquadStates pst))%nat)
  (Hpbuf : (pch < length (PEQ.outputChannels pbuf))%nat)
  (Hbands : forall band, (band < PEQ.PEQ_MAX_BANDS_PER_CHANNEL)%nat ->
              PEQ.enabled ((PEQ.PEQBands pst !!! pch) !!! band) = false)
  (Hlim : DSPLimiter.bypass (DSPLimiter.limiterFlags lst !!! lch) = true
          \/ DSPLimiter.enabled (DSPLimiter.limiterFlags lst !!! lch)
             = false) :
  Crossover.Crossover_ProcessSamples cst cch input = (input, cst)
  /\ Compressor.Compressor_Process M cmp mch abuf = (cmp, abuf)
  /\ Delay.Delay_Process MAXCH fuel dst dch (Some data) size
     = Some (HAL_OK, dst, Some data)
  /\ PEQ.PEQ_ProcessChannel pst pch (Some pbuf) = (pst, Some pbuf)
  /\ DSPLimiter.DSP_Limiter_Process M L D lst lch lbuf = (lst, lbuf).
Proof.
  split; [now apply Crossover_fullrange_is_identity|].
  split; [now apply Compressor_disabled_is_identity|].
  split; [now apply Delay_disabled_is_identity|].
  split; [now apply PEQ_all_bands_disabled_is_identity|].
  now apply DSP_Limiter_off_is_identity.
Qed.

Lemma disabled_module_returns_its_input_witness :
  Crossover.filterMode
    (Crossover.crossoverConfig crossover_fullrange_sample !!! 0%nat)
  = Crossover.CROSSOVER_MODE_FULLRANGE
  /\ Compressor.enabled (Compressor.params (compressor_sample !!! 0%nat))
     = false
  /\ (1 < 4)%nat /\ 2%nat <> 0%nat
  /\ Delay.isActive (Delay.delayInstances delay_ready !!! 1%nat) = false
  /\ DSPLimiter.bypass (DSPLimiter.limiterFlags dsp_limiter_bypassed !!! 0%nat) = true
  /\ Crossover.Crossover_ProcessSamples crossover_fullrange_sample 0
       [0.5; -0.25]
     = ([0.5; -0.25], crossover_fullrange_sample)
  /\ Compressor.Compressor_Process libm_sample compressor_sample 0 None
     = (compressor_sample, None)
  /\ Delay.Delay_Process 4 1 delay_ready 1 (Some [0.5; -0.25]) 2
     = Some (HAL_OK, delay_ready, Some [0.5; -0.25])
  /\ PEQ.PEQ_ProcessChannel peq_sample 0 (Some peq_frame_sample)
     = (peq_sample, Some peq_frame_sample)
  /\ DSPLimiter.DSP_Limiter_Process libm_sample 0 (fun v => v)
       dsp_limiter_bypassed 0 dsp_limiter_frame
     = (dsp_limiter_bypassed, dsp_limiter_frame).
Proof.
  assert (H1 : Crossover.filterMode
                 (Crossover.crossoverConfig crossover_fullrange_sample
                    !!! 0%nat)
               = Crossover.CROSSOVER_MODE_FULLRANGE) by reflexivity.
  assert (H2 : Compressor.enabled
                 (Compressor.params (compressor_sample !!! 0%nat)) = false)
    by reflexivity.
  assert (H3 : (1 < 4)%nat) by lia.
  assert (H4 : 2%nat <> 0%nat) by lia.
  assert (H5 : Delay.isActive (Delay.delayInstances delay_ready !!! 1%nat)
               = false) by (vm_compute; reflexivity).
  assert (H6 : (0 < length (PEQ.PEQBiquadStates peq_sample))%nat)
    by (vm_compute; lia).
  assert (H7 : (0 < length (PEQ.outputChannels peq_frame_sample))%nat)
    by (vm_compute; lia).
  assert (H8 : forall band, (band < PEQ.PEQ_MAX_BANDS_PER_CHANNEL)%nat ->
                 PEQ.enabled ((PEQ.PEQBands peq_sample !!! 0%nat) !!! band)
                 = false).
  { intros band Hb. unfold PEQ.PEQ_MAX_BANDS_PER_CHANNEL in Hb.
    do 5 (destruct band as [|band]; [reflexivity|]). lia. }
  assert (H9 : DSPLimiter.bypass (DSPLimiter.limiterFlags dsp_limiter_bypassed !!! 0%nat)
               = true) by reflexivity.
  pose proof (disabled_module_returns_its_input
                crossover_fullrange_sample 0 [0.5; -0.25]
                libm_sample compressor_sample 0 None
                4 1 delay_ready 1 [0.5; -0.25] 2
                peq_sample 0 peq_frame_sample
                0 (fun v => v) dsp_limiter_bypassed 0 dsp_limiter_frame
                H1 H2 H3 H4 (or_introl H5) H6 H7 H8 (or_introl H9))
    as (T1 & T2 & T3 & T4 & T5).
  split; [exact H1|]. split; [exact H2|]. split; [exact H3|].
  split; [exact H4|]. split; [exact H5|]. split; [exact H9|].
  split; [exact T1|]. split; [exact T2|].
  split; [exact T3|]. split; [exact T4|]. exact T5.
Defined.

(** ** Zero-length and null blocks *)

Lemma Delay_Process_zero_length (MAXCH fuel : nat) (st : Delay.State)
  (ch : nat) (pData : option (list float)) :
  Delay.Delay_Process MAXCH fuel st ch pData 0 = Some (HAL_ERROR, st, pData).
Proof.
  unfold Delay.Delay_Process. destruct pData; [|reflexivity].
  rewrite (bool_decide_eq_true_2 (0%nat = 0%nat)) by reflexivity.
  now rewrite orb_true_r.
Qed.

(** C5, as the code has it.  A zero-length block and a null buffer leave
    the state of the module and the buffer as they were; [Delay_Process]
    reports both as [HAL_ERROR], and [Limiter_ProcessBlock] reports a null
    buffer as [LIMITER_ERROR] and a zero-length block, on an initialised
    limiter and a valid channel, as [LIMITER_OK]. *)
Theorem zero_length_or_null_block_changes_nothing
  (MAXCH fuel : nat) (dst : Delay.State) (dch : nat)
  (pData : option (list float)) (size : nat)
  (M : LibM) (L : Z) (D : float -> float) (lst : Limiter.State) (lch : nat)
  (data : list float) (blockSize : nat)
  (Hinit : Limiter.limiterInitialized lst = true)
  (Hlch : (lch < AUDIO_OUTPUT_CHANNELS)%nat)
  (Hlen : (lch < length (Limiter.limiterState lst))%nat) :
  Delay.Delay_Process MAXCH fuel dst dch pData 0
  = Some (HAL_ERROR, dst, pData)
  /\ Delay.Delay_Process MAXCH fuel dst dch None size
     = Some (HAL_ERROR, dst, None)
  /\ Limiter.Limiter_ProcessBlock M L D lst lch None blockSize
     = (Limiter.LIMITER_ERROR, lst, None)
  /\ Limiter.Limiter_ProcessBlock M L D lst lch (Some data) 0
     = (Limiter.LIMITER_OK, lst, Some data).
Proof.
  repeat split.
  - apply Delay_Process_zero_length.
  - unfold Limiter.Limiter_ProcessBlock.
    destruct lst as [ls li lc]. cbn [Limiter.limiterState
      Limiter.limiterInitialized Limiter.limiterConfig] in *. subst li.
    rewrite bool_decide_eq_false_2 by lia. cbn [negb orb].
    rewrite for_samples_zero.
    rewrite list_insert_id by (now apply list_lookup_lookup_total_lt).
    reflexivity.
Qed.

(** C5 as stated fails: on a configured and enabled delay channel, a
    zero-length block is answered with [HAL_ERROR], not with success. *)
Lemma Delay_Process_zero_length_is_an_error :
  ~ (exists st' out,
       Delay.Delay_Process 4 1 delay_ready 0 (Some []) 0
       = Some (HAL_OK, st', out)).
Proof.
  intros (st' & out & H).
  pose proof (Delay_Process_zero_length 4 1 delay_ready 0
                (Some [])) as E.
  rewrite E in H. discriminate.
Qed.

(** ** Setters and out-of-range values *)

Lemma limit_config_clamps (cfg : PEQ.PEQBand_TypeDef) :
  let c := PEQ.limit_config cfg in
  PEQ.type c = PEQ.type cfg /\ PEQ.enabled c = PEQ.enabled cfg
  /\ (PEQ.frequency cfg < 20 -> PEQ.frequency c = 20)
  /\ (20000 < PEQ.frequency cfg -> PEQ.frequency c = 20000)
  /\ (20 <= PEQ.frequency cfg <= 20000 ->
      PEQ.frequency c = PEQ.frequency cfg)
  /\ (PEQ.q cfg < 0.1 -> PEQ.q c = 0.1)
  /\ (10 < PEQ.q cfg -> PEQ.q c = 10)
  /\ (0.1 <= PEQ.q cfg <= 10 -> PEQ.q c = PEQ.q cfg)
  /\ (PEQ.gain cfg < -12 -> PEQ.gain c = -12)
  /\ (12 < PEQ.gain cfg -> PEQ.gain c = 12)
  /\ (-12 <= PEQ.gain cfg <= 12 -> PEQ.gain c = PEQ.gain cfg).
Proof.
  cbv zeta. unfold PEQ.limit_config. cbn [PEQ.type PEQ.enabled PEQ.frequency
    PEQ.q PEQ.gain].
  split; [reflexivity|]. split; [reflexivity|].
  repeat split; intros H.
  - case_Qltb (PEQ.frequency cfg) 20; [reflexivity|lra].
  - case_Qltb (PEQ.frequency cfg) 20; [lra|].
    case_Qltb 20000 (PEQ.frequency cfg); [reflexivity|lra].
  - case_Qltb (PEQ.frequency cfg) 20; [lra|].
    case_Qltb 20000 (PEQ.frequency cfg); [lra|reflexivity].
  - case_Qltb (PEQ.q cfg) 0.1; [reflexivity|lra].
  - case_Qltb (PEQ.q cfg) 0.1; [lra|].
    case_Qltb 10 (PEQ.q cfg); [reflexivity|lra].
  - case_Qltb (PEQ.q cfg) 0.1; [lra|].
    case_Qltb 10 (PEQ.q cfg); [lra|reflexivity].
  - case_Qltb (PEQ.gain cfg) (-12); [reflexivity|lra].
  - case_Qltb (PEQ.gain cfg) (-12); [lra|].
    case_Qltb 12 (PEQ.gain cfg); [reflexivity|lra].
  - case_Qltb (PEQ.gain cfg) (-12); [lra|].
    case_Qltb 12 (PEQ.gain cfg); [lra|reflexivity].
Qed.

Lemma PEQ_ConfigureBand_then_get (M : LibM) (a0u : float) (st : PEQ.State)
  (ch band : nat) (cfg other : PEQ.PEQBand_TypeDef) :
  (ch < AUDIO_OUTPUT_CHANNELS)%nat ->
  (band < PEQ.PEQ_MAX_BANDS_PER_CHANNEL)%nat ->
  (ch < length (PEQ.PEQBands st))%nat ->
  (band < length (PEQ.PEQBands st !!! ch))%nat ->
  exists st',
    PEQ.PEQ_ConfigureBand M a0u st ch band (Some cfg)
    = (HAL_OK, st', Some (PEQ.limit_config cfg))
    /\ PEQ.PEQ_GetBandConfig st' ch band (Some other)
       = (HAL_OK, Some (PEQ.limit_config cfg)).
Proof.
  intros Hch Hband Hrows Hrow. unfold PEQ.PEQ_ConfigureBand.
  destruct (decide _) as [Hbad|_]; [lia|].
  eexists. split; [reflexivity|].
  unfold PEQ.PEQ_GetBandConfig.
  destruct (decide _) as [Hbad|_]; [lia|].
  unfold PEQ.PEQ_UpdateFilterCoefficients. cbn [PEQ.PEQBands].
  rewrite list_lookup_total_alter_eq by assumption.
  rewrite list_lookup_total_alter_eq by assumption.
  destruct (PEQ.limit_config cfg). reflexivity.
Qed.

Lemma Delay_SetTime_out_of_range (MAXCH : nat) (SPEED : float)
  (st : Delay.State) (ch : nat) (delayMs : float) :
  delayMs < 0
  \/ inject_Z (Delay.maxDelayMs (Delay.delayInstances st !!! ch)) < delayMs ->
  Delay.Delay_SetTime MAXCH SPEED st ch delayMs = (HAL_ERROR, st).
Proof.
  intros Hr. unfold Delay.Delay_SetTime.
  destruct (_ || _); [reflexivity|].
  destruct Hr as [Hr|Hr]; apply Qltb_true in Hr; rewrite Hr;
    [reflexivity|now rewrite orb_true_r].
Qed.

Lemma Crossover_SetFrequency_out_of_range `{ops : Crossover.BiquadOps}
  (st : Crossover.State) (ch : nat)
  (fty : Crossover.CrossoverFrequencyType_TypeDef) (f : float) :
  f < 20 \/ 20000 < f ->
  Crossover.Crossover_SetFrequency st ch fty f = (1%Z, st).
Proof.
  intros Hr. unfold Crossover.Crossover_SetFrequency,
    Crossover.CROSSOVER_MIN_FREQ, Crossover.CROSSOVER_MAX_FREQ.
  destruct (decide _); [reflexivity|].
  destruct Hr as [Hr|Hr]; apply Qltb_true in Hr; rewrite Hr;
    [reflexivity|now rewrite orb_true_r].
Qed.

(** C6, as the code has it.  [PEQ_ConfigureBand] limits an out-of-range
    frequency, Q or gain to the nearest bound of [20, 20000] Hz,
    [0.1, 10] and [-12, 12] dB, returns [HAL_OK], and a following
    [PEQ_GetBandConfig] returns the limited values.  [Delay_SetTime] and
    [Crossover_SetFrequency] do not clamp: an out-of-range delay time or
    frequency is refused with an error status and the state is left as it
    was. *)
Theorem setters_clamp_or_reject
  (M : LibM) (a0u : float) (pst : PEQ.State) (ch band : nat)
  (cfg other : PEQ.PEQBand_TypeDef)
  (MAXCH : nat) (SPEED : float) (dst : Delay.State) (dch : nat)
  (delayMs : float)
  (ops : Crossover.BiquadOps) (cst : Crossover.State) (cch : nat)
  (fty : Crossover.CrossoverFrequencyType_TypeDef) (f : float)
  (Hch : (ch < AUDIO_OUTPUT_CHANNELS)%nat)
  (Hband : (band < PEQ.PEQ_MAX_BANDS_PER_CHANNEL)%nat)
  (Hrows : (ch < length (PEQ.PEQBands pst))%nat)
  (Hrow : (band < length (PEQ.PEQBands pst !!! ch))%nat)
  (Hms : delayMs < 0
         \/ inject_Z (Delay.maxDelayMs (Delay.delayInstances dst !!! dch))
            < delayMs)
  (Hf : f < 20 \/ 20000 < f) :
  let c := PEQ.limit_config cfg in
  (exists pst',
     PEQ.PEQ_ConfigureBand M a0u pst ch band (Some cfg)
     = (HAL_OK, pst', Some c)
     /\ PEQ.PEQ_GetBandConfig pst' ch band (Some other) = (HAL_OK, Some c))
  /\ (PEQ.frequency cfg < 20 -> PEQ.frequency c = 20)
  /\ (20000 < PEQ.frequency cfg -> PEQ.frequency c = 20000)
  /\ (20 <= PEQ.frequency cfg <= 20000 -> PEQ.frequency c = PEQ.frequency cfg)
  /\ (PEQ.q cfg < 0.1 -> PEQ.q c = 0.1)
  /\ (10 < PEQ.q cfg -> PEQ.q c = 10)
  /\ (0.1 <= PEQ.q cfg <= 10 -> PEQ.q c = PEQ.q cfg)
  /\ (PEQ.gain cfg < -12 -> PEQ.gain c = -12)
  /\ (12 < PEQ.gain cfg -> PEQ.gain c = 12)
  /\ (-12 <= PEQ.gain cfg <= 12 -> PEQ.gain c = PEQ.gain cfg)
  /\ Delay.Delay_SetTime MAXCH SPEED dst dch delayMs = (HAL_ERROR, dst)
  /\ Crossover.Crossover_SetFrequency cst cch fty f = (1%Z, cst).
Proof.
  cbv zeta.
  pose proof (limit_config_clamps cfg) as H. cbv zeta in H.
  destruct H as (_ & _ & H1 & H2 & H3 & H4 & H5 & H6 & H7 & H8 & H9).
  split; [now apply PEQ_ConfigureBand_then_get|].
  repeat (split; [assumption|]).
  split; [now apply Delay_SetTime_out_of_range|].
  now apply Crossover_SetFrequency_out_of_range.
Qed.

(** C6 as stated fails: a delay time of 25 ms on a channel whose maximum
    is 20 ms is not clamped to 20 ms; the call fails. *)
Lemma Delay_SetTime_does_not_clamp :
  ~ ((Delay.Delay_SetTime 4 343 delay_ready 0 25).1 = HAL_OK).
Proof.
  rewrite Delay_SetTime_out_of_range; [discriminate|].
  right. vm_compute. reflexivity.
Qed.

(** ** The statements above on the sample data *)

Lemma output_samples_lie_in_unit_range_witness :
  (5 < AudioDriver.AUDIO_FRAME_SIZE)%nat
  /\ (2 < AUDIO_OUTPUT_CHANNELS)%nat
  /\ (0 + (4 * 5 + 2) < length (AudioDriver.outputDmaBuffer driver_sample))%nat
  /\ (-1 <= (Limiter.Limiter_ProcessSample libm_sample 64 (fun _ => 0.063)
               limiter_config_sample inhabitant 2).1 <= 1)
  /\ Forall (fun y => -1 <= y <= 1)
            (take 3
               (for_samples
                  (Limiter.Limiter_ProcessSample libm_sample 64
                     (fun _ => 0.063) limiter_config_sample)
                  3 inhabitant [2; -3; 0.5]).1)
  /\ (-1 <= AudioDriver.output_sample driver_sample driver_frame 5 2 <= 1)
  /\ AudioDriver.Audio_PrepareOutputSamples driver_sample 0 driver_frame
       !! (0 + (4 * 5 + 2))%nat
     = Some (AudioDriver.FLOAT_TO_INT24
               (AudioDriver.output_sample driver_sample driver_frame 5 2))
  /\ (-8388607 <= AudioDriver.FLOAT_TO_INT24
                    (AudioDriver.output_sample driver_sample driver_frame 5 2)
      <= 8388607)%Z.
Proof.
  assert (H1 : (5 < AudioDriver.AUDIO_FRAME_SIZE)%nat)
    by (vm_compute; lia).
  assert (H2 : (2 < AUDIO_OUTPUT_CHANNELS)%nat) by (vm_compute; lia).
  assert (H3 : (0 + (4 * 5 + 2)
                < length (AudioDriver.outputDmaBuffer driver_sample))%nat)
    by (vm_compute; lia).
  split; [exact H1|]. split; [exact H2|]. split; [exact H3|].
  exact (output_samples_lie_in_unit_range libm_sample 64 (fun _ => 0.063)
           limiter_config_sample inhabitant 2 [2; -3; 0.5] 3
           driver_sample driver_frame 0 5 2 H1 H2 H3).
Defined.

Lemma muted_channel_is_silent_witness :
  (1 < AUDIO_OUTPUT_CHANNELS)%nat
  /\ AudioRouting.outputMute routing_sample !!! 1%nat = true
  /\ AudioRouting.samples routing_output !! 1%nat
     = Some (replicate 64 (1 # 3))
  /\ (7 < AudioRouting.bufferSize routing_output)%nat
  /\ (7 < length (replicate 64 (1 # 3)))%nat
  /\ AudioDriver.outputMute driver_sample !!! 1%nat = true
  /\ (9 < AudioDriver.AUDIO_FRAME_SIZE)%nat
  /\ (256 + (4 * 9 + 1)
      < length (AudioDriver.outputDmaBuffer driver_sample))%nat
  /\ (AudioRouting.samples
        (AudioRouting.AudioRouting_Process routing_sample routing_input
                                           routing_output).2
        !!! 1%nat) !! 7%nat = Some 0
  /\ AudioDriver.output_sample driver_sample driver_frame 9 1 = 0
  /\ AudioDriver.Audio_PrepareOutputSamples driver_sample 256 driver_frame
       !! (256 + (4 * 9 + 1))%nat = Some 0%Z.
Proof.
  assert (H1 : (1 < AUDIO_OUTPUT_CHANNELS)%nat) by (vm_compute; lia).
  assert (H2 : AudioRouting.outputMute routing_sample !!! 1%nat = true)
    by reflexivity.
  assert (H3 : AudioRouting.samples routing_output !! 1%nat
               = Some (replicate 64 (1 # 3))) by reflexivity.
  assert (H4 : (7 < AudioRouting.bufferSize routing_output)%nat)
    by (vm_compute; lia).
  assert (H5 : (7 < length (replicate 64 (1 # 3)))%nat)
    by (vm_compute; lia).
  assert (H6 : AudioDriver.outputMute driver_sample !!! 1%nat = true)
    by reflexivity.
  assert (H7 : (9 < AudioDriver.AUDIO_FRAME_SIZE)%nat) by (vm_compute; lia).
  assert (H8 : (256 + (4 * 9 + 1)
                < length (AudioDriver.outputDmaBuffer driver_sample))%nat)
    by (vm_compute; lia).
  repeat (split; [assumption|]).
  exact (muted_channel_is_silent routing_sample routing_input routing_output
           (replicate 64 (1 # 3)) driver_sample driver_frame 256 1 7 9
           H1 H2 H3 H4 H5 H6 H7 H8).
Defined.

Lemma zero_length_or_null_block_changes_nothing_witness :
  Limiter.limiterInitialized (limiter_ready 64) = true
  /\ (0 < AUDIO_OUTPUT_CHANNELS)%nat
  /\ (0 < length (Limiter.limiterState (limiter_ready 64)))%nat
  /\ Delay.Delay_Process 4 1 delay_ready 0 (Some [0.25; 0.5]) 0
     = Some (HAL_ERROR, delay_ready, Some [0.25; 0.5])
  /\ Delay.Delay_Process 4 1 delay_ready 0 None 2
     = Some (HAL_ERROR, delay_ready, None)
  /\ Limiter.Limiter_ProcessBlock libm_sample 64 (fun _ => 0.063)
       (limiter_ready 64) 0 None 2
     = (Limiter.LIMITER_ERROR, limiter_ready 64, None)
  /\ Limiter.Limiter_ProcessBlock libm_sample 64 (fun _ => 0.063)
       (limiter_ready 64) 0 (Some [0.25; 0.5]) 0
     = (Limiter.LIMITER_OK, limiter_ready 64, Some [0.25; 0.5]).
Proof.
  assert (H1 : Limiter.limiterInitialized (limiter_ready 64) = true)
    by reflexivity.
  assert (H2 : (0 < AUDIO_OUTPUT_CHANNELS)%nat) by (vm_compute; lia).
  assert (H3 : (0 < length (Limiter.limiterState (limiter_ready 64)))%nat)
    by (vm_compute; lia).
  split; [exact H1|]. split; [exact H2|]. split; [exact H3|].
  exact (zero_length_or_null_block_changes_nothing 4 1 delay_ready 0
           (Some [0.25; 0.5]) 2 libm_sample 64 (fun _ => 0.063)
           (limiter_ready 64) 0 [0.25; 0.5] 2 H1 H2 H3).
Defined.

Lemma setters_clamp_or_reject_witness :
  (2 < AUDIO_OUTPUT_CHANNELS)%nat
  /\ (3 < PEQ.PEQ_MAX_BANDS_PER_CHANNEL)%nat
  /\ (2 < length (PEQ.PEQBands peq_sample))%nat
  /\ (3 < length (PEQ.PEQBands peq_sample !!! 2%nat))%nat
  /\ (25 < 0
      \/ inject_Z (Delay.maxDelayMs (Delay.delayInstances delay_ready
                                       !!! 0%nat)) < 25)
  /\ (30000 < 20 \/ 20000 < 30000)
  /\ (exists pst',
        PEQ.PEQ_ConfigureBand libm_sample 0 peq_sample 2 3 (Some peq_band_sample)
        = (HAL_OK, pst', Some (PEQ.limit_config peq_band_sample))
        /\ PEQ.PEQ_GetBandConfig pst' 2 3 (Some peq_band_sample)
           = (HAL_OK, Some (PEQ.limit_config peq_band_sample)))
  /\ PEQ.frequency (PEQ.limit_config peq_band_sample) = 20
  /\ PEQ.q (PEQ.limit_config peq_band_sample) = 10
  /\ PEQ.gain (PEQ.limit_config peq_band_sample) = 12
  /\ Delay.Delay_SetTime 4 343 delay_ready 0 25 = (HAL_ERROR, delay_ready)
  /\ Crossover.Crossover_SetFrequency crossover_sample 1
       Crossover.CROSSOVER_FREQ_LOW 30000 = (1%Z, crossover_sample).
Proof.
  assert (H1 : (2 < AUDIO_OUTPUT_CHANNELS)%nat) by (vm_compute; lia).
  assert (H2 : (3 < PEQ.PEQ_MAX_BANDS_PER_CHANNEL)%nat) by (vm_compute; lia).
  assert (H3 : (2 < length (PEQ.PEQBands peq_sample))%nat)
    by (vm_compute; lia).
  assert (H4 : (3 < length (PEQ.PEQBands peq_sample !!! 2%nat))%nat)
    by (vm_compute; lia).
  assert (H5 : 25 < 0
               \/ inject_Z (Delay.maxDelayMs
                              (Delay.delayInstances delay_ready !!! 0%nat))
                  < 25) by (right; vm_compute; reflexivity).
  assert (H6 : 30000 < 20 \/ 20000 < 30000)
    by (right; vm_compute; reflexivity).
  pose proof (setters_clamp_or_reject libm_sample 0 peq_sample 2 3 peq_band_sample peq_band_sample
                4 343 delay_ready 0 25 biquad_ops_sample crossover_sample 1
                Crossover.CROSSOVER_FREQ_LOW 30000 H1 H2 H3 H4 H5 H6) as T.
  cbv zeta in T.
  destruct T as (T1 & T2 & _ & _ & _ & T5 & _ & _ & T8 & _ & T10 & T11).
  split; [exact H1|]. split; [exact H2|]. split; [exact H3|].
  split; [exact H4|]. split; [exact H5|]. split; [exact H6|].
  split; [exact T1|].
  split; [apply T2; vm_compute; reflexivity|].
  split; [apply T5; vm_compute; reflexivity|].
  split; [apply T8; vm_compute; reflexivity|].
  split; [exact T10|exact T11].
Defined.

(** ** Reconfiguring one band of the equaliser *)

Lemma alter_alter_lookup_total {A : Type} `{Inhabited A} (f : A -> A)
  (l : list (list A)) (i j i' j' : nat) :
  (i, j) <> (i', j') ->
  (alter (alter f j) i l !!! i') !!! j' = (l !!! i') !!! j'.
Proof.
  intros Hne. destruct (decide (i = i')) as [->|Hi].
  - destruct (decide (i' < length l)%nat) as [Hlt|Hge].
    + rewrite list_lookup_total_alter_eq by assumption.
      apply list_lookup_total_alter_ne. congruence.
    + rewrite list_lookup_total_alter.
      destruct (decide _) as [[_ Hlt]|_]; [lia|reflexivity].
  - now rewrite list_lookup_total_alter_ne.
Qed.

(** C10.  Reconfiguring band [band] of channel [ch] stores the (limited)
    configuration in that band, installs the coefficients computed from it
    in the biquad of that band and clears the history of that biquad; the
    configuration, the coefficients and the history of every other band of
    the channel and of every band of the other channels are unchanged. *)
Theorem PEQ_ConfigureBand_touches_one_band
  (M : LibM) (a0u : float) (st : PEQ.State) (ch band : nat)
  (cfg : PEQ.PEQBand_TypeDef)
  (Hch : (ch < AUDIO_OUTPUT_CHANNELS)%nat)
  (Hband : (band < PEQ.PEQ_MAX_BANDS_PER_CHANNEL)%nat)
  (Hrows : (ch < length (PEQ.PEQBands st))%nat)
  (Hrow : (band < length (PEQ.PEQBands st !!! ch))%nat)
  (Hbqs : (ch < length (PEQ.PEQBiquadStates st))%nat)
  (Hbq : (band < length (PEQ.PEQBiquadStates st !!! ch))%nat) :
  let st' := (PEQ.PEQ_ConfigureBand M a0u st ch band (Some cfg)).1.2 in
  (PEQ.PEQ_ConfigureBand M a0u st ch band (Some cfg)).1.1 = HAL_OK
  /\ (PEQ.PEQBands st' !!! ch) !!! band = PEQ.limit_config cfg
  /\ (PEQ.PEQBiquadStates st' !!! ch) !!! band
     = {| PEQ.coeffs :=
            PEQ.band_coefficients M a0u (PEQ.limit_config cfg);
          PEQ.x1 := 0; PEQ.x2 := 0; PEQ.y1 := 0; PEQ.y2 := 0 |}
  /\ (forall ch' band', (ch, band) <> (ch', band') ->
        (PEQ.PEQBiquadStates st' !!! ch') !!! band'
        = (PEQ.PEQBiquadStates st !!! ch') !!! band'
        /\ (PEQ.PEQBands st' !!! ch') !!! band'
           = (PEQ.PEQBands st !!! ch') !!! band')
  /\ length (PEQ.PEQBiquadStates st') = length (PEQ.PEQBiquadStates st)
  /\ length (PEQ.PEQBands st') = length (PEQ.PEQBands st).
Proof.
  cbv zeta. unfold PEQ.PEQ_ConfigureBand.
  destruct (decide _) as [Hbad|_]; [lia|].
  cbn [fst snd]. unfold PEQ.PEQ_UpdateFilterCoefficients.
  cbn [PEQ.PEQBands PEQ.PEQBiquadStates].
  assert (Hstored :
    (alter (alter (fun _ : PEQ.PEQBand_TypeDef =>
                     {| PEQ.type := PEQ.type (PEQ.limit_config cfg);
                        PEQ.frequency := PEQ.frequency (PEQ.limit_config cfg);
                        PEQ.gain := PEQ.gain (PEQ.limit_config cfg);
                        PEQ.q := PEQ.q (PEQ.limit_config cfg);
                        PEQ.enabled := PEQ.enabled (PEQ.limit_config cfg) |})
                  band) ch (PEQ.PEQBands st) !!! ch) !!! band
    = PEQ.limit_config cfg).
  { rewrite list_lookup_total_alter_eq by assumption.
    rewrite list_lookup_total_alter_eq by assumption.
    destruct (PEQ.limit_config cfg). reflexivity. }
  split; [reflexivity|]. split; [exact Hstored|]. split.
  - rewrite list_lookup_total_alter_eq by assumption.
    rewrite list_lookup_total_alter_eq by assumption.
    unfold PEQ.Biquad_SetCoefficients. rewrite Hstored. reflexivity.
  - split; [|now rewrite !length_alter].
    intros ch' band' Hne.
    split; now apply alter_alter_lookup_total.
Qed.

Lemma PEQ_ConfigureBand_touches_one_band_witness :
  (2 < AUDIO_OUTPUT_CHANNELS)%nat
  /\ (3 < PEQ.PEQ_MAX_BANDS_PER_CHANNEL)%nat
  /\ (2 < length (PEQ.PEQBands peq_sample))%nat
  /\ (3 < length (PEQ.PEQBands peq_sample !!! 2%nat))%nat
  /\ (2 < length (PEQ.PEQBiquadStates peq_sample))%nat
  /\ (3 < length (PEQ.PEQBiquadStates peq_sample !!! 2%nat))%nat
  /\ (PEQ.PEQBiquadStates
        (PEQ.PEQ_ConfigureBand libm_sample 0 peq_sample 2 3
                               (Some peq_band_sample)).1.2 !!! 2%nat)
       !!! 3%nat
     = {| PEQ.coeffs :=
            PEQ.band_coefficients libm_sample 0
                                  (PEQ.limit_config peq_band_sample);
          PEQ.x1 := 0; PEQ.x2 := 0; PEQ.y1 := 0; PEQ.y2 := 0 |}
  /\ (PEQ.PEQBiquadStates
        (PEQ.PEQ_ConfigureBand libm_sample 0 peq_sample 2 3
                               (Some peq_band_sample)).1.2 !!! 2%nat)
       !!! 4%nat
     = (PEQ.PEQBiquadStates peq_sample !!! 2%nat) !!! 4%nat.
Proof.
  assert (H1 : (2 < AUDIO_OUTPUT_CHANNELS)%nat) by (vm_compute; lia).
  assert (H2 : (3 < PEQ.PEQ_MAX_BANDS_PER_CHANNEL)%nat) by (vm_compute; lia).
  assert (H3 : (2 < length (PEQ.PEQBands peq_sample))%nat)
    by (vm_compute; lia).
  assert (H4 : (3 < length (PEQ.PEQBands peq_sample !!! 2%nat))%nat)
    by (vm_compute; lia).
  assert (H5 : (2 < length (PEQ.PEQBiquadStates peq_sample))%nat)
    by (vm_compute; lia).
  assert (H6 : (3 < length (PEQ.PEQBiquadStates peq_sample !!! 2%nat))%nat)
    by (vm_compute; lia).
  pose proof (PEQ_ConfigureBand_touches_one_band libm_sample 0 peq_sample
                2 3 peq_band_sample H1 H2 H3 H4 H5 H6) as T.
  cbv zeta in T. destruct T as (_ & _ & T3 & T4 & _).
  split; [exact H1|]. split; [exact H2|]. split; [exact H3|].
  split; [exact H4|]. split; [exact H5|]. split; [exact H6|].
  split; [exact T3|].
  apply (T4 2%nat 4%nat). intros E. inversion E.
Defined.

(** ** Filter design: the frequency that is used *)

Lemma NormalizeCoefficients_w0 (c : FilterDesign.FilterCoefficients_t) :
  FilterDesign.w0 (FilterDesign.NormalizeCoefficients c) = FilterDesign.w0 c.
Proof.
  unfold FilterDesign.NormalizeCoefficients.
  destruct (Qltb _ _); reflexivity.
Qed.

Lemma FilterDesign_Create_positive (M : LibM)
  (c : FilterDesign.FilterCoefficients_t) (ty : FilterDesign.FilterType_t)
  (freq Q g fs : float) :
  0 < freq -> 0 < fs ->
  Qle_bool freq 0 || Qle_bool fs 0 = false.
Proof.
  intros Hf Hfs.
  apply Qle_bool_false in Hf, Hfs. now rewrite Hf, Hfs.
Qed.

(** C4, as the code has it.  For a positive frequency, a positive sample
    rate and a filter type that the designer knows, the design succeeds and
    the frequency that enters the coefficient computation is the argument
    itself when it is below half the sample rate, and [sampleFreq/2 - 1]
    otherwise: two requests with the same limited frequency yield the same
    coefficients, and the frequency kept in the result is the limited one.
    There is no bound at 20 Hz or at 20 kHz, and a frequency that is zero
    or negative is refused with [FILTER_DESIGN_ERROR_PARAMS], the
    coefficient struct being left as it was. *)
Theorem FilterDesign_Create_limits_frequency_below_nyquist
  (M : LibM) (c : FilterDesign.FilterCoefficients_t)
  (ty : FilterDesign.FilterType_t) (freq freq' bad Q g fs : float)
  (Hfreq : 0 < freq) (Hfreq' : 0 < freq') (Hfs : 0 < fs)
  (Hty : ty <> FilterDesign.FILTER_TYPE_NONE)
  (Hbad : bad <= 0) :
  let used f := if Qle_bool (fs / 2) f then fs / 2 - 1 else f in
  (FilterDesign.FilterDesign_Create M c ty freq Q g fs).1
  = FilterDesign.FILTER_DESIGN_SUCCESS
  /\ (ty <> FilterDesign.FILTER_TYPE_ALL_PASS ->
      FilterDesign.w0 (FilterDesign.FilterDesign_Create M c ty freq Q g fs).2
      = used freq)
  /\ (freq < fs / 2 -> used freq = freq)
  /\ (fs / 2 <= freq -> used freq = fs / 2 - 1)
  /\ (used freq' = used freq ->
      FilterDesign.FilterDesign_Create M c ty freq' Q g fs
      = FilterDesign.FilterDesign_Create M c ty freq Q g fs)
  /\ FilterDesign.FilterDesign_Create M c ty bad Q g fs
     = (FilterDesign.FILTER_DESIGN_ERROR_PARAMS, c).
Proof.
  cbv zeta.
  pose proof (FilterDesign_Create_positive M c ty freq Q g fs Hfreq Hfs)
    as G.
  pose proof (FilterDesign_Create_positive M c ty freq' Q g fs Hfreq' Hfs)
    as G'.
  unfold FilterDesign.FilterDesign_Create. rewrite G, G'.
  split; [destruct ty; try reflexivity; congruence|].
  split.
  { intros Hap. destruct ty; try congruence; cbn [snd];
      rewrite NormalizeCoefficients_w0; try reflexivity;
      unfold FilterDesign.DesignLowShelf, FilterDesign.DesignHighShelf;
      destruct (FilterDesign.ComputeShelfParameters _ _ _ _) as [[A b] o];
      reflexivity. }
  split.
  { intros H. apply Qle_bool_false in H. now rewrite H. }
  split.
  { intros H. apply Qle_bool_iff in H. now rewrite H. }
  split.
  { intros H. rewrite H. reflexivity. }
  apply Qle_bool_iff in Hbad. now rewrite Hbad.
Qed.

(** C4 as stated fails: a request for 10 Hz at 48 kHz is designed at
    10 Hz, not at the 20 Hz that a clamp to [20, 20000] would give. *)
Lemma FilterDesign_Create_does_not_clamp_to_audio_band :
  ~ (FilterDesign.w0
       (FilterDesign.FilterDesign_Create libm_sample
          FilterDesign.neutral_coeffs FilterDesign.FILTER_TYPE_LOWPASS
          10 0.7071 0 48000).2
     == FilterDesign.spec_clamped_frequency 10 48000).
Proof. vm_compute. discriminate. Qed.

Lemma FilterDesign_Create_limits_frequency_below_nyquist_witness :
  0 < 30000 /\ 0 < 40000 /\ 0 < 48000
  /\ FilterDesign.FILTER_TYPE_LOWPASS <> FilterDesign.FILTER_TYPE_NONE
  /\ -5 <= 0
  /\ (FilterDesign.FilterDesign_Create libm_sample
        FilterDesign.neutral_coeffs FilterDesign.FILTER_TYPE_LOWPASS
        30000 0.7071 0 48000).1 = FilterDesign.FILTER_DESIGN_SUCCESS
  /\ FilterDesign.w0
       (FilterDesign.FilterDesign_Create libm_sample
          FilterDesign.neutral_coeffs FilterDesign.FILTER_TYPE_LOWPASS
          30000 0.7071 0 48000).2 = 48000 / 2 - 1
  /\ FilterDesign.FilterDesign_Create libm_sample
       FilterDesign.neutral_coeffs FilterDesign.FILTER_TYPE_LOWPASS
       40000 0.7071 0 48000
     = FilterDesign.FilterDesign_Create libm_sample
         FilterDesign.neutral_coeffs FilterDesign.FILTER_TYPE_LOWPASS
         30000 0.7071 0 48000
  /\ FilterDesign.FilterDesign_Create libm_sample
       FilterDesign.neutral_coeffs FilterDesign.FILTER_TYPE_LOWPASS
       (-5) 0.7071 0 48000
     = (FilterDesign.FILTER_DESIGN_ERROR_PARAMS, FilterDesign.neutral_coeffs).
Proof.
  assert (H1 : 0 < 30000) by (vm_compute; reflexivity).
  assert (H2 : 0 < 40000) by (vm_compute; reflexivity).
  assert (H3 : 0 < 48000) by (vm_compute; reflexivity).
  assert (H4 : FilterDesign.FILTER_TYPE_LOWPASS
               <> FilterDesign.FILTER_TYPE_NONE) by discriminate.
  assert (H5 : -5 <= 0) by (vm_compute; discriminate).
  pose proof (FilterDesign_Create_limits_frequency_below_nyquist libm_sample
                FilterDesign.neutral_coeffs FilterDesign.FILTER_TYPE_LOWPASS
                30000 40000 (-5) 0.7071 0 48000 H1 H2 H3 H4 H5) as T.
  cbv zeta in T. destruct T as (T1 & T2 & _ & T4 & T5 & T6).
  split; [exact H1|]. split; [exact H2|]. split; [exact H3|].
  split; [exact H4|]. split; [exact H5|]. split; [exact T1|].
  split.
  { rewrite T2 by discriminate. apply T4. vm_compute. discriminate. }
  split; [apply T5; reflexivity|exact T6].
Defined.

(** ** Linkwitz-Riley cascades *)

(** A successful design does not read the slot it overwrites. *)
Lemma FilterDesign_Create_success (M : LibM)
  (c : FilterDesign.FilterCoefficients_t) (ty : FilterDesign.FilterType_t)
  (freq Q g fs : float) :
  0 < freq -> 0 < fs -> ty <> FilterDesign.FILTER_TYPE_NONE ->
  FilterDesign.FilterDesign_Create M c ty freq Q g fs
  = (FilterDesign.FILTER_DESIGN_SUCCESS,
     (FilterDesign.FilterDesign_Create M FilterDesign.neutral_coeffs ty freq
        Q g fs).2).
Proof.
  intros Hf Hfs Hty.
  pose proof (FilterDesign_Create_positive M c ty freq Q g fs Hf Hfs) as G.
  unfold FilterDesign.FilterDesign_Create. rewrite G.
  destruct ty; try reflexivity; congruence.
Qed.

(** One run of the section loop: [n] sections from index [i] on, stored
    from [base + i] on, when the bank has room for them. *)
Lemma design_sections_spec (M : LibM) (ty : FilterDesign.FilterType_t)
  (freq fs : float) (q : Z) (base : nat) :
  0 < freq -> 0 < fs -> ty <> FilterDesign.FILTER_TYPE_NONE ->
  forall (n i : nat) (bank : FilterDesign.FilterBank),
    (base + i + n <= length bank)%nat ->
    exists bank',
      FilterDesign.design_sections M n i base q ty freq fs bank
      = Some (FilterDesign.FILTER_DESIGN_SUCCESS, bank')
      /\ length bank' = length bank
      /\ (forall j, (i <= j < i + n)%nat ->
            bank' !! (base + j)%nat
            = Some (FilterDesign.FilterDesign_Create M
                      FilterDesign.neutral_coeffs ty freq
                      (FilterDesign.ComputeQForButterworthOrder q
                         (Z.of_nat j)) 0 fs).2)
      /\ (forall k, (k < base + i \/ base + i + n <= k)%nat ->
            bank' !! k = bank !! k).
Proof.
  intros Hf Hfs Hty. induction n as [|n IH]; intros i bank Hroom.
  - exists bank. cbn. split; [reflexivity|]. split; [reflexivity|].
    split; [intros j Hj; lia|reflexivity].
  - cbn [FilterDesign.design_sections].
    destruct (bank !! (base + i)%nat) as [slot|] eqn:Hslot.
    2:{ apply lookup_ge_None in Hslot. lia. }
    rewrite (FilterDesign_Create_success M slot) by assumption.
    cbv zeta.
    set (slot' := (FilterDesign.FilterDesign_Create M
                     FilterDesign.neutral_coeffs ty freq
                     (FilterDesign.ComputeQForButterworthOrder q
                        (Z.of_nat i)) 0 fs).2).
    unfold FilterDesign.FilterBank in *.
    assert (Hroom' : (base + S i + n
                      <= length (<[(base + i)%nat := slot']> bank))%nat)
      by (rewrite length_insert; lia).
    destruct (IH (S i) _ Hroom') as (bank' & Hrun & Hlen & Hin & Hout).
    exists bank'. split; [exact Hrun|].
    rewrite length_insert in Hlen. split; [exact Hlen|]. split.
    + intros j Hj. destruct (decide (j = i)) as [->|Hne].
      * rewrite Hout by lia. apply list_lookup_insert_eq. lia.
      * apply Hin. lia.
    + intros k Hk. rewrite Hout by lia.
      apply list_lookup_insert_ne. lia.
Qed.

Lemma CalculateFilterCoefficients_config `{ops : Crossover.BiquadOps}
  (st : Crossover.State) (ch : nat) :
  Crossover.crossoverConfig (Crossover.CalculateFilterCoefficients st ch)
  = Crossover.crossoverConfig st.
Proof.
  unfold Crossover.CalculateFilterCoefficients,
    Crossover.Crossover_ResetFilterState.
  cbv zeta.
  destruct (decide _); destruct (Crossover.filterMode _); try reflexivity;
    destruct (Crossover.design_stages _ _ _ _ _ _ _ _); reflexivity.
Qed.

Lemma round_up_to_even (order : Z) :
  (1 <= order <= 12)%Z ->
  (if negb (order mod 2 =? 0)%Z
   then (Z.land (order + 1) (Z.lnot 1) mod 256)%Z else order)
  = if Z.odd order then (order + 1)%Z else order.
Proof.
  intros H.
  assert (E : (order = 1 \/ order = 2 \/ order = 3 \/ order = 4 \/ order = 5
               \/ order = 6 \/ order = 7 \/ order = 8 \/ order = 9
               \/ order = 10 \/ order = 11 \/ order = 12)%Z) by lia.
  repeat (destruct E as [->|E]; [reflexivity|]). subst. reflexivity.
Qed.

(** The same loop when the bank ends before the run does: the store after
    the last section of the bank is reached, whatever came before it. *)
Lemma design_sections_overrun (M : LibM) (ty : FilterDesign.FilterType_t)
  (freq fs : float) (q : Z) (base : nat) :
  0 < freq -> 0 < fs -> ty <> FilterDesign.FILTER_TYPE_NONE ->
  forall (n i : nat) (bank : FilterDesign.FilterBank),
    (base + i <= length bank < base + i + n)%nat ->
    FilterDesign.design_sections M n i base q ty freq fs bank = None.
Proof.
  intros Hf Hfs Hty. induction n as [|n IH]; intros i bank Hshort; [lia|].
  cbn [FilterDesign.design_sections].
  destruct (bank !! (base + i)%nat) as [slot|] eqn:Hslot; [|reflexivity].
  apply lookup_lt_Some in Hslot.
  rewrite (FilterDesign_Create_success M slot) by assumption.
  cbv zeta. apply IH.
  unfold FilterDesign.FilterBank in *. rewrite length_insert. lia.
Qed.

(** [order + 1] is stored back into a [uint8_t]: the order 255 becomes 0,
    and a call that passes the checks returns success with no section
    designed. *)
Lemma Linkwitz_Riley_order_255_designs_nothing (M : LibM)
  (Bessel : FilterDesign.FilterBank -> Z -> FilterDesign.FilterType_t ->
            float -> Z -> float ->
            option (FilterDesign.FilterDesignStatus * FilterDesign.FilterBank))
  (bank : FilterDesign.FilterBank) (numFilters : Z)
  (ty : FilterDesign.FilterType_t) (freq fs : float) :
  0 < freq -> 0 < fs -> (128 <= numFilters)%Z ->
  FilterDesign.FilterDesign_CreateCascade M Bessel bank numFilters ty freq
    FilterDesign.FILTER_RESPONSE_LINKWITZ_RILEY 255 fs
  = Some (FilterDesign.FILTER_DESIGN_SUCCESS, bank).
Proof.
  intros Hfreq Hfs Hnum.
  unfold FilterDesign.FilterDesign_CreateCascade.
  pose proof (FilterDesign_Create_positive M FilterDesign.neutral_coeffs ty
                freq 0 0 fs Hfreq Hfs) as G.
  apply orb_false_iff in G. destruct G as [G1 G2]. rewrite G1, G2.
  replace (numFilters <? 1)%Z with false by (symmetry; apply Z.ltb_ge; lia).
  replace (numFilters <? (255 + 1) / 2)%Z with false
    by (symmetry; apply Z.ltb_ge;
        change ((255 + 1) / 2)%Z with 128%Z; lia).
  reflexivity.
Qed.

(** C8.  For a Linkwitz-Riley order between 1 and 12, an odd order becomes
    the next even one: [Crossover_SetOrder] stores that even order and
    succeeds.  [FilterDesign_CreateCascade] writes two runs of [n]
    sections, [n] being the number of sections of a Butterworth filter of
    half the even order.  On a bank of at least [2 * n] sections the call
    succeeds and each run equals, section by section, the Butterworth
    cascade that the same function designs for half the even order; the
    rest of the bank is left as it was.  On a shorter bank the call still
    passes the function's check of [numFilters] and stores past the end of
    the bank.  That check asks for [(order + 1) / 2] sections, which is
    fewer than [2 * n] exactly for the orders 1, 2, 5, 6, 9 and 10. *)
Theorem Linkwitz_Riley_cascades_and_the_room_they_need
  `{ops : Crossover.BiquadOps} (M : LibM)
  (Bessel : FilterDesign.FilterBank -> Z -> FilterDesign.FilterType_t ->
            float -> Z -> float ->
            option (FilterDesign.FilterDesignStatus * FilterDesign.FilterBank))
  (st : Crossover.State) (ch : nat)
  (bank : FilterDesign.FilterBank) (numFilters : Z)
  (ty : FilterDesign.FilterType_t) (freq fs : float) (order : Z)
  (Horder : (1 <= order <= 12)%Z)
  (Hch : (ch < AUDIO_OUTPUT_CHANNELS)%nat)
  (Hcfg : (ch < length (Crossover.crossoverConfig st))%nat)
  (Hlr : Crossover.type (Crossover.crossoverConfig st !!! ch)
         = Crossover.CROSSOVER_TYPE_LINKWITZ_RILEY)
  (Hfreq : 0 < freq) (Hfs : 0 < fs)
  (Hty : ty <> FilterDesign.FILTER_TYPE_NONE)
  (Hnum : ((order + 1) / 2 <= numFilters)%Z) :
  let even := (if Z.odd order then order + 1 else order)%Z in
  let half := (even / 2)%Z in
  let n := Z.to_nat ((half + 1) / 2) in
  Z.even even = true
  /\ (Crossover.Crossover_SetOrder st ch order).1 = 0%Z
  /\ Crossover.order
       (Crossover.crossoverConfig (Crossover.Crossover_SetOrder st ch order).2
          !!! ch) = even
  /\ ((2 * n <= length bank)%nat ->
      exists lr bw : FilterDesign.FilterBank,
        FilterDesign.FilterDesign_CreateCascade M Bessel bank numFilters ty
          freq FilterDesign.FILTER_RESPONSE_LINKWITZ_RILEY order fs
        = Some (FilterDesign.FILTER_DESIGN_SUCCESS, lr)
        /\ FilterDesign.FilterDesign_CreateCascade M Bessel bank numFilters
             ty freq FilterDesign.FILTER_RESPONSE_BUTTERWORTH half fs
           = Some (FilterDesign.FILTER_DESIGN_SUCCESS, bw)
        /\ length lr = length bank
        /\ (forall i, (i < n)%nat ->
              is_Some (bw !! i)
              /\ lr !! i = bw !! i /\ lr !! (n + i)%nat = bw !! i)
        /\ (forall k, (2 * n <= k)%nat -> lr !! k = bank !! k))
  /\ ((length bank < 2 * n)%nat ->
      FilterDesign.FilterDesign_CreateCascade M Bessel bank numFilters ty
        freq FilterDesign.FILTER_RESPONSE_LINKWITZ_RILEY order fs
      = None)
  /\ ((Z.to_nat ((order + 1) / 2) < 2 * n)%nat
      <-> (order mod 4 = 1 \/ order mod 4 = 2)%Z).
Proof.
  cbv zeta.
  set (even := (if Z.odd order then order + 1 else order)%Z) in *.
  set (half := (even / 2)%Z) in *.
  set (n := Z.to_nat ((half + 1) / 2)) in *.
  assert (Heven : Z.even even = true).
  { subst even. destruct (Z.odd order) eqn:E.
    - replace (order + 1)%Z with (Z.succ order) by lia.
      now rewrite Z.even_succ.
    - now rewrite <- Z.negb_odd, E. }
  assert (Hrange : (order <= even <= order + 1)%Z).
  { subst even. destruct (Z.odd order); lia. }
  split; [exact Heven|].
  unfold Crossover.Crossover_SetOrder.
  destruct (decide _) as [Hge|_]; [lia|].
  replace ((order <? 1)%Z || (Crossover.MAX_FILTER_ORDER <? order)%Z)
    with false
    by (symmetry; apply orb_false_iff; unfold Crossover.MAX_FILTER_ORDER;
        split; apply Z.ltb_ge; lia).
  rewrite Hlr. cbn [Crossover.is_linkwitz_riley andb fst snd].
  rewrite round_up_to_even by exact Horder. fold even.
  split; [reflexivity|]. split.
  { rewrite CalculateFilterCoefficients_config.
    unfold Crossover.set_config. cbn [Crossover.crossoverConfig].
    rewrite list_lookup_total_alter_eq by exact Hcfg. reflexivity. }
  pose proof (FilterDesign_Create_positive M FilterDesign.neutral_coeffs ty
                freq 0 0 fs Hfreq Hfs) as G.
  apply orb_false_iff in G. destruct G as [G1 G2].
  assert (Hhalf : ((half + 1) / 2 <= (order + 1) / 2)%Z).
  { subst half. apply Z.div_le_mono; [lia|].
    assert (even / 2 <= order)%Z; [|lia].
    apply Z.div_le_upper_bound; lia. }
  assert (N1 : (numFilters <? 1)%Z = false).
  { apply Z.ltb_ge.
    assert (1 <= (order + 1) / 2)%Z by (apply Z.div_le_lower_bound; lia).
    lia. }
  assert (N2 : (numFilters <? (order + 1) / 2)%Z = false)
    by (apply Z.ltb_ge; lia).
  assert (N3 : (numFilters <? (half + 1) / 2)%Z = false)
    by (apply Z.ltb_ge; lia).
  assert (Hround : (if negb (order mod 2 =? 0)%Z
                    then ((order + 1) mod 256)%Z else order) = even).
  { subst even. rewrite Zmod_odd.
    destruct (Z.odd order); cbn; [|reflexivity].
    rewrite Z.mod_small; lia. }
  split; [|split].
  - intros Hroom. unfold FilterDesign.FilterDesign_CreateCascade.
    rewrite G1, G2, N1, N2, N3. cbn [orb]. rewrite Hround.
    fold half. fold n.
    destruct (design_sections_spec M ty freq fs half 0 Hfreq Hfs Hty n 0%nat
                bank ltac:(lia)) as (b1 & R1 & L1 & I1 & O1).
    destruct (design_sections_spec M ty freq fs half n Hfreq Hfs Hty n 0%nat
                b1 ltac:(lia)) as (b2 & R2 & L2 & I2 & O2).
    exists b2, b1. rewrite R1. split; [exact R2|]. split; [reflexivity|].
    split; [congruence|]. split.
    + intros i Hi.
      pose proof (I1 i ltac:(lia)) as H1. cbn [Nat.add] in H1.
      rewrite H1. split; [eexists; reflexivity|]. split.
      * rewrite O2 by lia. exact H1.
      * apply (I2 i). lia.
    + intros k Hk. rewrite O2 by lia. apply O1. lia.
  - intros Hshort. unfold FilterDesign.FilterDesign_CreateCascade.
    rewrite G1, G2, N1, N2. cbn [orb]. rewrite Hround.
    fold half. fold n.
    destruct (le_lt_dec n (length bank)) as [Hfirst|Hfirst].
    + destruct (design_sections_spec M ty freq fs half 0 Hfreq Hfs Hty n
                  0%nat bank ltac:(lia)) as (b1 & R1 & L1 & _).
      rewrite R1.
      apply (design_sections_overrun M ty freq fs half n Hfreq Hfs Hty).
      lia.
    + rewrite (design_sections_overrun M ty freq fs half 0 Hfreq Hfs Hty)
        by lia.
      reflexivity.
  - subst n half even.
    assert (E : (order = 1 \/ order = 2 \/ order = 3 \/ order = 4
                 \/ order = 5 \/ order = 6 \/ order = 7 \/ order = 8
                 \/ order = 9 \/ order = 10 \/ order = 11 \/ order = 12)%Z)
      by lia.
    repeat (destruct E as [->|E]; [vm_compute; split; intros; lia|]).
    subst. vm_compute. split; intros; lia.
Qed.

Lemma Linkwitz_Riley_cascades_and_the_room_they_need_witness :
  (0 < AUDIO_OUTPUT_CHANNELS)%nat
  /\ (0 < length (Crossover.crossoverConfig crossover_sample))%nat
  /\ Crossover.type (Crossover.crossoverConfig crossover_sample !!! 0%nat)
     = Crossover.CROSSOVER_TYPE_LINKWITZ_RILEY
  /\ 0 < 1000 /\ 0 < 48000
  /\ FilterDesign.FILTER_TYPE_LOWPASS <> FilterDesign.FILTER_TYPE_NONE
  /\ ((2 + 1) / 2 <= 1)%Z /\ length filter_bank_single = 1%nat
  /\ FilterDesign.FilterDesign_CreateCascade libm_sample bessel_sample
       filter_bank_single 1 FilterDesign.FILTER_TYPE_LOWPASS 1000
       FilterDesign.FILTER_RESPONSE_LINKWITZ_RILEY 2 48000
     = None
  /\ ((7 + 1) / 2 <= 4)%Z /\ length filter_bank_sample = 4%nat
  /\ Crossover.order
       (Crossover.crossoverConfig
          (Crossover.Crossover_SetOrder crossover_sample 0 7).2 !!! 0%nat)
     = 8%Z
  /\ exists lr : FilterDesign.FilterBank,
       FilterDesign.FilterDesign_CreateCascade libm_sample bessel_sample
         filter_bank_sample 4 FilterDesign.FILTER_TYPE_LOWPASS 1000
         FilterDesign.FILTER_RESPONSE_LINKWITZ_RILEY 7 48000
       = Some (FilterDesign.FILTER_DESIGN_SUCCESS, lr)
       /\ lr !! 0%nat = lr !! 2%nat /\ lr !! 1%nat = lr !! 3%nat.
Proof.
  assert (H1 : (1 <= 2 <= 12)%Z) by lia.
  assert (H1' : (1 <= 7 <= 12)%Z) by lia.
  assert (H2 : (0 < AUDIO_OUTPUT_CHANNELS)%nat) by (vm_compute; lia).
  assert (H3 : (0 < length (Crossover.crossoverConfig crossover_sample))%nat)
    by (vm_compute; lia).
  assert (H4 : Crossover.type
                 (Crossover.crossoverConfig crossover_sample !!! 0%nat)
               = Crossover.CROSSOVER_TYPE_LINKWITZ_RILEY) by reflexivity.
  assert (H5 : 0 < 1000) by reflexivity.
  assert (H6 : 0 < 48000) by reflexivity.
  assert (H7 : FilterDesign.FILTER_TYPE_LOWPASS
               <> FilterDesign.FILTER_TYPE_NONE) by discriminate.
  assert (H8 : ((2 + 1) / 2 <= 1)%Z) by (vm_compute; discriminate).
  assert (H8' : ((7 + 1) / 2 <= 4)%Z) by (vm_compute; discriminate).
  assert (H9 : length filter_bank_single = 1%nat) by reflexivity.
  assert (H9' : length filter_bank_sample = 4%nat) by reflexivity.
  pose proof (Linkwitz_Riley_cascades_and_the_room_they_need
                libm_sample bessel_sample crossover_sample 0
                filter_bank_single 1 FilterDesign.FILTER_TYPE_LOWPASS
                1000 48000 2 H1 H2 H3 H4 H5 H6 H7 H8) as S.
  cbv zeta in S. destruct S as (_ & _ & _ & _ & S5 & _).
  assert (Hshort : (length filter_bank_single
                    < 2 * Z.to_nat
                          (((if Z.odd 2 then 2 + 1 else 2) / 2 + 1) / 2))%nat)
    by (vm_compute; lia).
  pose proof (Linkwitz_Riley_cascades_and_the_room_they_need
                libm_sample bessel_sample crossover_sample 0
                filter_bank_sample 4 FilterDesign.FILTER_TYPE_LOWPASS
                1000 48000 7 H1' H2 H3 H4 H5 H6 H7 H8') as T.
  cbv zeta in T. destruct T as (_ & _ & T3 & T4 & _).
  assert (Hroom : (2 * Z.to_nat
                         (((if Z.odd 7 then 7 + 1 else 7) / 2 + 1) / 2)
                   <= length filter_bank_sample)%nat)
    by (vm_compute; lia).
  destruct (T4 Hroom) as (lr & bw & T5 & _ & _ & T7 & _).
  split; [exact H2|]. split; [exact H3|]. split; [exact H4|].
  split; [exact H5|]. split; [exact H6|]. split; [exact H7|].
  split; [exact H8|]. split; [exact H9|]. split; [exact (S5 Hshort)|].
  split; [exact H8'|]. split; [exact H9'|]. split; [exact T3|].
  exists lr. split; [exact T5|].
  assert (L0 : (0 < 2)%nat) by lia.
  assert (L1 : (1 < 2)%nat) by lia.
  destruct (T7 0%nat L0) as (_ & A0 & B0).
  destruct (T7 1%nat L1) as (_ & A1 & B1).
  split.
  - transitivity (bw !! 0%nat); [exact A0|symmetry; exact B0].
  - transitivity (bw !! 1%nat); [exact A1|symmetry; exact B1].
Defined.

(** ** The delay line at a whole number of samples *)

Lemma ModuloBufferSize_small (i size : Z) :
  (0 <= i < size)%Z -> (size < 2 ^ 32)%Z ->
  Delay.ModuloBufferSize i size = i.
Proof.
  intros Hi Hs. unfold Delay.ModuloBufferSize, Delay.to_uint32.
  replace (i <? 0)%Z with false by (symmetry; apply Z.ltb_ge; lia).
  rewrite (Z.mod_small i (2 ^ 32)) by lia. apply Z.mod_small. lia.
Qed.

Lemma ModuloBufferSize_next (w size : Z) :
  (0 <= w < size)%Z -> (size < 2 ^ 31)%Z ->
  Delay.ModuloBufferSize (Delay.to_int32 (Delay.to_uint32 (w + 1))) size
  = ((w + 1) mod size)%Z.
Proof.
  intros Hw Hs. unfold Delay.ModuloBufferSize, Delay.to_int32, Delay.to_uint32.
  rewrite (Z.mod_small (w + 1) (2 ^ 32)) by lia.
  rewrite (Z.mod_small (w + 1 + 2 ^ 31) (2 ^ 32)) by lia.
  replace (w + 1 + 2 ^ 31 - 2 ^ 31)%Z with (w + 1)%Z by lia.
  replace (w + 1 <? 0)%Z with false by (symmetry; apply Z.ltb_ge; lia).
  rewrite (Z.mod_small (w + 1) (2 ^ 32)) by lia. reflexivity.
Qed.

Lemma Qtrunc_inject_Z (x : Q) (z : Z) : x == inject_Z z -> Qtrunc x = z.
Proof.
  unfold Qtrunc, Qeq, inject_Z. cbn [Qnum Qden]. intros H.
  rewrite Z.mul_1_r in H. rewrite H. apply Z.quot_mul. discriminate.
Qed.

(** The wrap-around loop of the read position makes at most one round when
    the delay is shorter than the buffer. *)
Lemma wrap_read_position_integer (fuel : nat) (x : Q) (w N size : Z) :
  (1 <= fuel)%nat -> (0 <= w < size)%Z -> (0 <= N < size)%Z ->
  x == inject_Z (w - N) ->
  exists r, Delay.wrap_read_position fuel x (inject_Z size) = Some r
            /\ r == inject_Z ((w - N) mod size).
Proof.
  intros Hfuel Hw HN Hx.
  destruct fuel as [|fuel]; [lia|].
  cbn [Delay.wrap_read_position].
  destruct (Qltb x 0) eqn:Hneg.
  - apply Qltb_true in Hneg. rewrite Hx in Hneg.
    assert (Hlt : (w - N < 0)%Z).
    { unfold Qlt, inject_Z in Hneg. cbn in Hneg. lia. }
    assert (Hpos : Qltb (x + inject_Z size) 0 = false).
    { apply Qltb_false. rewrite Hx, <- inject_Z_plus.
      change 0 with (inject_Z 0). rewrite <- Zle_Qle. lia. }
    exists (x + inject_Z size). split.
    + destruct fuel; cbn [Delay.wrap_read_position]; now rewrite Hpos.
    + rewrite Hx, <- inject_Z_plus.
      replace ((w - N) mod size)%Z with (w - N + size)%Z; [reflexivity|].
      apply Z.mod_unique with (q := (-1)%Z); lia.
  - apply Qltb_false in Hneg. rewrite Hx in Hneg.
    assert (Hge : (0 <= w - N)%Z).
    { change 0 with (inject_Z 0) in Hneg. now rewrite <- Zle_Qle in Hneg. }
    exists x. split; [reflexivity|].
    rewrite Z.mod_small by lia. exact Hx.
Qed.

(** One sample through a line whose delay is a whole number [N] of samples:
    the interpolation reads cell [(w - N) mod size] with fraction zero, and
    the smoothing filter mixes it with the previous output. *)
Lemma ProcessSampleWithDelay_whole (fuel : nat)
  (instance : Delay.DelayInstance_TypeDef) (buf : list float) (x : float)
  (w N size : Z) :
  Delay.buffer instance = Some buf ->
  Delay.bufferSize instance = size ->
  Delay.writeIndex instance = w ->
  Delay.phaseInvert instance = false ->
  Delay.delaySamples instance == inject_Z N ->
  (1 <= fuel)%nat -> (0 <= w < size)%Z -> (0 <= N < size)%Z ->
  (size < 2 ^ 31)%Z ->
  exists y,
    Delay.ProcessSampleWithDelay Delay.DELAY_INTERPOLATION_LINEAR fuel
      instance x
    = Some (y, Delay.with_cursor ((w + 1) mod size) y
                 (Delay.with_buffer (Some (<[Z.to_nat w := x]> buf))
                    instance))
    /\ y == (<[Z.to_nat w := x]> buf !!! Z.to_nat ((w - N) mod size))
            * (1 - Delay.filterCoeff instance)
            + Delay.prevSample instance * Delay.filterCoeff instance.
Proof.
  intros Hbuf Hsize Hw Hphase Hd Hfuel Hwr HN Hs.
  assert (Hx : inject_Z w - Delay.delaySamples instance == inject_Z (w - N)).
  { rewrite Hd. unfold Z.sub. rewrite inject_Z_plus, inject_Z_opp.
    reflexivity. }
  destruct (wrap_read_position_integer fuel _ w N size Hfuel Hwr HN Hx)
    as (r & Hr & Hrq).
  assert (Hcell : (0 <= (w - N) mod size < size)%Z)
    by (apply Z.mod_pos_bound; lia).
  unfold Delay.ProcessSampleWithDelay.
  rewrite Hbuf, Hsize, Hw, Hphase, Hr. cbv zeta.
  rewrite (Qtrunc_inject_Z r _ Hrq).
  rewrite (ModuloBufferSize_small ((w - N) mod size)) by lia.
  rewrite ModuloBufferSize_next by lia.
  eexists. split; [reflexivity|].
  unfold Delay.InterpolateLinear. cbv zeta.
  assert (Hfrac : r - inject_Z ((w - N) mod size) == 0)
    by (rewrite Hrq; ring).
  rewrite Hfrac. ring.
Qed.

(** Two cells of the ring that are less than [size] apart are different. *)
Lemma ring_cells_differ (a e size : Z) :
  (0 < e < size)%Z -> ((a - e) mod size <> a mod size)%Z.
Proof.
  intros He Heq.
  assert (H : (e mod size = 0)%Z).
  { replace e with (a - (a - e))%Z by lia.
    rewrite Zminus_mod, Heq, Z.sub_diag. apply Z.mod_0_l. lia. }
  rewrite Z.mod_small in H by lia. lia.
Qed.

(** The invariant is kept by one sample, and the sample that comes out is
    the next value of the smoothing recurrence. *)
Lemma delay_invariant_step (fuel : nat) (size N w0 : Z) (c : float)
  (data : list float) (t : nat) (instance : Delay.DelayInstance_TypeDef) :
  (1 <= fuel)%nat -> (0 < size < 2 ^ 31)%Z -> (0 <= N < size)%Z ->
  Delay.delay_invariant size N w0 c data t instance ->
  exists y instance',
    Delay.ProcessSampleWithDelay Delay.DELAY_INTERPOLATION_LINEAR fuel
      instance (data !!! t) = Some (y, instance')
    /\ y == Delay.smoothed c N data (S t)
    /\ Delay.delay_invariant size N w0 c data (S t) instance'.
Proof.
  intros Hfuel Hsize HN [(buf & Hbuf & Hlen & Hcells) Hbs Hw Hph Hd Hc Hp].
  set (w := ((w0 + Z.of_nat t) mod size)%Z) in *.
  assert (Hwr : (0 <= w < size)%Z) by (apply Z.mod_pos_bound; lia).
  destruct (ProcessSampleWithDelay_whole fuel instance buf (data !!! t)
              w N size Hbuf Hbs Hw Hph Hd Hfuel Hwr HN ltac:(lia))
    as (y & Hrun & Hy).
  set (buf' := <[Z.to_nat w := data !!! t]> buf) in *.
  assert (Hpost : forall e : Z, (0 <= e <= size - 1)%Z ->
            buf' !!! Z.to_nat ((w0 + Z.of_nat t - e) mod size)
            = Delay.past data (Z.of_nat t - e)).
  { intros e He. destruct (decide (e = 0%Z)) as [->|Hne].
    - rewrite !Z.sub_0_r. fold w. subst buf'.
      rewrite list_lookup_total_insert_eq by lia.
      unfold Delay.past.
      replace (Z.of_nat t <? 0)%Z with false
        by (symmetry; apply Z.ltb_ge; lia).
      now rewrite Nat2Z.id.
    - subst buf'. rewrite list_lookup_total_insert_ne.
      + apply Hcells. lia.
      + intros Heq. apply Z2Nat.inj in Heq;
          [|lia|apply Z.mod_pos_bound; lia].
        symmetry in Heq. revert Heq. apply ring_cells_differ. lia. }
  assert (Hout : y == Delay.smoothed c N data (S t)).
  { rewrite Hy. cbn [Delay.smoothed]. rewrite Hc, Hp.
    unfold w. rewrite Zminus_mod_idemp_l. rewrite Hpost by lia.
    reflexivity. }
  exists y, (Delay.with_cursor ((w + 1) mod size) y
               (Delay.with_buffer (Some buf') instance)).
  split; [exact Hrun|]. split; [exact Hout|].
  constructor; cbn; try assumption.
  - exists buf'. split; [reflexivity|]. split.
    + subst buf'. now rewrite length_insert.
    + intros d Hd'.
      replace (w0 + Z.of_nat (S t) - d)%Z
        with (w0 + Z.of_nat t - (d - 1))%Z by lia.
      replace (Z.of_nat (S t) - d)%Z
        with (Z.of_nat t - (d - 1))%Z by lia.
      apply Hpost. lia.
  - unfold w. rewrite Zplus_mod_idemp_l. f_equal. lia.
Qed.

(** The sample loop from time [t] on: [n] more samples keep the invariant
    and come out as the values of the smoothing recurrence. *)
Lemma delay_samples_run (fuel : nat) (size N w0 : Z) (c : float)
  (data : list float) :
  (1 <= fuel)%nat -> (0 < size < 2 ^ 31)%Z -> (0 <= N < size)%Z ->
  forall (n t : nat) (instance : Delay.DelayInstance_TypeDef),
    Delay.delay_invariant size N w0 c data t instance ->
    (t + n <= length data)%nat ->
    exists ys instance',
      Delay.delay_samples Delay.DELAY_INTERPOLATION_LINEAR fuel n instance
        (drop t data) = Some (ys, instance')
      /\ length ys = (length data - t)%nat
      /\ Delay.delay_invariant size N w0 c data (t + n) instance'
      /\ forall k, (k < n)%nat ->
           ys !!! k == Delay.smoothed c N data (S (t + k)).
Proof.
  intros Hfuel Hsize HN. induction n as [|n IH]; intros t instance Hinv Hlen.
  - exists (drop t data), instance. split.
    { cbn. destruct (drop t data); reflexivity. }
    split; [apply length_drop|]. rewrite Nat.add_0_r.
    split; [exact Hinv|]. intros k Hk. lia.
  - assert (Hx : data !! t = Some (data !!! t))
      by (apply list_lookup_lookup_total_lt; lia).
    rewrite (drop_S _ _ _ Hx). cbn [Delay.delay_samples].
    destruct (delay_invariant_step fuel size N w0 c data t instance
                Hfuel Hsize HN Hinv) as (y & i1 & Hrun & Hy & Hinv1).
    rewrite Hrun.
    destruct (IH (S t) i1 Hinv1 ltac:(lia)) as (ys & i2 & Hrest & Hl & Hi & Hk).
    rewrite Hrest. exists (y :: ys), i2.
    split; [reflexivity|]. split; [cbn; lia|]. split.
    + replace (t + S n)%nat with (S t + n)%nat by lia. exact Hi.
    + intros [|k] Hlt.
      * rewrite Nat.add_0_r. exact Hy.
      * replace (t + S k)%nat with (S t + k)%nat by lia.
        apply (Hk k). lia.
Qed.

Lemma past_impulse (L : nat) (j : Z) :
  (1 <= L)%nat ->
  Delay.past (Delay.impulse L) j = if (j =? 0)%Z then 1 else 0.
Proof.
  intros HL. destruct L as [|L]; [lia|]. unfold Delay.past, Delay.impulse.
  destruct (j <? 0)%Z eqn:Hneg.
  - apply Z.ltb_lt in Hneg.
    replace (j =? 0)%Z with false by (symmetry; apply Z.eqb_neq; lia).
    reflexivity.
  - apply Z.ltb_ge in Hneg. destruct (j =? 0)%Z eqn:Hz.
    + apply Z.eqb_eq in Hz. subst j. reflexivity.
    + apply Z.eqb_neq in Hz.
      destruct (Z.to_nat j) as [|m] eqn:Hm; [lia|].
      change ((1 :: replicate L 0) !!! S m) with (replicate L (0 : Q) !!! m).
      rewrite list_lookup_total_alt.
      destruct (replicate L (0 : Q) !! m) as [v|] eqn:Hv; [|reflexivity].
      apply lookup_replicate in Hv. destruct Hv as [-> _]. reflexivity.
Qed.

(** The smoothing recurrence on the impulse, in closed form. *)
Lemma smoothed_impulse (c : float) (N : Z) (L : nat) :
  (1 <= L)%nat -> (0 <= N)%Z ->
  forall t : nat,
    Delay.smoothed c N (Delay.impulse L) t
    == if (Z.of_nat t <=? N)%Z then 0
       else (1 - c) * c ^ (Z.of_nat t - 1 - N).
Proof.
  intros HL HN. induction t as [|t IH].
  - cbn [Delay.smoothed].
    replace (Z.of_nat 0 <=? N)%Z with true
      by (symmetry; apply Z.leb_le; lia).
    reflexivity.
  - cbn [Delay.smoothed]. rewrite IH, past_impulse by exact HL.
    destruct (Z.of_nat t <=? N)%Z eqn:Ht.
    + apply Z.leb_le in Ht. destruct (Z.of_nat t - N =? 0)%Z eqn:Hz.
      * apply Z.eqb_eq in Hz.
        replace (Z.of_nat (S t) <=? N)%Z with false
          by (symmetry; apply Z.leb_gt; lia).
        replace (Z.of_nat (S t) - 1 - N)%Z with 0%Z by lia.
        cbn [Qpower]. ring.
      * apply Z.eqb_neq in Hz.
        replace (Z.of_nat (S t) <=? N)%Z with true
          by (symmetry; apply Z.leb_le; lia).
        ring.
    + apply Z.leb_gt in Ht.
      replace (Z.of_nat t - N =? 0)%Z with false
        by (symmetry; apply Z.eqb_neq; lia).
      replace (Z.of_nat (S t) <=? N)%Z with false
        by (symmetry; apply Z.leb_gt; lia).
      replace (Z.of_nat (S t) - 1 - N)%Z
        with ((Z.of_nat t - 1 - N) + 1)%Z by lia.
      rewrite Qpower_plus' by lia.
      change (c ^ 1) with c. ring.
Qed.

(** C7, as the code has it.  From a zeroed buffer and a cleared smoothing
    state, with no phase inversion, linear interpolation and a delay of a
    whole number [N] of samples that is shorter than the buffer, the
    impulse of [L] samples comes out as zero before index [N] and as
    [(1 - c) * c^(k - N)] at every index [k] from [N] on, where [c] is the
    instance's [filterCoeff]: the impulse is delayed by exactly [N]
    samples and then goes through the one-pole smoothing filter that ends
    [ProcessSampleWithDelay].  Every instance that the loop body of
    [Delay_Init] sets up has [c = 0.7], so the sample at index [N] is 0.3
    and the samples after it decay by the factor 0.7. *)
Theorem delayed_impulse_is_smoothed (fuel L : nat) (N : Z)
  (instance : Delay.DelayInstance_TypeDef)
  (Hfuel : (1 <= fuel)%nat) (HL : (1 <= L)%nat)
  (Hsize : (0 < Delay.bufferSize instance < 2 ^ 31)%Z)
  (Hbuf : Delay.buffer instance
          = Some (replicate (Z.to_nat (Delay.bufferSize instance)) 0))
  (Hw : (0 <= Delay.writeIndex instance < Delay.bufferSize instance)%Z)
  (Hprev : Delay.prevSample instance == 0)
  (Hphase : Delay.phaseInvert instance = false)
  (HN : (0 <= N < Delay.bufferSize instance)%Z)
  (Hd : Delay.delaySamples instance == inject_Z N) :
  (exists ys instance',
     Delay.delay_samples Delay.DELAY_INTERPOLATION_LINEAR fuel L instance
       (Delay.impulse L) = Some (ys, instance')
     /\ length ys = L
     /\ forall k, (k < L)%nat ->
          ys !!! k
          == if (Z.of_nat k <? N)%Z then 0
             else (1 - Delay.filterCoeff instance)
                  * Delay.filterCoeff instance ^ (Z.of_nat k - N))
  /\ (forall (malloc : nat -> option (list float))
             (config : Delay.DelayConfig_TypeDef)
             (i0 i1 : Delay.DelayInstance_TypeDef),
        Delay.init_instance malloc config i0 = Some i1 ->
        Delay.filterCoeff i1 = 0.7).
Proof.
  split.
  2:{ intros malloc config i0 i1. unfold Delay.init_instance. cbv zeta.
      destruct (malloc _); [|discriminate].
      intros H. injection H as <-. reflexivity. }
  set (size := Delay.bufferSize instance) in *.
  assert (Hlen : length (Delay.impulse L) = L).
  { destruct L as [|L]; [lia|]. cbn. now rewrite length_replicate. }
  assert (Hinv : Delay.delay_invariant size N (Delay.writeIndex instance)
                   (Delay.filterCoeff instance) (Delay.impulse L) 0
                   instance).
  { constructor; try assumption; try reflexivity.
    - exists (replicate (Z.to_nat size) 0). split; [exact Hbuf|].
      split; [apply length_replicate|]. intros d Hd'.
      rewrite lookup_total_replicate_2.
      + unfold Delay.past.
        replace (Z.of_nat 0 - d <? 0)%Z with true
          by (symmetry; apply Z.ltb_lt; lia).
        reflexivity.
      + assert (0 <= (Delay.writeIndex instance + Z.of_nat 0 - d) mod size
                < size)%Z by (apply Z.mod_pos_bound; lia).
        lia.
    - rewrite Z.add_0_r, Z.mod_small by lia. reflexivity. }
  destruct (delay_samples_run fuel size N (Delay.writeIndex instance)
              (Delay.filterCoeff instance) (Delay.impulse L)
              Hfuel Hsize HN L 0%nat instance Hinv ltac:(cbn; lia))
    as (ys & i' & Hrun & Hl & _ & Hk).
  exists ys, i'. split; [exact Hrun|]. split; [lia|].
  intros k Hlt. rewrite (Hk k Hlt), smoothed_impulse by lia.
  cbn [Nat.add].
  destruct (Z.of_nat k <? N)%Z eqn:E.
  - apply Z.ltb_lt in E.
    replace (Z.of_nat (S k) <=? N)%Z with true
      by (symmetry; apply Z.leb_le; lia).
    reflexivity.
  - apply Z.ltb_ge in E.
    replace (Z.of_nat (S k) <=? N)%Z with false
      by (symmetry; apply Z.leb_gt; lia).
    replace (Z.of_nat (S k) - 1 - N)%Z with (Z.of_nat k - N)%Z by lia.
    reflexivity.
Qed.

(** C7 as stated fails: on the initialised system with channel 0 set to
    1 ms (48 samples), the impulse comes out at index 48 with value 0.3,
    not 1, and index 49 carries 0.21, not 0. *)
Lemma delayed_impulse_is_attenuated_and_smeared :
  exists st out,
    Delay.Delay_Process 4 1 delay_ready 0 (Some (Delay.impulse 50)) 50
    = Some (HAL_OK, st, Some out)
    /\ out !!! 48%nat == 0.3 /\ out !!! 49%nat == 0.21
    /\ ~ out !!! 48%nat == 1 /\ ~ out !!! 49%nat == 0.
Proof.
  eexists. eexists. split; [vm_compute; reflexivity|].
  vm_compute. repeat split; discriminate.
Qed.

Lemma delayed_impulse_is_smoothed_witness :
  (1 <= 1)%nat /\ (1 <= 50)%nat
  /\ (0 < Delay.bufferSize (Delay.delayInstances delay_ready !!! 0%nat)
      < 2 ^ 31)%Z
  /\ Delay.prevSample (Delay.delayInstances delay_ready !!! 0%nat) == 0
  /\ Delay.phaseInvert (Delay.delayInstances delay_ready !!! 0%nat) = false
  /\ Delay.delaySamples (Delay.delayInstances delay_ready !!! 0%nat)
     == inject_Z 48
  /\ exists ys instance',
       Delay.delay_samples Delay.DELAY_INTERPOLATION_LINEAR 1 50
         (Delay.delayInstances delay_ready !!! 0%nat) (Delay.impulse 50)
       = Some (ys, instance')
       /\ ys !!! 47%nat == 0 /\ ys !!! 48%nat == 0.3
       /\ ys !!! 49%nat == 0.21.
Proof.
  pose (i := Delay.delayInstances delay_ready !!! 0%nat).
  assert (H1 : (1 <= 1)%nat) by lia.
  assert (H2 : (1 <= 50)%nat) by lia.
  assert (H3 : (0 < Delay.bufferSize i < 2 ^ 31)%Z) by (vm_compute; split;
                                                         reflexivity).
  assert (H4 : Delay.buffer i
               = Some (replicate (Z.to_nat (Delay.bufferSize i)) 0))
    by (vm_compute; reflexivity).
  assert (H5 : (0 <= Delay.writeIndex i < Delay.bufferSize i)%Z)
    by (vm_compute; split; [discriminate|reflexivity]).
  assert (H6 : Delay.prevSample i == 0) by (vm_compute; reflexivity).
  assert (H7 : Delay.phaseInvert i = false) by (vm_compute; reflexivity).
  assert (H8 : (0 <= 48 < Delay.bufferSize i)%Z)
    by (vm_compute; split; [discriminate|reflexivity]).
  assert (H9 : Delay.delaySamples i == inject_Z 48)
    by (vm_compute; reflexivity).
  destruct (delayed_impulse_is_smoothed 1 50 48 i H1 H2 H3 H4 H5 H6 H7 H8 H9)
    as [(ys & i' & Hrun & _ & Hk) Hinit].
  split; [exact H1|]. split; [exact H2|]. split; [exact H3|].
  split; [exact H6|]. split; [exact H7|]. split; [exact H9|].
  exists ys, i'. split; [exact Hrun|].
  assert (Hc : Delay.filterCoeff i = 0.7) by (vm_compute; reflexivity).
  rewrite Hc in Hk.
  split; [exact (Hk 47%nat ltac:(lia))|].
  split.
  - rewrite (Hk 48%nat ltac:(lia)). vm_compute. reflexivity.
  - rewrite (Hk 49%nat ltac:(lia)). vm_compute. reflexivity.
Defined.

(** * Further properties of the same files *)

(** ** Biquad: blocks, chains and initialisation *)

Lemma Biquad_ProcessBlock_length (state : Biquad.BiquadState_t)
  (xs : list float) :
  length (Biquad.Biquad_ProcessBlock state xs).1 = length xs.
Proof.
  revert state. induction xs as [|x xs IH]; intros state; [reflexivity|].
  cbn [Biquad.Biquad_ProcessBlock].
  destruct (Biquad.Biquad_ProcessSample state x) as [y s1].
  specialize (IH s1).
  destruct (Biquad.Biquad_ProcessBlock s1 xs) as [o1 s2].
  cbn in *. now rewrite IH.
Qed.

(** A stream processed as two consecutive blocks yields the samples and
    the final state of the same stream processed as one block, and a block
    comes back with as many samples as it had. *)
Theorem Biquad_ProcessBlock_splits (state : Biquad.BiquadState_t)
  (xs ys : list float) :
  Biquad.Biquad_ProcessBlock state (xs ++ ys)
  = ((Biquad.Biquad_ProcessBlock state xs).1
       ++ (Biquad.Biquad_ProcessBlock
             (Biquad.Biquad_ProcessBlock state xs).2 ys).1,
     (Biquad.Biquad_ProcessBlock
        (Biquad.Biquad_ProcessBlock state xs).2 ys).2)
  /\ length (Biquad.Biquad_ProcessBlock state xs).1 = length xs.
Proof.
  split; [|apply Biquad_ProcessBlock_length].
  revert state. induction xs as [|x xs IH]; intros state.
  - cbn. destruct (Biquad.Biquad_ProcessBlock state ys); reflexivity.
  - cbn [app Biquad.Biquad_ProcessBlock].
    destruct (Biquad.Biquad_ProcessSample state x) as [y s1].
    rewrite (IH s1).
    destruct (Biquad.Biquad_ProcessBlock s1 xs) as [o1 s2].
    reflexivity.
Qed.

Lemma Biquad_ProcessSample_coefficients (s : Biquad.BiquadState_t)
  (x : float) :
  let s' := (Biquad.Biquad_ProcessSample s x).2 in
  Biquad.b0 s' = Biquad.b0 s /\ Biquad.b1 s' = Biquad.b1 s
  /\ Biquad.b2 s' = Biquad.b2 s /\ Biquad.a1 s' = Biquad.a1 s
  /\ Biquad.a2 s' = Biquad.a2 s /\ Biquad.x1 s' = Biquad.x1 s
  /\ Biquad.x2 s' = Biquad.x2 s.
Proof. cbn. repeat split; reflexivity. Qed.

(** Processing never writes a coefficient, nor the two input-history
    fields [x1] and [x2]: after a block, the state holds the coefficients
    it had, and after a sample through a chain, the chain has the same
    number of stages and every stage the coefficients it had. *)
Theorem Biquad_processing_keeps_coefficients (state : Biquad.BiquadState_t)
  (chain : list Biquad.BiquadState_t) (block : list float) (x : float) :
  (let s' := (Biquad.Biquad_ProcessBlock state block).2 in
   Biquad.b0 s' = Biquad.b0 state /\ Biquad.b1 s' = Biquad.b1 state
   /\ Biquad.b2 s' = Biquad.b2 state /\ Biquad.a1 s' = Biquad.a1 state
   /\ Biquad.a2 s' = Biquad.a2 state /\ Biquad.x1 s' = Biquad.x1 state
   /\ Biquad.x2 s' = Biquad.x2 state)
  /\ Forall2 (fun s s' =>
                Biquad.b0 s' = Biquad.b0 s /\ Biquad.b1 s' = Biquad.b1 s
                /\ Biquad.b2 s' = Biquad.b2 s /\ Biquad.a1 s' = Biquad.a1 s
                /\ Biquad.a2 s' = Biquad.a2 s /\ Biquad.x1 s' = Biquad.x1 s
                /\ Biquad.x2 s' = Biquad.x2 s)
             chain (Biquad.Biquad_ProcessChain chain x).2.
Proof.
  split.
  - revert state. induction block as [|v block IH]; intros state.
    + cbn. repeat split; reflexivity.
    + cbn [Biquad.Biquad_ProcessBlock].
      pose proof (Biquad_ProcessSample_coefficients state v) as H.
      destruct (Biquad.Biquad_ProcessSample state v) as [y s1].
      specialize (IH s1).
      destruct (Biquad.Biquad_ProcessBlock s1 block) as [ys s2].
      cbn [fst snd] in *. cbv zeta in *.
      destruct H as (H1 & H2 & H3 & H4 & H5 & H6 & H7).
      destruct IH as (I1 & I2 & I3 & I4 & I5 & I6 & I7).
      repeat split; congruence.
  - revert x. induction chain as [|s chain IH]; intros x.
    + constructor.
    + cbn [Biquad.Biquad_ProcessChain].
      pose proof (Biquad_ProcessSample_coefficients s x) as H.
      destruct (Biquad.Biquad_ProcessSample s x) as [y s1].
      specialize (IH y).
      destruct (Biquad.Biquad_ProcessChain chain y) as [out rest].
      cbn [fst snd] in *. constructor; assumption.
Qed.

Lemma Biquad_at_rest (s : Biquad.BiquadState_t) (n : nat) :
  Biquad.y1 s == 0 -> Biquad.y2 s == 0 ->
  Forall (fun y => y == 0)
         (Biquad.Biquad_ProcessBlock s (replicate n 0)).1
  /\ Biquad.y1 (Biquad.Biquad_ProcessBlock s (replicate n 0)).2 == 0
  /\ Biquad.y2 (Biquad.Biquad_ProcessBlock s (replicate n 0)).2 == 0.
Proof.
  revert s. induction n as [|n IH]; intros s H1 H2.
  - cbn. split; [constructor|]. split; assumption.
  - cbn [replicate Biquad.Biquad_ProcessBlock Biquad.Biquad_ProcessSample
         Biquad.Biquad_DirectFormII].
    set (w := 0 - Biquad.a1 s * Biquad.y1 s - Biquad.a2 s * Biquad.y2 s).
    assert (Hw : w == 0) by (unfold w; rewrite H1, H2; ring).
    match goal with
    | |- context [Biquad.Biquad_ProcessBlock ?s1 _] =>
        destruct (IH s1) as (I1 & I2 & I3); [exact Hw|exact H1|];
        destruct (Biquad.Biquad_ProcessBlock s1 (replicate n 0)) as [ys s2]
    end.
    cbn [fst snd] in *. split; [|split; assumption].
    constructor; [|exact I1]. rewrite Hw, H1, H2. ring.
Qed.

(** A biquad whose history has been cleared is at rest: a block of zeros
    comes out as a block of zeros, whatever the coefficients are, and the
    history is still zero afterwards. *)
Theorem Biquad_reset_then_silence (state : Biquad.BiquadState_t) (n : nat) :
  let r := Biquad.Biquad_ProcessBlock (Biquad.Biquad_Reset state)
                                      (replicate n 0) in
  length r.1 = n
  /\ Forall (fun y => y == 0) r.1
  /\ Biquad.y1 r.2 == 0 /\ Biquad.y2 r.2 == 0.
Proof.
  cbv zeta. split.
  - rewrite Biquad_ProcessBlock_length. apply length_replicate.
  - apply Biquad_at_rest; reflexivity.
Qed.

(** With a positive sample rate [Biquad_Init] overwrites the whole state:
    what the state held before does not matter. *)
Lemma Biquad_Init_independent (M : LibM) (s s' : Biquad.BiquadState_t)
  (config : BiquadSetup.BiquadConfig_t) :
  0 < BiquadSetup.sampleRate config ->
  BiquadSetup.Biquad_Init M s config = BiquadSetup.Biquad_Init M s' config.
Proof.
  intros Hfs. apply Qle_bool_false in Hfs.
  unfold BiquadSetup.Biquad_Init, BiquadSetup.Biquad_CalculateCoefficients.
  rewrite Hfs. cbv zeta.
  destruct (BiquadSetup.raw_coefficients M config _ _) as [[[[b0 b1] b2] a1] a2].
  reflexivity.
Qed.

(** [Biquad_Init] always leaves a cleared history.  With a positive sample
    rate the state it leaves depends on the configuration alone; with a
    sample rate that is zero or negative the coefficients are the ones the
    state held before the call. *)
Theorem Biquad_Init_clears_and_overwrites (M : LibM)
  (s s' : Biquad.BiquadState_t) (config bad : BiquadSetup.BiquadConfig_t)
  (Hfs : 0 < BiquadSetup.sampleRate config)
  (Hbad : BiquadSetup.sampleRate bad <= 0) :
  (forall c : BiquadSetup.BiquadConfig_t,
     let r := BiquadSetup.Biquad_Init M s c in
     Biquad.x1 r = 0 /\ Biquad.x2 r = 0 /\ Biquad.y1 r = 0 /\ Biquad.y2 r = 0)
  /\ BiquadSetup.Biquad_Init M s config = BiquadSetup.Biquad_Init M s' config
  /\ BiquadSetup.Biquad_Init M s bad = Biquad.Biquad_Reset s.
Proof.
  split; [|split].
  - intros c. cbv zeta.
    unfold BiquadSetup.Biquad_Init, BiquadSetup.Biquad_CalculateCoefficients.
    destruct (Qle_bool _ 0); [cbn; repeat split; reflexivity|].
    cbv zeta.
    destruct (BiquadSetup.raw_coefficients M c _ _) as [[[[b0 b1] b2] a1] a2].
    cbn. repeat split; reflexivity.
  - now apply Biquad_Init_independent.
  - apply Qle_bool_iff in Hbad.
    unfold BiquadSetup.Biquad_Init, BiquadSetup.Biquad_CalculateCoefficients.
    now rewrite Hbad.
Qed.

(** The stage loop of [Biquad_CreateFilterChain] over the first [n]
    entries of a chain that has room for them. *)
Lemma create_chain_loop (M : LibM) (cfg : BiquadSetup.BiquadConfig_t)
  (chain : list Biquad.BiquadState_t) (n : nat) :
  (n <= length chain)%nat ->
  exists chain',
    foldl (fun acc i =>
             match acc with
             | None => None
             | Some ch =>
                 match ch !! i with
                 | None => None
                 | Some s => Some (<[i := BiquadSetup.Biquad_Init M s cfg]> ch)
                 end
             end)
          (Some chain) (seq 0 n) = Some chain'
    /\ length chain' = length chain
    /\ (forall i, (i < n)%nat ->
          chain' !! i = Some (BiquadSetup.Biquad_Init M (chain !!! i) cfg))
    /\ (forall i, (n <= i)%nat -> chain' !! i = chain !! i).
Proof.
  induction n as [|n IH]; intros Hroom.
  - exists chain. cbn. split; [reflexivity|]. split; [reflexivity|].
    split; [intros; lia|reflexivity].
  - destruct IH as (c1 & Hrun & Hlen & Hin & Hout); [lia|].
    rewrite seq_S, foldl_app, Hrun. cbn [foldl Nat.add].
    assert (Hn : c1 !! n = Some (chain !!! n)).
    { rewrite Hout by lia. apply list_lookup_lookup_total_lt. lia. }
    rewrite Hn. eexists. split; [reflexivity|].
    split; [now rewrite length_insert|]. split.
    + intros i Hi. destruct (decide (i = n)) as [->|Hne].
      * apply list_lookup_insert_eq. lia.
      * rewrite list_lookup_insert_ne by lia. apply Hin. lia.
    + intros i Hi. rewrite list_lookup_insert_ne by lia. apply Hout. lia.
Qed.

(** [Biquad_CreateFilterChain] on a chain with room for the stages: it
    returns [(order + 1) / 2] stages, initialises exactly the first that
    many entries of the chain and leaves the others as they were.  With a
    positive sample rate all the stages it initialises are identical: each
    gets the same coefficients (the same Q for every stage) and a cleared
    history. *)
Theorem Biquad_CreateFilterChain_stages (M : LibM)
  (chain : list Biquad.BiquadState_t) (config : BiquadSetup.BiquadConfig_t)
  (order : Z)
  (Horder : (0 <= order <= 255)%Z)
  (Hroom : (Z.to_nat ((order + 1) / 2) <= length chain)%nat)
  (Hfs : 0 < BiquadSetup.sampleRate config) :
  exists chain',
    BiquadSetup.Biquad_CreateFilterChain M chain config order
    = Some (((order + 1) / 2)%Z, chain')
    /\ length chain' = length chain
    /\ (forall i, (i < Z.to_nat ((order + 1) / 2))%nat ->
          chain' !! i
          = Some (BiquadSetup.Biquad_Init M (chain !!! i)
                    (BiquadSetup.stage_config M config order)))
    /\ (forall i j, (i < Z.to_nat ((order + 1) / 2))%nat ->
          (j < Z.to_nat ((order + 1) / 2))%nat -> chain' !! i = chain' !! j)
    /\ (forall i, (Z.to_nat ((order + 1) / 2) <= i)%nat ->
          chain' !! i = chain !! i).
Proof.
  destruct (create_chain_loop M (BiquadSetup.stage_config M config order)
              chain _ Hroom) as (c1 & Hrun & Hlen & Hin & Hout).
  exists c1. unfold BiquadSetup.Biquad_CreateFilterChain. cbv zeta.
  rewrite Hrun. split; [reflexivity|]. split; [exact Hlen|].
  split; [exact Hin|]. split; [|exact Hout].
  intros i j Hi Hj. rewrite (Hin i Hi), (Hin j Hj). f_equal.
  apply Biquad_Init_independent.
  unfold BiquadSetup.stage_config. destruct (1 <? _)%Z; exact Hfs.
Qed.

Lemma Biquad_Init_clears_and_overwrites_witness :
  0 < BiquadSetup.sampleRate biquad_config_sample
  /\ BiquadSetup.sampleRate biquad_config_bad <= 0
  /\ Biquad.y1 (BiquadSetup.Biquad_Init libm_sample biquad_state_sample
                  biquad_config_sample) = 0
  /\ BiquadSetup.Biquad_Init libm_sample biquad_state_sample
       biquad_config_sample
     = BiquadSetup.Biquad_Init libm_sample inhabitant biquad_config_sample
  /\ BiquadSetup.Biquad_Init libm_sample biquad_state_sample
       biquad_config_bad
     = Biquad.Biquad_Reset biquad_state_sample.
Proof.
  assert (H1 : 0 < BiquadSetup.sampleRate biquad_config_sample)
    by reflexivity.
  assert (H2 : BiquadSetup.sampleRate biquad_config_bad <= 0)
    by (vm_compute; discriminate).
  destruct (Biquad_Init_clears_and_overwrites libm_sample biquad_state_sample
              inhabitant biquad_config_sample biquad_config_bad H1 H2)
    as (T1 & T2 & T3).
  split; [exact H1|]. split; [exact H2|].
  split; [exact (proj1 (proj2 (proj2 (T1 biquad_config_sample))))|].
  split; [exact T2|exact T3].
Defined.

Lemma Biquad_CreateFilterChain_stages_witness :
  (0 <= 6 <= 255)%Z
  /\ (Z.to_nat ((6 + 1) / 2) <= length biquad_chain_sample)%nat
  /\ 0 < BiquadSetup.sampleRate biquad_config_sample
  /\ exists chain',
       BiquadSetup.Biquad_CreateFilterChain libm_sample biquad_chain_sample
         biquad_config_sample 6 = Some (3%Z, chain')
       /\ length chain' = 4%nat
       /\ chain' !! 0%nat = chain' !! 2%nat
       /\ chain' !! 3%nat = Some biquad_state_sample.
Proof.
  assert (H1 : (0 <= 6 <= 255)%Z) by lia.
  assert (H2 : (Z.to_nat ((6 + 1) / 2) <= length biquad_chain_sample)%nat)
    by (vm_compute; lia).
  assert (H3 : 0 < BiquadSetup.sampleRate biquad_config_sample)
    by reflexivity.
  destruct (Biquad_CreateFilterChain_stages libm_sample biquad_chain_sample
              biquad_config_sample 6 H1 H2 H3)
    as (c & T1 & T2 & _ & T4 & T5).
  split; [exact H1|]. split; [exact H2|]. split; [exact H3|].
  exists c. split; [exact T1|]. split; [exact T2|].
  assert (L0 : (0 < Z.to_nat ((6 + 1) / 2))%nat) by (vm_compute; lia).
  assert (L2 : (2 < Z.to_nat ((6 + 1) / 2))%nat) by (vm_compute; lia).
  assert (L3 : (Z.to_nat ((6 + 1) / 2) <= 3)%nat) by (vm_compute; lia).
  split; [exact (T4 0%nat 2%nat L0 L2)|].
  rewrite (T5 3%nat L3). reflexivity.
Defined.

(** ** Filter design: Q table, cascades, crossover pairs *)

Lemma ComputeQ_high_order (order section : Z) :
  (9 <= order)%Z ->
  FilterDesign.ComputeQForButterworthOrder order section = 0.5
  \/ FilterDesign.ComputeQForButterworthOrder order section = 0.7071.
Proof.
  intros H. unfold FilterDesign.ComputeQForButterworthOrder.
  destruct ((order mod 2 =? 1)%Z && (section =? 0)%Z); [now left|right].
  cbv zeta. destruct order as [|p|p]; try lia.
  do 4 (try destruct p as [p|p|]); try lia; reflexivity.
Qed.

(** For every order of 1 to 255 and every section index below the number
    of sections [(order + 1) / 2], the Q that the table returns lies
    between 0.5 and 2.56: the fall-through value 0 of the table is never
    returned for a section of the cascade, so the designers never divide
    by a Q of zero. *)
Theorem ComputeQForButterworthOrder_range (order section : Z)
  (Horder : (1 <= order <= 255)%Z)
  (Hsection : (0 <= section < (order + 1) / 2)%Z) :
  0.5 <= FilterDesign.ComputeQForButterworthOrder order section <= 2.56.
Proof.
  destruct (Z.le_gt_cases 9 order) as [Hhi|Hlo].
  - destruct (ComputeQ_high_order order section Hhi) as [-> | ->];
      split; vm_compute; discriminate.
  - assert (E : (order = 1 \/ order = 2 \/ order = 3 \/ order = 4
                 \/ order = 5 \/ order = 6 \/ order = 7 \/ order = 8)%Z)
      by lia.
    assert (S4 : (section = 0 \/ section = 1 \/ section = 2 \/ section = 3
                  \/ 4 <= section)%Z) by lia.
    repeat (destruct E as [E|E]); subst order;
      match type of Hsection with
      | (_ <= _ < ?e)%Z =>
          let v := eval vm_compute in e in change e with v in Hsection
      end;
      repeat (destruct S4 as [S4|S4]); subst;
      try (exfalso; lia);
      split; vm_compute; discriminate.
Qed.

Lemma ComputeQForButterworthOrder_range_witness :
  (1 <= 7 <= 255)%Z /\ (0 <= 3 < (7 + 1) / 2)%Z
  /\ 0.5 <= FilterDesign.ComputeQForButterworthOrder 7 3 <= 2.56.
Proof.
  assert (H1 : (1 <= 7 <= 255)%Z) by lia.
  assert (H2 : (0 <= 3 < (7 + 1) / 2)%Z) by (vm_compute; split;
                                              [discriminate|reflexivity]).
  split; [exact H1|]. split; [exact H2|].
  exact (ComputeQForButterworthOrder_range 7 3 H1 H2).
Defined.

Lemma NormalizeCoefficients_unit (c : FilterDesign.FilterCoefficients_t) :
  FilterDesign.a_0 c = 1 -> FilterDesign.NormalizeCoefficients c = c.
Proof.
  intros H. unfold FilterDesign.NormalizeCoefficients. rewrite H.
  reflexivity.
Qed.

Lemma FilterDesign_Create_a0 (M : LibM)
  (c : FilterDesign.FilterCoefficients_t) (ty : FilterDesign.FilterType_t)
  (freq Q g fs : float) :
  0 < freq -> 0 < fs -> ty <> FilterDesign.FILTER_TYPE_NONE ->
  FilterDesign.a_0 (FilterDesign.FilterDesign_Create M c ty freq Q g fs).2
  = 1.
Proof.
  intros Hf Hfs Hty.
  pose proof (FilterDesign_Create_positive M c ty freq Q g fs Hf Hfs) as G.
  unfold FilterDesign.FilterDesign_Create. rewrite G.
  destruct ty; try congruence; cbn [snd];
    rewrite NormalizeCoefficients_unit; reflexivity.
Qed.

(** Every successful design of [FilterDesign_Create] is normalised: its
    [a[0]] is exactly 1, so that normalising it again changes nothing.
    For a filter type that the designer does not know the call fails with
    [FILTER_DESIGN_ERROR_TYPE], and the coefficient struct has by then been
    cleared to zeros with [a[0] = 1]. *)
Theorem FilterDesign_Create_is_normalised (M : LibM)
  (c : FilterDesign.FilterCoefficients_t) (ty : FilterDesign.FilterType_t)
  (freq Q g fs : float)
  (Hfreq : 0 < freq) (Hfs : 0 < fs)
  (Hty : ty <> FilterDesign.FILTER_TYPE_NONE) :
  let r := FilterDesign.FilterDesign_Create M c ty freq Q g fs in
  r.1 = FilterDesign.FILTER_DESIGN_SUCCESS
  /\ FilterDesign.a_0 r.2 = 1
  /\ FilterDesign.NormalizeCoefficients r.2 = r.2
  /\ FilterDesign.FilterDesign_Create M c FilterDesign.FILTER_TYPE_NONE
       freq Q g fs
     = (FilterDesign.FILTER_DESIGN_ERROR_TYPE, FilterDesign.neutral_coeffs).
Proof.
  cbv zeta.
  pose proof (FilterDesign_Create_a0 M c ty freq Q g fs Hfreq Hfs Hty) as Ha.
  split.
  { rewrite (FilterDesign_Create_success M c ty) by assumption.
    reflexivity. }
  split; [exact Ha|]. split; [now apply NormalizeCoefficients_unit|].
  pose proof (FilterDesign_Create_positive M c ty freq Q g fs Hfreq Hfs) as G.
  unfold FilterDesign.FilterDesign_Create. rewrite G. reflexivity.
Qed.

Lemma FilterDesign_Create_is_normalised_witness :
  0 < 1000 /\ 0 < 48000
  /\ FilterDesign.FILTER_TYPE_PEAKING_EQ <> FilterDesign.FILTER_TYPE_NONE
  /\ FilterDesign.a_0
       (FilterDesign.FilterDesign_Create libm_sample
          FilterDesign.neutral_coeffs FilterDesign.FILTER_TYPE_PEAKING_EQ
          1000 2 6 48000).2 = 1.
Proof.
  assert (H1 : 0 < 1000) by reflexivity.
  assert (H2 : 0 < 48000) by reflexivity.
  assert (H3 : FilterDesign.FILTER_TYPE_PEAKING_EQ
               <> FilterDesign.FILTER_TYPE_NONE) by discriminate.
  pose proof (FilterDesign_Create_is_normalised libm_sample
                FilterDesign.neutral_coeffs
                FilterDesign.FILTER_TYPE_PEAKING_EQ 1000 2 6 48000
                H1 H2 H3) as T.
  cbv zeta in T. destruct T as (_ & T2 & _).
  split; [exact H1|]. split; [exact H2|]. split; [exact H3|exact T2].
Defined.

(** The Butterworth branch of [FilterDesign_CreateCascade] on a bank with
    room for the sections: it succeeds, designs exactly the first
    [(order + 1) / 2] entries of the bank, each with the Q of the table for
    its index and with [a[0] = 1], and leaves every other entry of the
    bank as it was, whatever [numFilters] says beyond the minimum. *)
Theorem Butterworth_cascade_sections (M : LibM)
  (Bessel : FilterDesign.FilterBank -> Z -> FilterDesign.FilterType_t ->
            float -> Z -> float ->
            option (FilterDesign.FilterDesignStatus * FilterDesign.FilterBank))
  (bank : FilterDesign.FilterBank) (numFilters : Z)
  (ty : FilterDesign.FilterType_t) (freq fs : float) (order : Z)
  (Hfreq : 0 < freq) (Hfs : 0 < fs)
  (Hty : ty <> FilterDesign.FILTER_TYPE_NONE)
  (Horder : (0 <= order)%Z) (Hone : (1 <= numFilters)%Z)
  (Hnum : ((order + 1) / 2 <= numFilters)%Z)
  (Hroom : (Z.to_nat ((order + 1) / 2) <= length bank)%nat) :
  exists bank' : FilterDesign.FilterBank,
    FilterDesign.FilterDesign_CreateCascade M Bessel bank numFilters ty freq
      FilterDesign.FILTER_RESPONSE_BUTTERWORTH order fs
    = Some (FilterDesign.FILTER_DESIGN_SUCCESS, bank')
    /\ length bank' = length bank
    /\ (forall i, (i < Z.to_nat ((order + 1) / 2))%nat ->
          exists c,
            bank' !! i = Some c
            /\ c = (FilterDesign.FilterDesign_Create M
                      FilterDesign.neutral_coeffs ty freq
                      (FilterDesign.ComputeQForButterworthOrder order
                         (Z.of_nat i)) 0 fs).2
            /\ FilterDesign.a_0 c = 1)
    /\ (forall i, (Z.to_nat ((order + 1) / 2) <= i)%nat ->
          bank' !! i = bank !! i).
Proof.
  unfold FilterDesign.FilterDesign_CreateCascade.
  pose proof (FilterDesign_Create_positive M FilterDesign.neutral_coeffs ty
                freq 0 0 fs Hfreq Hfs) as G.
  apply orb_false_iff in G. destruct G as [G1 G2]. rewrite G1, G2.
  replace (numFilters <? 1)%Z with false by (symmetry; apply Z.ltb_ge; lia).
  replace (numFilters <? (order + 1) / 2)%Z with false
    by (symmetry; apply Z.ltb_ge; lia).
  cbn [orb].
  destruct (design_sections_spec M ty freq fs order 0 Hfreq Hfs Hty
              (Z.to_nat ((order + 1) / 2)) 0%nat bank ltac:(lia))
    as (b1 & R1 & L1 & I1 & O1).
  exists b1. split; [exact R1|]. split; [exact L1|]. split.
  - intros i Hi. eexists. split; [exact (I1 i ltac:(lia))|].
    split; [reflexivity|]. now apply FilterDesign_Create_a0.
  - intros i Hi. apply O1. lia.
Qed.

Lemma Butterworth_cascade_sections_witness :
  0 < 1000 /\ 0 < 48000
  /\ FilterDesign.FILTER_TYPE_HIGHPASS <> FilterDesign.FILTER_TYPE_NONE
  /\ (0 <= 5)%Z /\ (1 <= 3)%Z /\ ((5 + 1) / 2 <= 3)%Z
  /\ (Z.to_nat ((5 + 1) / 2) <= length filter_bank_sample)%nat
  /\ exists bank' : FilterDesign.FilterBank,
       FilterDesign.FilterDesign_CreateCascade libm_sample bessel_sample
         filter_bank_sample 3 FilterDesign.FILTER_TYPE_HIGHPASS 1000
         FilterDesign.FILTER_RESPONSE_BUTTERWORTH 5 48000
       = Some (FilterDesign.FILTER_DESIGN_SUCCESS, bank')
       /\ length bank' = 4%nat
       /\ bank' !! 3%nat = Some FilterDesign.neutral_coeffs.
Proof.
  assert (H1 : 0 < 1000) by reflexivity.
  assert (H2 : 0 < 48000) by reflexivity.
  assert (H3 : FilterDesign.FILTER_TYPE_HIGHPASS
               <> FilterDesign.FILTER_TYPE_NONE) by discriminate.
  assert (H4 : (0 <= 5)%Z) by lia.
  assert (H5 : (1 <= 3)%Z) by lia.
  assert (H6 : ((5 + 1) / 2 <= 3)%Z) by (vm_compute; discriminate).
  assert (H7 : (Z.to_nat ((5 + 1) / 2) <= length filter_bank_sample)%nat)
    by (vm_compute; lia).
  destruct (Butterworth_cascade_sections libm_sample bessel_sample
              filter_bank_sample 3 FilterDesign.FILTER_TYPE_HIGHPASS
              1000 48000 5 H1 H2 H3 H4 H5 H6 H7)
    as (b & T1 & T2 & _ & T4).
  split; [exact H1|]. split; [exact H2|]. split; [exact H3|].
  split; [exact H4|]. split; [exact H5|]. split; [exact H6|].
  split; [exact H7|].
  exists b. split; [exact T1|]. split; [exact T2|].
  assert (L : (Z.to_nat ((5 + 1) / 2) <= 3)%nat) by (vm_compute; lia).
  rewrite (T4 3%nat L). reflexivity.
Defined.

(** [FilterDesign_CreateCrossover] with both structs present and positive
    frequencies succeeds and leaves a matched pair: the low-pass and the
    high-pass have [a[0] = 1], the same [a[1]] and [a[2]], the same
    recorded [w0] and the Q of [GetDefaultQ]; the pair does not depend on
    what the two structs held before.  With a null struct or a
    non-positive frequency or sample rate the call returns
    [FILTER_DESIGN_ERROR_PARAMS] and writes neither struct. *)
Theorem FilterDesign_CreateCrossover_pair (M : LibM)
  (lp hp : FilterDesign.FilterCoefficients_t) (freq fs : float)
  (response : FilterDesign.FilterResponse_t) (order : Z)
  (Hfreq : 0 < freq) (Hfs : 0 < fs) :
  (exists lp' hp',
     FilterDesignPairs.FilterDesign_CreateCrossover M (Some lp) (Some hp)
       freq response order fs
     = (FilterDesign.FILTER_DESIGN_SUCCESS, Some lp', Some hp')
     /\ FilterDesign.a_0 lp' = 1 /\ FilterDesign.a_0 hp' = 1
     /\ FilterDesign.a_1 lp' = FilterDesign.a_1 hp'
     /\ FilterDesign.a_2 lp' = FilterDesign.a_2 hp'
     /\ FilterDesign.w0 lp' = FilterDesign.w0 hp'
     /\ FilterDesign.Qf lp' = FilterDesignPairs.GetDefaultQ response order
     /\ FilterDesign.Qf hp' = FilterDesignPairs.GetDefaultQ response order
     /\ forall lp2 hp2,
          FilterDesignPairs.FilterDesign_CreateCrossover M (Some lp2)
            (Some hp2) freq response order fs
          = (FilterDesign.FILTER_DESIGN_SUCCESS, Some lp', Some hp'))
  /\ (forall lpo hpo (f s : float),
        lpo = None \/ hpo = None \/ f <= 0 \/ s <= 0 ->
        FilterDesignPairs.FilterDesign_CreateCrossover M lpo hpo f response
          order s
        = (FilterDesign.FILTER_DESIGN_ERROR_PARAMS, lpo, hpo)).
Proof.
  pose proof (FilterDesign_Create_positive M lp
                FilterDesign.FILTER_TYPE_LOWPASS freq 0 0 fs Hfreq Hfs) as G.
  split.
  - unfold FilterDesignPairs.FilterDesign_CreateCrossover,
      FilterDesign.FilterDesign_Create.
    rewrite G. cbv beta iota zeta.
    rewrite !NormalizeCoefficients_unit by reflexivity.
    eexists _, _. split; [reflexivity|].
    repeat split; reflexivity.
  - intros lpo hpo f s H.
    unfold FilterDesignPairs.FilterDesign_CreateCrossover.
    destruct lpo as [l|]; [|reflexivity].
    destruct hpo as [h|]; [|reflexivity].
    destruct H as [H|[H|[H|H]]]; try discriminate.
    + apply Qle_bool_iff in H. rewrite H. reflexivity.
    + apply Qle_bool_iff in H. rewrite H, orb_true_r. reflexivity.
Qed.

Lemma FilterDesign_CreateCrossover_pair_witness :
  0 < 2000 /\ 0 < 48000
  /\ exists lp' hp',
       FilterDesignPairs.FilterDesign_CreateCrossover libm_sample
         (Some FilterDesign.neutral_coeffs)
         (Some FilterDesign.neutral_coeffs) 2000
         FilterDesign.FILTER_RESPONSE_LINKWITZ_RILEY 4 48000
       = (FilterDesign.FILTER_DESIGN_SUCCESS, Some lp', Some hp')
       /\ FilterDesign.a_1 lp' = FilterDesign.a_1 hp'
       /\ FilterDesign.Qf lp' = 0.7071.
Proof.
  assert (H1 : 0 < 2000) by reflexivity.
  assert (H2 : 0 < 48000) by reflexivity.
  destruct (FilterDesign_CreateCrossover_pair libm_sample
              FilterDesign.neutral_coeffs FilterDesign.neutral_coeffs
              2000 48000 FilterDesign.FILTER_RESPONSE_LINKWITZ_RILEY 4
              H1 H2) as [(l & h & T1 & _ & _ & T4 & _ & _ & T7 & _) _].
  split; [exact H1|]. split; [exact H2|].
  exists l, h. split; [exact T1|]. split; [exact T4|exact T7].
Defined.

(** The two sample routines side by side: [FilterDesign_ProcessSample]
    keeps the last inputs and outputs, [Biquad_DirectFormII] the last two
    intermediate values [w1], [w2].  With two more intermediate values
    [w3], [w4] the histories are tied together as follows. *)
Lemma direct_forms_step (c : FilterDesign.FilterCoefficients_t)
  (st : FilterDesignPairs.FilterState_t) (bq : Biquad.BiquadState_t)
  (w3 w4 x : float) :
  let b0 := FilterDesign.b_0 c in
  let b1 := FilterDesign.b_1 c in
  let b2 := FilterDesign.b_2 c in
  let a1 := FilterDesign.a_1 c in
  let a2 := FilterDesign.a_2 c in
  let w1 := Biquad.y1 bq in
  let w2 := Biquad.y2 bq in
  FilterDesignPairs.x_0 st == w1 + a1 * w2 + a2 * w3 ->
  FilterDesignPairs.x_1 st == w2 + a1 * w3 + a2 * w4 ->
  FilterDesignPairs.y_0 st == b0 * w1 + b1 * w2 + b2 * w3 ->
  FilterDesignPairs.y_1 st == b0 * w2 + b1 * w3 + b2 * w4 ->
  let r := FilterDesignPairs.FilterDesign_ProcessSample st c x in
  let q := Biquad.Biquad_ProcessSample
             (FilterDesignStream.biquad_of c bq) x in
  r.1 == q.1
  /\ q.2 = FilterDesignStream.biquad_of c q.2
  /\ FilterDesignPairs.x_0 r.2
     == Biquad.y1 q.2 + a1 * Biquad.y2 q.2 + a2 * w2
  /\ FilterDesignPairs.x_1 r.2 == Biquad.y2 q.2 + a1 * w2 + a2 * w3
  /\ FilterDesignPairs.y_0 r.2
     == b0 * Biquad.y1 q.2 + b1 * Biquad.y2 q.2 + b2 * w2
  /\ FilterDesignPairs.y_1 r.2 == b0 * Biquad.y2 q.2 + b1 * w2 + b2 * w3.
Proof.
  cbv zeta. intros H1 H2 H3 H4.
  cbn [FilterDesignPairs.FilterDesign_ProcessSample
       Biquad.Biquad_ProcessSample Biquad.Biquad_DirectFormII
       FilterDesignStream.biquad_of fst snd
       FilterDesignPairs.x_0 FilterDesignPairs.x_1
       FilterDesignPairs.y_0 FilterDesignPairs.y_1
       Biquad.b0 Biquad.b1 Biquad.b2 Biquad.a1 Biquad.a2
       Biquad.x1 Biquad.x2 Biquad.y1 Biquad.y2].
  unfold float in *.
  split; [rewrite H1, H2, H3, H4; ring|].
  split; [reflexivity|].
  split; [ring|]. split; [exact H1|].
  split; [rewrite H1, H2, H3, H4; ring|exact H3].
Qed.

Lemma direct_forms_run (c : FilterDesign.FilterCoefficients_t)
  (xs : list float) :
  forall (st : FilterDesignPairs.FilterState_t) (bq : Biquad.BiquadState_t)
         (w3 w4 : float),
    FilterDesignPairs.x_0 st
    == Biquad.y1 bq + FilterDesign.a_1 c * Biquad.y2 bq
       + FilterDesign.a_2 c * w3 ->
    FilterDesignPairs.x_1 st
    == Biquad.y2 bq + FilterDesign.a_1 c * w3 + FilterDesign.a_2 c * w4 ->
    FilterDesignPairs.y_0 st
    == FilterDesign.b_0 c * Biquad.y1 bq + FilterDesign.b_1 c * Biquad.y2 bq
       + FilterDesign.b_2 c * w3 ->
    FilterDesignPairs.y_1 st
    == FilterDesign.b_0 c * Biquad.y2 bq + FilterDesign.b_1 c * w3
       + FilterDesign.b_2 c * w4 ->
    Forall2 Qeq
      (FilterDesignStream.FilterDesign_ProcessSamples c st xs).1
      (Biquad.Biquad_ProcessBlock (FilterDesignStream.biquad_of c bq) xs).1.
Proof.
  induction xs as [|x xs IH]; intros st bq w3 w4 H1 H2 H3 H4.
  - constructor.
  - pose proof (direct_forms_step c st bq w3 w4 x H1 H2 H3 H4) as S.
    cbv zeta in S.
    cbn [FilterDesignStream.FilterDesign_ProcessSamples
         Biquad.Biquad_ProcessBlock].
    destruct (FilterDesignPairs.FilterDesign_ProcessSample st c x)
      as [y st'].
    destruct (Biquad.Biquad_ProcessSample
                (FilterDesignStream.biquad_of c bq) x) as [y' bq'].
    cbn [fst snd] in S. destruct S as (S0 & S1 & S2 & S3 & S4 & S5).
    specialize (IH st' bq' (Biquad.y2 bq) w3 S2 S3 S4 S5).
    rewrite <- S1 in IH.
    destruct (FilterDesignStream.FilterDesign_ProcessSamples c st' xs)
      as [ys st''].
    destruct (Biquad.Biquad_ProcessBlock bq' xs) as [ys' bq''].
    cbn [fst snd] in *. constructor; assumption.
Qed.

(** The two biquad routines of the filter directory compute the same
    filter.  Started from cleared histories and given the same
    coefficients, [FilterDesign_ProcessSample] (which keeps past inputs and
    outputs) and [Biquad_ProcessBlock] (which keeps the intermediate
    values of [Biquad_DirectFormII]) return the same samples on every
    input stream, as rational numbers; [a[0]] plays no part. *)
Theorem FilterDesign_ProcessSample_is_the_biquad
  (c : FilterDesign.FilterCoefficients_t)
  (st : FilterDesignPairs.FilterState_t) (bq : Biquad.BiquadState_t)
  (xs : list float) :
  Forall2 Qeq
    (FilterDesignStream.FilterDesign_ProcessSamples c
       (FilterDesignPairs.FilterDesign_ResetState st) xs).1
    (Biquad.Biquad_ProcessBlock
       (Biquad.Biquad_Reset (FilterDesignStream.biquad_of c bq)) xs).1.
Proof.
  apply (direct_forms_run c xs
           (FilterDesignPairs.FilterDesign_ResetState st)
           (Biquad.Biquad_Reset (FilterDesignStream.biquad_of c bq)) 0 0);
    cbn; ring.
Qed.

(** ** Crossover: frequencies and stage counts *)

(** An accepted [Crossover_SetFrequency] (20 Hz to 20 kHz, valid channel)
    returns 0 and changes one frequency of one channel.  In band-pass mode
    the stored pair always ends with the low frequency strictly below
    the high one: a request that would cross the other edge is replaced by
    that edge minus or plus 10 Hz.  In every other mode the frequency is
    stored as given.  Type, mode and order of the channel, and the
    configuration of every other channel, stay as they were. *)
Theorem Crossover_SetFrequency_keeps_band_ordered
  (ops : Crossover.BiquadOps) (st : Crossover.State) (ch : nat)
  (fty : Crossover.CrossoverFrequencyType_TypeDef) (f : float)
  (Hch : (ch < AUDIO_OUTPUT_CHANNELS)%nat)
  (Hlen : (ch < length (Crossover.crossoverConfig st))%nat)
  (Hf : 20 <= f <= 20000) :
  let r := Crossover.Crossover_SetFrequency st ch fty f in
  let old := Crossover.crossoverConfig st !!! ch in
  let new := Crossover.crossoverConfig r.2 !!! ch in
  r.1 = 0%Z
  /\ Crossover.type new = Crossover.type old
  /\ Crossover.filterMode new = Crossover.filterMode old
  /\ Crossover.order new = Crossover.order old
  /\ (Crossover.filterMode old = Crossover.CROSSOVER_MODE_BANDPASS ->
      Crossover.lowFrequency new < Crossover.highFrequency new)
  /\ (Crossover.filterMode old <> Crossover.CROSSOVER_MODE_BANDPASS ->
      match fty with
      | Crossover.CROSSOVER_FREQ_LOW =>
          Crossover.lowFrequency new = f
          /\ Crossover.highFrequency new = Crossover.highFrequency old
      | Crossover.CROSSOVER_FREQ_HIGH =>
          Crossover.highFrequency new = f
          /\ Crossover.lowFrequency new = Crossover.lowFrequency old
      end)
  /\ (forall j, j <> ch ->
        Crossover.crossoverConfig r.2 !! j
        = Crossover.crossoverConfig st !! j).
Proof.
  cbv zeta. unfold Crossover.Crossover_SetFrequency,
    Crossover.CROSSOVER_MIN_FREQ, Crossover.CROSSOVER_MAX_FREQ.
  destruct (decide _) as [Hbad|_]; [lia|].
  destruct Hf as [Hlo Hhi].
  apply Qltb_false in Hlo, Hhi. rewrite Hlo, Hhi. cbn [orb fst snd].
  rewrite CalculateFilterCoefficients_config.
  destruct fty; unfold Crossover.set_config; cbn [Crossover.crossoverConfig];
    rewrite list_lookup_total_alter_eq by exact Hlen;
    cbn [Crossover.type Crossover.filterMode Crossover.order
         Crossover.lowFrequency Crossover.highFrequency];
    (split; [reflexivity|]); (split; [reflexivity|]);
    (split; [reflexivity|]); (split; [reflexivity|]);
    (split; [|split; [|intros j Hj; now apply list_lookup_alter_ne]]).
  - intros Hm. rewrite Hm. cbn [Crossover.is_bandpass andb].
    destruct (Qle_bool _ f) eqn:E.
    + unfold float in *. lra.
    + now apply Qle_bool_false in E.
  - intros Hm.
    destruct (Crossover.filterMode _); try congruence;
      cbn [Crossover.is_bandpass andb]; split; reflexivity.
  - intros Hm. rewrite Hm. cbn [Crossover.is_bandpass andb].
    destruct (Qle_bool f _) eqn:E.
    + unfold float in *. lra.
    + now apply Qle_bool_false in E.
  - intros Hm.
    destruct (Crossover.filterMode _); try congruence;
      cbn [Crossover.is_bandpass andb]; split; reflexivity.
Qed.

Lemma Crossover_SetFrequency_keeps_band_ordered_witness :
  (0 < AUDIO_OUTPUT_CHANNELS)%nat
  /\ (0 < length (Crossover.crossoverConfig crossover_bandpass_sample))%nat
  /\ 20 <= 5000 <= 20000
  /\ Crossover.lowFrequency
       (Crossover.crossoverConfig
          (Crossover.Crossover_SetFrequency crossover_bandpass_sample 0
             Crossover.CROSSOVER_FREQ_LOW 5000).2 !!! 0%nat)
     < Crossover.highFrequency
         (Crossover.crossoverConfig
            (Crossover.Crossover_SetFrequency crossover_bandpass_sample 0
               Crossover.CROSSOVER_FREQ_LOW 5000).2 !!! 0%nat).
Proof.
  assert (H1 : (0 < AUDIO_OUTPUT_CHANNELS)%nat) by (vm_compute; lia).
  assert (H2 : (0 < length (Crossover.crossoverConfig
                              crossover_bandpass_sample))%nat)
    by (vm_compute; lia).
  assert (H3 : 20 <= 5000 <= 20000) by (split; discriminate).
  pose proof (Crossover_SetFrequency_keeps_band_ordered biquad_ops_sample
                crossover_bandpass_sample 0 Crossover.CROSSOVER_FREQ_LOW
                5000 H1 H2 H3) as T.
  cbv zeta in T. destruct T as (_ & _ & _ & _ & T5 & _).
  split; [exact H1|]. split; [exact H2|]. split; [exact H3|].
  apply T5. reflexivity.
Defined.

(** [GetNumStagesForOrder] is half the order rounded up, cut at the
    [MAX_FILTER_STAGES] entries that a chain has.  For every order that
    [Crossover_SetOrder] accepts (up to [MAX_FILTER_ORDER]) nothing is cut:
    the stages cover the order, with at most one pole to spare. *)
Theorem GetNumStagesForOrder_fits_the_chain (order : Z)
  (Horder : (0 <= order)%Z) :
  let n := Crossover.GetNumStagesForOrder order in
  (0 <= n <= Crossover.MAX_FILTER_STAGES)%Z
  /\ n = Z.min Crossover.MAX_FILTER_STAGES ((order + 1) / 2)
  /\ ((order <= Crossover.MAX_FILTER_ORDER)%Z ->
      n = ((order + 1) / 2)%Z /\ (order <= 2 * n <= order + 1)%Z).
Proof.
  cbv zeta.
  unfold Crossover.GetNumStagesForOrder, Crossover.MAX_FILTER_STAGES,
    Crossover.MAX_FILTER_ORDER.
  assert (E : ((if negb (order mod 2 =? 0) then order / 2 + 1 else order / 2)
               = (order + 1) / 2)%Z).
  { destruct (order mod 2 =? 0)%Z eqn:E; cbn [negb];
      [apply Z.eqb_eq in E|apply Z.eqb_neq in E];
      pose proof (Z.div_mod order 2 ltac:(lia));
      pose proof (Z.mod_pos_bound order 2 ltac:(lia));
      pose proof (Z.div_mod (order + 1) 2 ltac:(lia));
      pose proof (Z.mod_pos_bound (order + 1) 2 ltac:(lia)); lia. }
  rewrite E.
  pose proof (Z.div_mod (order + 1) 2 ltac:(lia)).
  pose proof (Z.mod_pos_bound (order + 1) 2 ltac:(lia)).
  destruct (8 <? (order + 1) / 2)%Z eqn:C;
    [apply Z.ltb_lt in C|apply Z.ltb_ge in C];
    (split; [lia|]); (split; [lia|]); intros; lia.
Qed.

Lemma GetNumStagesForOrder_fits_the_chain_witness :
  (0 <= 7)%Z /\ Crossover.GetNumStagesForOrder 7 = 4%Z.
Proof.
  assert (H : (0 <= 7)%Z) by lia.
  pose proof (GetNumStagesForOrder_fits_the_chain 7 H) as T.
  cbv zeta in T. destruct T as (_ & _ & T).
  split; [exact H|].
  destruct T as [T _]; [vm_compute; discriminate|].
  rewrite T. reflexivity.
Defined.

(** After an accepted [Crossover_SetFilterMode] the channel holds the new
    mode and exactly the chains that the mode uses are switched on: the
    low-pass chain in low-pass mode, the high-pass chain in high-pass
    mode, both band-pass chains in band-pass mode, none in full-range
    mode.  A chain that is on has the stage count of
    [GetNumStagesForOrder]; every other chain of the channel has zero
    stages; the chains of the other channels are not touched. *)
Theorem Crossover_SetFilterMode_switches_chains
  (ops : Crossover.BiquadOps) (st : Crossover.State) (ch : nat)
  (mode : Crossover.CrossoverFilterMode_TypeDef)
  (Hch : (ch < AUDIO_OUTPUT_CHANNELS)%nat)
  (Hcfg : (ch < length (Crossover.crossoverConfig st))%nat)
  (Hhp : (ch < length (Crossover.highpassFilters st))%nat)
  (Hlp : (ch < length (Crossover.lowpassFilters st))%nat)
  (Hbh : (ch < length (Crossover.bandpassHighFilters st))%nat)
  (Hbl : (ch < length (Crossover.bandpassLowFilters st))%nat)
  (Hmode : mode <> Crossover.CROSSOVER_MODE_OTHER) :
  let r := Crossover.Crossover_SetFilterMode st ch mode in
  let n := Crossover.GetNumStagesForOrder
             (Crossover.order (Crossover.crossoverConfig st !!! ch)) in
  r.1 = 0%Z
  /\ Crossover.filterMode (Crossover.crossoverConfig r.2 !!! ch) = mode
  /\ Crossover.numStages (Crossover.lowpassFilters r.2 !!! ch)
     = match mode with Crossover.CROSSOVER_MODE_LOWPASS => n | _ => 0%Z end
  /\ Crossover.numStages (Crossover.highpassFilters r.2 !!! ch)
     = match mode with Crossover.CROSSOVER_MODE_HIGHPASS => n | _ => 0%Z end
  /\ Crossover.numStages (Crossover.bandpassHighFilters r.2 !!! ch)
     = match mode with Crossover.CROSSOVER_MODE_BANDPASS => n | _ => 0%Z end
  /\ Crossover.numStages (Crossover.bandpassLowFilters r.2 !!! ch)
     = match mode with Crossover.CROSSOVER_MODE_BANDPASS => n | _ => 0%Z end
  /\ (forall j, j <> ch ->
        Crossover.lowpassFilters r.2 !! j = Crossover.lowpassFilters st !! j
        /\ Crossover.highpassFilters r.2 !! j
           = Crossover.highpassFilters st !! j
        /\ Crossover.bandpassHighFilters r.2 !! j
           = Crossover.bandpassHighFilters st !! j
        /\ Crossover.bandpassLowFilters r.2 !! j
           = Crossover.bandpassLowFilters st !! j).
Proof.
  cbv zeta. unfold Crossover.Crossover_SetFilterMode.
  destruct (decide _) as [Hbad|_]; [lia|].
  assert (Hcfg' : forall m,
            Crossover.crossoverConfig
              (Crossover.set_config st ch
                 (fun c => Crossover.mkCrossoverConfig (Crossover.type c) m
                             (Crossover.lowFrequency c)
                             (Crossover.highFrequency c) (Crossover.order c)))
            !!! ch
            = Crossover.mkCrossoverConfig
                (Crossover.type (Crossover.crossoverConfig st !!! ch)) m
                (Crossover.lowFrequency (Crossover.crossoverConfig st !!! ch))
                (Crossover.highFrequency
                   (Crossover.crossoverConfig st !!! ch))
                (Crossover.order (Crossover.crossoverConfig st !!! ch))).
  { intros m. unfold Crossover.set_config. cbn [Crossover.crossoverConfig].
    now rewrite list_lookup_total_alter_eq by exact Hcfg. }
  destruct mode; try congruence; cbn [fst snd];
    (split; [reflexivity|]);
    (split; [rewrite CalculateFilterCoefficients_config, Hcfg';
             reflexivity|]);
    unfold Crossover.CalculateFilterCoefficients,
      Crossover.Crossover_ResetFilterState; cbv zeta;
    rewrite Hcfg';
    cbn [Crossover.filterMode Crossover.order Crossover.type
         Crossover.lowFrequency Crossover.highFrequency];
    (destruct (decide _) as [Hbad|_]; [lia|]);
    try (destruct (Crossover.design_stages _ _ _ _ _ _ _ _) as [cf hpS]);
    unfold Crossover.on_chains, Crossover.set_config;
    cbn [Crossover.crossoverConfig Crossover.highpassFilters
         Crossover.lowpassFilters Crossover.bandpassHighFilters
         Crossover.bandpassLowFilters id];
    repeat rewrite list_lookup_total_alter_eq
      by (rewrite ?length_alter; assumption);
    repeat (split; [reflexivity|]);
    intros j Hj;
    repeat rewrite list_lookup_alter_ne by congruence;
    repeat split; reflexivity.
Qed.

Lemma Crossover_SetFilterMode_switches_chains_witness :
  (0 < AUDIO_OUTPUT_CHANNELS)%nat
  /\ (0 < length (Crossover.crossoverConfig crossover_sample))%nat
  /\ (0 < length (Crossover.highpassFilters crossover_sample))%nat
  /\ (0 < length (Crossover.lowpassFilters crossover_sample))%nat
  /\ (0 < length (Crossover.bandpassHighFilters crossover_sample))%nat
  /\ (0 < length (Crossover.bandpassLowFilters crossover_sample))%nat
  /\ Crossover.CROSSOVER_MODE_BANDPASS <> Crossover.CROSSOVER_MODE_OTHER
  /\ Crossover.numStages (ops := biquad_ops_sample)
       (Crossover.bandpassLowFilters (ops := biquad_ops_sample)
          (Crossover.Crossover_SetFilterMode crossover_sample 0
             Crossover.CROSSOVER_MODE_BANDPASS).2 !!! 0%nat) = 2%Z
  /\ Crossover.numStages (ops := biquad_ops_sample)
       (Crossover.lowpassFilters (ops := biquad_ops_sample)
          (Crossover.Crossover_SetFilterMode crossover_sample 0
             Crossover.CROSSOVER_MODE_BANDPASS).2 !!! 0%nat) = 0%Z.
Proof.
  assert (H1 : (0 < AUDIO_OUTPUT_CHANNELS)%nat) by (vm_compute; lia).
  assert (H2 : (0 < length (Crossover.crossoverConfig crossover_sample))%nat)
    by (vm_compute; lia).
  assert (H3 : (0 < length (Crossover.highpassFilters crossover_sample))%nat)
    by (vm_compute; lia).
  assert (H4 : (0 < length (Crossover.lowpassFilters crossover_sample))%nat)
    by (vm_compute; lia).
  assert (H5 : (0 < length (Crossover.bandpassHighFilters
                              crossover_sample))%nat) by (vm_compute; lia).
  assert (H6 : (0 < length (Crossover.bandpassLowFilters
                              crossover_sample))%nat) by (vm_compute; lia).
  assert (H7 : Crossover.CROSSOVER_MODE_BANDPASS
               <> Crossover.CROSSOVER_MODE_OTHER) by discriminate.
  pose proof (Crossover_SetFilterMode_switches_chains biquad_ops_sample
                crossover_sample 0 Crossover.CROSSOVER_MODE_BANDPASS
                H1 H2 H3 H4 H5 H6 H7) as T.
  cbv zeta in T. destruct T as (_ & _ & T3 & _ & _ & T6 & _).
  split; [exact H1|]. split; [exact H2|]. split; [exact H3|].
  split; [exact H4|]. split; [exact H5|]. split; [exact H6|].
  split; [exact H7|]. split; [rewrite T6; reflexivity|exact T3].
Defined.

(** ** Equaliser: enabling a band, and what a frame touches *)

Lemma for_samples_invariant {S : Type} (f : S -> float -> float * S)
  (P : S -> Prop) (n : nat) (st : S) (data : list float) :
  P st -> (forall s x, P s -> P (f s x).2) ->
  P (for_samples f n st data).2.
Proof.
  intros H0 Hstep. revert st data H0.
  induction n as [|n IH]; intros st data H0.
  - rewrite for_samples_zero. exact H0.
  - destruct data as [|x rest]; [exact H0|]. simpl.
    pose proof (Hstep st x H0) as H1.
    destruct (f st x) as [y st'].
    specialize (IH st' rest H1).
    destruct (for_samples f n st' rest) as [ys st'']. exact IH.
Qed.

(** [PEQ_SetBandEnabled] on a valid channel and band returns [HAL_OK] and
    writes the flag of that band and nothing else: a following
    [PEQ_GetBandConfig] returns the band as it was with the new flag (any
    non-zero argument enables), the biquad states keep their coefficients
    and their history, and every other band reads as before.  An invalid
    channel or band gives [HAL_ERROR] and no change. *)
Theorem PEQ_SetBandEnabled_writes_one_flag (st : PEQ.State)
  (ch band : nat) (en : Z) (other : PEQ.PEQBand_TypeDef)
  (Hch : (ch < AUDIO_OUTPUT_CHANNELS)%nat)
  (Hband : (band < PEQ.PEQ_MAX_BANDS_PER_CHANNEL)%nat)
  (Hrows : (ch < length (PEQ.PEQBands st))%nat)
  (Hrow : (band < length (PEQ.PEQBands st !!! ch))%nat) :
  let r := PEQ.PEQ_SetBandEnabled st ch band en in
  let old := (PEQ.PEQBands st !!! ch) !!! band in
  r.1 = HAL_OK
  /\ PEQ.PEQ_GetBandConfig r.2 ch band (Some other)
     = (HAL_OK,
        Some (PEQ.mkPEQBand (PEQ.type old) (PEQ.frequency old) (PEQ.gain old)
                            (PEQ.q old) (negb (en =? 0)%Z)))
  /\ PEQ.PEQBiquadStates r.2 = PEQ.PEQBiquadStates st
  /\ (forall c b, (c, b) <> (ch, band) ->
        (PEQ.PEQBands r.2 !!! c) !!! b = (PEQ.PEQBands st !!! c) !!! b)
  /\ (forall c b e,
        (AUDIO_OUTPUT_CHANNELS <= c \/ PEQ.PEQ_MAX_BANDS_PER_CHANNEL <= b)%nat
        -> PEQ.PEQ_SetBandEnabled st c b e = (HAL_ERROR, st)).
Proof.
  cbv zeta. unfold PEQ.PEQ_SetBandEnabled, PEQ.PEQ_GetBandConfig.
  destruct (decide _) as [Hbad|_]; [lia|]. cbn [fst snd PEQ.PEQBands].
  split; [reflexivity|]. split.
  { rewrite list_lookup_total_alter_eq by exact Hrows.
    now rewrite list_lookup_total_alter_eq by exact Hrow. }
  split; [reflexivity|]. split.
  - intros c b Hne. destruct (decide (c = ch)) as [->|Hc].
    + rewrite list_lookup_total_alter_eq by exact Hrows.
      apply list_lookup_total_alter_ne. congruence.
    + now rewrite list_lookup_total_alter_ne by congruence.
  - intros c b e Hbad. destruct (decide _) as [_|Hok]; [reflexivity|].
    contradiction.
Qed.

Lemma PEQ_SetBandEnabled_writes_one_flag_witness :
  (1 < AUDIO_OUTPUT_CHANNELS)%nat
  /\ (2 < PEQ.PEQ_MAX_BANDS_PER_CHANNEL)%nat
  /\ (1 < length (PEQ.PEQBands peq_sample))%nat
  /\ (2 < length (PEQ.PEQBands peq_sample !!! 1%nat))%nat
  /\ PEQ.PEQ_GetBandConfig (PEQ.PEQ_SetBandEnabled peq_sample 1 2 7).2 1 2
       (Some peq_band_sample)
     = (HAL_OK, Some (PEQ.mkPEQBand PEQ.PEQ_TYPE_BELL 1000 0 1.414 true)).
Proof.
  assert (H1 : (1 < AUDIO_OUTPUT_CHANNELS)%nat) by (vm_compute; lia).
  assert (H2 : (2 < PEQ.PEQ_MAX_BANDS_PER_CHANNEL)%nat) by (vm_compute; lia).
  assert (H3 : (1 < length (PEQ.PEQBands peq_sample))%nat)
    by (vm_compute; lia).
  assert (H4 : (2 < length (PEQ.PEQBands peq_sample !!! 1%nat))%nat)
    by (vm_compute; lia).
  pose proof (PEQ_SetBandEnabled_writes_one_flag peq_sample 1 2 7
                peq_band_sample H1 H2 H3 H4) as T.
  cbv zeta in T. destruct T as (_ & T2 & _).
  split; [exact H1|]. split; [exact H2|]. split; [exact H3|].
  split; [exact H4|]. rewrite T2. reflexivity.
Defined.

Lemma process_bands_skips (bands : list PEQ.PEQBand_TypeDef) (b : nat) :
  PEQ.enabled (bands !!! b) = false ->
  forall (bq : list PEQ.BiquadState_TypeDef) (x : float),
    (PEQ.process_bands bands bq x).2 !!! b = bq !!! b.
Proof.
  intros Hoff bq x. unfold PEQ.process_bands.
  generalize (seq 0 PEQ.PEQ_MAX_BANDS_PER_CHANNEL). intros l.
  revert x bq. induction l as [|i l IH]; intros x bq; [reflexivity|].
  cbn [foldl].
  destruct (negb (PEQ.enabled (bands !!! i))) eqn:E; [apply IH|].
  destruct (PEQ.Biquad_Process (bq !!! i) x) as [y s].
  rewrite IH. apply list_lookup_total_insert_ne.
  intros ->. rewrite Hoff in E. discriminate.
Qed.

(** A frame through [PEQ_ProcessChannel] on a valid channel rewrites the
    samples and the biquad states of that channel only: the band
    configuration, the frame size, and the rows of every other channel in
    the buffer and in the biquad states are as before, and the row comes
    back with its length.  Within the channel, the biquad of a disabled
    band is skipped on every sample, so that its coefficients and its
    history are exactly what they were before the frame. *)
Theorem PEQ_ProcessChannel_frame (st : PEQ.State) (ch : nat)
  (buf : PEQ.AudioBuffer_TypeDef)
  (Hch : (ch < AUDIO_OUTPUT_CHANNELS)%nat)
  (Hbq : (ch < length (PEQ.PEQBiquadStates st))%nat)
  (Hbuf : (ch < length (PEQ.outputChannels buf))%nat) :
  exists st' buf',
    PEQ.PEQ_ProcessChannel st ch (Some buf) = (st', Some buf')
    /\ PEQ.PEQBands st' = PEQ.PEQBands st
    /\ PEQ.frameSize buf' = PEQ.frameSize buf
    /\ length (PEQ.outputChannels buf' !!! ch)
       = length (PEQ.outputChannels buf !!! ch)
    /\ (forall j, j <> ch ->
          PEQ.outputChannels buf' !! j = PEQ.outputChannels buf !! j
          /\ PEQ.PEQBiquadStates st' !! j = PEQ.PEQBiquadStates st !! j)
    /\ (forall band,
          PEQ.enabled ((PEQ.PEQBands st !!! ch) !!! band) = false ->
          (PEQ.PEQBiquadStates st' !!! ch) !!! band
          = (PEQ.PEQBiquadStates st !!! ch) !!! band).
Proof.
  unfold PEQ.PEQ_ProcessChannel.
  destruct (decide _) as [Hbad|_]; [lia|]. cbv zeta.
  match goal with
  | |- context [for_samples ?f ?n ?s ?d] =>
      pose proof (for_samples_length f n s d) as HL;
      assert (HI : forall band,
                 PEQ.enabled ((PEQ.PEQBands st !!! ch) !!! band) = false ->
                 (for_samples f n s d).2 !!! band = s !!! band)
        by (intros band Hoff;
            apply (for_samples_invariant f
                     (fun bq => bq !!! band = s !!! band));
            [reflexivity|];
            intros bq x Hbq';
            pose proof (process_bands_skips _ band Hoff bq x) as Hs;
            destruct (PEQ.process_bands _ bq x) as [y bq'];
            cbn [snd] in *; congruence);
      destruct (for_samples f n s d) as [samples biquads]
  end.
  cbn [fst snd] in *.
  eexists _, _. split; [reflexivity|].
  cbn [PEQ.PEQBands PEQ.frameSize PEQ.outputChannels PEQ.PEQBiquadStates].
  split; [reflexivity|]. split; [reflexivity|]. split.
  { rewrite list_lookup_total_insert_eq by exact Hbuf. exact HL. }
  split.
  - intros j Hj.
    split; apply list_lookup_insert_ne; congruence.
  - intros band Hoff.
    rewrite list_lookup_total_insert_eq by exact Hbq. now apply HI.
Qed.

Lemma PEQ_ProcessChannel_frame_witness :
  (0 < AUDIO_OUTPUT_CHANNELS)%nat
  /\ (0 < length (PEQ.PEQBiquadStates peq_sample))%nat
  /\ (0 < length (PEQ.outputChannels peq_frame_sample))%nat
  /\ exists st' buf',
       PEQ.PEQ_ProcessChannel peq_sample 0 (Some peq_frame_sample)
       = (st', Some buf')
       /\ length (PEQ.outputChannels buf' !!! 0%nat) = 2%nat
       /\ PEQ.outputChannels buf' !! 3%nat = Some [0.5; -0.25].
Proof.
  assert (H1 : (0 < AUDIO_OUTPUT_CHANNELS)%nat) by (vm_compute; lia).
  assert (H2 : (0 < length (PEQ.PEQBiquadStates peq_sample))%nat)
    by (vm_compute; lia).
  assert (H3 : (0 < length (PEQ.outputChannels peq_frame_sample))%nat)
    by (vm_compute; lia).
  destruct (PEQ_ProcessChannel_frame peq_sample 0 peq_frame_sample
              H1 H2 H3) as (s & b & T1 & _ & _ & T4 & T5 & _).
  split; [exact H1|]. split; [exact H2|]. split; [exact H3|].
  exists s, b. split; [exact T1|]. split; [exact T4|].
  destruct (T5 3%nat ltac:(discriminate)) as [T _]. exact T.
Defined.

(** ** Compressor: gain range, RMS window, initialisation, parameters *)

Lemma Compressor_CLAMP_bounds (x lo hi : Q) :
  lo <= hi -> lo <= Compressor.CLAMP x lo hi <= hi.
Proof.
  intros H. unfold Compressor.CLAMP, Compressor.MIN, Compressor.MAX.
  case_Qltb lo x;
    match goal with
    | |- context [Qltb ?a ?b] => case_Qltb a b
    end; split; lra.
Qed.

(** The gain that [Compressor_CalculateGain] returns lies between -60 dB and
    0 dB for every parameter set and every envelope: the compressor never
    amplifies and never reduces by more than 60 dB.  With the hard knee an
    envelope at or below the threshold gives exactly 0 dB, and so does an
    envelope below the lower edge of the soft knee. *)
Theorem Compressor_gain_never_amplifies
  (c : Compressor.CompressorState_TypeDef) (env_db : float) :
  let p := Compressor.params c in
  let g := Compressor.Compressor_CalculateGain c env_db in
  -60 <= g <= 0
  /\ (Compressor.useSoftKnee p = false ->
      env_db <= Compressor.threshold_db p -> g = 0)
  /\ (Compressor.useSoftKnee p = true ->
      env_db < Compressor.threshold_db p - Compressor.kneeWidth_db p / 2 ->
      g = 0).
Proof.
  cbv zeta. unfold Compressor.Compressor_CalculateGain.
  split; [apply Compressor_CLAMP_bounds; discriminate|].
  split.
  - intros Hk Hle. rewrite Hk.
    apply Qltb_false in Hle. rewrite Hle. reflexivity.
  - intros Hk Hlt. rewrite Hk. unfold Compressor.Compressor_ApplySoftKnee.
    apply Qltb_true in Hlt. rewrite Hlt. reflexivity.
Qed.

Lemma process_sample_keeps_window (M : LibM)
  (c : Compressor.CompressorState_TypeDef) (x : float) :
  let c' := (Compressor.process_sample M c x).2 in
  (Compressor.rmsBufferIndex c < Compressor.COMP_RMS_WINDOW_SIZE ->
   Compressor.rmsBufferIndex c' < Compressor.COMP_RMS_WINDOW_SIZE)%nat
  /\ length (Compressor.rmsBuffer c') = length (Compressor.rmsBuffer c)
  /\ Compressor.params c' = Compressor.params c
  /\ Compressor.attackCoeff c' = Compressor.attackCoeff c
  /\ Compressor.releaseCoeff c' = Compressor.releaseCoeff c.
Proof.
  cbv zeta. unfold Compressor.process_sample.
  destruct (Compressor.useRMS (Compressor.params c));
    cbn [Compressor.Compressor_CalculateRMS
         Compressor.Compressor_CalculateEnvelope fst snd
         Compressor.rmsBufferIndex Compressor.rmsBuffer Compressor.params
         Compressor.attackCoeff Compressor.releaseCoeff].
  - split; [intros _; apply Nat.mod_upper_bound; discriminate|].
    split; [apply length_insert|]. repeat split; reflexivity.
  - repeat split; try reflexivity. intros H; exact H.
Qed.

(** [Compressor_Process] keeps the RMS window in order.  If the write
    index of the channel is below [COMP_RMS_WINDOW_SIZE] and the window has
    that many cells before a frame, both still hold after it, whatever the
    samples and the parameters are: the index advances modulo the size and
    no write falls outside the window.  The frame changes neither the
    parameters nor the attack and release coefficients of the channel, and
    leaves every other channel as it was. *)
Theorem Compressor_Process_keeps_rms_window (M : LibM)
  (st : Compressor.State) (ch : nat) (buf : Compressor.AudioBuffer_TypeDef)
  (Hch : (ch < AUDIO_OUTPUT_CHANNELS)%nat)
  (Hlen : (ch < length st)%nat)
  (Hidx : (Compressor.rmsBufferIndex (st !!! ch)
           < Compressor.COMP_RMS_WINDOW_SIZE)%nat)
  (Hwin : length (Compressor.rmsBuffer (st !!! ch))
          = Compressor.COMP_RMS_WINDOW_SIZE) :
  let st' := (Compressor.Compressor_Process M st ch (Some buf)).1 in
  (Compressor.rmsBufferIndex (st' !!! ch)
   < Compressor.COMP_RMS_WINDOW_SIZE)%nat
  /\ length (Compressor.rmsBuffer (st' !!! ch))
     = Compressor.COMP_RMS_WINDOW_SIZE
  /\ Compressor.params (st' !!! ch) = Compressor.params (st !!! ch)
  /\ Compressor.attackCoeff (st' !!! ch) = Compressor.attackCoeff (st !!! ch)
  /\ Compressor.releaseCoeff (st' !!! ch)
     = Compressor.releaseCoeff (st !!! ch)
  /\ length st' = length st
  /\ (forall j, j <> ch -> st' !! j = st !! j).
Proof.
  cbv zeta. unfold Compressor.Compressor_Process.
  destruct (decide _) as [Hbad|_]; [lia|].
  destruct (negb _); [cbn [fst]; repeat split; auto|].
  pose proof (for_samples_invariant (Compressor.process_sample M)
                (fun c =>
                   (Compressor.rmsBufferIndex c
                    < Compressor.COMP_RMS_WINDOW_SIZE)%nat
                   /\ length (Compressor.rmsBuffer c)
                      = Compressor.COMP_RMS_WINDOW_SIZE
                   /\ Compressor.params c = Compressor.params (st !!! ch)
                   /\ Compressor.attackCoeff c
                      = Compressor.attackCoeff (st !!! ch)
                   /\ Compressor.releaseCoeff c
                      = Compressor.releaseCoeff (st !!! ch))
                (Compressor.size buf) (st !!! ch)
                (Compressor.data buf !!! ch)) as HI.
  destruct HI as (I1 & I2 & I3 & I4 & I5).
  { repeat split; auto. }
  { intros c x (J1 & J2 & J3 & J4 & J5).
    pose proof (process_sample_keeps_window M c x) as K. cbv zeta in K.
    destruct K as (K1 & K2 & K3 & K4 & K5).
    split; [auto|]. repeat split; congruence. }
  destruct (for_samples _ _ _ _) as [samples c]. cbn [fst snd] in *.
  unfold Compressor.State in *.
  rewrite list_lookup_total_insert_eq by exact Hlen.
  unfold Compressor.store_statistics;
    cbn [Compressor.rmsBufferIndex Compressor.rmsBuffer Compressor.params
         Compressor.attackCoeff Compressor.releaseCoeff].
  repeat (split; [assumption|]).
  split; [apply length_insert|].
  intros j Hj. apply list_lookup_insert_ne. congruence.
Qed.

Lemma Compressor_Process_keeps_rms_window_witness :
  (0 < AUDIO_OUTPUT_CHANNELS)%nat
  /\ (0 < length compressor_ready)%nat
  /\ (Compressor.rmsBufferIndex (compressor_ready !!! 0%nat)
      < Compressor.COMP_RMS_WINDOW_SIZE)%nat
  /\ length (Compressor.rmsBuffer (compressor_ready !!! 0%nat))
     = Compressor.COMP_RMS_WINDOW_SIZE
  /\ length (Compressor.rmsBuffer
               ((Compressor.Compressor_Process libm_sample compressor_ready
                   0 (Some compressor_frame_sample)).1 !!! 0%nat))
     = Compressor.COMP_RMS_WINDOW_SIZE.
Proof.
  assert (H1 : (0 < AUDIO_OUTPUT_CHANNELS)%nat) by (vm_compute; lia).
  assert (H2 : (0 < length compressor_ready)%nat) by (vm_compute; lia).
  assert (H3 : (Compressor.rmsBufferIndex (compressor_ready !!! 0%nat)
                < Compressor.COMP_RMS_WINDOW_SIZE)%nat) by (vm_compute; lia).
  assert (H4 : length (Compressor.rmsBuffer (compressor_ready !!! 0%nat))
               = Compressor.COMP_RMS_WINDOW_SIZE) by reflexivity.
  pose proof (Compressor_Process_keeps_rms_window libm_sample
                compressor_ready 0 compressor_frame_sample H1 H2 H3 H4) as T.
  cbv zeta in T. destruct T as (_ & T2 & _).
  split; [exact H1|]. split; [exact H2|]. split; [exact H3|].
  split; [exact H4|exact T2].
Defined.

Lemma Compressor_UpdateParameters_valid (M : LibM) (st : Compressor.State)
  (ch : nat) :
  (ch < AUDIO_OUTPUT_CHANNELS)%nat ->
  CompressorSetup.Compressor_UpdateParameters M st ch
  = alter (fun c =>
             {| Compressor.params := Compressor.params c;
                Compressor.envelope_db := Compressor.envelope_db c;
                Compressor.currentGain := Compressor.currentGain c;
                Compressor.prevGainDb := Compressor.prevGainDb c;
                Compressor.rmsValue := Compressor.rmsValue c;
                Compressor.attackCoeff :=
                  CompressorSetup.time_coefficient M
                    (Compressor.attackTime_ms (Compressor.params c));
                Compressor.releaseCoeff :=
                  CompressorSetup.time_coefficient M
                    (Compressor.releaseTime_ms (Compressor.params c));
                Compressor.stats := Compressor.stats c;
                Compressor.rmsBuffer := Compressor.rmsBuffer c;
                Compressor.rmsBufferIndex := Compressor.rmsBufferIndex c |})
          ch st.
Proof.
  intros H. unfold CompressorSetup.Compressor_UpdateParameters.
  destruct (decide _) as [Hbad|_]; [lia|reflexivity].
Qed.

Lemma Compressor_Init_loop (M : LibM) (n : nat) (st : Compressor.State)
  (ch : nat) :
  (n <= AUDIO_OUTPUT_CHANNELS)%nat ->
  let step := fun st channel =>
    CompressorSetup.Compressor_UpdateParameters M
      (alter (fun c =>
                {| Compressor.params := CompressorSetup.default_parameters;
                   Compressor.envelope_db := Compressor.COMP_ENVELOPE_INIT;
                   Compressor.currentGain := 1;
                   Compressor.prevGainDb := 0;
                   Compressor.rmsValue := 0;
                   Compressor.attackCoeff := Compressor.attackCoeff c;
                   Compressor.releaseCoeff := Compressor.releaseCoeff c;
                   Compressor.stats := Compressor.stats c;
                   Compressor.rmsBuffer :=
                     replicate Compressor.COMP_RMS_WINDOW_SIZE 0;
                   Compressor.rmsBufferIndex := 0%nat |})
             channel st) channel in
  let st' := foldl step st (seq 0 n) in
  length st' = length st
  /\ ((ch < n)%nat -> (ch < length st)%nat ->
      st' !!! ch
      = {| Compressor.params := CompressorSetup.default_parameters;
           Compressor.envelope_db := Compressor.COMP_ENVELOPE_INIT;
           Compressor.currentGain := 1;
           Compressor.prevGainDb := 0;
           Compressor.rmsValue := 0;
           Compressor.attackCoeff := CompressorSetup.time_coefficient M 20;
           Compressor.releaseCoeff := CompressorSetup.time_coefficient M 200;
           Compressor.stats := Compressor.stats (st !!! ch);
           Compressor.rmsBuffer :=
             replicate Compressor.COMP_RMS_WINDOW_SIZE 0;
           Compressor.rmsBufferIndex := 0%nat |})
  /\ ((n <= ch)%nat -> st' !! ch = st !! ch).
Proof.
  unfold Compressor.State. cbv zeta. induction n as [|n IH]; intros Hn.
  - cbn. split; [reflexivity|]. split; [lia|reflexivity].
  - destruct (IH ltac:(lia)) as (L & I & O). clear IH.
    rewrite seq_S, foldl_app. cbn [Nat.add foldl].
    rewrite Compressor_UpdateParameters_valid by lia.
    unfold Compressor.State in *.
    split; [now rewrite !length_alter|]. split.
    + intros Hlt Hlen. destruct (decide (ch = n)) as [->|Hne].
      * rewrite !list_lookup_total_alter_eq
          by (rewrite ?length_alter, ?L; exact Hlen).
        cbn [Compressor.params Compressor.attackTime_ms
             Compressor.releaseTime_ms CompressorSetup.default_parameters
             Compressor.envelope_db Compressor.currentGain
             Compressor.prevGainDb Compressor.rmsValue Compressor.stats
             Compressor.rmsBuffer Compressor.rmsBufferIndex].
        rewrite (list_lookup_total_alt _ n), (O ltac:(lia)),
          <- list_lookup_total_alt. reflexivity.
      * rewrite !list_lookup_total_alter_ne by congruence.
        apply I; [lia|exact Hlen].
    + intros Hge. rewrite !list_lookup_alter_ne by lia. apply O. lia.
Qed.

(** After [Compressor_Init] on a state with all output channels, every
    channel holds the default parameters (disabled, -20 dB, ratio 4, 20 ms
    and 200 ms, soft knee of 6 dB, RMS detection), an envelope of -120 dB,
    unity gain, and a cleared RMS window of [COMP_RMS_WINDOW_SIZE] cells
    with the write index at 0.  Because the default is disabled,
    [Compressor_Process] right after it returns every buffer and the state
    as they are. *)
Theorem Compressor_Init_defaults_and_bypass (M : LibM)
  (st : Compressor.State) (ch : nat) (buf : Compressor.AudioBuffer_TypeDef)
  (Hch : (ch < AUDIO_OUTPUT_CHANNELS)%nat)
  (Hlen : (AUDIO_OUTPUT_CHANNELS <= length st)%nat) :
  let st' := CompressorSetup.Compressor_Init M st in
  let c := st' !!! ch in
  length st' = length st
  /\ Compressor.params c = CompressorSetup.default_parameters
  /\ Compressor.envelope_db c = -120
  /\ Compressor.currentGain c = 1
  /\ Compressor.prevGainDb c = 0
  /\ Compressor.rmsBuffer c = replicate Compressor.COMP_RMS_WINDOW_SIZE 0
  /\ Compressor.rmsBufferIndex c = 0%nat
  /\ Compressor.attackCoeff c = CompressorSetup.time_coefficient M 20
  /\ Compressor.releaseCoeff c = CompressorSetup.time_coefficient M 200
  /\ Compressor.Compressor_Process M st' ch (Some buf) = (st', Some buf).
Proof.
  cbv zeta. unfold CompressorSetup.Compressor_Init.
  pose proof (Compressor_Init_loop M AUDIO_OUTPUT_CHANNELS st ch
                ltac:(lia)) as T.
  cbv zeta in T. destruct T as (L & I & _).
  specialize (I Hch ltac:(lia)).
  split; [exact L|].
  unfold Compressor.Compressor_Process.
  destruct (decide _) as [Hbad|_]; [lia|].
  rewrite I. cbn. repeat split; reflexivity.
Qed.

Lemma Compressor_Init_defaults_and_bypass_witness :
  (2 < AUDIO_OUTPUT_CHANNELS)%nat
  /\ (AUDIO_OUTPUT_CHANNELS <= length compressor_sample)%nat
  /\ Compressor.Compressor_Process libm_sample
       (CompressorSetup.Compressor_Init libm_sample compressor_sample) 2
       (Some compressor_frame_sample)
     = (CompressorSetup.Compressor_Init libm_sample compressor_sample,
        Some compressor_frame_sample).
Proof.
  assert (H1 : (2 < AUDIO_OUTPUT_CHANNELS)%nat) by (vm_compute; lia).
  assert (H2 : (AUDIO_OUTPUT_CHANNELS <= length compressor_sample)%nat)
    by (vm_compute; lia).
  pose proof (Compressor_Init_defaults_and_bypass libm_sample
                compressor_sample 2 compressor_frame_sample H1 H2) as T.
  cbv zeta in T.
  destruct T as (_ & _ & _ & _ & _ & _ & _ & _ & _ & T).
  split; [exact H1|]. split; [exact H2|exact T].
Defined.

(** [Compressor_SetParameters] stores the parameter block as given: a
    following [Compressor_GetParameters] returns it unchanged (no value is
    range-checked), and the attack and release coefficients are recomputed
    from its two times, with 0 for a time of at most 0.1 ms.  The running
    state of the channel (envelope, gain, RMS window, statistics) is not
    reset, and the other channels are not touched.  A null block or an
    invalid channel changes nothing. *)
Theorem Compressor_SetParameters_round_trip (M : LibM)
  (st : Compressor.State) (ch : nat)
  (p q : Compressor.CompressorParameters_TypeDef)
  (Hch : (ch < AUDIO_OUTPUT_CHANNELS)%nat)
  (Hlen : (ch < length st)%nat) :
  let st' := CompressorSetup.Compressor_SetParameters M st ch (Some p) in
  let c := st !!! ch in
  let c' := st' !!! ch in
  CompressorSetup.Compressor_GetParameters st' ch (Some q) = Some p
  /\ Compressor.attackCoeff c'
     = CompressorSetup.time_coefficient M (Compressor.attackTime_ms p)
  /\ Compressor.releaseCoeff c'
     = CompressorSetup.time_coefficient M (Compressor.releaseTime_ms p)
  /\ (Compressor.attackTime_ms p <= 0.1 -> Compressor.attackCoeff c' = 0)
  /\ (Compressor.releaseTime_ms p <= 0.1 -> Compressor.releaseCoeff c' = 0)
  /\ Compressor.envelope_db c' = Compressor.envelope_db c
  /\ Compressor.currentGain c' = Compressor.currentGain c
  /\ Compressor.prevGainDb c' = Compressor.prevGainDb c
  /\ Compressor.rmsBuffer c' = Compressor.rmsBuffer c
  /\ Compressor.rmsBufferIndex c' = Compressor.rmsBufferIndex c
  /\ Compressor.stats c' = Compressor.stats c
  /\ (forall j, j <> ch -> st' !! j = st !! j)
  /\ CompressorSetup.Compressor_SetParameters M st ch None = st
  /\ (forall j, (AUDIO_OUTPUT_CHANNELS <= j)%nat ->
        CompressorSetup.Compressor_SetParameters M st j (Some p) = st).
Proof.
  cbv zeta.
  unfold CompressorSetup.Compressor_SetParameters,
    CompressorSetup.Compressor_GetParameters.
  destruct (decide _) as [Hbad|_]; [lia|].
  rewrite Compressor_UpdateParameters_valid by exact Hch.
  unfold Compressor.State in *.
  rewrite !list_lookup_total_alter_eq by (rewrite ?length_alter; exact Hlen).
  cbn [Compressor.params Compressor.attackCoeff Compressor.releaseCoeff
       Compressor.envelope_db Compressor.currentGain Compressor.prevGainDb
       Compressor.rmsBuffer Compressor.rmsBufferIndex Compressor.stats].
  split; [reflexivity|]. split; [reflexivity|]. split; [reflexivity|].
  split.
  { intros H. unfold CompressorSetup.time_coefficient.
    apply Qle_bool_iff in H. now rewrite H. }
  split.
  { intros H. unfold CompressorSetup.time_coefficient.
    apply Qle_bool_iff in H. now rewrite H. }
  repeat (split; [reflexivity|]).
  split.
  { intros j Hj. now rewrite !list_lookup_alter_ne by congruence. }
  split; [reflexivity|].
  intros j Hj. destruct (decide _) as [_|Hok]; [reflexivity|lia].
Qed.

Lemma Compressor_SetParameters_round_trip_witness :
  (0 < AUDIO_OUTPUT_CHANNELS)%nat
  /\ (0 < length compressor_ready)%nat
  /\ CompressorSetup.Compressor_GetParameters
       (CompressorSetup.Compressor_SetParameters libm_sample
          compressor_ready 0 (Some compressor_params_sample))
       0 (Some CompressorSetup.default_parameters)
     = Some compressor_params_sample
  /\ Compressor.attackCoeff
       (CompressorSetup.Compressor_SetParameters libm_sample
          compressor_ready 0 (Some compressor_params_sample) !!! 0%nat) = 0.
Proof.
  assert (H1 : (0 < AUDIO_OUTPUT_CHANNELS)%nat) by (vm_compute; lia).
  assert (H2 : (0 < length compressor_ready)%nat) by (vm_compute; lia).
  pose proof (Compressor_SetParameters_round_trip libm_sample
                compressor_ready 0 compressor_params_sample
                CompressorSetup.default_parameters H1 H2) as T.
  cbv zeta in T. destruct T as (T1 & _ & _ & T4 & _).
  split; [exact H1|]. split; [exact H2|]. split; [exact T1|].
  apply T4. vm_compute. discriminate.
Defined.

(** ** Limiter: transparency below the threshold *)

Lemma for_samples_pointwise {S : Type} (f : S -> float -> float * S)
  (P : S -> Prop) (A : float -> Prop) (R : float -> float -> Prop)
  (n : nat) (st : S) (data : list float) :
  (forall x, R x x) ->
  (forall s x, P s -> A x -> R (f s x).1 x /\ P (f s x).2) ->
  P st -> Forall A data ->
  Forall2 R (for_samples f n st data).1 data
  /\ P (for_samples f n st data).2.
Proof.
  intros Hrefl Hstep. revert st data.
  induction n as [|n IH]; intros st data H0 Hdata.
  - rewrite for_samples_zero. split; [|exact H0].
    clear Hdata. induction data; constructor; auto.
  - destruct data as [|x rest].
    + cbn. split; [constructor|exact H0].
    + inversion Hdata as [|? ? Hx Hrest]; subst. simpl.
      destruct (Hstep st x H0 Hx) as [H1 H2].
      destruct (f st x) as [y st'].
      destruct (IH st' rest H2 Hrest) as [I1 I2].
      destruct (for_samples f n st' rest) as [ys st''].
      cbn [fst snd] in *. split; [constructor; assumption|exact I2].
Qed.

Lemma Limiter_ProcessSample_transparent (M : LibM) (L : Z)
  (D : float -> float) (cfg : Limiter.Limiter_TypeDef)
  (s : Limiter.LimiterState_Internal) (x : float) :
  Limiter.enableISP cfg = false -> Limiter.enableLookahead cfg = false ->
  Limiter.threshold cfg <= 1 ->
  Limiter.currentGain s == 1 -> Limiter.holdCounter s = 0%nat ->
  Limiter.peakLevel s <= Limiter.threshold cfg ->
  Qabs x <= Limiter.threshold cfg ->
  let r := Limiter.Limiter_ProcessSample M L D cfg s x in
  r.1 == x
  /\ Limiter.currentGain r.2 == 1 /\ Limiter.holdCounter r.2 = 0%nat
  /\ Limiter.peakLevel r.2 <= Limiter.threshold cfg.
Proof.
  intros Hisp Hla HT Hg Hh Hp Hx. cbv zeta.
  unfold Limiter.Limiter_ProcessSample,
    Limiter.Limiter_ApplyInterSampleProtection,
    Limiter.Limiter_ProcessLookahead.
  rewrite Hisp, Hla. cbn [negb orb].
  set (peak := fmaxf _ _).
  assert (Hpeak : peak <= Limiter.threshold cfg).
  { unfold peak, fmaxf, fabsf, Limiter.ENVELOPE_SMOOTHING.
    apply Q.max_lub; [exact Hx|]. cbn [Limiter.peakLevel].
    unfold float in *. lra. }
  unfold Limiter.Limiter_CalculateGainReduction. cbn [Limiter.peakLevel
    Limiter.threshold].
  apply Qltb_false in Hpeak. rewrite Hpeak. apply Qltb_false in Hpeak.
  cbn [Limiter.currentGain Limiter.holdCounter].
  unfold Limiter.Limiter_UpdateReleaseEnvelope.
  cbn [Limiter.holdCounter Limiter.currentGain Limiter.targetGain].
  rewrite Hh. cbn [Nat.pred Nat.ltb Nat.leb].
  assert (G1 : Qltb 1 (Limiter.currentGain s) = false)
    by (apply Qltb_false; rewrite Hg; apply Qle_refl).
  assert (G2 : Qltb (Limiter.currentGain s) 1 = false)
    by (apply Qltb_false; rewrite Hg; apply Qle_refl).
  rewrite G1, G2.
  cbn [fst snd Limiter.currentGain Limiter.holdCounter Limiter.peakLevel].
  apply Qabs_Qle_condition in Hx. destruct Hx as [Hx1 Hx2].
  split; [|split; [exact Hg|split; [reflexivity|exact Hpeak]]].
  set (y := x * Limiter.currentGain s).
  assert (Hy' : y == x) by (unfold y; rewrite Hg; ring).
  case_Qltb 1 y.
  - unfold float in *. exfalso. lra.
  - case_Qltb y (-1); [unfold float in *; exfalso; lra|exact Hy'].
Qed.

(** A limiter at rest is transparent below its threshold.  With
    inter-sample protection and lookahead switched off, a threshold of at
    most 1, and the channel at rest (gain 1, hold counter 0, peak level not
    above the threshold, as [Limiter_Init] leaves it), a block whose
    samples do not exceed the threshold in magnitude comes back with the
    same sample values, and the channel is at rest again afterwards, so
    that the same holds for the next block. *)
Theorem Limiter_transparent_below_threshold (M : LibM) (L : Z)
  (D : float -> float) (st : Limiter.State) (ch : nat)
  (data : list float) (blockSize : nat)
  (Hinit : Limiter.limiterInitialized st = true)
  (Hch : (ch < AUDIO_OUTPUT_CHANNELS)%nat)
  (Hlen : (ch < length (Limiter.limiterState st))%nat)
  (Hisp : Limiter.enableISP (Limiter.limiterConfig st !!! ch) = false)
  (Hla : Limiter.enableLookahead (Limiter.limiterConfig st !!! ch) = false)
  (HT : Limiter.threshold (Limiter.limiterConfig st !!! ch) <= 1)
  (Hgain : Limiter.currentGain (Limiter.limiterState st !!! ch) == 1)
  (Hhold : Limiter.holdCounter (Limiter.limiterState st !!! ch) = 0%nat)
  (Hpeak : Limiter.peakLevel (Limiter.limiterState st !!! ch)
           <= Limiter.threshold (Limiter.limiterConfig st !!! ch))
  (Hdata : Forall (fun x => Qabs x
                            <= Limiter.threshold
                                 (Limiter.limiterConfig st !!! ch)) data) :
  exists st' out,
    Limiter.Limiter_ProcessBlock M L D st ch (Some data) blockSize
    = (Limiter.LIMITER_OK, st', Some out)
    /\ Forall2 Qeq out data
    /\ Limiter.limiterConfig st' = Limiter.limiterConfig st
    /\ Limiter.currentGain (Limiter.limiterState st' !!! ch) == 1
    /\ Limiter.holdCounter (Limiter.limiterState st' !!! ch) = 0%nat
    /\ Limiter.peakLevel (Limiter.limiterState st' !!! ch)
       <= Limiter.threshold (Limiter.limiterConfig st !!! ch).
Proof.
  unfold Limiter.Limiter_ProcessBlock.
  rewrite Hinit, bool_decide_eq_false_2 by lia. cbn [negb orb]. cbv zeta.
  set (cfg := Limiter.limiterConfig st !!! ch) in *.
  destruct (for_samples_pointwise
              (Limiter.Limiter_ProcessSample M L D cfg)
              (fun s => Limiter.currentGain s == 1
                        /\ Limiter.holdCounter s = 0%nat
                        /\ Limiter.peakLevel s <= Limiter.threshold cfg)
              (fun x => Qabs x <= Limiter.threshold cfg) Qeq
              blockSize (Limiter.limiterState st !!! ch) data)
    as [F (I1 & I2 & I3)].
  { intros x. reflexivity. }
  { intros s x (J1 & J2 & J3) Hx.
    pose proof (Limiter_ProcessSample_transparent M L D cfg s x
                  Hisp Hla HT J1 J2 J3 Hx) as T.
    cbv zeta in T. destruct T as (T1 & T2 & T3 & T4).
    split; [exact T1|]. split; [exact T2|]. split; [exact T3|exact T4]. }
  { split; [exact Hgain|]. split; [exact Hhold|exact Hpeak]. }
  { exact Hdata. }
  destruct (for_samples _ _ _ _) as [out s]. cbn [fst snd] in *.
  eexists _, out. split; [reflexivity|].
  cbn [Limiter.limiterConfig Limiter.limiterState].
  rewrite list_lookup_total_insert_eq by exact Hlen.
  split; [exact F|]. split; [reflexivity|].
  split; [exact I1|]. split; [exact I2|exact I3].
Qed.

Lemma Limiter_transparent_below_threshold_witness :
  Limiter.limiterInitialized (limiter_ready 64) = true
  /\ (0 < AUDIO_OUTPUT_CHANNELS)%nat
  /\ (0 < length (Limiter.limiterState (limiter_ready 64)))%nat
  /\ Forall (fun x => Qabs x <= 0.5) [0.25; -0.5]
  /\ exists st' out,
       Limiter.Limiter_ProcessBlock libm_sample 64 (fun _ => 0.063)
         (limiter_ready 64) 0 (Some [0.25; -0.5]) 2
       = (Limiter.LIMITER_OK, st', Some out)
       /\ Forall2 Qeq out [0.25; -0.5].
Proof.
  assert (H1 : Limiter.limiterInitialized (limiter_ready 64) = true)
    by reflexivity.
  assert (H2 : (0 < AUDIO_OUTPUT_CHANNELS)%nat) by (vm_compute; lia).
  assert (H3 : (0 < length (Limiter.limiterState (limiter_ready 64)))%nat)
    by (vm_compute; lia).
  assert (H4 : Limiter.enableISP
                 (Limiter.limiterConfig (limiter_ready 64) !!! 0%nat)
               = false) by reflexivity.
  assert (H5 : Limiter.enableLookahead
                 (Limiter.limiterConfig (limiter_ready 64) !!! 0%nat)
               = false) by reflexivity.
  assert (H6 : Limiter.threshold
                 (Limiter.limiterConfig (limiter_ready 64) !!! 0%nat) <= 1)
    by (vm_compute; discriminate).
  assert (H7 : Limiter.currentGain
                 (Limiter.limiterState (limiter_ready 64) !!! 0%nat) == 1)
    by reflexivity.
  assert (H8 : Limiter.holdCounter
                 (Limiter.limiterState (limiter_ready 64) !!! 0%nat)
               = 0%nat) by reflexivity.
  assert (H9 : Limiter.peakLevel
                 (Limiter.limiterState (limiter_ready 64) !!! 0%nat)
               <= Limiter.threshold
                    (Limiter.limiterConfig (limiter_ready 64) !!! 0%nat))
    by (vm_compute; discriminate).
  assert (H10 : Forall (fun x => Qabs x <= 0.5) [0.25; -0.5])
    by (repeat constructor; vm_compute; discriminate).
  destruct (Limiter_transparent_below_threshold libm_sample 64
              (fun _ => 0.063) (limiter_ready 64) 0 [0.25; -0.5] 2
              H1 H2 H3 H4 H5 H6 H7 H8 H9 H10) as (s & o & T1 & T2 & _).
  split; [exact H1|]. split; [exact H2|]. split; [exact H3|].
  split; [exact H10|]. exists s, o. split; [exact T1|exact T2].
Defined.

(** [Limiter_Init] on a valid channel returns [LIMITER_OK], marks the
    module initialised and leaves the channel at rest: gain and target gain
    1, peak level, hold counter, previous sample and lookahead index 0, a
    lookahead buffer of zeros.  Whatever attack and release times the
    configuration holds, the two times in samples are at least 1, so the
    coefficients [1 / attackTime] and [1 / releaseTime] of the envelope
    never divide by zero.  The configuration and the other channels are
    not touched; an invalid channel gives [LIMITER_ERROR] and no change. *)
Theorem Limiter_Init_leaves_channel_at_rest (L : Z) (st : Limiter.State)
  (ch : nat)
  (Hch : (ch < AUDIO_OUTPUT_CHANNELS)%nat)
  (Hlen : (ch < length (Limiter.limiterState st))%nat) :
  let r := Limiter.Limiter_Init L st ch in
  let s := Limiter.limiterState r.2 !!! ch in
  r.1 = Limiter.LIMITER_OK
  /\ Limiter.limiterInitialized r.2 = true
  /\ Limiter.currentGain s = 1 /\ Limiter.targetGain s = 1
  /\ Limiter.peakLevel s = 0 /\ Limiter.holdCounter s = 0%nat
  /\ Limiter.prevSample s = 0 /\ Limiter.lookaheadIndex s = 0%Z
  /\ Limiter.lookaheadBuffer s = replicate (Z.to_nat L) (0 : float)
  /\ 1 <= Limiter.attackTime s /\ 1 <= Limiter.releaseTime s
  /\ Limiter.limiterConfig r.2 = Limiter.limiterConfig st
  /\ (forall j, j <> ch ->
        Limiter.limiterState r.2 !! j = Limiter.limiterState st !! j)
  /\ (forall j, (AUDIO_OUTPUT_CHANNELS <= j)%nat ->
        Limiter.Limiter_Init L st j = (Limiter.LIMITER_ERROR, st)).
Proof.
  cbv zeta. unfold Limiter.Limiter_Init.
  destruct (decide _) as [Hbad|_]; [lia|].
  cbn [fst snd Limiter.limiterState Limiter.limiterInitialized
       Limiter.limiterConfig].
  rewrite list_lookup_total_insert_eq by exact Hlen.
  unfold Limiter.Limiter_CalculateTimingParameters.
  cbn [Limiter.currentGain Limiter.targetGain Limiter.peakLevel
       Limiter.holdCounter Limiter.prevSample Limiter.lookaheadIndex
       Limiter.lookaheadBuffer Limiter.attackTime Limiter.releaseTime].
  repeat (split; [reflexivity|]).
  split.
  { match goal with |- context [Qltb ?a 1] => case_Qltb a 1 end;
      [discriminate|assumption]. }
  split.
  { match goal with |- context [Qltb ?a 1] => case_Qltb a 1 end;
      [discriminate|assumption]. }
  split; [reflexivity|]. split.
  - intros j Hj. apply list_lookup_insert_ne. congruence.
  - intros j Hj. destruct (decide _) as [_|Hok]; [reflexivity|lia].
Qed.

Lemma Limiter_Init_leaves_channel_at_rest_witness :
  (0 < AUDIO_OUTPUT_CHANNELS)%nat
  /\ (0 < length (Limiter.limiterState limiter_blank))%nat
  /\ 1 <= Limiter.attackTime
            (Limiter.limiterState (Limiter.Limiter_Init 64 limiter_blank 0).2
               !!! 0%nat)
  /\ Limiter.limiterInitialized (Limiter.Limiter_Init 64 limiter_blank 0).2
     = true.
Proof.
  assert (H1 : (0 < AUDIO_OUTPUT_CHANNELS)%nat) by (vm_compute; lia).
  assert (H2 : (0 < length (Limiter.limiterState limiter_blank))%nat)
    by (vm_compute; lia).
  pose proof (Limiter_Init_leaves_channel_at_rest 64 limiter_blank 0 H1 H2)
    as T.
  cbv zeta in T.
  destruct T as (_ & T2 & _ & _ & _ & _ & _ & _ & _ & T10 & _).
  split; [exact H1|]. split; [exact H2|]. split; [exact T10|exact T2].
Defined.

(** ** Delay: ring index, initialisation, time setting, the line itself *)

(** [ModuloBufferSize] on a buffer of fewer than 2^31 cells always returns
    an index inside the buffer.  It is the mathematical remainder for
    every index from [-bufferSize] upwards.  Below that the single
    correction is not enough: the negative sum is read as an unsigned
    number, and the result is the remainder of [index + 2^32]. *)
Theorem ModuloBufferSize_wraps (index bufferSize : Z)
  (Hsize : (0 < bufferSize < 2 ^ 31)%Z)
  (Hindex : (- 2 ^ 31 <= index < 2 ^ 31)%Z) :
  (0 <= Delay.ModuloBufferSize index bufferSize < bufferSize)%Z
  /\ ((- bufferSize <= index)%Z ->
      Delay.ModuloBufferSize index bufferSize = (index mod bufferSize)%Z)
  /\ ((index < - bufferSize)%Z ->
      Delay.ModuloBufferSize index bufferSize
      = ((index + 2 ^ 32) mod bufferSize)%Z).
Proof.
  split.
  { unfold Delay.ModuloBufferSize. apply Z.mod_pos_bound. lia. }
  unfold Delay.ModuloBufferSize, Delay.to_int32, Delay.to_uint32.
  destruct (index <? 0)%Z eqn:E;
    [apply Z.ltb_lt in E|apply Z.ltb_ge in E].
  - split; intros H.
    + rewrite (Z.mod_small (index + bufferSize) (2 ^ 32)) by lia.
      rewrite (Z.mod_small (index + bufferSize + 2 ^ 31) (2 ^ 32)) by lia.
      replace (index + bufferSize + 2 ^ 31 - 2 ^ 31)%Z
        with (index + bufferSize)%Z by lia.
      rewrite (Z.mod_small (index + bufferSize) (2 ^ 32)) by lia.
      rewrite <- (Z_mod_plus_full index 1 bufferSize). f_equal. lia.
    + assert (H1 : ((index + bufferSize) mod 2 ^ 32
                    = index + bufferSize + 2 ^ 32)%Z).
      { symmetry. apply Z.mod_unique with (q := (-1)%Z); lia. }
      rewrite H1.
      assert (H2 : ((index + bufferSize + 2 ^ 32 + 2 ^ 31) mod 2 ^ 32
                    = index + bufferSize + 2 ^ 31)%Z).
      { symmetry. apply Z.mod_unique with (q := 1%Z); lia. }
      rewrite H2.
      replace (index + bufferSize + 2 ^ 31 - 2 ^ 31)%Z
        with (index + bufferSize)%Z by lia.
      rewrite H1.
      rewrite <- (Z_mod_plus_full (index + 2 ^ 32) 1 bufferSize).
      f_equal. lia.
  - split; intros H; [|lia].
    rewrite (Z.mod_small index (2 ^ 32)) by lia. reflexivity.
Qed.

Lemma ModuloBufferSize_wraps_witness :
  (0 < 976 < 2 ^ 31)%Z /\ (- 2 ^ 31 <= -1 < 2 ^ 31)%Z
  /\ Delay.ModuloBufferSize (-1) 976 = 975%Z.
Proof.
  assert (H1 : (0 < 976 < 2 ^ 31)%Z) by lia.
  assert (H2 : (- 2 ^ 31 <= -1 < 2 ^ 31)%Z) by lia.
  destruct (ModuloBufferSize_wraps (-1) 976 H1 H2) as (_ & T & _).
  split; [exact H1|]. split; [exact H2|].
  rewrite T by lia. reflexivity.
Defined.

Lemma delay_invariant_initial (N : Z) (data : list float)
  (instance : Delay.DelayInstance_TypeDef) :
  (0 < Delay.bufferSize instance)%Z ->
  Delay.buffer instance
  = Some (replicate (Z.to_nat (Delay.bufferSize instance)) 0) ->
  (0 <= Delay.writeIndex instance < Delay.bufferSize instance)%Z ->
  Delay.prevSample instance == 0 ->
  Delay.phaseInvert instance = false ->
  Delay.delaySamples instance == inject_Z N ->
  Delay.delay_invariant (Delay.bufferSize instance) N
    (Delay.writeIndex instance) (Delay.filterCoeff instance) data 0 instance.
Proof.
  intros Hsize Hbuf Hw Hprev Hphase Hd.
  constructor; try assumption; try reflexivity.
  - exists (replicate (Z.to_nat (Delay.bufferSize instance)) 0).
    split; [exact Hbuf|]. split; [apply length_replicate|]. intros d Hd'.
    rewrite lookup_total_replicate_2.
    + unfold Delay.past.
      replace (Z.of_nat 0 - d <? 0)%Z with true
        by (symmetry; apply Z.ltb_lt; lia).
      reflexivity.
    + assert (0 <= (Delay.writeIndex instance + Z.of_nat 0 - d)
                   mod Delay.bufferSize instance
              < Delay.bufferSize instance)%Z
        by (apply Z.mod_pos_bound; lia).
      lia.
  - rewrite Z.add_0_r, Z.mod_small by lia. reflexivity.
Qed.

(** What the delay line does to an arbitrary block.  On an active, enabled
    channel with linear interpolation, no phase inversion, a zeroed buffer
    and smoothing state, and a delay of a whole number [N] of samples that
    is shorter than the buffer, [Delay_Process] returns [HAL_OK] and a block
    of the same length in which every sample is the input of [N] samples
    earlier (zero before the block began) mixed with the previous output:
    [out[k] = in[k - N] * (1 - c) + out[k - 1] * c], where [c] is the
    instance's [filterCoeff] and [out[-1] = 0].  The other channels are
    left as they were. *)
Theorem Delay_Process_delays_then_smooths (MAXCH fuel : nat)
  (st : Delay.State) (ch : nat) (data : list float) (N : Z)
  (Hfuel : (1 <= fuel)%nat)
  (Hch : (ch < MAXCH)%nat)
  (Hdata : (0 < length data)%nat)
  (Hmode : Delay.interpolationMode st = Delay.DELAY_INTERPOLATION_LINEAR)
  (Hactive : Delay.isActive (Delay.delayInstances st !!! ch) = true)
  (Hen : Delay.enabled (Delay.delayInstances st !!! ch) = true)
  (Hsize : (0 < Delay.bufferSize (Delay.delayInstances st !!! ch)
            < 2 ^ 31)%Z)
  (Hbuf : Delay.buffer (Delay.delayInstances st !!! ch)
          = Some (replicate
                    (Z.to_nat
                       (Delay.bufferSize (Delay.delayInstances st !!! ch)))
                    0))
  (Hw : (0 <= Delay.writeIndex (Delay.delayInstances st !!! ch)
         < Delay.bufferSize (Delay.delayInstances st !!! ch))%Z)
  (Hprev : Delay.prevSample (Delay.delayInstances st !!! ch) == 0)
  (Hphase : Delay.phaseInvert (Delay.delayInstances st !!! ch) = false)
  (HN : (0 <= N < Delay.bufferSize (Delay.delayInstances st !!! ch))%Z)
  (Hd : Delay.delaySamples (Delay.delayInstances st !!! ch) == inject_Z N) :
  let c := Delay.filterCoeff (Delay.delayInstances st !!! ch) in
  exists st' out,
    Delay.Delay_Process MAXCH fuel st ch (Some data) (length data)
    = Some (HAL_OK, st', Some out)
    /\ length out = length data
    /\ (forall k, (k < length data)%nat ->
          out !!! k
          == Delay.past data (Z.of_nat k - N) * (1 - c)
             + match k with O => 0 | S j => out !!! j end * c)
    /\ (forall j, j <> ch ->
          Delay.delayInstances st' !! j = Delay.delayInstances st !! j).
Proof.
  cbv zeta. unfold Delay.Delay_Process.
  rewrite bool_decide_eq_false_2 by lia.
  rewrite bool_decide_eq_false_2 by lia.
  rewrite Hactive, Hen, Hmode. cbn [negb orb].
  set (i := Delay.delayInstances st !!! ch) in *.
  pose proof (delay_invariant_initial N data i ltac:(lia) Hbuf Hw Hprev
                Hphase Hd) as Hinv.
  destruct (delay_samples_run fuel (Delay.bufferSize i) N
              (Delay.writeIndex i) (Delay.filterCoeff i) data
              Hfuel Hsize HN (length data) 0%nat i Hinv ltac:(lia))
    as (ys & i' & Hrun & Hl & _ & Hk).
  rewrite drop_0 in Hrun. rewrite Hrun.
  eexists _, ys. split; [reflexivity|]. split; [lia|]. split.
  - intros k Hlt. rewrite (Hk k Hlt). cbn [Nat.add Delay.smoothed].
    destruct k as [|j]; [reflexivity|].
    rewrite (Hk j ltac:(lia)). reflexivity.
  - intros j Hj. unfold Delay.set_instance. cbn [Delay.delayInstances].
    apply list_lookup_alter_ne. congruence.
Qed.

Lemma Delay_Process_delays_then_smooths_witness :
  (1 <= 1)%nat /\ (0 < 4)%nat /\ (0 < length delay_block_sample)%nat
  /\ Delay.interpolationMode delay_ready = Delay.DELAY_INTERPOLATION_LINEAR
  /\ Delay.delaySamples (Delay.delayInstances delay_ready !!! 0%nat)
     == inject_Z 48
  /\ exists st' out,
       Delay.Delay_Process 4 1 delay_ready 0 (Some delay_block_sample) 3
       = Some (HAL_OK, st', Some out)
       /\ length out = 3%nat
       /\ out !!! 0%nat == 0.
Proof.
  pose (i := Delay.delayInstances delay_ready !!! 0%nat).
  assert (H1 : (1 <= 1)%nat) by lia.
  assert (H2 : (0 < 4)%nat) by lia.
  assert (H3 : (0 < length delay_block_sample)%nat) by (vm_compute; lia).
  assert (H4 : Delay.interpolationMode delay_ready
               = Delay.DELAY_INTERPOLATION_LINEAR) by reflexivity.
  assert (H5 : Delay.isActive i = true) by reflexivity.
  assert (H6 : Delay.enabled i = true) by reflexivity.
  assert (H7 : (0 < Delay.bufferSize i < 2 ^ 31)%Z)
    by (vm_compute; split; reflexivity).
  assert (H8 : Delay.buffer i
               = Some (replicate (Z.to_nat (Delay.bufferSize i)) 0))
    by (vm_compute; reflexivity).
  assert (H9 : (0 <= Delay.writeIndex i < Delay.bufferSize i)%Z)
    by (vm_compute; split; [discriminate|reflexivity]).
  assert (H10 : Delay.prevSample i == 0) by reflexivity.
  assert (H11 : Delay.phaseInvert i = false) by reflexivity.
  assert (H12 : (0 <= 48 < Delay.bufferSize i)%Z)
    by (vm_compute; split; [discriminate|reflexivity]).
  assert (H13 : Delay.delaySamples i == inject_Z 48)
    by (vm_compute; reflexivity).
  destruct (Delay_Process_delays_then_smooths 4 1 delay_ready 0
              delay_block_sample 48 H1 H2 H3 H4 H5 H6 H7 H8 H9 H10 H11 H12 H13)
    as (s & o & T1 & T2 & T3 & _).
  split; [exact H1|]. split; [exact H2|]. split; [exact H3|].
  split; [exact H4|]. split; [exact H13|].
  exists s, o. split; [exact T1|]. split; [exact T2|].
  rewrite (T3 0%nat ltac:(vm_compute; lia)). vm_compute. reflexivity.
Defined.

Lemma init_loop_success (malloc : nat -> option (list float))
  (config : Delay.DelayConfig_TypeDef) (b : list float) :
  malloc (Z.to_nat (Delay.CalculateBufferSizeBytes
                      (Delay.cfgMaxDelayMs config)
                      (Delay.cfgSampleRate config))) = Some b ->
  forall (n ch0 : nat) (st : Delay.State),
    (ch0 + n <= length (Delay.delayInstances st))%nat ->
    let r := Delay.init_loop malloc config n ch0 st in
    r.1 = HAL_OK
    /\ Delay.isDelaySystemInitialized r.2 = true
    /\ Delay.tempCompensationFactor r.2 = 1
    /\ Delay.interpolationMode r.2 = Delay.interpolationMode st
    /\ (forall j, (ch0 <= j < ch0 + n)%nat ->
          Delay.init_instance malloc config (Delay.delayInstances st !!! j)
          = Some (Delay.delayInstances r.2 !!! j))
    /\ (forall j, (j < ch0 \/ ch0 + n <= j)%nat ->
          Delay.delayInstances r.2 !! j = Delay.delayInstances st !! j).
Proof.
  intros Hm. induction n as [|n IH]; intros ch0 st Hlen; cbv zeta.
  - cbn. repeat split; try reflexivity. intros j Hj. lia.
  - cbn [Delay.init_loop].
    assert (Hi : forall i, exists i',
               Delay.init_instance malloc config i = Some i').
    { intros i. unfold Delay.init_instance. cbv zeta. rewrite Hm.
      eexists. reflexivity. }
    destruct (Hi (Delay.delayInstances st !!! ch0)) as [i' Hi'].
    rewrite Hi'.
    specialize (IH (S ch0)
                  (Delay.set_instance st ch0 (fun _ => i'))).
    cbv zeta in IH.
    destruct IH as (I1 & I2 & I3 & I4 & I5 & I6).
    { unfold Delay.set_instance. cbn [Delay.delayInstances].
      rewrite length_alter. lia. }
    unfold Delay.set_instance in *. cbn [Delay.delayInstances] in I5, I6.
    split; [exact I1|]. split; [exact I2|]. split; [exact I3|].
    split; [exact I4|]. split.
    + intros j Hj. destruct (decide (j = ch0)) as [->|Hne].
      * rewrite Hi'. f_equal.
        rewrite (list_lookup_total_alt _ ch0), (I6 ch0 ltac:(lia)),
          <- list_lookup_total_alt.
        now rewrite list_lookup_total_alter_eq by lia.
      * rewrite <- (I5 j ltac:(lia)).
        now rewrite list_lookup_total_alter_ne by congruence.
    + intros j Hj. rewrite (I6 j ltac:(lia)).
      apply list_lookup_alter_ne. lia.
Qed.

(** When the allocation succeeds, [Delay_Init] returns [HAL_OK], marks the
    system initialised with a temperature factor of 1, and leaves every
    channel with a zeroed buffer of [maxDelayMs * sampleRate / 1000 + 16]
    cells, the write index and the smoothing state at 0, the smoothing
    coefficient at 0.7, and the channel inactive and disabled.  Until
    [Delay_ConfigChannel] activates a channel, [Delay_Process] returns its
    block unchanged with [HAL_OK] and [Delay_SetTime] is refused.  A null
    configuration gives [HAL_ERROR] and changes nothing; a failed
    allocation gives [HAL_ERROR] with the system not initialised. *)
Theorem Delay_Init_prepares_every_channel (MAXCH fuel : nat) (SPEED : float)
  (malloc : nat -> option (list float)) (st : Delay.State)
  (config : Delay.DelayConfig_TypeDef) (b : list float) (ch : nat)
  (Hmalloc : malloc (Z.to_nat (Delay.CalculateBufferSizeBytes
                                 (Delay.cfgMaxDelayMs config)
                                 (Delay.cfgSampleRate config))) = Some b)
  (Hlen : (MAXCH <= length (Delay.delayInstances st))%nat)
  (Hch : (ch < MAXCH)%nat) :
  let size := Delay.CalculateBufferSizeBytes (Delay.cfgMaxDelayMs config)
                                             (Delay.cfgSampleRate config) in
  let r := Delay.Delay_Init MAXCH malloc st (Some config) in
  let i := Delay.delayInstances r.2 !!! ch in
  r.1 = HAL_OK
  /\ Delay.isDelaySystemInitialized r.2 = true
  /\ Delay.tempCompensationFactor r.2 = 1
  /\ Delay.buffer i = Some (replicate (Z.to_nat size) 0)
  /\ Delay.bufferSize i = size
  /\ Delay.writeIndex i = 0%Z /\ Delay.prevSample i = 0
  /\ Delay.filterCoeff i = 0.7
  /\ Delay.isActive i = false /\ Delay.enabled i = false
  /\ Delay.sampleRate i = Delay.cfgSampleRate config
  /\ Delay.maxDelayMs i = Delay.cfgMaxDelayMs config
  /\ (forall data n, (0 < n)%nat ->
        Delay.Delay_Process MAXCH fuel r.2 ch (Some data) n
        = Some (HAL_OK, r.2, Some data))
  /\ (forall ms, Delay.Delay_SetTime MAXCH SPEED r.2 ch ms = (HAL_ERROR, r.2))
  /\ Delay.Delay_Init MAXCH malloc st None = (HAL_ERROR, st)
  /\ (forall failing : nat -> option (list float),
        failing (Z.to_nat size) = None ->
        let f := Delay.Delay_Init MAXCH failing st (Some config) in
        f.1 = HAL_ERROR /\ Delay.isDelaySystemInitialized f.2 = false).
Proof.
  cbv zeta. unfold Delay.Delay_Init.
  pose proof (init_loop_success malloc config b Hmalloc MAXCH 0%nat st
                ltac:(lia)) as T.
  cbv zeta in T. destruct T as (T1 & T2 & T3 & _ & T5 & _).
  specialize (T5 ch ltac:(lia)).
  unfold Delay.init_instance in T5. cbv zeta in T5. rewrite Hmalloc in T5.
  injection T5 as T5.
  split; [exact T1|]. split; [exact T2|]. split; [exact T3|].
  rewrite <- T5.
  cbn [Delay.buffer Delay.bufferSize Delay.writeIndex Delay.prevSample
       Delay.filterCoeff Delay.isActive Delay.enabled Delay.sampleRate
       Delay.maxDelayMs].
  repeat (split; [reflexivity|]).
  split.
  { intros data n Hn. unfold Delay.Delay_Process.
    rewrite bool_decide_eq_false_2 by lia.
    rewrite bool_decide_eq_false_2 by lia.
    rewrite <- T5. reflexivity. }
  split.
  { intros ms. unfold Delay.Delay_SetTime.
    rewrite bool_decide_eq_false_2 by lia.
    rewrite <- T5. reflexivity. }
  split; [reflexivity|].
  intros failing Hf. destruct MAXCH as [|n]; [lia|].
  cbn [Delay.init_loop]. unfold Delay.init_instance. cbv zeta. rewrite Hf.
  split; [reflexivity|].
  unfold Delay.Delay_DeInit, Delay.set_instance.
  cbn [Delay.isDelaySystemInitialized].
  destruct (Delay.isDelaySystemInitialized st); reflexivity.
Qed.

Lemma Delay_Init_prepares_every_channel_witness :
  malloc_sample (Z.to_nat (Delay.CalculateBufferSizeBytes 20 48000))
  = Some (replicate 976 0)
  /\ (4 <= length (Delay.delayInstances delay_blank))%nat
  /\ (2 < 4)%nat
  /\ Delay.bufferSize (Delay.delayInstances delay_initialised !!! 2%nat)
     = 976%Z
  /\ Delay.Delay_SetTime 4 343 delay_initialised 2 5
     = (HAL_ERROR, delay_initialised).
Proof.
  assert (H1 : malloc_sample
                 (Z.to_nat (Delay.CalculateBufferSizeBytes
                              (Delay.cfgMaxDelayMs
                                 (Delay.mkDelayConfig 48000 20))
                              (Delay.cfgSampleRate
                                 (Delay.mkDelayConfig 48000 20))))
               = Some (replicate 976 0)) by reflexivity.
  assert (H2 : (4 <= length (Delay.delayInstances delay_blank))%nat)
    by (vm_compute; lia).
  assert (H3 : (2 < 4)%nat) by lia.
  pose proof (Delay_Init_prepares_every_channel 4 1 343 malloc_sample
                delay_blank (Delay.mkDelayConfig 48000 20)
                (replicate 976 0) 2 H1 H2 H3) as T.
  cbv zeta in T.
  destruct T as (_ & _ & _ & _ & T5 & _ & _ & _ & _ & _ & _ & _ & _ & T14 & _).
  split; [exact H1|]. split; [exact H2|]. split; [exact H3|].
  split; [exact T5|exact (T14 5)].
Defined.

Lemma ApplyDelaySettings_initialised (MAXCH : nat) (st : Delay.State)
  (ch : nat) :
  (ch < MAXCH)%nat -> Delay.isDelaySystemInitialized st = true ->
  Delay.ApplyDelaySettings MAXCH st ch
  = Delay.set_instance st ch
      (fun i =>
         {| Delay.isActive := Delay.isActive i;
            Delay.bufferSize := Delay.bufferSize i;
            Delay.writeIndex := Delay.writeIndex i;
            Delay.sampleRate := Delay.sampleRate i;
            Delay.maxDelayMs := Delay.maxDelayMs i;
            Delay.currentDelayMs := Delay.currentDelayMs i;
            Delay.currentDelayDistance := Delay.currentDelayDistance i;
            Delay.delayUnit := Delay.delayUnit i;
            Delay.phaseInvert := Delay.phaseInvert i;
            Delay.enabled := Delay.enabled i;
            Delay.filterCoeff := Delay.filterCoeff i;
            Delay.prevSample := Delay.prevSample i;
            Delay.buffer := Delay.buffer i;
            Delay.delaySamples :=
              Delay.currentDelayMs i / Delay.tempCompensationFactor st
              * inject_Z (Delay.sampleRate i) / 1000 |}).
Proof.
  intros Hch Hinit. unfold Delay.ApplyDelaySettings.
  rewrite bool_decide_eq_false_2 by lia. rewrite Hinit. reflexivity.
Qed.

(** An accepted [Delay_SetTime] (active channel of an initialised system,
    time between 0 and the channel's maximum) returns [HAL_OK]; a
    following [Delay_GetSettings] reports that time in milliseconds with
    the enable and phase flags as they were; and the delay in samples
    becomes [delayMs / tempCompensationFactor * sampleRate / 1000].  The
    buffer, the write index and the smoothing state are not reset by the
    change, and the other channels are left as they were. *)
Theorem Delay_SetTime_then_GetSettings (MAXCH : nat) (SPEED : float)
  (st : Delay.State) (ch : nat) (delayMs : float)
  (Hch : (ch < MAXCH)%nat)
  (Hlen : (ch < length (Delay.delayInstances st))%nat)
  (Hinit : Delay.isDelaySystemInitialized st = true)
  (Hactive : Delay.isActive (Delay.delayInstances st !!! ch) = true)
  (Hms : 0 <= delayMs
         <= inject_Z (Delay.maxDelayMs (Delay.delayInstances st !!! ch))) :
  let r := Delay.Delay_SetTime MAXCH SPEED st ch delayMs in
  let i := Delay.delayInstances st !!! ch in
  let i' := Delay.delayInstances r.2 !!! ch in
  r.1 = HAL_OK
  /\ Delay.Delay_GetSettings MAXCH r.2 ch
     = (HAL_OK,
        Some (Delay.mkChannelConfig (Delay.enabled i) Delay.DELAY_UNIT_MS
                                    (Delay.phaseInvert i) delayMs))
  /\ Delay.delaySamples i'
     = delayMs / Delay.tempCompensationFactor st
       * inject_Z (Delay.sampleRate i) / 1000
  /\ Delay.buffer i' = Delay.buffer i
  /\ Delay.writeIndex i' = Delay.writeIndex i
  /\ Delay.prevSample i' = Delay.prevSample i
  /\ Delay.bufferSize i' = Delay.bufferSize i
  /\ (forall j, j <> ch ->
        Delay.delayInstances r.2 !! j = Delay.delayInstances st !! j).
Proof.
  cbv zeta. unfold Delay.Delay_SetTime.
  rewrite bool_decide_eq_false_2 by lia. rewrite Hactive. cbn [negb orb].
  destruct Hms as [Hlo Hhi]. apply Qltb_false in Hlo, Hhi.
  rewrite Hlo, Hhi. cbn [orb fst snd].
  rewrite ApplyDelaySettings_initialised by (try exact Hinit; lia).
  unfold Delay.Delay_GetSettings.
  rewrite bool_decide_eq_false_2 by lia.
  unfold Delay.set_instance.
  cbn [Delay.delayInstances Delay.tempCompensationFactor].
  rewrite !list_lookup_total_alter_eq by (rewrite ?length_alter; exact Hlen).
  cbn [Delay.isActive Delay.enabled Delay.delayUnit Delay.phaseInvert
       Delay.currentDelayMs Delay.delaySamples Delay.buffer
       Delay.writeIndex Delay.prevSample Delay.bufferSize Delay.sampleRate].
  rewrite Hactive. cbn [negb orb].
  repeat (split; [reflexivity|]).
  intros j Hj. now rewrite !list_lookup_alter_ne by congruence.
Qed.

Lemma Delay_SetTime_then_GetSettings_witness :
  (0 < 4)%nat
  /\ (0 < length (Delay.delayInstances delay_ready))%nat
  /\ Delay.isDelaySystemInitialized delay_ready = true
  /\ 0 <= 5 <= inject_Z (Delay.maxDelayMs
                           (Delay.delayInstances delay_ready !!! 0%nat))
  /\ Delay.Delay_GetSettings 4 (Delay.Delay_SetTime 4 343 delay_ready 0 5).2 0
     = (HAL_OK, Some (Delay.mkChannelConfig true Delay.DELAY_UNIT_MS false 5)).
Proof.
  assert (H1 : (0 < 4)%nat) by lia.
  assert (H2 : (0 < length (Delay.delayInstances delay_ready))%nat)
    by (vm_compute; lia).
  assert (H3 : Delay.isDelaySystemInitialized delay_ready = true)
    by reflexivity.
  assert (H4 : Delay.isActive (Delay.delayInstances delay_ready !!! 0%nat)
               = true) by reflexivity.
  assert (H5 : 0 <= 5 <= inject_Z (Delay.maxDelayMs
                                     (Delay.delayInstances delay_ready
                                        !!! 0%nat)))
    by (vm_compute; split; discriminate).
  pose proof (Delay_SetTime_then_GetSettings 4 343 delay_ready 0 5
                H1 H2 H3 H4 H5) as T.
  cbv zeta in T. destruct T as (_ & T2 & _).
  split; [exact H1|]. split; [exact H2|]. split; [exact H3|].
  split; [exact H5|]. rewrite T2. reflexivity.
Defined.

(** ** Routing: what reaches an output, and linked mutes *)

Lemma scale_row_spec (g : float) (n : nat) (row : list float) :
  let r := foldl (fun row i => alter (fun x => x * g) i row) row (seq 0 n) in
  length r = length row
  /\ (forall i, (i < n)%nat -> r !! i = (fun x => x * g) <$> row !! i)
  /\ (forall i, (n <= i)%nat -> r !! i = row !! i).
Proof.
  cbv zeta. induction n as [|n IH].
  - cbn. split; [reflexivity|]. split; [intros; lia|reflexivity].
  - rewrite seq_S, foldl_app. cbn [foldl Nat.add].
    destruct IH as (L & I & O).
    split; [now rewrite length_alter|]. split.
    + intros i Hi. destruct (decide (i = n)) as [->|Hne].
      * rewrite list_lookup_alter_eq. now rewrite O by lia.
      * rewrite list_lookup_alter_ne by congruence. apply I. lia.
    + intros i Hi. rewrite list_lookup_alter_ne by lia. apply O. lia.
Qed.

Lemma ApplyInputGain_spec (cfg : AudioRouting.AudioRouting_TypeDef)
  (inB : AudioRouting.AudioBuffer_TypeDef) (ch i : nat) :
  (ch < AUDIO_INPUT_CHANNELS)%nat ->
  (ch < length (AudioRouting.samples inB))%nat ->
  (i < AudioRouting.bufferSize inB)%nat ->
  (i < length (AudioRouting.samples inB !!! ch))%nat ->
  (AudioRouting.samples (AudioRouting.ApplyInputGain cfg inB) !!! ch) !!! i
  = (AudioRouting.samples inB !!! ch) !!! i
    * (AudioRouting.inputGain cfg !!! ch).
Proof.
  intros Hch Hrows Hi Hlen. unfold AudioRouting.ApplyInputGain.
  change (seq 0 AUDIO_INPUT_CHANNELS) with [0; 1]%nat.
  cbn [foldl AudioRouting.samples AudioRouting.bufferSize].
  unfold AUDIO_INPUT_CHANNELS in Hch.
  assert (Hrow : forall g,
            foldl (fun row i => alter (fun x => x * g) i row)
                  (AudioRouting.samples inB !!! ch)
                  (seq 0 (AudioRouting.bufferSize inB)) !!! i
            = (AudioRouting.samples inB !!! ch) !!! i * g).
  { intros g.
    pose proof (scale_row_spec g (AudioRouting.bufferSize inB)
                  (AudioRouting.samples inB !!! ch)) as S.
    cbv zeta in S. destruct S as (_ & S & _).
    apply list_lookup_total_correct.
    etransitivity; [exact (S i Hi)|].
    pose proof (list_lookup_lookup_total_lt _ i Hlen) as E.
    etransitivity; [exact (f_equal (fmap (fun x => x * g)) E)|].
    reflexivity. }
  destruct ch as [|[|ch]]; [| |lia].
  - rewrite list_lookup_total_alter_ne by lia.
    rewrite list_lookup_total_alter_eq by exact Hrows. apply Hrow.
  - rewrite list_lookup_total_alter_eq by (rewrite length_alter; exact Hrows).
    rewrite list_lookup_total_alter_ne by lia. apply Hrow.
Qed.

Lemma ProcessChannelRouting_value (cfg : AudioRouting.AudioRouting_TypeDef)
  (c : nat) (inB outB : AudioRouting.AudioBuffer_TypeDef)
  (row : list float) (i : nat) :
  AudioRouting.outputMute cfg !!! c = false ->
  AudioRouting.samples outB !! c = Some row ->
  (i < AudioRouting.bufferSize outB)%nat -> (i < length row)%nat ->
  let in1 := (AudioRouting.samples inB !!! 0%nat) !!! i in
  let in2 := (AudioRouting.samples inB !!! 1%nat) !!! i in
  let level := AudioRouting.mixLevel cfg !!! c in
  exists row',
    AudioRouting.samples (AudioRouting.ProcessChannelRouting cfg c inB outB)
      !! c = Some row'
    /\ row' !! i
       = Some match AudioRouting.source cfg !!! c with
              | AudioRouting.AUDIO_SOURCE_NONE
              | AudioRouting.AUDIO_SOURCE_MAX => 0
              | AudioRouting.AUDIO_SOURCE_IN1
              | AudioRouting.AUDIO_SOURCE_IN1_ONLY_LEFT
              | AudioRouting.AUDIO_SOURCE_IN1_ONLY_RIGHT => in1
              | AudioRouting.AUDIO_SOURCE_IN2
              | AudioRouting.AUDIO_SOURCE_IN2_ONLY_LEFT
              | AudioRouting.AUDIO_SOURCE_IN2_ONLY_RIGHT => in2
              | AudioRouting.AUDIO_SOURCE_IN1_IN2_MIX =>
                  in1 * level + in2 * (1 - level)
              end.
Proof.
  intros Hm Hrow Hi Hlen. cbv zeta.
  unfold AudioRouting.ProcessChannelRouting. rewrite Hm.
  destruct (AudioRouting.source cfg !!! c); cbv zeta;
    unfold AudioRouting.write_channel; cbn [AudioRouting.samples];
    rewrite list_lookup_alter_eq, Hrow; cbn [fmap option_fmap option_map];
    (eexists; split; [reflexivity|]);
    apply fill_row_spec; assumption.
Qed.

Lemma ProcessChannelRouting_row (cfg : AudioRouting.AudioRouting_TypeDef)
  (c : nat) (inB o1 o2 : AudioRouting.AudioBuffer_TypeDef) :
  AudioRouting.bufferSize o1 = AudioRouting.bufferSize o2 ->
  AudioRouting.samples o1 !! c = AudioRouting.samples o2 !! c ->
  AudioRouting.samples (AudioRouting.ProcessChannelRouting cfg c inB o1) !! c
  = AudioRouting.samples (AudioRouting.ProcessChannelRouting cfg c inB o2)
      !! c.
Proof.
  intros Hn Hr. unfold AudioRouting.ProcessChannelRouting.
  destruct (AudioRouting.outputMute cfg !!! c : bool);
    [|destruct (AudioRouting.source cfg !!! c)];
    cbv zeta; unfold AudioRouting.write_channel;
    cbn [AudioRouting.samples];
    rewrite !list_lookup_alter_eq, Hn, Hr; reflexivity.
Qed.

Lemma routing_loop (cfg : AudioRouting.AudioRouting_TypeDef)
  (inB outB : AudioRouting.AudioBuffer_TypeDef) (n : nat) :
  let o := foldl (fun out ch =>
                    AudioRouting.ProcessChannelRouting cfg ch inB out)
                 outB (seq 0 n) in
  AudioRouting.bufferSize o = AudioRouting.bufferSize outB
  /\ (forall c, (n <= c)%nat ->
        AudioRouting.samples o !! c = AudioRouting.samples outB !! c)
  /\ (forall c, (c < n)%nat ->
        AudioRouting.samples o !! c
        = AudioRouting.samples
            (AudioRouting.ProcessChannelRouting cfg c inB outB) !! c).
Proof.
  cbv zeta. induction n as [|n IH].
  - cbn. split; [reflexivity|]. split; [reflexivity|]. intros; lia.
  - rewrite seq_S, foldl_app. cbn [foldl Nat.add].
    destruct IH as (B & O & I).
    match goal with
    | |- context [AudioRouting.ProcessChannelRouting cfg n inB ?o] =>
        pose proof (ProcessChannelRouting_frame cfg n inB o) as [S F];
        pose proof (ProcessChannelRouting_row cfg n inB o outB B
                      (O n ltac:(lia))) as R
    end.
    split; [congruence|]. split.
    + intros c Hc. rewrite F by lia. apply O. lia.
    + intros c Hc. destruct (decide (c = n)) as [->|Hne]; [exact R|].
      rewrite F by congruence. apply I. lia.
Qed.

(** What [AudioRouting_Process] puts on an output channel that is not
    muted, without mono summing: sample [i] of the output row is the input
    selected by the channel's source, multiplied by that input's gain.
    The three "IN1" sources all read input 0 and the three "IN2" sources
    all read input 1 (the LEFT and RIGHT variants do not differ); the mix
    is [in1 * level + in2 * (1 - level)]; no source, or an unknown one,
    gives silence.  The gain is applied to the caller's input buffer
    itself, which comes back scaled. *)
Theorem AudioRouting_Process_routes_scaled_inputs
  (cfg : AudioRouting.AudioRouting_TypeDef)
  (inB outB : AudioRouting.AudioBuffer_TypeDef) (row : list float)
  (ch i : nat)
  (Hch : (ch < AUDIO_OUTPUT_CHANNELS)%nat)
  (Hmute : AudioRouting.outputMute cfg !!! ch = false)
  (Hmono : AudioRouting.monoSumInputs cfg = false)
  (Hrows : (AUDIO_INPUT_CHANNELS <= length (AudioRouting.samples inB))%nat)
  (Hin : (i < AudioRouting.bufferSize inB)%nat)
  (Hin1 : (i < length (AudioRouting.samples inB !!! 0%nat))%nat)
  (Hin2 : (i < length (AudioRouting.samples inB !!! 1%nat))%nat)
  (Hrow : AudioRouting.samples outB !! ch = Some row)
  (Hi : (i < AudioRouting.bufferSize outB)%nat)
  (Hlen : (i < length row)%nat) :
  let in1 := (AudioRouting.samples inB !!! 0%nat) !!! i
             * (AudioRouting.inputGain cfg !!! 0%nat) in
  let in2 := (AudioRouting.samples inB !!! 1%nat) !!! i
             * (AudioRouting.inputGain cfg !!! 1%nat) in
  let level := AudioRouting.mixLevel cfg !!! ch in
  let r := AudioRouting.AudioRouting_Process cfg inB outB in
  (AudioRouting.samples r.2 !!! ch) !! i
  = Some match AudioRouting.source cfg !!! ch with
         | AudioRouting.AUDIO_SOURCE_NONE
         | AudioRouting.AUDIO_SOURCE_MAX => 0
         | AudioRouting.AUDIO_SOURCE_IN1
         | AudioRouting.AUDIO_SOURCE_IN1_ONLY_LEFT
         | AudioRouting.AUDIO_SOURCE_IN1_ONLY_RIGHT => in1
         | AudioRouting.AUDIO_SOURCE_IN2
         | AudioRouting.AUDIO_SOURCE_IN2_ONLY_LEFT
         | AudioRouting.AUDIO_SOURCE_IN2_ONLY_RIGHT => in2
         | AudioRouting.AUDIO_SOURCE_IN1_IN2_MIX =>
             in1 * level + in2 * (1 - level)
         end
  /\ (AudioRouting.samples r.1 !!! 0%nat) !!! i = in1
  /\ (AudioRouting.samples r.1 !!! 1%nat) !!! i = in2.
Proof.
  cbv zeta. unfold AudioRouting.AudioRouting_Process. rewrite Hmono.
  cbn [fst snd].
  unfold AUDIO_INPUT_CHANNELS in Hrows.
  pose proof (ApplyInputGain_spec cfg inB 0 i ltac:(vm_compute; lia)
                ltac:(lia) Hin Hin1) as G1.
  pose proof (ApplyInputGain_spec cfg inB 1 i ltac:(vm_compute; lia)
                ltac:(lia) Hin Hin2) as G2.
  split; [|split; assumption].
  pose proof (routing_loop cfg (AudioRouting.ApplyInputGain cfg inB) outB
                AUDIO_OUTPUT_CHANNELS) as L.
  cbv zeta in L. destruct L as (_ & _ & L).
  destruct (ProcessChannelRouting_value cfg ch
              (AudioRouting.ApplyInputGain cfg inB) outB row i
              Hmute Hrow Hi Hlen) as (row' & R1 & R2).
  rewrite (list_lookup_total_correct _ _ row').
  2:{ rewrite (L ch Hch). exact R1. }
  rewrite R2, G1, G2. reflexivity.
Qed.

Lemma AudioRouting_Process_routes_scaled_inputs_witness :
  (2 < AUDIO_OUTPUT_CHANNELS)%nat
  /\ AudioRouting.outputMute routing_sample !!! 2%nat = false
  /\ AudioRouting.monoSumInputs routing_sample = false
  /\ (AudioRouting.samples
        (AudioRouting.AudioRouting_Process routing_sample routing_input
           routing_output).2 !!! 2%nat) !! 5%nat
     = Some ((1 # 2) * 1).
Proof.
  assert (H1 : (2 < AUDIO_OUTPUT_CHANNELS)%nat) by (vm_compute; lia).
  assert (H2 : AudioRouting.outputMute routing_sample !!! 2%nat = false)
    by reflexivity.
  assert (H3 : AudioRouting.monoSumInputs routing_sample = false)
    by reflexivity.
  assert (H4 : (AUDIO_INPUT_CHANNELS
                <= length (AudioRouting.samples routing_input))%nat)
    by (vm_compute; lia).
  assert (H5 : (5 < AudioRouting.bufferSize routing_input)%nat)
    by (vm_compute; lia).
  assert (H6 : (5 < length (AudioRouting.samples routing_input
                              !!! 0%nat))%nat) by (vm_compute; lia).
  assert (H7 : (5 < length (AudioRouting.samples routing_input
                              !!! 1%nat))%nat) by (vm_compute; lia).
  assert (H8 : AudioRouting.samples routing_output !! 2%nat
               = Some (replicate 64 (1 # 3))) by reflexivity.
  assert (H9 : (5 < AudioRouting.bufferSize routing_output)%nat)
    by (vm_compute; lia).
  assert (H10 : (5 < length (replicate 64 (1 # 3)))%nat)
    by (vm_compute; lia).
  pose proof (AudioRouting_Process_routes_scaled_inputs routing_sample
                routing_input routing_output (replicate 64 (1 # 3)) 2 5
                H1 H2 H3 H4 H5 H6 H7 H8 H9 H10) as T.
  cbv zeta in T. destruct T as (T1 & _).
  split; [exact H1|]. split; [exact H2|]. split; [exact H3|].
  rewrite T1. reflexivity.
Defined.

(** [AudioRouting_SetMute] on a valid channel stores the mute flag (any
    non-zero argument mutes).  The partner of the channel, the odd
    neighbour of an even channel and the even neighbour of an odd one, is
    always a valid channel of the same pair; it receives the same flag
    exactly when the pair is stereo-linked and keeps its own otherwise.
    The other pair and every other field of the configuration are left as
    they were; an invalid channel changes nothing. *)
Theorem AudioRouting_SetMute_follows_stereo_link
  (cfg : AudioRouting.AudioRouting_TypeDef) (ch : nat) (state : Z)
  (Hch : (ch < AUDIO_OUTPUT_CHANNELS)%nat)
  (Hlen : (AUDIO_OUTPUT_CHANNELS
           <= length (AudioRouting.outputMute cfg))%nat) :
  let cfg' := AudioRouting.AudioRouting_SetMute cfg ch state in
  let partner :=
    if (ch mod 2 =? 0)%nat then (ch + 1)%nat else (ch - 1)%nat in
  let m := negb (state =? 0)%Z in
  AudioRouting.outputMute cfg' !!! ch = m
  /\ (partner < AUDIO_OUTPUT_CHANNELS)%nat
  /\ (partner / 2 = ch / 2)%nat /\ partner <> ch
  /\ AudioRouting.outputMute cfg' !!! partner
     = (if (AudioRouting.stereoLink cfg !!! (ch / 2)%nat : bool) then m
        else AudioRouting.outputMute cfg !!! partner)
  /\ (forall j, j <> ch -> j <> partner ->
        AudioRouting.outputMute cfg' !! j = AudioRouting.outputMute cfg !! j)
  /\ AudioRouting.source cfg' = AudioRouting.source cfg
  /\ AudioRouting.mixLevel cfg' = AudioRouting.mixLevel cfg
  /\ AudioRouting.inputGain cfg' = AudioRouting.inputGain cfg
  /\ AudioRouting.stereoLink cfg' = AudioRouting.stereoLink cfg
  /\ AudioRouting.monoSumInputs cfg' = AudioRouting.monoSumInputs cfg
  /\ (forall j, (AUDIO_OUTPUT_CHANNELS <= j)%nat ->
        AudioRouting.AudioRouting_SetMute cfg j state = cfg).
Proof.
  cbv zeta. unfold AUDIO_OUTPUT_CHANNELS in *.
  assert (Hlast : forall j, (4 <= j)%nat ->
            AudioRouting.AudioRouting_SetMute cfg j state = cfg).
  { intros j Hj. unfold AudioRouting.AudioRouting_SetMute.
    destruct (decide _) as [_|Hok]; [reflexivity|].
    unfold AUDIO_OUTPUT_CHANNELS in Hok. lia. }
  unfold AudioRouting.AudioRouting_SetMute.
  destruct (decide _) as [Hbad|_];
    [unfold AUDIO_OUTPUT_CHANNELS in Hbad; lia|].
  destruct ch as [|[|[|[|ch]]]]; try lia;
    cbn [Nat.modulo Nat.divmod Nat.div Nat.eqb Nat.add Nat.sub fst snd];
    destruct (AudioRouting.stereoLink cfg !!! _ : bool);
    cbn [AudioRouting.outputMute AudioRouting.source AudioRouting.mixLevel
         AudioRouting.inputGain AudioRouting.stereoLink
         AudioRouting.monoSumInputs];
    repeat match goal with
           | |- _ /\ _ => split
           | |- forall j, _ <> _ -> _ <> _ -> _ => intros j Hj1 Hj2
           | |- forall j, (4 <= _)%nat -> _ => exact Hlast
           end;
    try reflexivity; try lia;
    rewrite ?list_lookup_insert_ne by congruence;
    try reflexivity;
    repeat first
      [ rewrite list_lookup_total_insert_eq by (rewrite ?length_insert; lia)
      | rewrite list_lookup_total_insert_ne by lia ];
    reflexivity.
Qed.

Lemma AudioRouting_SetMute_follows_stereo_link_witness :
  (2 < AUDIO_OUTPUT_CHANNELS)%nat
  /\ (AUDIO_OUTPUT_CHANNELS
      <= length (AudioRouting.outputMute routing_sample))%nat
  /\ AudioRouting.outputMute
       (AudioRouting.AudioRouting_SetMute routing_sample 2 1) !!! 2%nat
     = true
  /\ AudioRouting.outputMute
       (AudioRouting.AudioRouting_SetMute routing_sample 2 1) !!! 3%nat
     = false.
Proof.
  assert (H1 : (2 < AUDIO_OUTPUT_CHANNELS)%nat) by (vm_compute; lia).
  assert (H2 : (AUDIO_OUTPUT_CHANNELS
                <= length (AudioRouting.outputMute routing_sample))%nat)
    by (vm_compute; lia).
  pose proof (AudioRouting_SetMute_follows_stereo_link routing_sample 2 1
                H1 H2) as T.
  cbv zeta in T. destruct T as (T1 & _ & _ & _ & T5 & _).
  split; [exact H1|]. split; [exact H2|]. split; [exact T1|exact T5].
Defined.

(** ** Output stage: the half of the DMA buffer that is written *)

Lemma prepare_frames_frame (st : AudioDriver.State) (offset : nat)
  (buffer : AudioDriver.AudioBuffer_TypeDef) (n : nat) :
  forall k, (k < offset \/ offset + 4 * n <= k)%nat ->
    (foldl (AudioDriver.prepare_position st offset buffer)
           (AudioDriver.outputDmaBuffer st, 0%nat) (seq 0 n)).1 !! k
    = AudioDriver.outputDmaBuffer st !! k.
Proof.
  induction n as [|n IH]; intros k Hk; [reflexivity|].
  rewrite seq_S, foldl_app. cbn [foldl Nat.add].
  pose proof (prepare_frames_spec st offset buffer n) as S.
  cbv zeta in S. destruct S as (Hidx & _ & _).
  specialize (IH k ltac:(lia)).
  destruct (foldl _ _ (seq 0 n)) as [dma idx]. cbn [fst snd] in *.
  subst idx.
  pose proof (prepare_position_spec st offset buffer dma (4 * n) n) as H.
  cbv zeta in H. destruct H as (_ & _ & _ & Hold).
  rewrite Hold by lia. exact IH.
Qed.

(** [Audio_SendOutputSamples] while the driver is running returns [HAL_OK]
    and fills exactly one half of the DMA buffer: the first half when the
    buffer state is [BUFFER_HALF], the second when it is [BUFFER_FULL].
    Inside that half the word of frame position [i] and channel [ch] sits
    at [offset + 4 * i + ch] and is the conversion of the limited sample;
    every word of the other half is what it was, and so are the length of
    the buffer, the gains, the mutes and the buffer state.  When the
    driver is not running the call returns [HAL_ERROR] and writes
    nothing. *)
Theorem Audio_SendOutputSamples_fills_one_half (st : AudioDriver.State)
  (buffer : AudioDriver.AudioBuffer_TypeDef)
  (Hrun : AudioDriver.state st = AudioDriver.AUDIO_STATE_RUNNING)
  (Hlen : length (AudioDriver.outputDmaBuffer st)
          = AudioDriver.DMA_OUTPUT_BUFFER_SIZE) :
  let r := AudioDriver.Audio_SendOutputSamples st buffer in
  let half := (AudioDriver.DMA_OUTPUT_BUFFER_SIZE / 2)%nat in
  let offset :=
    match AudioDriver.outputBufferState st with
    | AudioDriver.BUFFER_HALF => 0%nat
    | AudioDriver.BUFFER_FULL => half
    end in
  r.1 = HAL_OK
  /\ length (AudioDriver.outputDmaBuffer r.2)
     = AudioDriver.DMA_OUTPUT_BUFFER_SIZE
  /\ (forall i ch, (i < AudioDriver.AUDIO_FRAME_SIZE)%nat ->
        (ch < AUDIO_OUTPUT_CHANNELS)%nat ->
        (offset <= offset + (4 * i + ch) < offset + half)%nat
        /\ AudioDriver.outputDmaBuffer r.2 !! (offset + (4 * i + ch))%nat
           = Some (AudioDriver.FLOAT_TO_INT24
                     (AudioDriver.output_sample st buffer i ch)))
  /\ (forall k, (k < offset \/ offset + half <= k)%nat ->
        AudioDriver.outputDmaBuffer r.2 !! k
        = AudioDriver.outputDmaBuffer st !! k)
  /\ AudioDriver.outputGain r.2 = AudioDriver.outputGain st
  /\ AudioDriver.outputMute r.2 = AudioDriver.outputMute st
  /\ AudioDriver.outputBufferState r.2 = AudioDriver.outputBufferState st
  /\ AudioDriver.state r.2 = AudioDriver.state st
  /\ (forall idle : AudioDriver.State,
        AudioDriver.state idle <> AudioDriver.AUDIO_STATE_RUNNING ->
        AudioDriver.Audio_SendOutputSamples idle buffer = (HAL_ERROR, idle)).
Proof.
  cbv zeta. unfold AudioDriver.Audio_SendOutputSamples. rewrite Hrun.
  cbn [fst snd AudioDriver.outputDmaBuffer AudioDriver.outputGain
       AudioDriver.outputMute AudioDriver.outputBufferState
       AudioDriver.state].
  set (offset := match AudioDriver.outputBufferState st with
                 | AudioDriver.BUFFER_HALF => 0%nat
                 | AudioDriver.BUFFER_FULL =>
                     (AudioDriver.DMA_OUTPUT_BUFFER_SIZE / 2)%nat
                 end).
  assert (Hhalf : (AudioDriver.DMA_OUTPUT_BUFFER_SIZE / 2 = 256)%nat)
    by reflexivity.
  assert (Hsize : AudioDriver.DMA_OUTPUT_BUFFER_SIZE = 512%nat)
    by reflexivity.
  assert (Hframe : AudioDriver.AUDIO_FRAME_SIZE = 64%nat) by reflexivity.
  assert (Hoff : (offset = 0 \/ offset = 256)%nat)
    by (subst offset; destruct (AudioDriver.outputBufferState st);
        [left|right]; reflexivity).
  pose proof (prepare_frames_spec st offset buffer
                AudioDriver.AUDIO_FRAME_SIZE) as S.
  cbv zeta in S. destruct S as (_ & SL & _).
  split; [reflexivity|]. split.
  { unfold AudioDriver.Audio_PrepareOutputSamples.
    rewrite <- Hlen. exact SL. }
  split.
  { intros i ch Hi Hch. unfold AUDIO_OUTPUT_CHANNELS in Hch.
    split; [lia|].
    apply Audio_PrepareOutputSamples_word; try assumption.
    rewrite Hlen. lia. }
  split.
  { intros k Hk. unfold AudioDriver.Audio_PrepareOutputSamples.
    apply prepare_frames_frame. lia. }
  repeat (split; [reflexivity|]).
  intros idle Hidle.
  destruct (AudioDriver.state idle); try reflexivity. congruence.
Qed.

Lemma Audio_SendOutputSamples_fills_one_half_witness :
  AudioDriver.state driver_sample = AudioDriver.AUDIO_STATE_RUNNING
  /\ length (AudioDriver.outputDmaBuffer driver_sample)
     = AudioDriver.DMA_OUTPUT_BUFFER_SIZE
  /\ AudioDriver.outputDmaBuffer
       (AudioDriver.Audio_SendOutputSamples driver_sample driver_frame).2
       !! 300%nat = Some 0%Z
  /\ AudioDriver.outputDmaBuffer
       (AudioDriver.Audio_SendOutputSamples driver_sample driver_frame).2
       !! 4%nat = Some 8388607%Z.
Proof.
  assert (H1 : AudioDriver.state driver_sample
               = AudioDriver.AUDIO_STATE_RUNNING) by reflexivity.
  assert (H2 : length (AudioDriver.outputDmaBuffer driver_sample)
               = AudioDriver.DMA_OUTPUT_BUFFER_SIZE) by reflexivity.
  pose proof (Audio_SendOutputSamples_fills_one_half driver_sample
                driver_frame H1 H2) as T.
  cbv zeta in T. destruct T as (_ & _ & T3 & T4 & _).
  split; [exact H1|]. split; [exact H2|]. split.
  - rewrite (T4 300%nat) by (right; vm_compute; lia). reflexivity.
  - destruct (T3 1%nat 0%nat ltac:(vm_compute; lia) ltac:(vm_compute; lia))
      as [_ T]. 
    change 4%nat with (0 + (4 * 1 + 0))%nat. etransitivity; [exact T|].
    vm_compute. reflexivity.
Defined.

(** ** Delay: flushing the line *)

Lemma smoothed_before_delay (c : float) (N : Z) (data : list float)
  (t : nat) :
  (Z.of_nat t <= N)%Z -> Delay.smoothed c N data t == 0.
Proof.
  induction t as [|t IH]; intros Ht; [reflexivity|].
  cbn [Delay.smoothed]. rewrite IH by lia. unfold Delay.past.
  replace (Z.of_nat t - N <? 0)%Z with true
    by (symmetry; apply Z.ltb_lt; lia).
  ring.
Qed.

(** [Delay_FlushBuffer] erases the past of a channel.  On an active channel
    it returns [HAL_OK], zeroes the buffer and the smoothing state and
    rewinds the write index, and keeps the delay setting.  Whatever went
    through the line before, a block processed right after the flush (an
    enabled channel, linear interpolation, no phase inversion, a delay of a
    whole number [N] of samples shorter than the buffer) starts with
    silence for the first [N] samples and then follows
    [out[k] = in[k - N] * (1 - c) + out[k - 1] * c]. *)
Theorem Delay_FlushBuffer_erases_the_past (MAXCH fuel : nat)
  (st : Delay.State) (ch : nat) (old : list float) (data : list float)
  (N : Z)
  (Hfuel : (1 <= fuel)%nat)
  (Hch : (ch < MAXCH)%nat)
  (Hlen : (ch < length (Delay.delayInstances st))%nat)
  (Hdata : (0 < length data)%nat)
  (Hmode : Delay.interpolationMode st = Delay.DELAY_INTERPOLATION_LINEAR)
  (Hactive : Delay.isActive (Delay.delayInstances st !!! ch) = true)
  (Hen : Delay.enabled (Delay.delayInstances st !!! ch) = true)
  (Hbuf : Delay.buffer (Delay.delayInstances st !!! ch) = Some old)
  (Hsize : (0 < Delay.bufferSize (Delay.delayInstances st !!! ch)
            < 2 ^ 31)%Z)
  (Hphase : Delay.phaseInvert (Delay.delayInstances st !!! ch) = false)
  (HN : (0 <= N < Delay.bufferSize (Delay.delayInstances st !!! ch))%Z)
  (Hd : Delay.delaySamples (Delay.delayInstances st !!! ch) == inject_Z N) :
  let c := Delay.filterCoeff (Delay.delayInstances st !!! ch) in
  let flushed := Delay.Delay_FlushBuffer MAXCH st ch in
  flushed.1 = HAL_OK
  /\ Delay.writeIndex (Delay.delayInstances flushed.2 !!! ch) = 0%Z
  /\ Delay.prevSample (Delay.delayInstances flushed.2 !!! ch) = 0
  /\ Delay.delaySamples (Delay.delayInstances flushed.2 !!! ch)
     = Delay.delaySamples (Delay.delayInstances st !!! ch)
  /\ exists st' out,
       Delay.Delay_Process MAXCH fuel flushed.2 ch (Some data) (length data)
       = Some (HAL_OK, st', Some out)
       /\ length out = length data
       /\ (forall k, (k < length data)%nat -> (Z.of_nat k < N)%Z ->
             out !!! k == 0)
       /\ (forall k, (k < length data)%nat ->
             out !!! k
             == Delay.past data (Z.of_nat k - N) * (1 - c)
                + match k with O => 0 | S j => out !!! j end * c).
Proof.
  cbv zeta. unfold Delay.Delay_FlushBuffer.
  rewrite bool_decide_eq_false_2 by lia. rewrite Hactive.
  cbn [negb orb fst snd]. unfold Delay.set_instance at 1 2 3.
  cbn [Delay.delayInstances].
  rewrite !list_lookup_total_alter_eq by exact Hlen. rewrite Hbuf.
  cbn [Delay.with_cursor Delay.with_buffer Delay.writeIndex Delay.prevSample
       Delay.delaySamples Delay.buffer].
  split; [reflexivity|]. split; [reflexivity|]. split; [reflexivity|].
  split; [reflexivity|].
  unfold Delay.Delay_Process.
  rewrite bool_decide_eq_false_2 by lia.
  rewrite bool_decide_eq_false_2 by lia.
  unfold Delay.set_instance.
  cbn [Delay.delayInstances Delay.interpolationMode].
  rewrite !list_lookup_total_alter_eq by exact Hlen. rewrite Hbuf, Hmode.
  set (i := Delay.delayInstances st !!! ch) in *.
  set (i0 := Delay.with_cursor 0 0 (Delay.with_buffer _ i)).
  change (Delay.isActive i0) with (Delay.isActive i).
  change (Delay.enabled i0) with (Delay.enabled i).
  rewrite Hactive, Hen. cbn [negb orb].
  assert (Hinv : Delay.delay_invariant (Delay.bufferSize i0) N
                   (Delay.writeIndex i0) (Delay.filterCoeff i0) data 0 i0).
  { apply delay_invariant_initial; cbn; try reflexivity; try assumption;
      lia. }
  destruct (delay_samples_run fuel (Delay.bufferSize i0) N
              (Delay.writeIndex i0) (Delay.filterCoeff i0) data
              Hfuel Hsize HN (length data) 0%nat i0 Hinv ltac:(lia))
    as (ys & i' & Hrun & Hl & _ & Hk).
  rewrite drop_0 in Hrun. rewrite Hrun.
  eexists _, ys. split; [reflexivity|]. split; [lia|]. split.
  - intros k Hlt HkN. rewrite (Hk k Hlt). cbn [Nat.add].
    apply smoothed_before_delay. lia.
  - intros k Hlt. rewrite (Hk k Hlt). cbn [Nat.add Delay.smoothed].
    change (Delay.filterCoeff i0) with (Delay.filterCoeff i).
    destruct k as [|j]; [reflexivity|].
    rewrite (Hk j ltac:(lia)). reflexivity.
Qed.

Lemma Delay_FlushBuffer_erases_the_past_witness :
  (1 <= 1)%nat /\ (0 < 4)%nat
  /\ Delay.writeIndex (Delay.delayInstances delay_used !!! 0%nat) = 3%Z
  /\ Delay.isActive (Delay.delayInstances delay_used !!! 0%nat) = true
  /\ Delay.delaySamples (Delay.delayInstances delay_used !!! 0%nat)
     == inject_Z 48
  /\ exists st' out,
       Delay.Delay_Process 4 1 (Delay.Delay_FlushBuffer 4 delay_used 0).2 0
         (Some delay_block_sample) (length delay_block_sample)
       = Some (HAL_OK, st', Some out)
       /\ out !!! 2%nat == 0.
Proof.
  pose (i := Delay.delayInstances delay_used !!! 0%nat).
  assert (H1 : (1 <= 1)%nat) by lia.
  assert (H2 : (0 < 4)%nat) by lia.
  assert (H3 : (0 < length (Delay.delayInstances delay_used))%nat)
    by (vm_compute; lia).
  assert (H4 : (0 < length delay_block_sample)%nat) by (vm_compute; lia).
  assert (H5 : Delay.interpolationMode delay_used
               = Delay.DELAY_INTERPOLATION_LINEAR) by reflexivity.
  assert (H6 : Delay.isActive i = true) by reflexivity.
  assert (H7 : Delay.enabled i = true) by reflexivity.
  assert (H8 : Delay.buffer i = Some (default [] (Delay.buffer i)))
    by (vm_compute; reflexivity).
  assert (H9 : (0 < Delay.bufferSize i < 2 ^ 31)%Z)
    by (vm_compute; split; reflexivity).
  assert (H10 : Delay.phaseInvert i = false) by reflexivity.
  assert (H11 : (0 <= 48 < Delay.bufferSize i)%Z)
    by (vm_compute; split; [discriminate|reflexivity]).
  assert (H12 : Delay.delaySamples i == inject_Z 48)
    by (vm_compute; reflexivity).
  pose proof (Delay_FlushBuffer_erases_the_past 4 1 delay_used 0
                (default [] (Delay.buffer i)) delay_block_sample 48
                H1 H2 H3 H4 H5 H6 H7 H8 H9 H10 H11 H12) as T.
  cbv zeta in T. destruct T as (_ & _ & _ & _ & s & o & T1 & _ & T3 & _).
  split; [exact H1|]. split; [exact H2|].
  split; [vm_compute; reflexivity|]. split; [exact H6|].
  split; [exact H12|].
  exists s, o. split; [exact T1|].
  apply T3; [vm_compute; lia|vm_compute; reflexivity].
Defined.

(** ** Compressor: reset and metering *)

Lemma Compressor_Reset_loop (n : nat) (st : Compressor.State) (ch : nat) :
  let st' := foldl (fun st channel =>
                      alter CompressorSetup.reset_channel channel st)
                   st (seq 0 n) in
  length st' = length st
  /\ ((ch < n)%nat ->
      st' !! ch = CompressorSetup.reset_channel <$> st !! ch)
  /\ ((n <= ch)%nat -> st' !! ch = st !! ch).
Proof.
  unfold Compressor.State in *. cbv zeta. induction n as [|n IH].
  - cbn. split; [reflexivity|]. split; [lia|reflexivity].
  - rewrite seq_S, foldl_app. cbn [foldl Nat.add].
    destruct IH as (L & I & O).
    split; [now rewrite length_alter|]. split.
    + intros Hlt. destruct (decide (ch = n)) as [->|Hne].
      * rewrite list_lookup_alter_eq. now rewrite O by lia.
      * rewrite list_lookup_alter_ne by congruence. apply I. lia.
    + intros Hge. rewrite list_lookup_alter_ne by lia. apply O. lia.
Qed.

(** [Compressor_ResetChannel] puts the running state of a channel back to
    what [Compressor_Init] leaves (envelope -120 dB, unity gain, a cleared
    RMS window with the index at 0, zero statistics) and keeps the
    parameters and the two coefficients; [Compressor_Reset] does the same
    to every output channel.  After a reset [Compressor_GetStatistics]
    reads zeros and the metering factor is 0.  The factor that
    [Compressor_GetCompressionFactor] returns is between 0 and 1 in every
    state, and 0 for a disabled or invalid channel. *)
Theorem Compressor_reset_and_metering (st : Compressor.State) (ch : nat)
  (s : Compressor.CompressorStatistics_TypeDef)
  (Hch : (ch < AUDIO_OUTPUT_CHANNELS)%nat)
  (Hlen : (ch < length st)%nat) :
  let st' := CompressorSetup.Compressor_ResetChannel st ch in
  let c := st !!! ch in
  let c' := st' !!! ch in
  Compressor.envelope_db c' = -120
  /\ Compressor.currentGain c' = 1 /\ Compressor.prevGainDb c' = 0
  /\ Compressor.rmsValue c' = 0
  /\ Compressor.rmsBuffer c' = replicate Compressor.COMP_RMS_WINDOW_SIZE 0
  /\ Compressor.rmsBufferIndex c' = 0%nat
  /\ Compressor.params c' = Compressor.params c
  /\ Compressor.attackCoeff c' = Compressor.attackCoeff c
  /\ Compressor.releaseCoeff c' = Compressor.releaseCoeff c
  /\ (forall j, j <> ch -> st' !! j = st !! j)
  /\ CompressorSetup.Compressor_Reset st !!! ch = c'
  /\ CompressorSetup.Compressor_GetStatistics st' ch (Some s)
     = Some (Compressor.mkStats 0 0 0)
  /\ CompressorSetup.Compressor_GetCompressionFactor st' ch = 0
  /\ (forall (any : Compressor.State) (j : nat),
        0 <= CompressorSetup.Compressor_GetCompressionFactor any j <= 1)
  /\ (forall (any : Compressor.State) (j : nat),
        (AUDIO_OUTPUT_CHANNELS <= j)%nat
        \/ Compressor.enabled (Compressor.params (any !!! j)) = false ->
        CompressorSetup.Compressor_GetCompressionFactor any j = 0).
Proof.
  cbv zeta.
  assert (Hreset : CompressorSetup.Compressor_ResetChannel st ch !!! ch
                   = CompressorSetup.reset_channel (st !!! ch)).
  { unfold CompressorSetup.Compressor_ResetChannel.
    destruct (decide _) as [Hbad|_]; [lia|].
    unfold Compressor.State in *.
    now rewrite list_lookup_total_alter_eq by exact Hlen. }
  unfold CompressorSetup.Compressor_GetStatistics,
    CompressorSetup.Compressor_GetCompressionFactor.
  destruct (decide (AUDIO_OUTPUT_CHANNELS <= ch)%nat) as [Hbad|_]; [lia|].
  rewrite Hreset.
  cbn [CompressorSetup.reset_channel Compressor.envelope_db
       Compressor.currentGain Compressor.prevGainDb Compressor.rmsValue
       Compressor.rmsBuffer Compressor.rmsBufferIndex Compressor.params
       Compressor.attackCoeff Compressor.releaseCoeff Compressor.stats
       Compressor.gainReduction_db].
  repeat (split; [reflexivity|]).
  split.
  { intros j Hj. unfold CompressorSetup.Compressor_ResetChannel.
    destruct (decide _) as [|_]; [reflexivity|].
    unfold Compressor.State in *. apply list_lookup_alter_ne. congruence. }
  split.
  { unfold CompressorSetup.Compressor_Reset.
    pose proof (Compressor_Reset_loop AUDIO_OUTPUT_CHANNELS st ch) as L.
    cbv zeta in L. destruct L as (_ & L & _).
    unfold Compressor.State in *.
    apply list_lookup_total_correct. rewrite (L Hch).
    rewrite (list_lookup_lookup_total_lt _ ch Hlen). reflexivity. }
  split; [reflexivity|]. split.
  { destruct (negb _); reflexivity. }
  split.
  { intros any j. destruct (decide _); [split; discriminate|].
    destruct (negb _); [split; discriminate|].
    apply Compressor_CLAMP_bounds. discriminate. }
  intros any j [Hj|Hj].
  - destruct (decide _) as [_|Hok]; [reflexivity|lia].
  - destruct (decide _); [reflexivity|]. rewrite Hj. reflexivity.
Qed.

Lemma Compressor_reset_and_metering_witness :
  (0 < AUDIO_OUTPUT_CHANNELS)%nat /\ (0 < length compressor_ready)%nat
  /\ CompressorSetup.Compressor_GetCompressionFactor
       (CompressorSetup.Compressor_ResetChannel compressor_ready 0) 0 = 0
  /\ Compressor.params
       (CompressorSetup.Compressor_ResetChannel compressor_ready 0
          !!! 0%nat)
     = Compressor.params (compressor_ready !!! 0%nat).
Proof.
  assert (H1 : (0 < AUDIO_OUTPUT_CHANNELS)%nat) by (vm_compute; lia).
  assert (H2 : (0 < length compressor_ready)%nat) by (vm_compute; lia).
  pose proof (Compressor_reset_and_metering compressor_ready 0
                (Compressor.mkStats 1 1 1) H1 H2) as T.
  cbv zeta in T.
  destruct T as (_ & _ & _ & _ & _ & _ & T7 & _ & _ & _ & _ & _ & T13 & _).
  split; [exact H1|]. split; [exact H2|]. split; [exact T13|exact T7].
Defined.
